(** * SDL GPU, Direct3D 12 backend: the frame-resource engine

    A shallow embedding of the parts of [src/gpu/d3d12/SDL_gpu_d3d12.c]
    that decide the resource-state defaults, the staging descriptor
    heaps, resource cycling, the render-pass clears, the uniform-buffer
    sub-allocator and swapchain acquisition, with the properties the
    design document states about them.

    Conventions.  A [Uint32] is a [Z] kept in [0, 2^32) by [u32]; flag
    words are tested with [Z.land].  A pointer into an array owned by a
    container is the position in that array; a pointer to a heap object
    is a key of a finite map.  A native call that records a command is
    an element appended to the command list; a native call that may
    fail takes its outcome from the driver as an argument.  An access
    the C code performs out of bounds or through NULL has no defined
    result: the embedded function returns [None] there. *)

From Stdlib Require Import ZArith Lia List Bool String.
From stdpp Require Import base option list gmap.

Local Open Scope Z_scope.

(** ** Machine integers *)

Definition SDL_MAX_UINT32 : Z := 4294967295.

Definition u32 (z : Z) : Z := z mod 2 ^ 32.

Definition u64 (z : Z) : Z := z mod 2 ^ 64.

(** [Sint32] wrap-around, two's complement. *)
Definition s32 (z : Z) : Z := (z + 2 ^ 31) mod 2 ^ 32 - 2 ^ 31.

(** [D3D12_INTERNAL_Align]:
    [(location + (alignment - 1)) & ~(alignment - 1)] on [Uint32]. *)
Definition D3D12_INTERNAL_Align (location alignment : Z) : Z :=
  Z.land (u32 (location + (alignment - 1)))
         (u32 (Z.lnot (u32 (alignment - 1)))).

Lemma u32_range z : 0 <= u32 z < 2 ^ 32.
Proof. unfold u32. apply Z.mod_pos_bound. lia. Qed.

Lemma u32_small z : 0 <= z < 2 ^ 32 -> u32 z = z.
Proof. intros H. unfold u32. apply Z.mod_small. exact H. Qed.

Lemma s32_small z : - 2 ^ 31 <= z < 2 ^ 31 -> s32 z = z.
Proof. intros H. unfold s32. rewrite Z.mod_small; lia. Qed.

(** ** Resource states and usage flags *)

(** The members of [D3D12_RESOURCE_STATES] the backend names. *)
Inductive D3D12_RESOURCE_STATES : Type :=
  | D3D12_RESOURCE_STATE_COMMON
  | D3D12_RESOURCE_STATE_VERTEX_AND_CONSTANT_BUFFER
  | D3D12_RESOURCE_STATE_INDEX_BUFFER
  | D3D12_RESOURCE_STATE_RENDER_TARGET
  | D3D12_RESOURCE_STATE_UNORDERED_ACCESS
  | D3D12_RESOURCE_STATE_DEPTH_WRITE
  | D3D12_RESOURCE_STATE_NON_PIXEL_SHADER_RESOURCE
  | D3D12_RESOURCE_STATE_ALL_SHADER_RESOURCE
  | D3D12_RESOURCE_STATE_INDIRECT_ARGUMENT
  | D3D12_RESOURCE_STATE_COPY_DEST
  | D3D12_RESOURCE_STATE_COPY_SOURCE
  | D3D12_RESOURCE_STATE_GENERIC_READ.

#[global] Instance D3D12_RESOURCE_STATES_eq_dec : EqDecision D3D12_RESOURCE_STATES.
Proof. solve_decision. Defined.

(** [SDL_GpuTextureUsageFlagBits] *)
Definition SDL_GPU_TEXTUREUSAGE_SAMPLER_BIT : Z := 0x00000001.
Definition SDL_GPU_TEXTUREUSAGE_COLOR_TARGET_BIT : Z := 0x00000002.
Definition SDL_GPU_TEXTUREUSAGE_DEPTH_STENCIL_TARGET_BIT : Z := 0x00000004.
Definition SDL_GPU_TEXTUREUSAGE_GRAPHICS_STORAGE_READ_BIT : Z := 0x00000008.
Definition SDL_GPU_TEXTUREUSAGE_GRAPHICS_STORAGE_WRITE_BIT : Z := 0x00000010.
Definition SDL_GPU_TEXTUREUSAGE_COMPUTE_STORAGE_READ_BIT : Z := 0x00000020.
Definition SDL_GPU_TEXTUREUSAGE_COMPUTE_STORAGE_WRITE_BIT : Z := 0x00000040.

(** [SDL_GpuBufferUsageFlagBits] *)
Definition SDL_GPU_BUFFERUSAGE_VERTEX_BIT : Z := 0x00000001.
Definition SDL_GPU_BUFFERUSAGE_INDEX_BIT : Z := 0x00000002.
Definition SDL_GPU_BUFFERUSAGE_INDIRECT_BIT : Z := 0x00000004.
Definition SDL_GPU_BUFFERUSAGE_GRAPHICS_STORAGE_READ_BIT : Z := 0x00000008.
Definition SDL_GPU_BUFFERUSAGE_GRAPHICS_STORAGE_WRITE_BIT : Z := 0x00000010.
Definition SDL_GPU_BUFFERUSAGE_COMPUTE_STORAGE_READ_BIT : Z := 0x00000020.
Definition SDL_GPU_BUFFERUSAGE_COMPUTE_STORAGE_WRITE_BIT : Z := 0x00000040.

(** The C condition [flags & bit]. *)
Definition has_flag (flags bit : Z) : bool := negb (Z.land flags bit =? 0).

Definition D3D12_INTERNAL_DefaultTextureResourceState (usageFlags : Z)
  : D3D12_RESOURCE_STATES :=
  (* NOTE: order matters here! *)
  if has_flag usageFlags SDL_GPU_TEXTUREUSAGE_SAMPLER_BIT then
    D3D12_RESOURCE_STATE_ALL_SHADER_RESOURCE
  else if has_flag usageFlags SDL_GPU_TEXTUREUSAGE_GRAPHICS_STORAGE_READ_BIT then
    D3D12_RESOURCE_STATE_ALL_SHADER_RESOURCE
  else if has_flag usageFlags SDL_GPU_TEXTUREUSAGE_COLOR_TARGET_BIT then
    D3D12_RESOURCE_STATE_RENDER_TARGET
  else if has_flag usageFlags SDL_GPU_TEXTUREUSAGE_DEPTH_STENCIL_TARGET_BIT then
    D3D12_RESOURCE_STATE_DEPTH_WRITE
  else if has_flag usageFlags SDL_GPU_TEXTUREUSAGE_COMPUTE_STORAGE_READ_BIT then
    D3D12_RESOURCE_STATE_NON_PIXEL_SHADER_RESOURCE
  else if has_flag usageFlags SDL_GPU_TEXTUREUSAGE_COMPUTE_STORAGE_WRITE_BIT then
    D3D12_RESOURCE_STATE_UNORDERED_ACCESS
  else
    (* "Texture has no default usage mode!" *)
    D3D12_RESOURCE_STATE_ALL_SHADER_RESOURCE.

(** [D3D12_INTERNAL_DefaultBufferResourceState] reads
    [buffer->container->usageFlags]; the flag word is the argument. *)
Definition D3D12_INTERNAL_DefaultBufferResourceState (usageFlags : Z)
  : D3D12_RESOURCE_STATES :=
  if has_flag usageFlags SDL_GPU_BUFFERUSAGE_VERTEX_BIT then
    D3D12_RESOURCE_STATE_VERTEX_AND_CONSTANT_BUFFER
  else if has_flag usageFlags SDL_GPU_BUFFERUSAGE_INDEX_BIT then
    D3D12_RESOURCE_STATE_INDEX_BUFFER
  else if has_flag usageFlags SDL_GPU_BUFFERUSAGE_INDIRECT_BIT then
    D3D12_RESOURCE_STATE_INDIRECT_ARGUMENT
  else if has_flag usageFlags SDL_GPU_BUFFERUSAGE_GRAPHICS_STORAGE_READ_BIT then
    D3D12_RESOURCE_STATE_ALL_SHADER_RESOURCE
  else if has_flag usageFlags SDL_GPU_BUFFERUSAGE_COMPUTE_STORAGE_READ_BIT then
    D3D12_RESOURCE_STATE_NON_PIXEL_SHADER_RESOURCE
  else if has_flag usageFlags SDL_GPU_BUFFERUSAGE_COMPUTE_STORAGE_WRITE_BIT then
    D3D12_RESOURCE_STATE_UNORDERED_ACCESS
  else
    (* "Buffer has no default usage mode!" *)
    D3D12_RESOURCE_STATE_VERTEX_AND_CONSTANT_BUFFER.

(** *** The tables of the design document

    A row pairs the usages that select it with the state it gives; a
    flag word matches a row when it has one of the row's usages. *)

Definition state_row : Type := (list Z * D3D12_RESOURCE_STATES)%type.

Definition row_matches (flags : Z) (r : state_row) : bool :=
  existsb (has_flag flags) r.1.

Fixpoint first_matching_row (table : list state_row) (flags : Z)
  : option D3D12_RESOURCE_STATES :=
  match table with
  | [] => None
  | r :: rest =>
      if row_matches flags r then Some r.2 else first_matching_row rest flags
  end.

Definition spec_texture_state_table : list state_row :=
  [ ([SDL_GPU_TEXTUREUSAGE_SAMPLER_BIT;
      SDL_GPU_TEXTUREUSAGE_GRAPHICS_STORAGE_READ_BIT],
     D3D12_RESOURCE_STATE_ALL_SHADER_RESOURCE);
    ([SDL_GPU_TEXTUREUSAGE_COLOR_TARGET_BIT],
     D3D12_RESOURCE_STATE_RENDER_TARGET);
    ([SDL_GPU_TEXTUREUSAGE_DEPTH_STENCIL_TARGET_BIT],
     D3D12_RESOURCE_STATE_DEPTH_WRITE);
    ([SDL_GPU_TEXTUREUSAGE_COMPUTE_STORAGE_READ_BIT],
     D3D12_RESOURCE_STATE_NON_PIXEL_SHADER_RESOURCE);
    ([SDL_GPU_TEXTUREUSAGE_COMPUTE_STORAGE_WRITE_BIT],
     D3D12_RESOURCE_STATE_UNORDERED_ACCESS) ].

Definition spec_buffer_state_table : list state_row :=
  [ ([SDL_GPU_BUFFERUSAGE_VERTEX_BIT],
     D3D12_RESOURCE_STATE_VERTEX_AND_CONSTANT_BUFFER);
    ([SDL_GPU_BUFFERUSAGE_INDEX_BIT],
     D3D12_RESOURCE_STATE_INDEX_BUFFER);
    ([SDL_GPU_BUFFERUSAGE_INDIRECT_BIT],
     D3D12_RESOURCE_STATE_INDIRECT_ARGUMENT);
    ([SDL_GPU_BUFFERUSAGE_GRAPHICS_STORAGE_READ_BIT],
     D3D12_RESOURCE_STATE_ALL_SHADER_RESOURCE);
    ([SDL_GPU_BUFFERUSAGE_COMPUTE_STORAGE_READ_BIT],
     D3D12_RESOURCE_STATE_NON_PIXEL_SHADER_RESOURCE);
    ([SDL_GPU_BUFFERUSAGE_COMPUTE_STORAGE_WRITE_BIT],
     D3D12_RESOURCE_STATE_UNORDERED_ACCESS) ].

Example texture_sampler_beats_color_target :
  D3D12_INTERNAL_DefaultTextureResourceState 0x3
  = D3D12_RESOURCE_STATE_ALL_SHADER_RESOURCE.
Proof. reflexivity. Qed.

Example buffer_index_beats_indirect :
  D3D12_INTERNAL_DefaultBufferResourceState 0x6
  = D3D12_RESOURCE_STATE_INDEX_BUFFER.
Proof. reflexivity. Qed.

(** A flag word that matches no row falls to the logged default. *)
Lemma default_texture_state_no_row (flags : Z) :
  first_matching_row spec_texture_state_table flags = None ->
  D3D12_INTERNAL_DefaultTextureResourceState flags
  = D3D12_RESOURCE_STATE_ALL_SHADER_RESOURCE.
Proof.
  unfold D3D12_INTERNAL_DefaultTextureResourceState. cbn.
  repeat (destruct (has_flag flags _); cbn; try discriminate).
  reflexivity.
Qed.

(** C3.  For every texture usage-flag word the default resource state
    is the state of the first row of the texture table that the word
    matches, and for every buffer usage-flag word the default state is
    the state of the first matching row of the buffer table. *)
Theorem default_resource_state_first_matching_row
    (textureFlags bufferFlags : Z) (ts bs : D3D12_RESOURCE_STATES) :
  first_matching_row spec_texture_state_table textureFlags = Some ts ->
  first_matching_row spec_buffer_state_table bufferFlags = Some bs ->
  D3D12_INTERNAL_DefaultTextureResourceState textureFlags = ts
  /\ D3D12_INTERNAL_DefaultBufferResourceState bufferFlags = bs.
Proof.
  intros Ht Hb. split.
  - revert Ht. unfold D3D12_INTERNAL_DefaultTextureResourceState. cbn.
    repeat (destruct (has_flag textureFlags _); cbn; try congruence).
  - revert Hb. unfold D3D12_INTERNAL_DefaultBufferResourceState. cbn.
    repeat (destruct (has_flag bufferFlags _); cbn; try congruence).
Qed.

Lemma default_resource_state_first_matching_row_witness :
  first_matching_row spec_texture_state_table 0x26
    = Some D3D12_RESOURCE_STATE_RENDER_TARGET
  /\ first_matching_row spec_buffer_state_table 0x68
    = Some D3D12_RESOURCE_STATE_ALL_SHADER_RESOURCE
  /\ D3D12_INTERNAL_DefaultTextureResourceState 0x26
    = D3D12_RESOURCE_STATE_RENDER_TARGET
  /\ D3D12_INTERNAL_DefaultBufferResourceState 0x68
    = D3D12_RESOURCE_STATE_ALL_SHADER_RESOURCE.
Proof.
  split; [reflexivity | split; [reflexivity |]].
  apply (default_resource_state_first_matching_row 0x26 0x68); reflexivity.
Defined.

(** ** Staging descriptor heaps *)

Module Descriptors.

Inductive D3D12_DESCRIPTOR_HEAP_TYPE : Type :=
  | D3D12_DESCRIPTOR_HEAP_TYPE_CBV_SRV_UAV
  | D3D12_DESCRIPTOR_HEAP_TYPE_SAMPLER
  | D3D12_DESCRIPTOR_HEAP_TYPE_RTV
  | D3D12_DESCRIPTOR_HEAP_TYPE_DSV.

#[global] Instance heap_type_eq_dec : EqDecision D3D12_DESCRIPTOR_HEAP_TYPE.
Proof. solve_decision. Defined.

(** The bookkeeping fields of [struct D3D12DescriptorHeap].
    [inactiveDescriptorIndices] is the array of [maxDescriptors]
    entries allocated with the heap. *)
Record D3D12DescriptorHeap : Type := mkHeap {
  descriptorHeapCPUStart : Z;
  maxDescriptors : Z;
  descriptorSize : Z;
  staging : bool;
  currentDescriptorIndex : Z;
  inactiveDescriptorIndices : list Z;
  inactiveDescriptorCount : Z
}.

(** [struct D3D12CPUDescriptor].  [heap] points to one of the
    renderer's staging heaps, named by its kind, or is NULL. *)
Record D3D12CPUDescriptor : Type := mkDescriptor {
  heap : option D3D12_DESCRIPTOR_HEAP_TYPE;
  cpuHandle : Z;
  cpuHandleIndex : Z
}.

(** What the two functions touch of [struct D3D12Renderer]: the
    staging heaps, one per kind, and the error log. *)
Record Renderer : Type := mkRenderer {
  stagingDescriptorHeaps : D3D12_DESCRIPTOR_HEAP_TYPE -> D3D12DescriptorHeap;
  errors : list string
}.

Definition set_heap (r : Renderer) (t : D3D12_DESCRIPTOR_HEAP_TYPE)
    (h : D3D12DescriptorHeap) : Renderer :=
  {| stagingDescriptorHeaps :=
       fun t' => if decide (t' = t) then h else stagingDescriptorHeaps r t';
     errors := errors r |}.

(** The staging branch of [D3D12_INTERNAL_CreateDescriptorHeap]. *)
Definition D3D12_INTERNAL_CreateDescriptorHeap
    (cpuStart size descriptorCount : Z) : D3D12DescriptorHeap :=
  {| descriptorHeapCPUStart := cpuStart;
     maxDescriptors := descriptorCount;
     descriptorSize := size;
     staging := true;
     currentDescriptorIndex := 0;
     inactiveDescriptorIndices := replicate (Z.to_nat descriptorCount) 0;
     inactiveDescriptorCount := 0 |}.

Definition invalid_descriptor (h : option D3D12_DESCRIPTOR_HEAP_TYPE)
  : D3D12CPUDescriptor :=
  {| heap := h; cpuHandle := 0; cpuHandleIndex := SDL_MAX_UINT32 |}.

(** [D3D12_INTERNAL_ReleaseCpuDescriptorHandle].  The store into
    [inactiveDescriptorIndices[inactiveDescriptorCount]] is defined
    only inside the array. *)
Definition D3D12_INTERNAL_ReleaseCpuDescriptorHandle
    (r : Renderer) (cpuDescriptor : D3D12CPUDescriptor)
  : option (Renderer * D3D12CPUDescriptor) :=
  match heap cpuDescriptor with
  | Some t =>
      let h := stagingDescriptorHeaps r t in
      let n := Z.to_nat (inactiveDescriptorCount h) in
      if decide (n < length (inactiveDescriptorIndices h))%nat then
        let h' :=
          {| descriptorHeapCPUStart := descriptorHeapCPUStart h;
             maxDescriptors := maxDescriptors h;
             descriptorSize := descriptorSize h;
             staging := staging h;
             currentDescriptorIndex := currentDescriptorIndex h;
             inactiveDescriptorIndices :=
               <[n := cpuHandleIndex cpuDescriptor]> (inactiveDescriptorIndices h);
             inactiveDescriptorCount := u32 (inactiveDescriptorCount h + 1) |} in
        Some (set_heap r t h', invalid_descriptor None)
      else None
  | None => Some (r, invalid_descriptor None)
  end.

Definition out_of_descriptors : string :=
  "Out of CPU descriptor handles, many bad things are going to happen!".

(** [D3D12_INTERNAL_AssignCpuDescriptorHandle]. *)
Definition D3D12_INTERNAL_AssignCpuDescriptorHandle
    (r : Renderer) (heapType : D3D12_DESCRIPTOR_HEAP_TYPE)
    (cpuDescriptor : D3D12CPUDescriptor)
  : option (Renderer * D3D12CPUDescriptor) :=
  let h := stagingDescriptorHeaps r heapType in
  let assigned (descriptorIndex : Z) :=
    {| heap := Some heapType;
       cpuHandle :=
         u64 (descriptorHeapCPUStart h + u32 (descriptorIndex * descriptorSize h));
       cpuHandleIndex := descriptorIndex |} in
  if 0 <? inactiveDescriptorCount h then
    match inactiveDescriptorIndices h
            !! Z.to_nat (inactiveDescriptorCount h - 1) with
    | Some descriptorIndex =>
        let h' :=
          {| descriptorHeapCPUStart := descriptorHeapCPUStart h;
             maxDescriptors := maxDescriptors h;
             descriptorSize := descriptorSize h;
             staging := staging h;
             currentDescriptorIndex := currentDescriptorIndex h;
             inactiveDescriptorIndices := inactiveDescriptorIndices h;
             inactiveDescriptorCount := u32 (inactiveDescriptorCount h - 1) |} in
        Some (set_heap r heapType h', assigned descriptorIndex)
    | None => None
    end
  else if currentDescriptorIndex h <? maxDescriptors h then
    let h' :=
      {| descriptorHeapCPUStart := descriptorHeapCPUStart h;
         maxDescriptors := maxDescriptors h;
         descriptorSize := descriptorSize h;
         staging := staging h;
         currentDescriptorIndex := u32 (currentDescriptorIndex h + 1);
         inactiveDescriptorIndices := inactiveDescriptorIndices h;
         inactiveDescriptorCount := inactiveDescriptorCount h |} in
    Some (set_heap r heapType h', assigned (currentDescriptorIndex h))
  else
    Some ({| stagingDescriptorHeaps := stagingDescriptorHeaps r;
             errors := errors r ++ [out_of_descriptors] |},
          invalid_descriptor (Some heapType)).

(** The accounting of a staging heap with [live] descriptors handed
    out and not yet released: every slot below the cursor is either
    live or on the free list, and the free-list array has one entry
    per slot. *)
Definition heap_accounts (h : D3D12DescriptorHeap) (live : Z) : Prop :=
  length (inactiveDescriptorIndices h) = Z.to_nat (maxDescriptors h)
  /\ 0 <= inactiveDescriptorCount h
  /\ 0 <= live
  /\ inactiveDescriptorCount h + live = currentDescriptorIndex h
  /\ currentDescriptorIndex h <= maxDescriptors h
  /\ maxDescriptors h < 2 ^ 32.

Lemma lookup_set_heap_eq r t h : stagingDescriptorHeaps (set_heap r t h) t = h.
Proof. cbn. rewrite decide_True; reflexivity. Qed.

Lemma lookup_set_heap_ne r t t' h :
  t' <> t -> stagingDescriptorHeaps (set_heap r t h) t' = stagingDescriptorHeaps r t'.
Proof. intros Hne. cbn. rewrite decide_False; [reflexivity | exact Hne]. Qed.

Lemma create_heap_accounts cpuStart size n :
  0 <= n < 2 ^ 32 ->
  heap_accounts (D3D12_INTERNAL_CreateDescriptorHeap cpuStart size n) 0.
Proof.
  intros Hn. unfold heap_accounts; cbn.
  rewrite length_replicate. repeat split; lia.
Qed.

(** Release with a live descriptor outstanding stays inside the array
    and keeps the accounting. *)
Lemma release_accounts r d t live :
  heap d = Some t ->
  heap_accounts (stagingDescriptorHeaps r t) live -> 0 < live ->
  exists r' d',
    D3D12_INTERNAL_ReleaseCpuDescriptorHandle r d = Some (r', d')
    /\ heap_accounts (stagingDescriptorHeaps r' t) (live - 1)
    /\ inactiveDescriptorIndices (stagingDescriptorHeaps r' t)
         !! Z.to_nat (inactiveDescriptorCount (stagingDescriptorHeaps r t))
       = Some (cpuHandleIndex d)
    /\ inactiveDescriptorCount (stagingDescriptorHeaps r' t)
       = inactiveDescriptorCount (stagingDescriptorHeaps r t) + 1
    /\ currentDescriptorIndex (stagingDescriptorHeaps r' t)
       = currentDescriptorIndex (stagingDescriptorHeaps r t).
Proof.
  intros Hd (Hlen & Hc & Hl & Hsum & Hmax & Hbig) Hlive.
  unfold D3D12_INTERNAL_ReleaseCpuDescriptorHandle. rewrite Hd.
  set (h := stagingDescriptorHeaps r t) in *.
  assert (Hroom : (Z.to_nat (inactiveDescriptorCount h)
                   < length (inactiveDescriptorIndices h))%nat)
    by (rewrite Hlen; lia).
  rewrite decide_True by exact Hroom.
  eexists _, _. split; [reflexivity |].
  rewrite lookup_set_heap_eq. cbn.
  assert (Hu : u32 (inactiveDescriptorCount h + 1) = inactiveDescriptorCount h + 1)
    by (apply u32_small; lia).
  rewrite Hu. split; [| split; [| split; [reflexivity | reflexivity]]].
  - unfold heap_accounts; cbn. rewrite length_insert.
    repeat split; try lia; try exact Hlen.
  - apply list_lookup_insert_eq. exact Hroom.
Qed.

(** A heap of two slots, both handed out, and the descriptor of slot 1. *)
Definition full_heap : D3D12DescriptorHeap :=
  {| descriptorHeapCPUStart := 4096; maxDescriptors := 2; descriptorSize := 32;
     staging := true; currentDescriptorIndex := 2;
     inactiveDescriptorIndices := [0; 0]; inactiveDescriptorCount := 0 |}.

Definition full_renderer : Renderer :=
  {| stagingDescriptorHeaps := fun _ => full_heap; errors := [] |}.

Definition slot1_descriptor : D3D12CPUDescriptor :=
  {| heap := Some D3D12_DESCRIPTOR_HEAP_TYPE_RTV;
     cpuHandle := 4128; cpuHandleIndex := 1 |}.

Example assign_on_fresh_heap :
  let r := {| stagingDescriptorHeaps :=
                fun _ => D3D12_INTERNAL_CreateDescriptorHeap 4096 32 2;
              errors := [] |} in
  snd <$> D3D12_INTERNAL_AssignCpuDescriptorHandle
            r D3D12_DESCRIPTOR_HEAP_TYPE_RTV (invalid_descriptor None)
  = Some {| heap := Some D3D12_DESCRIPTOR_HEAP_TYPE_RTV;
            cpuHandle := 4096; cpuHandleIndex := 0 |}.
Proof. reflexivity. Qed.

(** C8.  On a staging heap whose accounting holds, allocation
    (1) with a non-empty free list returns the entry on top of the
    free list and pops it, leaving the cursor alone; (2) with an empty
    free list and the cursor below [maxDescriptors] returns the cursor
    and increments it; (3) with an empty free list and the cursor at
    [maxDescriptors] logs the out-of-descriptors error and returns a
    descriptor with index [SDL_MAX_UINT32] and a null handle, the heaps
    unchanged; and (4) releasing a live descriptor and allocating next
    returns the index just released, with free-list count and cursor as
    before the release. *)
Theorem assign_cpu_descriptor_handle_policy
    (r : Renderer) (t : D3D12_DESCRIPTOR_HEAP_TYPE)
    (d released : D3D12CPUDescriptor) (live : Z) :
  heap_accounts (stagingDescriptorHeaps r t) live ->
  let h := stagingDescriptorHeaps r t in
  (0 < inactiveDescriptorCount h ->
   exists top r' d',
     inactiveDescriptorIndices h !! Z.to_nat (inactiveDescriptorCount h - 1)
       = Some top
     /\ D3D12_INTERNAL_AssignCpuDescriptorHandle r t d = Some (r', d')
     /\ cpuHandleIndex d' = top
     /\ inactiveDescriptorCount (stagingDescriptorHeaps r' t)
        = inactiveDescriptorCount h - 1
     /\ currentDescriptorIndex (stagingDescriptorHeaps r' t)
        = currentDescriptorIndex h)
  /\ (inactiveDescriptorCount h = 0 ->
      currentDescriptorIndex h < maxDescriptors h ->
      exists r' d',
        D3D12_INTERNAL_AssignCpuDescriptorHandle r t d = Some (r', d')
        /\ cpuHandleIndex d' = currentDescriptorIndex h
        /\ currentDescriptorIndex (stagingDescriptorHeaps r' t)
           = currentDescriptorIndex h + 1
        /\ inactiveDescriptorCount (stagingDescriptorHeaps r' t) = 0)
  /\ (inactiveDescriptorCount h = 0 ->
      maxDescriptors h <= currentDescriptorIndex h ->
      exists r' d',
        D3D12_INTERNAL_AssignCpuDescriptorHandle r t d = Some (r', d')
        /\ cpuHandleIndex d' = SDL_MAX_UINT32
        /\ cpuHandle d' = 0
        /\ errors r' = errors r ++ [out_of_descriptors]
        /\ stagingDescriptorHeaps r' = stagingDescriptorHeaps r)
  /\ (heap released = Some t -> 0 < live ->
      exists r1 d1 r2 d2,
        D3D12_INTERNAL_ReleaseCpuDescriptorHandle r released = Some (r1, d1)
        /\ D3D12_INTERNAL_AssignCpuDescriptorHandle r1 t d = Some (r2, d2)
        /\ cpuHandleIndex d2 = cpuHandleIndex released
        /\ inactiveDescriptorCount (stagingDescriptorHeaps r2 t)
           = inactiveDescriptorCount h
        /\ currentDescriptorIndex (stagingDescriptorHeaps r2 t)
           = currentDescriptorIndex h).
Proof.
  intros Hacc. cbv zeta.
  assert (Hpop : forall r0 : Renderer,
    let h0 := stagingDescriptorHeaps r0 t in
    (Z.to_nat (inactiveDescriptorCount h0 - 1)
       < length (inactiveDescriptorIndices h0))%nat ->
    0 < inactiveDescriptorCount h0 < 2 ^ 32 ->
    exists top r' d',
      inactiveDescriptorIndices h0 !! Z.to_nat (inactiveDescriptorCount h0 - 1)
        = Some top
      /\ D3D12_INTERNAL_AssignCpuDescriptorHandle r0 t d = Some (r', d')
      /\ cpuHandleIndex d' = top
      /\ inactiveDescriptorCount (stagingDescriptorHeaps r' t)
         = inactiveDescriptorCount h0 - 1
      /\ currentDescriptorIndex (stagingDescriptorHeaps r' t)
         = currentDescriptorIndex h0).
  { intros r0 h0 Hin Hpos. subst h0.
    destruct (lookup_lt_is_Some_2 _ _ Hin) as [top Htop].
    exists top. unfold D3D12_INTERNAL_AssignCpuDescriptorHandle.
    rewrite Htop.
    assert (Hlt : (0 <? inactiveDescriptorCount (stagingDescriptorHeaps r0 t)) = true)
      by (apply Z.ltb_lt; lia).
    rewrite Hlt. eexists _, _. split; [reflexivity |]. split; [reflexivity |].
    rewrite lookup_set_heap_eq. cbn. rewrite u32_small by lia. auto. }
  destruct Hacc as (Hlen & Hc & Hl & Hsum & Hmax & Hbig).
  set (h := stagingDescriptorHeaps r t) in *.
  split; [| split; [| split]].
  - intros Hpos. apply (Hpop r); fold h; [rewrite Hlen |]; lia.
  - intros Hzero Hroom.
    unfold D3D12_INTERNAL_AssignCpuDescriptorHandle. fold h.
    rewrite Hzero. cbn [Z.ltb Z.compare].
    assert (Hlt : (currentDescriptorIndex h <? maxDescriptors h) = true)
      by (apply Z.ltb_lt; lia).
    rewrite Hlt. eexists _, _. split; [reflexivity |].
    rewrite lookup_set_heap_eq. cbn. rewrite u32_small by lia. auto.
  - intros Hzero Hfull.
    unfold D3D12_INTERNAL_AssignCpuDescriptorHandle. fold h.
    rewrite Hzero. cbn [Z.ltb Z.compare].
    assert (Hge : (currentDescriptorIndex h <? maxDescriptors h) = false)
      by (apply Z.ltb_ge; lia).
    rewrite Hge. eexists _, _. split; [reflexivity |]. cbn. auto.
  - intros Hheap Hlive.
    assert (Hacc : heap_accounts h live)
      by (unfold heap_accounts; repeat split; assumption).
    destruct (release_accounts r released t live Hheap Hacc Hlive) as
      (r1 & d1 & Hrel & Hacc1 & Htop & Hcount & Hcur).
    fold h in Htop, Hcount, Hcur.
    destruct Hacc1 as (Hlen1 & _ & _ & _ & _ & _).
    destruct (Hpop r1) as (top & r2 & d2 & Htop' & Hasg & Hidx & Hcount2 & Hcur2).
    + rewrite Hlen1, Hcount.
      assert (Hm : maxDescriptors (stagingDescriptorHeaps r1 t) = maxDescriptors h).
      { unfold D3D12_INTERNAL_ReleaseCpuDescriptorHandle in Hrel.
        rewrite Hheap in Hrel. fold h in Hrel.
        destruct (decide _) in Hrel; [| discriminate].
        injection Hrel as <- _. rewrite lookup_set_heap_eq. reflexivity. }
      rewrite Hm. lia.
    + rewrite Hcount. lia.
    + exists r1, d1, r2, d2. split; [exact Hrel |]. split; [exact Hasg |].
      rewrite Hcount in Htop'.
      replace (inactiveDescriptorCount h + 1 - 1) with (inactiveDescriptorCount h)
        in Htop' by lia.
      rewrite Htop in Htop'. injection Htop' as <-.
      split; [exact Hidx |]. split; [rewrite Hcount2, Hcount; lia |].
      rewrite Hcur2, Hcur. reflexivity.
Qed.

Lemma assign_cpu_descriptor_handle_policy_witness :
  heap_accounts (stagingDescriptorHeaps full_renderer D3D12_DESCRIPTOR_HEAP_TYPE_RTV) 2
  /\ (exists r' d',
        D3D12_INTERNAL_AssignCpuDescriptorHandle
          full_renderer D3D12_DESCRIPTOR_HEAP_TYPE_RTV (invalid_descriptor None)
        = Some (r', d')
        /\ cpuHandleIndex d' = SDL_MAX_UINT32)
  /\ (exists r1 d1 r2 d2,
        D3D12_INTERNAL_ReleaseCpuDescriptorHandle full_renderer slot1_descriptor
        = Some (r1, d1)
        /\ D3D12_INTERNAL_AssignCpuDescriptorHandle
             r1 D3D12_DESCRIPTOR_HEAP_TYPE_RTV (invalid_descriptor None)
           = Some (r2, d2)
        /\ cpuHandleIndex d2 = 1).
Proof.
  assert (Hacc : heap_accounts
            (stagingDescriptorHeaps full_renderer D3D12_DESCRIPTOR_HEAP_TYPE_RTV) 2)
    by (unfold heap_accounts; cbn; repeat split; lia).
  destruct (assign_cpu_descriptor_handle_policy
              full_renderer D3D12_DESCRIPTOR_HEAP_TYPE_RTV
              (invalid_descriptor None) slot1_descriptor 2 Hacc)
    as (_ & _ & Hfull & Hlifo).
  split; [exact Hacc |]. split.
  - destruct Hfull as (r' & d' & H1 & H2 & _); [reflexivity | cbn; lia |].
    exists r', d'. split; assumption.
  - destruct Hlifo as (r1 & d1 & r2 & d2 & H1 & H2 & H3 & _); [reflexivity | lia |].
    exists r1, d1, r2, d2. repeat split; assumption.
Defined.

(** C10.  A release of a descriptor whose [heap] is NULL touches no
    heap and only rewrites the descriptor to its invalidated values;
    so after one release of a descriptor a second release of the same
    object succeeds and leaves the renderer, with every staging heap,
    and the descriptor exactly as the first release left them. *)
Theorem release_cpu_descriptor_handle_idempotent
    (r r1 : Renderer) (d d1 : D3D12CPUDescriptor) :
  D3D12_INTERNAL_ReleaseCpuDescriptorHandle r d = Some (r1, d1) ->
  (forall (r0 : Renderer) (d0 : D3D12CPUDescriptor),
      heap d0 = None ->
      D3D12_INTERNAL_ReleaseCpuDescriptorHandle r0 d0
      = Some (r0, {| heap := None; cpuHandle := 0;
                     cpuHandleIndex := SDL_MAX_UINT32 |}))
  /\ d1 = {| heap := None; cpuHandle := 0; cpuHandleIndex := SDL_MAX_UINT32 |}
  /\ D3D12_INTERNAL_ReleaseCpuDescriptorHandle r1 d1 = Some (r1, d1).
Proof.
  intros Hrel.
  assert (Hnull : forall (r0 : Renderer) (d0 : D3D12CPUDescriptor),
             heap d0 = None ->
             D3D12_INTERNAL_ReleaseCpuDescriptorHandle r0 d0
             = Some (r0, invalid_descriptor None)).
  { intros r0 d0 H0. unfold D3D12_INTERNAL_ReleaseCpuDescriptorHandle.
    rewrite H0. reflexivity. }
  assert (Hd1 : d1 = invalid_descriptor None).
  { unfold D3D12_INTERNAL_ReleaseCpuDescriptorHandle in Hrel.
    destruct (heap d) as [t |].
    - destruct (decide _) in Hrel; [| discriminate]. congruence.
    - congruence. }
  split; [exact Hnull |]. split; [exact Hd1 |].
  subst d1. apply Hnull. reflexivity.
Qed.

Lemma release_cpu_descriptor_handle_idempotent_witness :
  exists r1 d1,
    D3D12_INTERNAL_ReleaseCpuDescriptorHandle full_renderer slot1_descriptor
    = Some (r1, d1)
    /\ inactiveDescriptorCount
         (stagingDescriptorHeaps r1 D3D12_DESCRIPTOR_HEAP_TYPE_RTV) = 1
    /\ D3D12_INTERNAL_ReleaseCpuDescriptorHandle r1 d1 = Some (r1, d1).
Proof.
  eexists _, _. split; [reflexivity |]. split; [reflexivity |].
  eapply (release_cpu_descriptor_handle_idempotent full_renderer _ slot1_descriptor _).
  reflexivity.
Defined.

End Descriptors.

(** ** Resource barriers *)

(** What a barrier names: a concrete buffer or a concrete texture of
    the container at hand, by position in the container. *)
Inductive resource_ref : Type :=
  | BufferResource (bufferIndex : nat)
  | TextureResource (textureIndex : nat).

Inductive D3D12_RESOURCE_BARRIER : Type :=
  | TransitionBarrier (resource : resource_ref) (Subresource : Z)
      (StateBefore StateAfter : D3D12_RESOURCE_STATES)
  | UAVBarrier (resource : resource_ref).

(** [D3D12_INTERNAL_ResourceBarrier]: the barriers handed to
    [ID3D12GraphicsCommandList_ResourceBarrier] (none: no call). *)
Definition D3D12_INTERNAL_ResourceBarrier
    (sourceState destinationState : D3D12_RESOURCE_STATES)
    (resource : resource_ref) (subresourceIndex : Z) (needsUavBarrier : bool)
  : list D3D12_RESOURCE_BARRIER :=
  (if decide (sourceState = destinationState) then []
   else [TransitionBarrier resource subresourceIndex sourceState destinationState])
  ++ (if needsUavBarrier then [UAVBarrier resource] else []).

(** The outcome of a prepare-for-write call: the container after it,
    the resource returned, what was recorded and what was logged. *)
Record prepared (C R : Type) : Type := mkPrepared {
  container_after : C;
  returned : R;
  barriers : list D3D12_RESOURCE_BARRIER;
  logged : list string
}.
Arguments mkPrepared {C R}.
Arguments container_after {C R}.
Arguments returned {C R}.
Arguments barriers {C R}.
Arguments logged {C R}.

(** ** Buffer containers and cycling *)

Module Buffers.

Inductive D3D12BufferType : Type :=
  | D3D12_BUFFER_TYPE_GPU
  | D3D12_BUFFER_TYPE_UNIFORM
  | D3D12_BUFFER_TYPE_UPLOAD
  | D3D12_BUFFER_TYPE_DOWNLOAD.

(** The renderer flags the creation and naming paths read. *)
Record Renderer : Type := mkRenderer {
  debugMode : bool;
  GPUUploadHeapSupported : bool
}.

(** [struct D3D12Buffer].  The native [handle] is held as the
    description it was committed with ([desc.Width], the usage the
    resource flags derive from, the heap kind) and its debug name; the
    views are left out. *)
Record D3D12Buffer : Type := mkBuffer {
  handle_usageFlags : Z;
  handle_Width : Z;
  handle_type : D3D12BufferType;
  handle_name : option string;
  containerIndex : Z;
  referenceCount : Z;
  transitioned : bool
}.

(** [struct D3D12BufferContainer].  [buffers] owns the concrete
    buffers ([bufferCount] is its length); [activeBuffer] points at
    one of them, by position. *)
Record D3D12BufferContainer : Type := mkBufferContainer {
  usageFlags : Z;
  size : Z;
  type : D3D12BufferType;
  activeBuffer : nat;
  buffers : list D3D12Buffer;
  debugName : option string
}.

(** [D3D12_INTERNAL_CreateBuffer].  [native] says whether every
    allocation and native call of the creation succeeds. *)
Definition D3D12_INTERNAL_CreateBuffer
    (renderer : Renderer) (native : bool)
    (usage sizeInBytes : Z) (ty : D3D12BufferType) : option D3D12Buffer :=
  if native then
    let initialState :=
      match ty with
      | D3D12_BUFFER_TYPE_GPU => D3D12_RESOURCE_STATE_COMMON
      | D3D12_BUFFER_TYPE_UPLOAD => D3D12_RESOURCE_STATE_GENERIC_READ
      | D3D12_BUFFER_TYPE_DOWNLOAD => D3D12_RESOURCE_STATE_COPY_DEST
      | D3D12_BUFFER_TYPE_UNIFORM =>
          if GPUUploadHeapSupported renderer then D3D12_RESOURCE_STATE_COMMON
          else D3D12_RESOURCE_STATE_GENERIC_READ
      end in
    Some {| handle_usageFlags := usage;
            handle_Width := sizeInBytes;
            handle_type := ty;
            handle_name := None;
            containerIndex := 0;
            referenceCount := 0;
            transitioned :=
              negb (bool_decide (initialState = D3D12_RESOURCE_STATE_COMMON)) |}
  else None.

Definition failed_buffer_cycle : string := "Failed to cycle active buffer!".
Definition failed_texture_cycle : string := "Failed to cycle active texture!".

(** [D3D12_INTERNAL_SetResourceName] on a buffer handle. *)
Definition name_buffer (renderer : Renderer) (text : option string)
    (b : D3D12Buffer) : D3D12Buffer :=
  if debugMode renderer && bool_decide (is_Some text) then
    {| handle_usageFlags := handle_usageFlags b;
       handle_Width := handle_Width b;
       handle_type := handle_type b;
       handle_name := text;
       containerIndex := containerIndex b;
       referenceCount := referenceCount b;
       transitioned := transitioned b |}
  else b.

Definition set_activeBuffer (c : D3D12BufferContainer) (i : nat)
    (bs : list D3D12Buffer) : D3D12BufferContainer :=
  {| usageFlags := usageFlags c; size := size c; type := type c;
     activeBuffer := i; buffers := bs; debugName := debugName c |}.

(** [D3D12_INTERNAL_CycleActiveBuffer]: the container after the call
    and the errors it logged. *)
Definition D3D12_INTERNAL_CycleActiveBuffer
    (renderer : Renderer) (native : bool) (container : D3D12BufferContainer)
  : D3D12BufferContainer * list string :=
  (* If a previously-cycled buffer is available, we can use that. *)
  match list_find (fun b => referenceCount b = 0) (buffers container) with
  | Some (i, _) => (set_activeBuffer container i (buffers container), [])
  | None =>
      (* No buffer handle is available, create a new one. *)
      match D3D12_INTERNAL_CreateBuffer renderer native
              (usageFlags container) (size container) (type container) with
      | None => (container, [failed_buffer_cycle])
      | Some buffer =>
          let bufferCount := length (buffers container) in
          let buffer :=
            {| handle_usageFlags := handle_usageFlags buffer;
               handle_Width := handle_Width buffer;
               handle_type := handle_type buffer;
               handle_name := handle_name buffer;
               containerIndex := Z.of_nat bufferCount;
               referenceCount := referenceCount buffer;
               transitioned := transitioned buffer |} in
          (set_activeBuffer container bufferCount
             (buffers container ++ [name_buffer renderer (debugName container) buffer]),
           [])
      end
  end.

(** [D3D12_INTERNAL_BufferBarrier] on the buffer at [i]: the barriers
    recorded, and the buffer marked as transitioned. *)
Definition D3D12_INTERNAL_BufferBarrier
    (container : D3D12BufferContainer) (i : nat) (b : D3D12Buffer)
    (sourceState destinationState : D3D12_RESOURCE_STATES)
  : D3D12Buffer * list D3D12_RESOURCE_BARRIER :=
  ({| handle_usageFlags := handle_usageFlags b;
      handle_Width := handle_Width b;
      handle_type := handle_type b;
      handle_name := handle_name b;
      containerIndex := containerIndex b;
      referenceCount := referenceCount b;
      transitioned := true |},
   D3D12_INTERNAL_ResourceBarrier
     (if transitioned b then sourceState else D3D12_RESOURCE_STATE_COMMON)
     destinationState (BufferResource i) 0
     (has_flag (usageFlags container) SDL_GPU_BUFFERUSAGE_COMPUTE_STORAGE_WRITE_BIT)).

(** [D3D12_INTERNAL_PrepareBufferForWrite]; the buffer returned is
    named by its position in the container. *)
Definition D3D12_INTERNAL_PrepareBufferForWrite
    (renderer : Renderer) (native : bool) (container : D3D12BufferContainer)
    (cycle : bool) (destinationState : D3D12_RESOURCE_STATES)
  : option (prepared D3D12BufferContainer nat) :=
  active ← buffers container !! activeBuffer container;
  let '(container, errs) :=
    if cycle && (0 <? referenceCount active)
    then D3D12_INTERNAL_CycleActiveBuffer renderer native container
    else (container, []) in
  b ← buffers container !! activeBuffer container;
  let '(b', bars) :=
    D3D12_INTERNAL_BufferBarrier container (activeBuffer container) b
      (D3D12_INTERNAL_DefaultBufferResourceState (usageFlags container))
      destinationState in
  Some (mkPrepared
          (set_activeBuffer container (activeBuffer container)
             (<[activeBuffer container := b']> (buffers container)))
          (activeBuffer container) bars errs).

End Buffers.

(** ** Texture containers and cycling *)

Module Textures.

(** The fields of [SDL_GpuTextureCreateInfo] the backend reads. *)
Record SDL_GpuTextureCreateInfo : Type := mkInfo {
  width : Z;
  height : Z;
  depth : Z;
  isCube : bool;
  layerCount : Z;
  levelCount : Z;
  usageFlags : Z
}.

(** [struct D3D12TextureSubresource], without its views. *)
Record D3D12TextureSubresource : Type := mkSubresource {
  layer : Z;
  level : Z;
  index : Z;
  referenceCount : Z
}.

(** [struct D3D12Texture].  The native [resource] is held as the
    create-info it was committed with and its debug name. *)
Record D3D12Texture : Type := mkTexture {
  resource_info : SDL_GpuTextureCreateInfo;
  resource_name : option string;
  containerIndex : Z;
  subresources : list D3D12TextureSubresource
}.

(** [struct D3D12TextureContainer]; [info] is [header.info]. *)
Record D3D12TextureContainer : Type := mkTextureContainer {
  info : SDL_GpuTextureCreateInfo;
  activeTexture : nat;
  textures : list D3D12Texture;
  canBeCycled : bool;
  debugName : option string
}.

Definition D3D12_INTERNAL_CalcSubresource (mipLevel layer numLevels : Z) : Z :=
  u32 (mipLevel + u32 (layer * numLevels)).

(** The sub-resource array [D3D12_INTERNAL_CreateTexture] fills, layer
    by layer and level by level. *)
Definition create_subresources (createInfo : SDL_GpuTextureCreateInfo)
  : list D3D12TextureSubresource :=
  flat_map
    (fun layerIndex =>
       map (fun levelIndex =>
              {| layer := Z.of_nat layerIndex;
                 level := Z.of_nat levelIndex;
                 index := D3D12_INTERNAL_CalcSubresource
                            (Z.of_nat levelIndex) (Z.of_nat layerIndex)
                            (levelCount createInfo);
                 referenceCount := 0 |})
           (seq 0 (Z.to_nat (levelCount createInfo))))
    (seq 0 (Z.to_nat (layerCount createInfo))).

(** [D3D12_INTERNAL_CreateTexture].  [native] says whether every
    allocation and native call of the creation succeeds. *)
Definition D3D12_INTERNAL_CreateTexture
    (native : bool) (textureCreateInfo : SDL_GpuTextureCreateInfo)
  : option D3D12Texture :=
  if native then
    Some {| resource_info := textureCreateInfo;
            resource_name := None;
            containerIndex := 0;
            subresources := create_subresources textureCreateInfo |}
  else None.

(** The [Sint32] accumulator of the scan over a texture's
    sub-resources. *)
Definition refCountTotal (texture : D3D12Texture) : Z :=
  foldl (fun total s => s32 (total + referenceCount s)) 0 (subresources texture).

Definition set_activeTexture (c : D3D12TextureContainer) (i : nat)
    (ts : list D3D12Texture) : D3D12TextureContainer :=
  {| info := info c; activeTexture := i; textures := ts;
     canBeCycled := canBeCycled c; debugName := debugName c |}.

(** [D3D12_INTERNAL_SetResourceName] on a texture resource. *)
Definition name_texture (renderer : Buffers.Renderer) (text : option string)
    (t : D3D12Texture) : D3D12Texture :=
  if Buffers.debugMode renderer && bool_decide (is_Some text) then
    {| resource_info := resource_info t;
       resource_name := text;
       containerIndex := containerIndex t;
       subresources := subresources t |}
  else t.

(** [D3D12_INTERNAL_CycleActiveTexture]. *)
Definition D3D12_INTERNAL_CycleActiveTexture
    (renderer : Buffers.Renderer) (native : bool)
    (container : D3D12TextureContainer)
  : D3D12TextureContainer * list string :=
  (* If a previously-cycled texture is available, we can use that. *)
  match list_find (fun t => refCountTotal t = 0) (textures container) with
  | Some (i, _) => (set_activeTexture container i (textures container), [])
  | None =>
      (* No texture is available, generate a new one. *)
      match D3D12_INTERNAL_CreateTexture native (info container) with
      | None => (container, [Buffers.failed_texture_cycle])
      | Some texture =>
          let textureCount := length (textures container) in
          let texture :=
            {| resource_info := resource_info texture;
               resource_name := resource_name texture;
               containerIndex := Z.of_nat textureCount;
               subresources := subresources texture |} in
          (set_activeTexture container textureCount
             (textures container
                ++ [name_texture renderer (debugName container) texture]),
           [])
      end
  end.

(** [D3D12_INTERNAL_FetchTextureSubresource]: the sub-resource of
    the active texture, as (position of the texture, position in its
    array), with its contents. *)
Definition D3D12_INTERNAL_FetchTextureSubresource
    (container : D3D12TextureContainer) (layer level : Z)
  : option (nat * nat * D3D12TextureSubresource) :=
  let index := Z.to_nat (D3D12_INTERNAL_CalcSubresource
                           level layer (levelCount (info container))) in
  texture ← textures container !! activeTexture container;
  s ← subresources texture !! index;
  Some (activeTexture container, index, s).

(** [D3D12_INTERNAL_TextureSubresourceTransitionFromDefaultUsage]. *)
Definition D3D12_INTERNAL_TextureSubresourceTransitionFromDefaultUsage
    (container : D3D12TextureContainer)
    (destinationUsageMode : D3D12_RESOURCE_STATES)
    (textureIndex : nat) (s : D3D12TextureSubresource)
  : list D3D12_RESOURCE_BARRIER :=
  D3D12_INTERNAL_ResourceBarrier
    (D3D12_INTERNAL_DefaultTextureResourceState (usageFlags (info container)))
    destinationUsageMode (TextureResource textureIndex) (index s)
    (has_flag (usageFlags (info container))
       SDL_GPU_TEXTUREUSAGE_COMPUTE_STORAGE_WRITE_BIT).

(** [D3D12_INTERNAL_PrepareTextureSubresourceForWrite]. *)
Definition D3D12_INTERNAL_PrepareTextureSubresourceForWrite
    (renderer : Buffers.Renderer) (native : bool)
    (container : D3D12TextureContainer) (layer level : Z)
    (cycle : bool) (destinationUsageMode : D3D12_RESOURCE_STATES)
  : option (prepared D3D12TextureContainer (nat * nat)) :=
  subresource ← D3D12_INTERNAL_FetchTextureSubresource container layer level;
  if canBeCycled container && cycle && (0 <? referenceCount subresource.2) then
    let '(container, errs) :=
      D3D12_INTERNAL_CycleActiveTexture renderer native container in
    subresource ← D3D12_INTERNAL_FetchTextureSubresource container layer level;
    Some (mkPrepared container subresource.1
            (D3D12_INTERNAL_TextureSubresourceTransitionFromDefaultUsage
               container destinationUsageMode subresource.1.1 subresource.2)
            errs)
  else
    Some (mkPrepared container subresource.1
            (D3D12_INTERNAL_TextureSubresourceTransitionFromDefaultUsage
               container destinationUsageMode subresource.1.1 subresource.2)
            []).

(** Every listed texture was created from the container's create-info,
    so all have the same number of sub-resources. *)
Definition same_shape (c : D3D12TextureContainer) : Prop :=
  Forall (fun t => length (subresources t)
                   = length (create_subresources (info c))) (textures c).

(** The reference counts of a texture are counts, and their sum stays
    inside [Sint32]. *)
Definition counts_in_range (t : D3D12Texture) : Prop :=
  Forall (fun s => 0 <= referenceCount s) (subresources t)
  /\ foldr (fun s total => referenceCount s + total) 0 (subresources t) < 2 ^ 31.

End Textures.

Module Cycling.

Import Buffers Textures.

(** *** The scan of [D3D12_INTERNAL_CycleActiveBuffer] *)

Lemma cycle_buffer_reuses renderer native (c : D3D12BufferContainer) i b :
  list_find (fun b => Buffers.referenceCount b = 0) (buffers c) = Some (i, b) ->
  D3D12_INTERNAL_CycleActiveBuffer renderer native c
  = (set_activeBuffer c i (buffers c), []).
Proof.
  intros Hfind. unfold D3D12_INTERNAL_CycleActiveBuffer. rewrite Hfind. reflexivity.
Qed.

Lemma cycle_buffer_creates renderer (c : D3D12BufferContainer) :
  list_find (fun b => Buffers.referenceCount b = 0) (buffers c) = None ->
  exists nb,
    D3D12_INTERNAL_CycleActiveBuffer renderer true c
    = (set_activeBuffer c (length (buffers c)) (buffers c ++ [nb]), [])
    /\ Buffers.referenceCount nb = 0
    /\ handle_usageFlags nb = Buffers.usageFlags c
    /\ handle_Width nb = size c
    /\ handle_type nb = type c
    /\ Buffers.containerIndex nb = Z.of_nat (length (buffers c)).
Proof.
  intros Hfind. unfold D3D12_INTERNAL_CycleActiveBuffer. rewrite Hfind. cbn.
  eexists. split; [reflexivity |].
  unfold name_buffer. destruct (_ && _); cbn; auto.
Qed.

Lemma cycle_buffer_fails renderer (c : D3D12BufferContainer) :
  list_find (fun b => Buffers.referenceCount b = 0) (buffers c) = None ->
  D3D12_INTERNAL_CycleActiveBuffer renderer false c = (c, [failed_buffer_cycle]).
Proof.
  intros Hfind. unfold D3D12_INTERNAL_CycleActiveBuffer. rewrite Hfind. reflexivity.
Qed.

Lemma find_unreferenced_buffer_None (l : list D3D12Buffer) :
  list_find (fun b => Buffers.referenceCount b = 0) l = None
  <-> (forall b, b ∈ l -> Buffers.referenceCount b <> 0).
Proof. rewrite list_find_None, Forall_forall. reflexivity. Qed.

(** What [D3D12_INTERNAL_PrepareBufferForWrite] does once the
    container to write into is settled. *)
Lemma prepare_buffer_settled renderer native (c c1 : D3D12BufferContainer)
    a cycle dest errs b :
  buffers c !! activeBuffer c = Some a ->
  (if cycle && (0 <? Buffers.referenceCount a)
   then D3D12_INTERNAL_CycleActiveBuffer renderer native c
   else (c, [])) = (c1, errs) ->
  buffers c1 !! activeBuffer c1 = Some b ->
  exists p,
    D3D12_INTERNAL_PrepareBufferForWrite renderer native c cycle dest = Some p
    /\ returned p = activeBuffer c1
    /\ activeBuffer (container_after p) = activeBuffer c1
    /\ logged p = errs
    /\ Buffers.referenceCount <$> buffers (container_after p)
       = Buffers.referenceCount <$> buffers c1
    /\ (exists b', buffers (container_after p)
                   = <[activeBuffer c1 := b']> (buffers c1)
                   /\ buffers (container_after p) !! activeBuffer c1 = Some b'
                   /\ Buffers.referenceCount b' = Buffers.referenceCount b
                   /\ handle_usageFlags b' = handle_usageFlags b
                   /\ handle_Width b' = handle_Width b
                   /\ handle_type b' = handle_type b).
Proof.
  intros Ha Hc Hb. unfold D3D12_INTERNAL_PrepareBufferForWrite.
  rewrite Ha. cbn. rewrite Hc. rewrite Hb. cbn.
  eexists. split; [reflexivity |]. cbn.
  assert (Hlt : (activeBuffer c1 < length (buffers c1))%nat)
    by (eapply lookup_lt_Some; exact Hb).
  repeat split.
  - rewrite list_fmap_insert. apply list_insert_id.
    rewrite list_lookup_fmap, Hb. reflexivity.
  - eexists. split; [reflexivity |].
    split; [apply list_lookup_insert_eq; exact Hlt |]. cbn. auto.
Qed.

(** *** The scan of [D3D12_INTERNAL_CycleActiveTexture] *)

Lemma cycle_texture_reuses renderer native (c : D3D12TextureContainer) i t :
  list_find (fun t => refCountTotal t = 0) (textures c) = Some (i, t) ->
  D3D12_INTERNAL_CycleActiveTexture renderer native c
  = (set_activeTexture c i (textures c), []).
Proof.
  intros Hfind. unfold D3D12_INTERNAL_CycleActiveTexture. rewrite Hfind. reflexivity.
Qed.

Lemma cycle_texture_creates renderer (c : D3D12TextureContainer) :
  list_find (fun t => refCountTotal t = 0) (textures c) = None ->
  exists nt,
    D3D12_INTERNAL_CycleActiveTexture renderer true c
    = (set_activeTexture c (length (textures c)) (textures c ++ [nt]), [])
    /\ resource_info nt = info c
    /\ subresources nt = create_subresources (info c)
    /\ Textures.containerIndex nt = Z.of_nat (length (textures c)).
Proof.
  intros Hfind. unfold D3D12_INTERNAL_CycleActiveTexture. rewrite Hfind. cbn.
  eexists. split; [reflexivity |].
  unfold name_texture. destruct (_ && _); cbn; auto.
Qed.

Lemma cycle_texture_fails renderer (c : D3D12TextureContainer) :
  list_find (fun t => refCountTotal t = 0) (textures c) = None ->
  D3D12_INTERNAL_CycleActiveTexture renderer false c = (c, [failed_texture_cycle]).
Proof.
  intros Hfind. unfold D3D12_INTERNAL_CycleActiveTexture. rewrite Hfind. reflexivity.
Qed.

Lemma find_unreferenced_texture_None (l : list D3D12Texture) :
  list_find (fun t => refCountTotal t = 0) l = None
  <-> (forall t, t ∈ l -> refCountTotal t <> 0).
Proof. rewrite list_find_None, Forall_forall. reflexivity. Qed.

Lemma created_subresources_unreferenced createInfo :
  Forall (fun s => Textures.referenceCount s = 0) (create_subresources createInfo).
Proof.
  unfold create_subresources. apply Forall_forall. intros s Hs.
  apply list_elem_of_In, in_flat_map in Hs. destruct Hs as (l & _ & Hs).
  apply in_map_iff in Hs. destruct Hs as (k & <- & _). reflexivity.
Qed.

(** Inside [Sint32] the accumulator is the exact sum. *)
Lemma total_exact (subs : list D3D12TextureSubresource) (acc : Z) :
  Forall (fun s => 0 <= Textures.referenceCount s) subs ->
  0 <= acc ->
  acc + foldr (fun s total => Textures.referenceCount s + total) 0 subs < 2 ^ 31 ->
  foldl (fun total s => s32 (total + Textures.referenceCount s)) acc subs
  = acc + foldr (fun s total => Textures.referenceCount s + total) 0 subs.
Proof.
  revert acc. induction subs as [| s subs IH]; intros acc Hpos Hacc Hsum; cbn in *.
  - lia.
  - inversion Hpos as [| ? ? Hs Hrest]; subst.
    assert (Htail : 0 <= foldr (fun s total => Textures.referenceCount s + total) 0 subs).
    { clear -Hrest. induction Hrest; cbn; lia. }
    rewrite s32_small by lia. rewrite IH; [lia | exact Hrest | lia | lia].
Qed.

Lemma total_zero_unreferenced (t : D3D12Texture) :
  counts_in_range t -> refCountTotal t = 0 ->
  Forall (fun s => Textures.referenceCount s = 0) (subresources t).
Proof.
  intros [Hpos Hsum] Hzero. unfold refCountTotal in Hzero.
  rewrite total_exact in Hzero by (auto; lia).
  revert Hzero. clear Hsum. induction Hpos as [| s subs Hs Hrest IH]; cbn; intros Hz.
  - constructor.
  - assert (Htail : 0 <= foldr (fun s total => Textures.referenceCount s + total) 0 subs).
    { clear -Hrest. induction Hrest; cbn; lia. }
    constructor; [lia | apply IH; lia].
Qed.

Lemma fetch_subresource_inv (c : D3D12TextureContainer) layer level ti si s :
  D3D12_INTERNAL_FetchTextureSubresource c layer level = Some (ti, si, s) ->
  ti = activeTexture c
  /\ si = Z.to_nat (D3D12_INTERNAL_CalcSubresource level layer (levelCount (info c)))
  /\ exists t, textures c !! ti = Some t /\ subresources t !! si = Some s.
Proof.
  unfold D3D12_INTERNAL_FetchTextureSubresource. intros H.
  destruct (textures c !! activeTexture c) as [t |] eqn:Ht; [| discriminate].
  cbn in H.
  destruct (subresources t !! _) as [s0 |] eqn:Hs; [| discriminate].
  cbn in H. injection H as <- <- <-.
  split; [reflexivity |]. split; [reflexivity |]. eauto.
Qed.

Lemma fetch_subresource_at (c : D3D12TextureContainer) layer level t s :
  textures c !! activeTexture c = Some t ->
  subresources t
    !! Z.to_nat (D3D12_INTERNAL_CalcSubresource level layer (levelCount (info c)))
  = Some s ->
  D3D12_INTERNAL_FetchTextureSubresource c layer level
  = Some (activeTexture c,
          Z.to_nat (D3D12_INTERNAL_CalcSubresource level layer (levelCount (info c))),
          s).
Proof.
  intros Ht Hs. unfold D3D12_INTERNAL_FetchTextureSubresource.
  rewrite Ht. cbn. rewrite Hs. reflexivity.
Qed.

(** In a container of textures of one shape, a sub-resource position
    valid in one listed texture is valid in every other, and in a
    texture created from the container's create-info. *)
Lemma same_shape_lookup (c : D3D12TextureContainer) i t si j t' :
  same_shape c ->
  textures c !! i = Some t -> is_Some (subresources t !! si) ->
  textures c !! j = Some t' -> is_Some (subresources t' !! si).
Proof.
  intros Hshape Ht Hs Ht'. unfold same_shape in Hshape.
  rewrite Forall_forall in Hshape.
  apply lookup_lt_is_Some_1 in Hs. apply lookup_lt_is_Some_2.
  rewrite (Hshape t'), <- (Hshape t); [exact Hs | |];
    apply list_elem_of_lookup; eauto.
Qed.

Lemma same_shape_lookup_created (c : D3D12TextureContainer) i t si :
  same_shape c ->
  textures c !! i = Some t -> is_Some (subresources t !! si) ->
  exists s', create_subresources (info c) !! si = Some s'
             /\ Textures.referenceCount s' = 0.
Proof.
  intros Hshape Ht Hs. unfold same_shape in Hshape.
  rewrite Forall_forall in Hshape.
  apply lookup_lt_is_Some_1 in Hs.
  rewrite (Hshape t) in Hs by (apply list_elem_of_lookup; eauto).
  destruct (lookup_lt_is_Some_2 _ _ Hs) as [s' Hs']. exists s'. split; [exact Hs' |].
  pose proof (created_subresources_unreferenced (info c)) as Hall.
  rewrite Forall_forall in Hall. apply Hall, list_elem_of_lookup. eauto.
Qed.

(** *** [D3D12_INTERNAL_PrepareTextureSubresourceForWrite], case by case *)

Definition texture_cycles (c : D3D12TextureContainer) (cycle : bool)
    (s : D3D12TextureSubresource) : bool :=
  canBeCycled c && cycle && (0 <? Textures.referenceCount s).

Lemma prepare_texture_kept renderer native (c : D3D12TextureContainer)
    layer level cycle dest ti si s :
  D3D12_INTERNAL_FetchTextureSubresource c layer level = Some (ti, si, s) ->
  texture_cycles c cycle s = false ->
  exists bars,
    D3D12_INTERNAL_PrepareTextureSubresourceForWrite
      renderer native c layer level cycle dest
    = Some (mkPrepared c (ti, si) bars []).
Proof.
  intros Hfetch Hno. unfold D3D12_INTERNAL_PrepareTextureSubresourceForWrite.
  rewrite Hfetch. cbn. unfold texture_cycles in Hno. rewrite Hno. eauto.
Qed.

Lemma prepare_texture_reused renderer native (c : D3D12TextureContainer)
    layer level cycle dest ti si s i t s' :
  D3D12_INTERNAL_FetchTextureSubresource c layer level = Some (ti, si, s) ->
  texture_cycles c cycle s = true ->
  list_find (fun t => refCountTotal t = 0) (textures c) = Some (i, t) ->
  subresources t !! si = Some s' ->
  exists bars,
    D3D12_INTERNAL_PrepareTextureSubresourceForWrite
      renderer native c layer level cycle dest
    = Some (mkPrepared (set_activeTexture c i (textures c)) (i, si) bars []).
Proof.
  intros Hfetch Hyes Hfind Hs'.
  unfold D3D12_INTERNAL_PrepareTextureSubresourceForWrite.
  rewrite Hfetch. cbn. unfold texture_cycles in Hyes. rewrite Hyes.
  rewrite (cycle_texture_reuses _ _ _ _ _ Hfind).
  apply fetch_subresource_inv in Hfetch as (_ & -> & _).
  apply list_find_Some in Hfind as (Hi & _ & _).
  erewrite fetch_subresource_at; [| exact Hi | exact Hs']. cbn. eauto.
Qed.

Lemma prepare_texture_created renderer (c : D3D12TextureContainer)
    layer level cycle dest ti si s s' :
  D3D12_INTERNAL_FetchTextureSubresource c layer level = Some (ti, si, s) ->
  texture_cycles c cycle s = true ->
  list_find (fun t => refCountTotal t = 0) (textures c) = None ->
  create_subresources (info c) !! si = Some s' ->
  exists bars nt,
    D3D12_INTERNAL_PrepareTextureSubresourceForWrite
      renderer true c layer level cycle dest
    = Some (mkPrepared
              (set_activeTexture c (length (textures c)) (textures c ++ [nt]))
              (length (textures c), si) bars [])
    /\ resource_info nt = info c
    /\ subresources nt = create_subresources (info c).
Proof.
  intros Hfetch Hyes Hfind Hs'.
  unfold D3D12_INTERNAL_PrepareTextureSubresourceForWrite.
  rewrite Hfetch. cbn. unfold texture_cycles in Hyes. rewrite Hyes.
  destruct (cycle_texture_creates renderer c Hfind) as (nt & -> & Hinfo & Hsubs & _).
  apply fetch_subresource_inv in Hfetch as (_ & -> & _).
  erewrite fetch_subresource_at; cbn.
  - eexists _, nt. split; [reflexivity |]. auto.
  - apply list_lookup_middle. reflexivity.
  - rewrite Hsubs. exact Hs'.
Qed.

Lemma prepare_texture_failed renderer (c : D3D12TextureContainer)
    layer level cycle dest ti si s :
  D3D12_INTERNAL_FetchTextureSubresource c layer level = Some (ti, si, s) ->
  texture_cycles c cycle s = true ->
  list_find (fun t => refCountTotal t = 0) (textures c) = None ->
  exists bars,
    D3D12_INTERNAL_PrepareTextureSubresourceForWrite
      renderer false c layer level cycle dest
    = Some (mkPrepared c (ti, si) bars [failed_texture_cycle]).
Proof.
  intros Hfetch Hyes Hfind.
  unfold D3D12_INTERNAL_PrepareTextureSubresourceForWrite.
  rewrite Hfetch. cbn. unfold texture_cycles in Hyes. rewrite Hyes.
  rewrite (cycle_texture_fails _ _ Hfind). rewrite Hfetch. cbn. eauto.
Qed.

(** *** Concrete containers *)

Definition plain_renderer : Renderer :=
  {| debugMode := false; GPUUploadHeapSupported := false |}.

Definition vertex_buffer (count : Z) : D3D12Buffer :=
  {| handle_usageFlags := SDL_GPU_BUFFERUSAGE_VERTEX_BIT;
     handle_Width := 1024;
     handle_type := D3D12_BUFFER_TYPE_GPU;
     handle_name := None;
     Buffers.containerIndex := 0;
     Buffers.referenceCount := count;
     transitioned := false |}.

(** A vertex buffer container whose only concrete buffer is in flight. *)
Definition busy_buffer_container : D3D12BufferContainer :=
  {| Buffers.usageFlags := SDL_GPU_BUFFERUSAGE_VERTEX_BIT;
     size := 1024;
     type := D3D12_BUFFER_TYPE_GPU;
     activeBuffer := 0;
     buffers := [vertex_buffer 1];
     Buffers.debugName := None |}.

Definition target_info : SDL_GpuTextureCreateInfo :=
  {| width := 64; height := 64; depth := 1; isCube := false;
     layerCount := 1; levelCount := 1;
     Textures.usageFlags := SDL_GPU_TEXTUREUSAGE_COLOR_TARGET_BIT |}.

Definition target_texture (count : Z) : D3D12Texture :=
  {| resource_info := target_info;
     resource_name := None;
     Textures.containerIndex := 0;
     subresources :=
       [ {| layer := 0; level := 0; index := 0;
            Textures.referenceCount := count |} ] |}.

(** A color target whose only concrete texture is in flight, as
    [D3D12_CreateTexture] makes it ([canBeCycled] true) and as the
    swapchain makes its back buffers ([canBeCycled] false). *)
Definition busy_texture_container (cycles : bool) : D3D12TextureContainer :=
  {| info := target_info;
     activeTexture := 0;
     textures := [target_texture 1];
     canBeCycled := cycles;
     Textures.debugName := None |}.

Example prepare_busy_buffer_creates :
  (fun p => (returned p, Buffers.referenceCount <$> buffers (container_after p)))
    <$> D3D12_INTERNAL_PrepareBufferForWrite
          plain_renderer true busy_buffer_container true
          D3D12_RESOURCE_STATE_COPY_DEST
  = Some (1%nat, [1; 0]).
Proof. reflexivity. Qed.

Example prepare_busy_texture_creates :
  (fun p => (returned p, length (textures (container_after p))))
    <$> D3D12_INTERNAL_PrepareTextureSubresourceForWrite
          plain_renderer true (busy_texture_container true) 0 0 true
          D3D12_RESOURCE_STATE_RENDER_TARGET
  = Some ((1%nat, 0%nat), 2%nat).
Proof. reflexivity. Qed.

(** As stated for every texture container, C1 fails on a swapchain
    back buffer: with [cycle] true and the target in flight, the
    active texture stays the one in flight. *)
Lemma prepare_swapchain_texture_stays_in_flight :
  exists q t s,
    D3D12_INTERNAL_PrepareTextureSubresourceForWrite
      plain_renderer true (busy_texture_container false) 0 0 true
      D3D12_RESOURCE_STATE_RENDER_TARGET = Some q
    /\ container_after q = busy_texture_container false
    /\ textures (container_after q) !! activeTexture (container_after q) = Some t
    /\ refCountTotal t = 1
    /\ subresources t !! (returned q).2 = Some s
    /\ Textures.referenceCount s = 1.
Proof.
  eexists _, _, _. split; [reflexivity |]. cbn. repeat split.
Qed.

(** C1, amended.  A buffer container, and a texture container that
    can be cycled, prepared for write with [cycle] true while the
    target is in flight, switch to the first listed concrete resource
    whose (summed) reference count is zero if there is one, and
    otherwise, when the creation succeeds, to a fresh concrete resource
    created from the container's usage, size and type (or create-info)
    and appended to the list.  With [cycle] false, with the target's
    count at zero, or on a texture container that cannot be cycled, the
    container keeps its active resource.  So with [cycle] true, a
    container that can be cycled and a creation that succeeds, the
    resource returned has reference count zero. *)
Theorem prepare_for_write_cycles
    (renderer : Renderer) (native cycle : bool) (dest : D3D12_RESOURCE_STATES)
    (bc : D3D12BufferContainer) (a : D3D12Buffer)
    (tc : D3D12TextureContainer) (layer level : Z)
    (ti si : nat) (s : D3D12TextureSubresource) :
  buffers bc !! activeBuffer bc = Some a ->
  0 <= Buffers.referenceCount a ->
  same_shape tc ->
  Forall counts_in_range (textures tc) ->
  D3D12_INTERNAL_FetchTextureSubresource tc layer level = Some (ti, si, s) ->
  (exists p,
     D3D12_INTERNAL_PrepareBufferForWrite renderer native bc cycle dest = Some p
     /\ returned p = activeBuffer (container_after p)
     /\ (cycle = true -> 0 < Buffers.referenceCount a ->
         (exists b, b ∈ buffers bc /\ Buffers.referenceCount b = 0) ->
         exists b,
           buffers bc !! returned p = Some b
           /\ Buffers.referenceCount b = 0
           /\ (forall j y, buffers bc !! j = Some y -> (j < returned p)%nat ->
                           Buffers.referenceCount y <> 0)
           /\ Buffers.referenceCount <$> buffers (container_after p)
              = Buffers.referenceCount <$> buffers bc)
     /\ (cycle = true -> 0 < Buffers.referenceCount a ->
         (forall b, b ∈ buffers bc -> Buffers.referenceCount b <> 0) ->
         native = true ->
         returned p = length (buffers bc)
         /\ exists nb,
              buffers (container_after p) = buffers bc ++ [nb]
              /\ Buffers.referenceCount nb = 0
              /\ handle_usageFlags nb = Buffers.usageFlags bc
              /\ handle_Width nb = size bc
              /\ handle_type nb = type bc)
     /\ (cycle = false \/ Buffers.referenceCount a = 0 ->
         returned p = activeBuffer bc
         /\ Buffers.referenceCount <$> buffers (container_after p)
            = Buffers.referenceCount <$> buffers bc)
     /\ (cycle = true -> native = true ->
         exists b, buffers (container_after p) !! returned p = Some b
                   /\ Buffers.referenceCount b = 0))
  /\ (exists q,
        D3D12_INTERNAL_PrepareTextureSubresourceForWrite
          renderer native tc layer level cycle dest = Some q
        /\ (returned q).1 = activeTexture (container_after q)
        /\ (canBeCycled tc = true -> cycle = true ->
            0 < Textures.referenceCount s ->
            (exists t, t ∈ textures tc /\ refCountTotal t = 0) ->
            exists t,
              textures tc !! activeTexture (container_after q) = Some t
              /\ refCountTotal t = 0
              /\ (forall j y, textures tc !! j = Some y ->
                              (j < activeTexture (container_after q))%nat ->
                              refCountTotal y <> 0)
              /\ textures (container_after q) = textures tc)
        /\ (canBeCycled tc = true -> cycle = true ->
            0 < Textures.referenceCount s ->
            (forall t, t ∈ textures tc -> refCountTotal t <> 0) ->
            native = true ->
            activeTexture (container_after q) = length (textures tc)
            /\ exists nt,
                 textures (container_after q) = textures tc ++ [nt]
                 /\ resource_info nt = info tc
                 /\ Forall (fun s' => Textures.referenceCount s' = 0)
                      (subresources nt))
        /\ (canBeCycled tc = false \/ cycle = false
            \/ Textures.referenceCount s = 0 ->
            container_after q = tc /\ returned q = (ti, si))
        /\ (canBeCycled tc = true -> cycle = true -> native = true ->
            exists t s',
              textures (container_after q) !! (returned q).1 = Some t
              /\ subresources t !! (returned q).2 = Some s'
              /\ Textures.referenceCount s' = 0)).
Proof.
  intros Ha Hapos Hshape Hcounts Hfetch. split.
  - (* buffers *)
    destruct (cycle && (0 <? Buffers.referenceCount a)) eqn:Hcyc.
    + apply andb_true_iff in Hcyc as [-> Hin].
      pose proof (proj1 (Z.ltb_lt _ _) Hin) as Hin'.
      destruct (list_find (fun b => Buffers.referenceCount b = 0) (buffers bc))
        as [[i b] |] eqn:Hfind.
      * pose proof (proj1 (list_find_Some _ _ _ _) Hfind) as (Hi & Hb & Hfirst).
        destruct (prepare_buffer_settled renderer native bc
                    (set_activeBuffer bc i (buffers bc)) a true dest [] b Ha)
          as (p & Hp & Hret & Hact & Hlog & Hrc & b' & Hbufs & Hb' & Hrcb & _).
        { cbn. rewrite Hin. apply (cycle_buffer_reuses _ _ _ _ _ Hfind). }
        { exact Hi. }
        cbn in Hret, Hact, Hrc, Hb'.
        exists p. split; [exact Hp |]. split; [congruence |].
        split; [| split; [| split]].
        -- intros _ _ _. exists b. rewrite Hret. auto.
        -- intros _ _ Hnone _. exfalso. apply (Hnone b); [| exact Hb].
           apply list_elem_of_lookup. eauto.
        -- intros [Hc | Hz]; [discriminate | lia].
        -- intros _ _. exists b'. rewrite Hret. split; [exact Hb' | congruence].
      * pose proof (proj1 (find_unreferenced_buffer_None _) Hfind) as Hnone.
        destruct native.
        -- destruct (cycle_buffer_creates renderer bc Hfind)
             as (nb & Hcyc & Hnb & Husage & Hwidth & Htype & _).
           destruct (prepare_buffer_settled renderer true bc
                       (set_activeBuffer bc (length (buffers bc)) (buffers bc ++ [nb]))
                       a true dest [] nb Ha)
             as (p & Hp & Hret & Hact & Hlog & Hrc & b' & Hbufs & Hb' & Hrcb & Hu & Hw & Ht).
           { cbn. rewrite Hin. exact Hcyc. }
           { cbn. apply list_lookup_middle. reflexivity. }
           cbn in Hret, Hact, Hrc, Hb', Hbufs.
           exists p. split; [exact Hp |]. split; [congruence |].
           split; [| split; [| split]].
           ++ intros _ _ (b0 & Hb0 & Hz). exfalso. exact (Hnone b0 Hb0 Hz).
           ++ intros _ _ _ _. split; [exact Hret |]. exists b'.
              rewrite Hbufs. split.
              ** rewrite insert_app_r_alt by lia. rewrite Nat.sub_diag. reflexivity.
              ** repeat split; congruence.
           ++ intros [Hc | Hz]; [discriminate | lia].
           ++ intros _ _. exists b'. rewrite Hret. split; [exact Hb' | congruence].
        -- destruct (prepare_buffer_settled renderer false bc bc a true dest
                       [failed_buffer_cycle] a Ha)
             as (p & Hp & Hret & Hact & Hlog & Hrc & _).
           { cbn. rewrite Hin. apply (cycle_buffer_fails _ _ Hfind). }
           { exact Ha. }
           exists p. split; [exact Hp |]. split; [congruence |].
           split; [| split; [| split]].
           ++ intros _ _ (b0 & Hb0 & Hz). exfalso. exact (Hnone b0 Hb0 Hz).
           ++ intros _ _ _ Hn. discriminate.
           ++ intros [Hc | Hz]; [discriminate | lia].
           ++ intros _ Hn. discriminate.
    + destruct (prepare_buffer_settled renderer native bc bc a cycle dest [] a Ha)
        as (p & Hp & Hret & Hact & Hlog & Hrc & b' & Hbufs & Hb' & Hrcb & _).
      { rewrite Hcyc. reflexivity. }
      { exact Ha. }
      assert (Hidle : cycle = false \/ Buffers.referenceCount a = 0).
      { destruct cycle; [right | left; reflexivity].
        cbn in Hcyc. apply Z.ltb_ge in Hcyc. lia. }
      exists p. split; [exact Hp |]. split; [congruence |].
      split; [| split; [| split]].
      * intros Hc Hpos. destruct Hidle as [Hf | Hz]; [congruence | lia].
      * intros Hc Hpos. destruct Hidle as [Hf | Hz]; [congruence | lia].
      * intros _. split; [exact Hret | exact Hrc].
      * intros Hc _. destruct Hidle as [Hf | Hz]; [congruence |].
        exists b'. rewrite Hret. split; [exact Hb' | congruence].
  - (* textures *)
    pose proof (fetch_subresource_inv _ _ _ _ _ _ Hfetch) as (Hti & Hsi & t0 & Ht0 & Hs0).
    assert (Hspos : 0 <= Textures.referenceCount s).
    { rewrite Forall_forall in Hcounts.
      destruct (Hcounts t0) as [Hpos _]; [apply list_elem_of_lookup; eauto |].
      rewrite Forall_forall in Hpos. apply Hpos, list_elem_of_lookup. eauto. }
    destruct (texture_cycles tc cycle s) eqn:Hcyc.
    + pose proof Hcyc as Hyes. unfold texture_cycles in Hyes.
      apply andb_true_iff in Hyes as [Hyes Hin].
      apply andb_true_iff in Hyes as [Hcan ->].
      apply Z.ltb_lt in Hin.
      destruct (list_find (fun t => refCountTotal t = 0) (textures tc))
        as [[i t] |] eqn:Hfind.
      * pose proof (proj1 (list_find_Some _ _ _ _) Hfind) as (Hi & Ht & Hfirst).
        destruct (same_shape_lookup tc ti t0 si i t Hshape Ht0) as [s' Hs'];
          [eauto | exact Hi |].
        destruct (prepare_texture_reused renderer native tc layer level true dest
                    ti si s i t s' Hfetch Hcyc Hfind Hs') as (bars & Hq).
        eexists. split; [exact Hq |]. cbn. split; [reflexivity |].
        split; [| split; [| split]].
        -- intros _ _ _ _. exists t. auto.
        -- intros _ _ _ Hnone _. exfalso. apply (Hnone t); [| exact Ht].
           apply list_elem_of_lookup. eauto.
        -- intros [Hc | [Hc | Hz]]; [congruence | discriminate | lia].
        -- intros _ _ _. exists t, s'. split; [exact Hi |]. split; [exact Hs' |].
           assert (Hrange : counts_in_range t).
           { rewrite Forall_forall in Hcounts. apply Hcounts, list_elem_of_lookup. eauto. }
           pose proof (total_zero_unreferenced t Hrange Ht) as Hall.
           rewrite Forall_forall in Hall. apply Hall, list_elem_of_lookup. eauto.
      * pose proof (proj1 (find_unreferenced_texture_None _) Hfind) as Hnone.
        destruct native.
        -- destruct (same_shape_lookup_created tc ti t0 si Hshape Ht0) as (s' & Hs' & Hz');
             [eauto |].
           destruct (prepare_texture_created renderer tc layer level true dest
                       ti si s s' Hfetch Hcyc Hfind Hs') as (bars & nt & Hq & Hinfo & Hsubs).
           eexists. split; [exact Hq |]. cbn. split; [reflexivity |].
           split; [| split; [| split]].
           ++ intros _ _ _ (t & Ht & Hz). exfalso. exact (Hnone t Ht Hz).
           ++ intros _ _ _ _ _. split; [reflexivity |]. exists nt.
              split; [reflexivity |]. split; [exact Hinfo |].
              rewrite Hsubs. apply created_subresources_unreferenced.
           ++ intros [Hc | [Hc | Hz]]; [congruence | discriminate | lia].
           ++ intros _ _ _. exists nt, s'.
              split; [apply list_lookup_middle; reflexivity |].
              rewrite Hsubs. auto.
        -- destruct (prepare_texture_failed renderer tc layer level true dest
                       ti si s Hfetch Hcyc Hfind) as (bars & Hq).
           eexists. split; [exact Hq |]. cbn. split; [exact Hti |].
           split; [| split; [| split]].
           ++ intros _ _ _ (t & Ht & Hz). exfalso. exact (Hnone t Ht Hz).
           ++ intros _ _ _ _ Hn. discriminate.
           ++ intros [Hc | [Hc | Hz]]; [congruence | discriminate | lia].
           ++ intros _ _ Hn. discriminate.
    + destruct (prepare_texture_kept renderer native tc layer level cycle dest
                  ti si s Hfetch Hcyc) as (bars & Hq).
      assert (Hidle : canBeCycled tc = false \/ cycle = false
                      \/ Textures.referenceCount s = 0).
      { unfold texture_cycles in Hcyc.
        destruct (canBeCycled tc); [| left; reflexivity].
        destruct cycle; [| right; left; reflexivity].
        cbn in Hcyc. apply Z.ltb_ge in Hcyc. right; right. lia. }
      eexists. split; [exact Hq |]. cbn. split; [exact Hti |].
      split; [| split; [| split]].
      * intros Hc1 Hc2 Hpos. destruct Hidle as [H | [H | H]]; [congruence | congruence | lia].
      * intros Hc1 Hc2 Hpos. destruct Hidle as [H | [H | H]]; [congruence | congruence | lia].
      * intros _. split; reflexivity.
      * intros Hc1 Hc2 _. destruct Hidle as [H | [H | H]]; [congruence | congruence |].
        exists t0, s. cbn. auto.
Qed.

Lemma busy_texture_container_in_range cycles :
  same_shape (busy_texture_container cycles)
  /\ Forall counts_in_range (textures (busy_texture_container cycles)).
Proof.
  split.
  - unfold same_shape. cbn. repeat constructor.
  - cbn. repeat constructor; cbn; lia.
Qed.

Lemma prepare_for_write_cycles_witness :
  buffers busy_buffer_container !! activeBuffer busy_buffer_container
    = Some (vertex_buffer 1)
  /\ D3D12_INTERNAL_FetchTextureSubresource (busy_texture_container true) 0 0
     = Some (0%nat, 0%nat,
             {| layer := 0; level := 0; index := 0; Textures.referenceCount := 1 |})
  /\ (exists p b,
        D3D12_INTERNAL_PrepareBufferForWrite
          plain_renderer true busy_buffer_container true
          D3D12_RESOURCE_STATE_COPY_DEST = Some p
        /\ buffers (container_after p) !! returned p = Some b
        /\ Buffers.referenceCount b = 0)
  /\ (exists q t s',
        D3D12_INTERNAL_PrepareTextureSubresourceForWrite
          plain_renderer true (busy_texture_container true) 0 0 true
          D3D12_RESOURCE_STATE_COPY_DEST = Some q
        /\ textures (container_after q) !! (returned q).1 = Some t
        /\ subresources t !! (returned q).2 = Some s'
        /\ Textures.referenceCount s' = 0).
Proof.
  assert (Ha : buffers busy_buffer_container !! activeBuffer busy_buffer_container
               = Some (vertex_buffer 1)) by reflexivity.
  assert (Hf : D3D12_INTERNAL_FetchTextureSubresource (busy_texture_container true) 0 0
               = Some (0%nat, 0%nat,
                       {| layer := 0; level := 0; index := 0;
                          Textures.referenceCount := 1 |})) by reflexivity.
  assert (Hpos : 0 <= Buffers.referenceCount (vertex_buffer 1)) by (cbn; lia).
  destruct (busy_texture_container_in_range true) as [Hshape Hcounts].
  destruct (prepare_for_write_cycles plain_renderer true true
              D3D12_RESOURCE_STATE_COPY_DEST busy_buffer_container (vertex_buffer 1)
              (busy_texture_container true) 0 0 0%nat 0%nat _
              Ha Hpos Hshape Hcounts Hf)
    as [(p & Hp & _ & _ & _ & _ & Hb) (q & Hq & _ & _ & _ & _ & Ht)].
  split; [exact Ha |]. split; [exact Hf |]. split.
  - destruct Hb as (b & Hb1 & Hb2); [reflexivity | reflexivity |].
    exists p, b. auto.
  - destruct Ht as (t & s' & Ht1 & Ht2 & Ht3); [reflexivity | reflexivity | reflexivity |].
    exists q, t, s'. auto.
Defined.

(** C9.  When the scan finds no concrete resource with reference count
    zero and the creation of a new one fails, the cycle leaves the
    container exactly as it was and logs one error; the prepare-for-write
    call that asked for the cycle then returns the previous active
    resource, still in flight. *)
Theorem cycle_failure_is_atomic
    (renderer : Renderer) (dest : D3D12_RESOURCE_STATES)
    (bc : D3D12BufferContainer) (a : D3D12Buffer)
    (tc : D3D12TextureContainer) (layer level : Z)
    (ti si : nat) (s : D3D12TextureSubresource) :
  buffers bc !! activeBuffer bc = Some a ->
  0 < Buffers.referenceCount a ->
  (forall b, b ∈ buffers bc -> Buffers.referenceCount b <> 0) ->
  D3D12_INTERNAL_FetchTextureSubresource tc layer level = Some (ti, si, s) ->
  canBeCycled tc = true ->
  0 < Textures.referenceCount s ->
  (forall t, t ∈ textures tc -> refCountTotal t <> 0) ->
  D3D12_INTERNAL_CycleActiveBuffer renderer false bc = (bc, [failed_buffer_cycle])
  /\ (exists p,
        D3D12_INTERNAL_PrepareBufferForWrite renderer false bc true dest = Some p
        /\ returned p = activeBuffer bc
        /\ activeBuffer (container_after p) = activeBuffer bc
        /\ Buffers.referenceCount <$> buffers (container_after p)
           = Buffers.referenceCount <$> buffers bc
        /\ logged p = [failed_buffer_cycle]
        /\ exists b, buffers (container_after p) !! returned p = Some b
                     /\ 0 < Buffers.referenceCount b)
  /\ D3D12_INTERNAL_CycleActiveTexture renderer false tc = (tc, [failed_texture_cycle])
  /\ (exists q,
        D3D12_INTERNAL_PrepareTextureSubresourceForWrite
          renderer false tc layer level true dest = Some q
        /\ container_after q = tc
        /\ returned q = (ti, si)
        /\ logged q = [failed_texture_cycle]).
Proof.
  intros Ha Hin Hbusy Hfetch Hcan Hsin Htbusy.
  pose proof (proj2 (find_unreferenced_buffer_None _) Hbusy) as Hfind.
  pose proof (proj2 (find_unreferenced_texture_None _) Htbusy) as Htfind.
  split; [apply cycle_buffer_fails; exact Hfind |].
  split; [| split; [apply cycle_texture_fails; exact Htfind |]].
  - destruct (prepare_buffer_settled renderer false bc bc a true dest
                [failed_buffer_cycle] a Ha)
      as (p & Hp & Hret & Hact & Hlog & Hrc & b' & _ & Hb' & Hrcb & _).
    { cbn. rewrite (proj2 (Z.ltb_lt _ _) Hin). apply cycle_buffer_fails. exact Hfind. }
    { exact Ha. }
    exists p. repeat (split; [assumption |]).
    exists b'. rewrite Hret. split; [exact Hb' | lia].
  - assert (Hcyc : texture_cycles tc true s = true).
    { unfold texture_cycles. rewrite Hcan. cbn. apply Z.ltb_lt. exact Hsin. }
    destruct (prepare_texture_failed renderer tc layer level true dest
                ti si s Hfetch Hcyc Htfind) as (bars & Hq).
    eexists. split; [exact Hq |]. cbn. auto.
Qed.

Lemma cycle_failure_is_atomic_witness :
  (exists p,
     D3D12_INTERNAL_PrepareBufferForWrite
       plain_renderer false busy_buffer_container true
       D3D12_RESOURCE_STATE_COPY_DEST = Some p
     /\ returned p = 0%nat
     /\ logged p = [failed_buffer_cycle])
  /\ (exists q,
        D3D12_INTERNAL_PrepareTextureSubresourceForWrite
          plain_renderer false (busy_texture_container true) 0 0 true
          D3D12_RESOURCE_STATE_RENDER_TARGET = Some q
        /\ container_after q = busy_texture_container true
        /\ returned q = (0%nat, 0%nat)).
Proof.
  destruct (cycle_failure_is_atomic plain_renderer D3D12_RESOURCE_STATE_COPY_DEST
              busy_buffer_container (vertex_buffer 1)
              (busy_texture_container true) 0 0 0%nat 0%nat
              {| layer := 0; level := 0; index := 0; Textures.referenceCount := 1 |})
    as (_ & (p & Hp & Hret & _ & _ & Hlog & _) & _ & _).
  - reflexivity.
  - cbn. lia.
  - intros b Hb. apply list_elem_of_singleton in Hb. subst b. cbn. lia.
  - reflexivity.
  - reflexivity.
  - cbn. lia.
  - intros t Ht. apply list_elem_of_singleton in Ht. subst t. cbn. discriminate.
  - split.
    + exists p. auto.
    + eexists. split; [reflexivity |]. auto.
Defined.

End Cycling.

(** ** Beginning a render pass *)

Module RenderPass.

Inductive SDL_GpuLoadOp : Type :=
  | SDL_GPU_LOADOP_LOAD
  | SDL_GPU_LOADOP_CLEAR
  | SDL_GPU_LOADOP_DONT_CARE.

#[global] Instance SDL_GpuLoadOp_eq_dec : EqDecision SDL_GpuLoadOp.
Proof. solve_decision. Defined.

(** A C [float], held by its bit pattern. *)
Definition float : Type := Z.

(** [texture] is the handle of a texture container: its key in the
    store of containers. *)
Record SDL_GpuTextureSlice : Type := mkSlice {
  texture : nat;
  mipLevel : Z;
  layer : Z
}.

Record SDL_GpuColor : Type := mkColor { r : float; g : float; b : float; a : float }.

Record SDL_GpuColorAttachmentInfo : Type := mkColorInfo {
  textureSlice : SDL_GpuTextureSlice;
  clearColor : SDL_GpuColor;
  loadOp : SDL_GpuLoadOp;
  cycle : bool
}.

Record SDL_GpuDepthStencilValue : Type := mkDepthStencilValue {
  depth : float;
  stencil : Z
}.

(** [SDL_GpuDepthStencilAttachmentInfo]; [depthTextureSlice],
    [depthLoadOp] and [depthCycle] are its [textureSlice], [loadOp]
    and [cycle]. *)
Record SDL_GpuDepthStencilAttachmentInfo : Type := mkDepthInfo {
  depthTextureSlice : SDL_GpuTextureSlice;
  depthStencilClearValue : SDL_GpuDepthStencilValue;
  depthLoadOp : SDL_GpuLoadOp;
  stencilLoadOp : SDL_GpuLoadOp;
  depthCycle : bool
}.

Definition D3D12_CLEAR_FLAG_DEPTH : Z := 0x1.
Definition D3D12_CLEAR_FLAG_STENCIL : Z := 0x2.

(** A pointer to a [D3D12TextureSubresource]: container handle,
    position of the concrete texture, position in its array.  The
    sub-resource's RTV and DSV handles are named by the same triple. *)
Definition subresource_ref : Type := (nat * nat * nat)%type.

(** The native calls on the graphics command list. *)
Inductive command : Type :=
  | ResourceBarrier (texture : nat) (pBarriers : list D3D12_RESOURCE_BARRIER)
  | ClearRenderTargetView (rtv : subresource_ref) (clearColor : SDL_GpuColor)
  | ClearDepthStencilView (dsv : subresource_ref) (clearFlags : Z)
      (depth : float) (stencil : Z)
  | OMSetRenderTargets (rtvs : list subresource_ref) (dsv : option subresource_ref)
  | RSSetViewports (TopLeftX TopLeftY Width Height MinDepth MaxDepth : Z)
  | RSSetScissorRects (left top right bottom : Z).

(** The fields of [struct D3D12CommandBuffer] a render pass begins
    with; [colorAttachmentTextureSubresources] holds the first
    [colorAttachmentCount] entries of the array. *)
Record D3D12CommandBuffer : Type := mkCommandBuffer {
  colorAttachmentCount : Z;
  colorAttachmentTextureSubresources : list subresource_ref;
  depthStencilTextureSubresource : option subresource_ref;
  usedTextureSubresources : list subresource_ref;
  graphicsCommandList : list command
}.

Record state : Type := mkState {
  textureStore : gmap nat Textures.D3D12TextureContainer;
  commandBuffer : D3D12CommandBuffer;
  errors : list string
}.

Definition record (cs : list command) (st : state) : state :=
  let cb := commandBuffer st in
  {| textureStore := textureStore st;
     commandBuffer :=
       {| colorAttachmentCount := colorAttachmentCount cb;
          colorAttachmentTextureSubresources := colorAttachmentTextureSubresources cb;
          depthStencilTextureSubresource := depthStencilTextureSubresource cb;
          usedTextureSubresources := usedTextureSubresources cb;
          graphicsCommandList := graphicsCommandList cb ++ cs |};
     errors := errors st |}.

(** [SDL_AtomicIncRef] on the count of the sub-resource at [s]. *)
Definition increment_reference (s : subresource_ref)
    (store : gmap nat Textures.D3D12TextureContainer)
  : gmap nat Textures.D3D12TextureContainer :=
  alter
    (fun c =>
       Textures.set_activeTexture c (Textures.activeTexture c)
         (alter
            (fun t =>
               {| Textures.resource_info := Textures.resource_info t;
                  Textures.resource_name := Textures.resource_name t;
                  Textures.containerIndex := Textures.containerIndex t;
                  Textures.subresources :=
                    alter
                      (fun x =>
                         {| Textures.layer := Textures.layer x;
                            Textures.level := Textures.level x;
                            Textures.index := Textures.index x;
                            Textures.referenceCount :=
                              Textures.referenceCount x + 1 |})
                      s.2 (Textures.subresources t) |})
            s.1.2 (Textures.textures c)))
    s.1.1 store.

(** [D3D12_INTERNAL_TrackTextureSubresource]. *)
Definition D3D12_INTERNAL_TrackTextureSubresource
    (st : state) (textureSubresource : subresource_ref) : state :=
  let cb := commandBuffer st in
  if bool_decide (textureSubresource ∈ usedTextureSubresources cb) then st
  else
    {| textureStore := increment_reference textureSubresource (textureStore st);
       commandBuffer :=
         {| colorAttachmentCount := colorAttachmentCount cb;
            colorAttachmentTextureSubresources :=
              colorAttachmentTextureSubresources cb;
            depthStencilTextureSubresource := depthStencilTextureSubresource cb;
            usedTextureSubresources :=
              usedTextureSubresources cb ++ [textureSubresource];
            graphicsCommandList := graphicsCommandList cb |};
       errors := errors st |}.

(** The call of [ID3D12GraphicsCommandList_ResourceBarrier], made
    only for a non-empty array. *)
Definition barrier_commands (texture : nat) (bs : list D3D12_RESOURCE_BARRIER)
  : list command :=
  match bs with [] => [] | _ => [ResourceBarrier texture bs] end.

(** One round of the loop over the color attachments (the layout
    transitions). *)
Definition begin_color_attachment
    (renderer : Buffers.Renderer) (native : bool) (st : state)
    (info : SDL_GpuColorAttachmentInfo) : option state :=
  let cycle :=
    if decide (loadOp info = SDL_GPU_LOADOP_LOAD) then false else cycle info in
  let handle := texture (textureSlice info) in
  container ← textureStore st !! handle;
  p ← Textures.D3D12_INTERNAL_PrepareTextureSubresourceForWrite
        renderer native container
        (layer (textureSlice info)) (mipLevel (textureSlice info))
        cycle D3D12_RESOURCE_STATE_RENDER_TARGET;
  let subresource : subresource_ref := (handle, (returned p).1, (returned p).2) in
  let cb := commandBuffer st in
  let st :=
    {| textureStore := <[handle := container_after p]> (textureStore st);
       commandBuffer :=
         {| colorAttachmentCount := colorAttachmentCount cb;
            colorAttachmentTextureSubresources :=
              colorAttachmentTextureSubresources cb ++ [subresource];
            depthStencilTextureSubresource := depthStencilTextureSubresource cb;
            usedTextureSubresources := usedTextureSubresources cb;
            graphicsCommandList :=
              graphicsCommandList cb
              ++ barrier_commands handle (barriers p)
              ++ (if decide (loadOp info = SDL_GPU_LOADOP_CLEAR)
                  then [ClearRenderTargetView subresource (clearColor info)]
                  else []) |};
       errors := errors st ++ logged p |} in
  Some (D3D12_INTERNAL_TrackTextureSubresource st subresource).

Definition depth_clear_flags (info : SDL_GpuDepthStencilAttachmentInfo) : Z :=
  Z.lor
    (if decide (depthLoadOp info = SDL_GPU_LOADOP_LOAD)
     then D3D12_CLEAR_FLAG_DEPTH else 0)
    (if decide (stencilLoadOp info = SDL_GPU_LOADOP_LOAD)
     then D3D12_CLEAR_FLAG_STENCIL else 0).

(** The depth-stencil attachment. *)
Definition begin_depth_stencil_attachment
    (renderer : Buffers.Renderer) (native : bool) (st : state)
    (info : SDL_GpuDepthStencilAttachmentInfo) : option state :=
  let cycle :=
    if bool_decide (depthLoadOp info = SDL_GPU_LOADOP_LOAD
                    \/ stencilLoadOp info = SDL_GPU_LOADOP_LOAD)
    then false else depthCycle info in
  let handle := texture (depthTextureSlice info) in
  container ← textureStore st !! handle;
  p ← Textures.D3D12_INTERNAL_PrepareTextureSubresourceForWrite
        renderer native container
        (layer (depthTextureSlice info)) (mipLevel (depthTextureSlice info))
        cycle D3D12_RESOURCE_STATE_DEPTH_WRITE;
  let subresource : subresource_ref := (handle, (returned p).1, (returned p).2) in
  let cb := commandBuffer st in
  let st :=
    {| textureStore := <[handle := container_after p]> (textureStore st);
       commandBuffer :=
         {| colorAttachmentCount := colorAttachmentCount cb;
            colorAttachmentTextureSubresources :=
              colorAttachmentTextureSubresources cb;
            depthStencilTextureSubresource := Some subresource;
            usedTextureSubresources := usedTextureSubresources cb;
            graphicsCommandList :=
              graphicsCommandList cb
              ++ barrier_commands handle (barriers p)
              ++ (if bool_decide (depthLoadOp info = SDL_GPU_LOADOP_LOAD
                                  \/ stencilLoadOp info = SDL_GPU_LOADOP_LOAD)
                  then [ClearDepthStencilView subresource (depth_clear_flags info)
                          (depth (depthStencilClearValue info))
                          (stencil (depthStencilClearValue info))]
                  else []) |};
       errors := errors st ++ logged p |} in
  Some (D3D12_INTERNAL_TrackTextureSubresource st subresource).

Fixpoint begin_color_attachments
    (renderer : Buffers.Renderer) (native : nat -> bool) (i : nat) (st : state)
    (infos : list SDL_GpuColorAttachmentInfo) : option state :=
  match infos with
  | [] => Some st
  | info :: rest =>
      st ← begin_color_attachment renderer (native i) st info;
      begin_color_attachments renderer native (S i) st rest
  end.

(** The outcome of the checks that open [D3D12_BeginRenderPass]. *)
Inductive checked : Type :=
  | Rejected (msg : string)
  | Accepted (framebufferWidth framebufferHeight : Z).

Definition not_a_color_target : string :=
  "Color attachment texture was not designated as a color target!".
Definition not_a_depth_target : string :=
  "Depth stencil attachment texture was not designated as a depth target!".

(** The framebuffer cannot be larger than the smallest attachment. *)
Definition shrink_framebuffer (container : Textures.D3D12TextureContainer)
    (mipLevel framebufferWidth framebufferHeight : Z) : Z * Z :=
  let h := Z.shiftr (Textures.height (Textures.info container)) mipLevel in
  let w := Z.shiftr (Textures.width (Textures.info container)) mipLevel in
  (if w <? framebufferWidth then w else framebufferWidth,
   if h <? framebufferHeight then h else framebufferHeight).

Fixpoint check_color_attachments
    (store : gmap nat Textures.D3D12TextureContainer)
    (infos : list SDL_GpuColorAttachmentInfo)
    (framebufferWidth framebufferHeight : Z) : option checked :=
  match infos with
  | [] => Some (Accepted framebufferWidth framebufferHeight)
  | info :: rest =>
      container ← store !! texture (textureSlice info);
      let '(w, h) :=
        shrink_framebuffer container (mipLevel (textureSlice info))
          framebufferWidth framebufferHeight in
      if has_flag (Textures.usageFlags (Textures.info container))
           SDL_GPU_TEXTUREUSAGE_COLOR_TARGET_BIT
      then check_color_attachments store rest w h
      else Some (Rejected not_a_color_target)
  end.

Definition check_depth_stencil_attachment
    (store : gmap nat Textures.D3D12TextureContainer)
    (info : option SDL_GpuDepthStencilAttachmentInfo)
    (framebufferWidth framebufferHeight : Z) : option checked :=
  match info with
  | None => Some (Accepted framebufferWidth framebufferHeight)
  | Some info =>
      container ← store !! texture (depthTextureSlice info);
      let '(w, h) :=
        shrink_framebuffer container (mipLevel (depthTextureSlice info))
          framebufferWidth framebufferHeight in
      if has_flag (Textures.usageFlags (Textures.info container))
           SDL_GPU_TEXTUREUSAGE_DEPTH_STENCIL_TARGET_BIT
      then Some (Accepted w h)
      else Some (Rejected not_a_depth_target)
  end.

Definition log_error (msg : string) (st : state) : state :=
  {| textureStore := textureStore st;
     commandBuffer := commandBuffer st;
     errors := errors st ++ [msg] |}.

(** [D3D12_BeginRenderPass].  [native i] is the outcome of the
    creation that preparing attachment [i] may ask for, the
    depth-stencil attachment counted after the color attachments. *)
Definition D3D12_BeginRenderPass
    (renderer : Buffers.Renderer) (native : nat -> bool) (st : state)
    (colorAttachmentInfos : list SDL_GpuColorAttachmentInfo)
    (depthStencilAttachmentInfo : option SDL_GpuDepthStencilAttachmentInfo)
  : option state :=
  c ← check_color_attachments (textureStore st) colorAttachmentInfos
        SDL_MAX_UINT32 SDL_MAX_UINT32;
  match c with
  | Rejected msg => Some (log_error msg st)
  | Accepted w h =>
      d ← check_depth_stencil_attachment (textureStore st)
            depthStencilAttachmentInfo w h;
      match d with
      | Rejected msg => Some (log_error msg st)
      | Accepted framebufferWidth framebufferHeight =>
          (* Layout transitions *)
          let cb := commandBuffer st in
          let st :=
            {| textureStore := textureStore st;
               commandBuffer :=
                 {| colorAttachmentCount :=
                      Z.of_nat (length colorAttachmentInfos);
                    colorAttachmentTextureSubresources := [];
                    depthStencilTextureSubresource :=
                      depthStencilTextureSubresource cb;
                    usedTextureSubresources := usedTextureSubresources cb;
                    graphicsCommandList := graphicsCommandList cb |};
               errors := errors st |} in
          st ← begin_color_attachments renderer native 0 st colorAttachmentInfos;
          st ← match depthStencilAttachmentInfo with
               | None => Some st
               | Some info =>
                   begin_depth_stencil_attachment renderer
                     (native (length colorAttachmentInfos)) st info
               end;
          Some (record
                  [ OMSetRenderTargets
                      (colorAttachmentTextureSubresources (commandBuffer st))
                      (match depthStencilAttachmentInfo with
                       | None => None
                       | Some _ => depthStencilTextureSubresource (commandBuffer st)
                       end);
                    (* Set sensible default viewport state *)
                    RSSetViewports 0 0 framebufferWidth framebufferHeight 0 1;
                    RSSetScissorRects 0 0
                      (s32 framebufferWidth) (s32 framebufferHeight) ]
                  st)
      end
  end.

(** The clears a command list holds. *)
Definition is_clear (c : command) : bool :=
  match c with
  | ClearRenderTargetView _ _ | ClearDepthStencilView _ _ _ _ => true
  | _ => false
  end.

Definition clears (st : state) : list command :=
  List.filter is_clear (graphicsCommandList (commandBuffer st)).

Lemma clears_barrier_commands texture bs :
  List.filter is_clear (barrier_commands texture bs) = [].
Proof. destruct bs; reflexivity. Qed.

Lemma clears_track st s :
  clears (D3D12_INTERNAL_TrackTextureSubresource st s) = clears st.
Proof.
  unfold D3D12_INTERNAL_TrackTextureSubresource.
  destruct (bool_decide _); reflexivity.
Qed.

(** The color half of C6 holds for every color attachment: the round
    for an attachment adds one [ClearRenderTargetView], with the
    attachment's clear color, when its [loadOp] is CLEAR, and adds no
    clear otherwise. *)
Lemma color_attachment_clear_iff_loadop_clear renderer native st info st' :
  begin_color_attachment renderer native st info = Some st' ->
  exists subresource,
    clears st'
    = clears st
      ++ (if decide (loadOp info = SDL_GPU_LOADOP_CLEAR)
          then [ClearRenderTargetView subresource (clearColor info)] else []).
Proof.
  unfold begin_color_attachment. intros H.
  destruct (textureStore st !! _) as [container |]; [| discriminate]. cbn in H.
  destruct (Textures.D3D12_INTERNAL_PrepareTextureSubresourceForWrite _ _ _ _ _ _ _)
    as [p |]; [| discriminate].
  cbn in H. injection H as <-. eexists. rewrite clears_track.
  unfold clears. cbn. rewrite !List.filter_app, clears_barrier_commands.
  destruct (decide (loadOp info = SDL_GPU_LOADOP_CLEAR)); reflexivity.
Qed.

(** What the code does for the depth-stencil attachment: it clears when
    either load op is LOAD, with the flag of each aspect whose load op
    is LOAD. *)
Lemma depth_stencil_clear_follows_load renderer native st info st' :
  begin_depth_stencil_attachment renderer native st info = Some st' ->
  exists subresource,
    clears st'
    = clears st
      ++ (if bool_decide (depthLoadOp info = SDL_GPU_LOADOP_LOAD
                          \/ stencilLoadOp info = SDL_GPU_LOADOP_LOAD)
          then [ClearDepthStencilView subresource (depth_clear_flags info)
                  (depth (depthStencilClearValue info))
                  (stencil (depthStencilClearValue info))]
          else []).
Proof.
  unfold begin_depth_stencil_attachment. intros H.
  destruct (textureStore st !! _) as [container |]; [| discriminate]. cbn in H.
  destruct (Textures.D3D12_INTERNAL_PrepareTextureSubresourceForWrite _ _ _ _ _ _ _)
    as [p |]; [| discriminate].
  cbn in H. injection H as <-. eexists. rewrite clears_track.
  unfold clears. cbn. rewrite !List.filter_app, clears_barrier_commands.
  destruct (bool_decide _); reflexivity.
Qed.

(** *** A pass over one color target and one depth-stencil target *)

Definition depth_container : Textures.D3D12TextureContainer :=
  let createInfo :=
    {| Textures.width := 64; Textures.height := 64; Textures.depth := 1;
       Textures.isCube := false;
       Textures.layerCount := 1; Textures.levelCount := 1;
       Textures.usageFlags := SDL_GPU_TEXTUREUSAGE_DEPTH_STENCIL_TARGET_BIT |} in
  {| Textures.info := createInfo;
     Textures.activeTexture := 0;
     Textures.textures :=
       [ {| Textures.resource_info := createInfo;
            Textures.resource_name := None;
            Textures.containerIndex := 0;
            Textures.subresources := Textures.create_subresources createInfo |} ];
     Textures.canBeCycled := true;
     Textures.debugName := None |}.

Definition color_container : Textures.D3D12TextureContainer :=
  {| Textures.info := Cycling.target_info;
     Textures.activeTexture := 0;
     Textures.textures := [Cycling.target_texture 0];
     Textures.canBeCycled := true;
     Textures.debugName := None |}.

(** Texture 3 is the color target, texture 7 the depth-stencil target;
    nothing is recorded yet. *)
Definition fresh_pass : state :=
  {| textureStore := <[3%nat := color_container]> {[7%nat := depth_container]};
     commandBuffer :=
       {| colorAttachmentCount := 0;
          colorAttachmentTextureSubresources := [];
          depthStencilTextureSubresource := None;
          usedTextureSubresources := [];
          graphicsCommandList := [] |};
     errors := [] |}.

Definition color_attachment (op : SDL_GpuLoadOp) : SDL_GpuColorAttachmentInfo :=
  {| textureSlice := {| texture := 3; mipLevel := 0; layer := 0 |};
     clearColor := {| r := 0; g := 0; b := 0; a := 0x3F800000 |};
     loadOp := op;
     cycle := false |}.

Definition depth_attachment (op stencilOp : SDL_GpuLoadOp)
  : SDL_GpuDepthStencilAttachmentInfo :=
  {| depthTextureSlice := {| texture := 7; mipLevel := 0; layer := 0 |};
     depthStencilClearValue := {| depth := 0x3F800000; stencil := 0 |};
     depthLoadOp := op;
     stencilLoadOp := stencilOp;
     depthCycle := false |}.

Example begin_render_pass_records :
  (fun st => graphicsCommandList (commandBuffer st))
    <$> D3D12_BeginRenderPass Cycling.plain_renderer (fun _ => true) fresh_pass
          [color_attachment SDL_GPU_LOADOP_CLEAR] None
  = Some [ ClearRenderTargetView (3%nat, 0%nat, 0%nat)
             {| r := 0; g := 0; b := 0; a := 0x3F800000 |};
           OMSetRenderTargets [(3%nat, 0%nat, 0%nat)] None;
           RSSetViewports 0 0 64 64 0 1;
           RSSetScissorRects 0 0 64 64 ].
Proof. vm_compute. reflexivity. Qed.

(** C6 at the depth-stencil attachment.  With the depth load op LOAD
    and the stencil load op DONT_CARE the pass records a
    [ClearDepthStencilView] with the depth flag, where C6 has no clear;
    with both load ops CLEAR it records no clear, where C6 has a clear
    with both flags. *)
Theorem begin_render_pass_depth_clear_on_load :
  clears <$> D3D12_BeginRenderPass Cycling.plain_renderer (fun _ => true) fresh_pass
               [] (Some (depth_attachment SDL_GPU_LOADOP_LOAD SDL_GPU_LOADOP_DONT_CARE))
  = Some [ClearDepthStencilView (7%nat, 0%nat, 0%nat) D3D12_CLEAR_FLAG_DEPTH
            0x3F800000 0]
  /\ clears <$> D3D12_BeginRenderPass Cycling.plain_renderer (fun _ => true) fresh_pass
                  [] (Some (depth_attachment SDL_GPU_LOADOP_CLEAR SDL_GPU_LOADOP_CLEAR))
     = Some [].
Proof. split; vm_compute; reflexivity. Qed.

End RenderPass.

(** ** The uniform-buffer sub-allocator *)

Module Uniform.

(** [SDL_GpuShaderStage], with the backend's own
    [SDL_GPU_SHADERSTAGE_COMPUTE]. *)
Inductive SDL_GpuShaderStage : Type :=
  | SDL_GPU_SHADERSTAGE_VERTEX
  | SDL_GPU_SHADERSTAGE_FRAGMENT
  | SDL_GPU_SHADERSTAGE_COMPUTE.

#[global] Instance SDL_GpuShaderStage_eq_dec : EqDecision SDL_GpuShaderStage.
Proof. solve_decision. Defined.

(** [struct D3D12Buffer] of a uniform buffer.  [handle_Width] is the
    width of the native resource and [memory] its memory, the bytes
    written so far by offset, which [mapPointer] addresses when it is
    not NULL ([mapPointer] is [true]). *)
Record D3D12Buffer : Type := mkBuffer {
  handle_Width : Z;
  virtualAddress : Z;
  mapPointer : bool;
  referenceCount : Z;
  memory : gmap Z Byte.byte
}.

(** [struct D3D12UniformBuffer]; [buffer] points to a [D3D12Buffer]. *)
Record D3D12UniformBuffer : Type := mkUniformBuffer {
  buffer : nat;
  writeOffset : Z;
  drawOffset : Z;
  currentBlockSize : Z
}.

(** The fields of [struct D3D12GraphicsPipeline] binding reads, with
    the handle and the root indices of its root signature. *)
Record D3D12GraphicsPipeline : Type := mkPipeline {
  pipelineState : nat;
  rootSignature_handle : nat;
  primitiveType : Z;
  stencilRef : Z;
  vertexUniformBufferCount : Z;
  fragmentUniformBufferCount : Z;
  vertexUniformBufferRootIndex : list Z;
  fragmentUniformBufferRootIndex : list Z
}.

(** The native calls on the command list and the queue. *)
Inductive command : Type :=
  | SetPipelineState (pipelineState : nat)
  | SetGraphicsRootSignature (rootSignature : nat)
  | IASetPrimitiveTopology (primitiveType : Z)
  | OMSetBlendFactor
  | OMSetStencilRef (stencilRef : Z)
  | SetGraphicsRootConstantBufferView (RootParameterIndex BufferLocation : Z)
  | SetGraphicsRootDescriptorTable (RootParameterIndex BaseDescriptor : Z)
  | DrawInstanced (VertexCountPerInstance InstanceCount
                   StartVertexLocation StartInstanceLocation : Z)
  | Close
  | ExecuteCommandLists.

(** The objects and the fields of [struct D3D12Renderer] and
    [struct D3D12CommandBuffer] that pushing, binding and drawing
    touch.  [buffers] and [uniformBuffers] hold the allocated objects
    by address; [uniformBufferPool] is the renderer's pool array up to
    its count; [nativeCalls] counts the native calls whose outcome the
    driver decides. *)
Record state : Type := mkState {
  buffers : gmap nat D3D12Buffer;
  uniformBuffers : gmap nat D3D12UniformBuffer;
  uniformBufferPool : list nat;
  nativeCalls : nat;
  vertexUniformBuffers : list (option nat);
  fragmentUniformBuffers : list (option nat);
  computeUniformBuffers : list (option nat);
  needVertexUniformBufferBind : list bool;
  needFragmentUniformBufferBind : list bool;
  needComputeUniformBufferBind : list bool;
  usedUniformBuffers : list nat;
  usedBuffers : list nat;
  currentGraphicsPipeline : option D3D12GraphicsPipeline;
  graphicsCommandList : list command;
  errors : list string
}.

Definition set_buffers (v : gmap nat D3D12Buffer) (s : state) : state :=
  mkState v (uniformBuffers s) (uniformBufferPool s) (nativeCalls s)
    (vertexUniformBuffers s) (fragmentUniformBuffers s) (computeUniformBuffers s)
    (needVertexUniformBufferBind s) (needFragmentUniformBufferBind s)
    (needComputeUniformBufferBind s) (usedUniformBuffers s) (usedBuffers s)
    (currentGraphicsPipeline s) (graphicsCommandList s) (errors s).

Definition set_uniformBuffers (v : gmap nat D3D12UniformBuffer) (s : state) : state :=
  mkState (buffers s) v (uniformBufferPool s) (nativeCalls s)
    (vertexUniformBuffers s) (fragmentUniformBuffers s) (computeUniformBuffers s)
    (needVertexUniformBufferBind s) (needFragmentUniformBufferBind s)
    (needComputeUniformBufferBind s) (usedUniformBuffers s) (usedBuffers s)
    (currentGraphicsPipeline s) (graphicsCommandList s) (errors s).

Definition set_uniformBufferPool (v : list nat) (s : state) : state :=
  mkState (buffers s) (uniformBuffers s) v (nativeCalls s)
    (vertexUniformBuffers s) (fragmentUniformBuffers s) (computeUniformBuffers s)
    (needVertexUniformBufferBind s) (needFragmentUniformBufferBind s)
    (needComputeUniformBufferBind s) (usedUniformBuffers s) (usedBuffers s)
    (currentGraphicsPipeline s) (graphicsCommandList s) (errors s).

Definition count_native_call (s : state) : state :=
  mkState (buffers s) (uniformBuffers s) (uniformBufferPool s) (S (nativeCalls s))
    (vertexUniformBuffers s) (fragmentUniformBuffers s) (computeUniformBuffers s)
    (needVertexUniformBufferBind s) (needFragmentUniformBufferBind s)
    (needComputeUniformBufferBind s) (usedUniformBuffers s) (usedBuffers s)
    (currentGraphicsPipeline s) (graphicsCommandList s) (errors s).

Definition set_used (u : list nat) (b : list nat) (s : state) : state :=
  mkState (buffers s) (uniformBuffers s) (uniformBufferPool s) (nativeCalls s)
    (vertexUniformBuffers s) (fragmentUniformBuffers s) (computeUniformBuffers s)
    (needVertexUniformBufferBind s) (needFragmentUniformBufferBind s)
    (needComputeUniformBufferBind s) u b
    (currentGraphicsPipeline s) (graphicsCommandList s) (errors s).

Definition set_currentGraphicsPipeline (p : option D3D12GraphicsPipeline)
    (s : state) : state :=
  mkState (buffers s) (uniformBuffers s) (uniformBufferPool s) (nativeCalls s)
    (vertexUniformBuffers s) (fragmentUniformBuffers s) (computeUniformBuffers s)
    (needVertexUniformBufferBind s) (needFragmentUniformBufferBind s)
    (needComputeUniformBufferBind s) (usedUniformBuffers s) (usedBuffers s)
    p (graphicsCommandList s) (errors s).

Definition record (cs : list command) (s : state) : state :=
  mkState (buffers s) (uniformBuffers s) (uniformBufferPool s) (nativeCalls s)
    (vertexUniformBuffers s) (fragmentUniformBuffers s) (computeUniformBuffers s)
    (needVertexUniformBufferBind s) (needFragmentUniformBufferBind s)
    (needComputeUniformBufferBind s) (usedUniformBuffers s) (usedBuffers s)
    (currentGraphicsPipeline s) (graphicsCommandList s ++ cs) (errors s).

(** The slot array of a stage, and the array of its rebind flags. *)
Definition slots (s : state) (stage : SDL_GpuShaderStage) : list (option nat) :=
  match stage with
  | SDL_GPU_SHADERSTAGE_VERTEX => vertexUniformBuffers s
  | SDL_GPU_SHADERSTAGE_FRAGMENT => fragmentUniformBuffers s
  | SDL_GPU_SHADERSTAGE_COMPUTE => computeUniformBuffers s
  end.

Definition needs (s : state) (stage : SDL_GpuShaderStage) : list bool :=
  match stage with
  | SDL_GPU_SHADERSTAGE_VERTEX => needVertexUniformBufferBind s
  | SDL_GPU_SHADERSTAGE_FRAGMENT => needFragmentUniformBufferBind s
  | SDL_GPU_SHADERSTAGE_COMPUTE => needComputeUniformBufferBind s
  end.

Definition set_slots (stage : SDL_GpuShaderStage) (v : list (option nat))
    (s : state) : state :=
  mkState (buffers s) (uniformBuffers s) (uniformBufferPool s) (nativeCalls s)
    (if decide (stage = SDL_GPU_SHADERSTAGE_VERTEX) then v else vertexUniformBuffers s)
    (if decide (stage = SDL_GPU_SHADERSTAGE_FRAGMENT) then v
     else fragmentUniformBuffers s)
    (if decide (stage = SDL_GPU_SHADERSTAGE_COMPUTE) then v
     else computeUniformBuffers s)
    (needVertexUniformBufferBind s) (needFragmentUniformBufferBind s)
    (needComputeUniformBufferBind s) (usedUniformBuffers s) (usedBuffers s)
    (currentGraphicsPipeline s) (graphicsCommandList s) (errors s).

Definition set_needs (stage : SDL_GpuShaderStage) (v : list bool)
    (s : state) : state :=
  mkState (buffers s) (uniformBuffers s) (uniformBufferPool s) (nativeCalls s)
    (vertexUniformBuffers s) (fragmentUniformBuffers s) (computeUniformBuffers s)
    (if decide (stage = SDL_GPU_SHADERSTAGE_VERTEX) then v
     else needVertexUniformBufferBind s)
    (if decide (stage = SDL_GPU_SHADERSTAGE_FRAGMENT) then v
     else needFragmentUniformBufferBind s)
    (if decide (stage = SDL_GPU_SHADERSTAGE_COMPUTE) then v
     else needComputeUniformBufferBind s)
    (usedUniformBuffers s) (usedBuffers s)
    (currentGraphicsPipeline s) (graphicsCommandList s) (errors s).

Lemma slots_set_slots stage stage' v s :
  slots (set_slots stage v s) stage' = if decide (stage' = stage) then v else slots s stage'.
Proof. destruct stage, stage'; reflexivity. Qed.

Lemma needs_set_needs stage stage' v s :
  needs (set_needs stage v s) stage' = if decide (stage' = stage) then v else needs s stage'.
Proof. destruct stage, stage'; reflexivity. Qed.

Definition log_error (msg : string) (s : state) : state :=
  mkState (buffers s) (uniformBuffers s) (uniformBufferPool s) (nativeCalls s)
    (vertexUniformBuffers s) (fragmentUniformBuffers s) (computeUniformBuffers s)
    (needVertexUniformBufferBind s) (needFragmentUniformBufferBind s)
    (needComputeUniformBufferBind s) (usedUniformBuffers s) (usedBuffers s)
    (currentGraphicsPipeline s) (graphicsCommandList s) (errors s ++ [msg]).

Definition set_mapPointer (p : bool) (b : D3D12Buffer) : D3D12Buffer :=
  mkBuffer (handle_Width b) (virtualAddress b) p (referenceCount b) (memory b).

(** [SDL_memcpy] of [src] to offset [dst] of a memory. *)
Fixpoint SDL_memcpy (memory : gmap Z Byte.byte) (dst : Z) (src : list Byte.byte)
  : gmap Z Byte.byte :=
  match src with
  | [] => memory
  | b :: rest => SDL_memcpy (<[dst := b]> memory) (dst + 1) rest
  end.

(** The [n] bytes at offset [src] of a memory, when all were written. *)
Fixpoint read_bytes (memory : gmap Z Byte.byte) (src : Z) (n : nat)
  : option (list Byte.byte) :=
  match n with
  | O => Some []
  | S n => b ← memory !! src; rest ← read_bytes memory (src + 1) n; Some (b :: rest)
  end.

Section Engine.

(** [UNIFORM_BUFFER_SIZE] and [MAX_UNIFORM_BUFFERS_PER_STAGE] are
    constants of [SDL_sysgpu.h]. *)
Variable UNIFORM_BUFFER_SIZE : Z.
Variable MAX_UNIFORM_BUFFERS_PER_STAGE : nat.

(** The driver: the outcome of the native call a state counts as its
    [nativeCalls]-th, [None] when it fails; a creation that succeeds
    gives the GPU virtual address of the new resource. *)
Variable driver : nat -> option Z.

(** [D3D12_INTERNAL_TrackBuffer]. *)
Definition D3D12_INTERNAL_TrackBuffer (b : nat) (s : state) : state :=
  if bool_decide (b ∈ usedBuffers s) then s
  else
    set_buffers
      (alter (fun bo => mkBuffer (handle_Width bo) (virtualAddress bo) (mapPointer bo)
                          (referenceCount bo + 1) (memory bo))
         b (buffers s))
      (set_used (usedUniformBuffers s) (usedBuffers s ++ [b]) s).

(** [D3D12_INTERNAL_TrackUniformBuffer] of the wrapper at [w], whose
    contents are [u]. *)
Definition D3D12_INTERNAL_TrackUniformBuffer
    (w : nat) (u : D3D12UniformBuffer) (s : state) : state :=
  if bool_decide (w ∈ usedUniformBuffers s) then s
  else
    D3D12_INTERNAL_TrackBuffer (buffer u)
      (set_used (usedUniformBuffers s ++ [w]) (usedBuffers s) s).

(** The first half of [D3D12_INTERNAL_AcquireUniformBufferFromPool]:
    the last wrapper of the pool, or a new wrapper over a new buffer
    of [UNIFORM_BUFFER_SIZE] bytes; NULL when the creation fails. *)
Definition take_uniform_buffer (s : state) : state * option nat :=
  match reverse (uniformBufferPool s) with
  | w :: rest => (set_uniformBufferPool (reverse rest) s, Some w)
  | [] =>
      match driver (nativeCalls s) with
      | None => (count_native_call (log_error "Could not create buffer!" s), None)
      | Some address =>
          let b := fresh (dom (buffers s)) in
          let w := fresh (dom (uniformBuffers s)) in
          (count_native_call
             (set_uniformBuffers
                (<[w := mkUniformBuffer b 0 0 0]> (uniformBuffers s))
                (set_buffers
                   (<[b := mkBuffer UNIFORM_BUFFER_SIZE (u64 address) false 0 ∅]>
                      (buffers s))
                   s)),
           Some w)
      end
  end.

(** [D3D12_INTERNAL_AcquireUniformBufferFromPool]: the state after
    the call and the wrapper returned, [None] for NULL. *)
Definition D3D12_INTERNAL_AcquireUniformBufferFromPool (s : state)
  : option (state * option nat) :=
  match take_uniform_buffer s with
  | (s, None) => Some (s, None)
  | (s, Some w) =>
      u ← uniformBuffers s !! w;
      let u := mkUniformBuffer (buffer u) 0 0 0 in
      let s := set_uniformBuffers (<[w := u]> (uniformBuffers s)) s in
      bo ← buffers s !! buffer u;
      match driver (nativeCalls s) with
      | None =>
          Some (count_native_call (log_error "Failed to map buffer pool!" s), None)
      | Some _ =>
          let s :=
            count_native_call
              (set_buffers (<[buffer u := set_mapPointer true bo]> (buffers s)) s) in
          Some (D3D12_INTERNAL_TrackUniformBuffer w u s, Some w)
      end
  end.

(** [D3D12_INTERNAL_PushUniformData]; [dataLengthInBytes] is the
    length of [data]. *)
Definition D3D12_INTERNAL_PushUniformData
    (s : state) (shaderStage : SDL_GpuShaderStage) (slotIndex : nat)
    (data : list Byte.byte) : option state :=
  let dataLengthInBytes := Z.of_nat (length data) in
  slot ← slots s shaderStage !! slotIndex;
  '(s, slot) ←
    match slot with
    | Some w => Some (s, Some w)
    | None =>
        '(s, acquired) ← D3D12_INTERNAL_AcquireUniformBufferFromPool s;
        Some (set_slots shaderStage
                (<[slotIndex := acquired]> (slots s shaderStage)) s,
              acquired)
    end;
  w ← slot;
  u ← uniformBuffers s !! w;
  let u :=
    mkUniformBuffer (buffer u) (writeOffset u) (drawOffset u)
      (D3D12_INTERNAL_Align dataLengthInBytes 256) in
  let s := set_uniformBuffers (<[w := u]> (uniformBuffers s)) s in
  '(s, w, u) ←
    (* If there is no more room, acquire a new uniform buffer *)
    (if UNIFORM_BUFFER_SIZE <=? u32 (writeOffset u + currentBlockSize u) then
       bo ← buffers s !! buffer u;
       let s :=
         set_buffers (<[buffer u := set_mapPointer false bo]> (buffers s)) s in
       '(s, acquired) ← D3D12_INTERNAL_AcquireUniformBufferFromPool s;
       w' ← acquired;
       u' ← uniformBuffers s !! w';
       let u' := mkUniformBuffer (buffer u') 0 0 (currentBlockSize u') in
       let s := set_uniformBuffers (<[w' := u']> (uniformBuffers s)) s in
       Some (set_slots shaderStage
               (<[slotIndex := Some w']> (slots s shaderStage)) s,
             w', u')
     else Some (s, w, u));
  bo ← buffers s !! buffer u;
  _ ← needs s shaderStage !! slotIndex;
  if mapPointer bo
     && (0 <=? writeOffset u)
     && (writeOffset u + dataLengthInBytes <=? handle_Width bo)
  then
    let bo :=
      mkBuffer (handle_Width bo) (virtualAddress bo) (mapPointer bo)
        (referenceCount bo) (SDL_memcpy (memory bo) (writeOffset u) data) in
    let u :=
      mkUniformBuffer (buffer u)
        (u32 (writeOffset u + currentBlockSize u))
        (writeOffset u)
        (currentBlockSize u) in
    Some (set_needs shaderStage (<[slotIndex := true]> (needs s shaderStage))
            (set_buffers (<[buffer u := bo]> (buffers s))
               (set_uniformBuffers (<[w := u]> (uniformBuffers s)) s)))
  else None.

(** A [for] loop over the indices in [l], stopped by the first
    undefined round. *)
Fixpoint for_each {S A : Type} (body : S -> A -> option S) (l : list A) (s : S)
  : option S :=
  match l with
  | [] => Some s
  | i :: rest => s ← body s i; for_each body rest s
  end.

(** One round of the loops of [D3D12_BindGraphicsPipeline] that make
    sure a wrapper exists for every declared uniform slot. *)
Definition ensure_uniform_buffer (stage : SDL_GpuShaderStage)
    (s : state) (i : nat) : option state :=
  slot ← slots s stage !! i;
  match slot with
  | Some _ => Some s
  | None =>
      '(s, acquired) ← D3D12_INTERNAL_AcquireUniformBufferFromPool s;
      Some (set_slots stage (<[i := acquired]> (slots s stage)) s)
  end.

(** [D3D12_BindGraphicsPipeline], as far as uniforms go: the state
    calls (the topology by its SDL value, the blend factor without its
    constants), the rebind flags of the uniform slots, the wrappers of
    the declared slots.  (The flags of the sampler and storage groups
    and the tracking of the pipeline are outside this state;
    [GraphicsResources] has the flags.) *)
Definition D3D12_BindGraphicsPipeline (s : state) (pipeline : D3D12GraphicsPipeline)
  : option state :=
  let s := set_currentGraphicsPipeline (Some pipeline) s in
  let s :=
    record [ SetPipelineState (pipelineState pipeline);
             SetGraphicsRootSignature (rootSignature_handle pipeline);
             IASetPrimitiveTopology (primitiveType pipeline);
             OMSetBlendFactor;
             OMSetStencilRef (stencilRef pipeline) ] s in
  let s :=
    set_needs SDL_GPU_SHADERSTAGE_FRAGMENT
      (replicate MAX_UNIFORM_BUFFERS_PER_STAGE true)
      (set_needs SDL_GPU_SHADERSTAGE_VERTEX
         (replicate MAX_UNIFORM_BUFFERS_PER_STAGE true) s) in
  s ← for_each (ensure_uniform_buffer SDL_GPU_SHADERSTAGE_VERTEX)
        (seq 0 (Z.to_nat (vertexUniformBufferCount pipeline))) s;
  for_each (ensure_uniform_buffer SDL_GPU_SHADERSTAGE_FRAGMENT)
    (seq 0 (Z.to_nat (fragmentUniformBufferCount pipeline))) s.

(** One round of a uniform loop of
    [D3D12_INTERNAL_BindGraphicsResources], for the vertex or the
    fragment stage, with the count and the root indices of that stage;
    the current pipeline, which may be NULL, is only read when the
    slot needs a bind. *)
Definition bind_uniform_slot (stage : SDL_GpuShaderStage)
    (uniformBufferCount : D3D12GraphicsPipeline -> Z)
    (uniformBufferRootIndex : D3D12GraphicsPipeline -> list Z)
    (s : state) (i : nat) : option state :=
  need ← needs s stage !! i;
  if (need : bool) then
    graphicsPipeline ← currentGraphicsPipeline s;
    s ← (if Z.of_nat i <? uniformBufferCount graphicsPipeline then
           rootIndex ← uniformBufferRootIndex graphicsPipeline !! i;
           slot ← slots s stage !! i;
           w ← slot;
           u ← uniformBuffers s !! w;
           bo ← buffers s !! buffer u;
           Some (record
                   [SetGraphicsRootConstantBufferView rootIndex
                      (u64 (virtualAddress bo + drawOffset u))] s)
         else Some s);
    Some (set_needs stage (<[i := false]> (needs s stage)) s)
  else Some s.

(** [D3D12_INTERNAL_BindGraphicsResources], as far as uniforms go
    (the descriptor tables of the samplers and the storage resources
    are outside this state; [GraphicsResources] has the function
    whole). *)
Definition D3D12_INTERNAL_BindGraphicsResources (s : state) : option state :=
  s ← for_each
        (bind_uniform_slot SDL_GPU_SHADERSTAGE_VERTEX
           vertexUniformBufferCount vertexUniformBufferRootIndex)
        (seq 0 MAX_UNIFORM_BUFFERS_PER_STAGE) s;
  for_each
    (bind_uniform_slot SDL_GPU_SHADERSTAGE_FRAGMENT
       fragmentUniformBufferCount fragmentUniformBufferRootIndex)
    (seq 0 MAX_UNIFORM_BUFFERS_PER_STAGE) s.

(** [D3D12_DrawPrimitives]. *)
Definition D3D12_DrawPrimitives (s : state) (vertexStart vertexCount : Z)
  : option state :=
  s ← D3D12_INTERNAL_BindGraphicsResources s;
  Some (record [DrawInstanced vertexCount 1 vertexStart 0] s).

(** [ID3D12Resource_Unmap] of the buffer of a slot's wrapper, and the
    [mapPointer] set to NULL; nothing for a NULL slot. *)
Definition unmap_slot (s : state) (slot : option nat) : option state :=
  match slot with
  | None => Some s
  | Some w =>
      u ← uniformBuffers s !! w;
      bo ← buffers s !! buffer u;
      Some (set_buffers (<[buffer u := set_mapPointer false bo]> (buffers s)) s)
  end.

(** One round of the loop that opens [D3D12_Submit]. *)
Definition unmap_uniform_buffers (s : state) (i : nat) : option state :=
  vertexSlot ← vertexUniformBuffers s !! i;
  s ← unmap_slot s vertexSlot;
  fragmentSlot ← fragmentUniformBuffers s !! i;
  unmap_slot s fragmentSlot
  (* TODO: compute uniforms *).

(** [D3D12_Submit] of a command buffer that presents nothing, up to
    the execution of the command list on the queue. *)
Definition D3D12_Submit (s : state) : option state :=
  s ← for_each unmap_uniform_buffers (seq 0 MAX_UNIFORM_BUFFERS_PER_STAGE) s;
  Some (record [Close; ExecuteCommandLists] s).

(** *** Recording *)

Inductive operation : Type :=
  | PushUniformData (shaderStage : SDL_GpuShaderStage) (slotIndex : nat)
      (data : list Byte.byte)
  | BindGraphicsPipeline (pipeline : D3D12GraphicsPipeline)
  | DrawPrimitives (vertexStart vertexCount : Z)
  | Submit.

Definition step (s : state) (o : operation) : option state :=
  match o with
  | PushUniformData shaderStage slotIndex data =>
      D3D12_INTERNAL_PushUniformData s shaderStage slotIndex data
  | BindGraphicsPipeline pipeline => D3D12_BindGraphicsPipeline s pipeline
  | DrawPrimitives vertexStart vertexCount =>
      D3D12_DrawPrimitives s vertexStart vertexCount
  | Submit => D3D12_Submit s
  end.

Definition run (ops : list operation) (s : state) : option state :=
  for_each step ops s.

(** The command buffer [D3D12_AcquireCommandBuffer] hands out on a
    renderer whose uniform-buffer pool holds [pool]. *)
Definition acquired_command_buffer
    (objects : gmap nat D3D12Buffer) (wrappers : gmap nat D3D12UniformBuffer)
    (pool : list nat) : state :=
  {| buffers := objects;
     uniformBuffers := wrappers;
     uniformBufferPool := pool;
     nativeCalls := 0;
     vertexUniformBuffers := replicate MAX_UNIFORM_BUFFERS_PER_STAGE None;
     fragmentUniformBuffers := replicate MAX_UNIFORM_BUFFERS_PER_STAGE None;
     computeUniformBuffers := replicate MAX_UNIFORM_BUFFERS_PER_STAGE None;
     needVertexUniformBufferBind := replicate MAX_UNIFORM_BUFFERS_PER_STAGE false;
     needFragmentUniformBufferBind := replicate MAX_UNIFORM_BUFFERS_PER_STAGE false;
     needComputeUniformBufferBind := replicate MAX_UNIFORM_BUFFERS_PER_STAGE false;
     usedUniformBuffers := [];
     usedBuffers := [];
     currentGraphicsPipeline := None;
     graphicsCommandList := [];
     errors := [] |}.

End Engine.

(** *** What the GPU reads *)

(** The root constant-buffer views each [DrawInstanced] of a command
    list runs with, in order.  [signature] is the root signature set
    last; setting another one drops the views, setting the same one
    keeps them. *)
Fixpoint draw_views (cmds : list command) (signature : option nat)
    (views : gmap Z Z) : list (gmap Z Z) :=
  match cmds with
  | [] => []
  | SetGraphicsRootSignature p :: rest =>
      draw_views rest (Some p)
        (if decide (signature = Some p) then views else ∅)
  | SetGraphicsRootConstantBufferView i location :: rest =>
      draw_views rest signature (<[i := location]> views)
  | DrawInstanced _ _ _ _ :: rest => views :: draw_views rest signature views
  | _ :: rest => draw_views rest signature views
  end.

(** The [n] bytes at GPU virtual address [location], when exactly one
    buffer holds that address and the bytes were written. *)
Definition gpu_read (s : state) (location : Z) (n : nat) : option (list Byte.byte) :=
  match List.filter
          (fun e : nat * D3D12Buffer =>
             bool_decide (virtualAddress e.2 <= location
                          < virtualAddress e.2 + handle_Width e.2))
          (map_to_list (buffers s)) with
  | [e] => read_bytes (memory e.2) (location - virtualAddress e.2) n
  | _ => None
  end.

(** What the [draw]-th draw of the recorded list reads through root
    parameter [rootIndex] when the list executes over the memory of
    [s]. *)
Definition draw_reads (s : state) (draw : nat) (rootIndex : Z) (n : nat)
  : option (list Byte.byte) :=
  views ← draw_views (graphicsCommandList s) None ∅ !! draw;
  location ← views !! rootIndex;
  gpu_read s location n.

(** The buffers that are mapped. *)
Definition mapped_buffers (s : state) : list nat :=
  fst <$> List.filter (fun e : nat * D3D12Buffer => mapPointer e.2)
            (map_to_list (buffers s)).

(** *** Frames on a fresh renderer

    The constants of [SDL_sysgpu.h] are not part of these sources; the
    frames below run with buffers of 32 KiB and four slots per stage,
    on a driver whose calls all succeed and that places the resource
    created by its [n]-th call at address [65536 * (n + 1)]. *)

Definition willing_driver (n : nat) : option Z := Some (65536 * (Z.of_nat n + 1)).

Definition fresh_command_buffer : state := acquired_command_buffer 4 ∅ ∅ [].

Definition record_frame (ops : list operation) : option state :=
  run 32768 4 willing_driver ops fresh_command_buffer.

(** A pipeline whose vertex shader declares one uniform buffer, at
    root parameter 0. *)
Definition one_slot_pipeline : D3D12GraphicsPipeline :=
  mkPipeline 7 8 4 0 1 0 [0] [].

Definition first_data : list Byte.byte := [Byte.xaa; Byte.xaa; Byte.xaa; Byte.xaa].
Definition second_data : list Byte.byte := [Byte.xbb; Byte.xbb; Byte.xbb; Byte.xbb].

(** 127 pushes to vertex slot 0, which leave its wrapper with one
    block of 256 bytes to go. *)
Definition fill_vertex_slot : list operation :=
  BindGraphicsPipeline one_slot_pipeline
  :: replicate 127 (PushUniformData SDL_GPU_SHADERSTAGE_VERTEX 0 [Byte.x01]).

(** Two draws, each after a push of its own data to vertex slot 0. *)
Definition first_draw : list operation :=
  fill_vertex_slot
  ++ [PushUniformData SDL_GPU_SHADERSTAGE_VERTEX 0 first_data; DrawPrimitives 0 3].

Definition two_draws : list operation :=
  first_draw
  ++ [PushUniformData SDL_GPU_SHADERSTAGE_VERTEX 0 second_data; DrawPrimitives 0 3;
      Submit].

(** The same two draws at the start of a wrapper. *)
Definition two_early_draws : list operation :=
  [BindGraphicsPipeline one_slot_pipeline;
   PushUniformData SDL_GPU_SHADERSTAGE_VERTEX 0 first_data; DrawPrimitives 0 3;
   PushUniformData SDL_GPU_SHADERSTAGE_VERTEX 0 second_data; DrawPrimitives 0 3;
   Submit].

Example two_early_draws_read_their_own_push :
  (s ← record_frame two_early_draws;
   Some (draw_reads s 0 0 4, draw_reads s 1 0 4))
  = Some (Some first_data, Some second_data).
Proof. vm_compute. reflexivity. Qed.

(** A push to slot 0 of a stage, then the submission. *)
Definition push_and_submit (stage : SDL_GpuShaderStage) : list operation :=
  [PushUniformData stage 0 first_data; Submit].

(** *** The block of a push *)

(** On lengths that leave room for the rounding, [D3D12_INTERNAL_Align]
    to 256 is the next multiple of 256. *)
Lemma align_256_rounds_up n :
  0 <= n -> n + 255 < 2 ^ 32 ->
  D3D12_INTERNAL_Align n 256 = 256 * ((n + 255) / 256).
Proof.
  intros Hn Hlt. unfold D3D12_INTERNAL_Align.
  replace (n + (256 - 1)) with (n + 255) by lia.
  rewrite (u32_small (n + 255)) by lia.
  change (u32 (Z.lnot (u32 (256 - 1)))) with (Z.shiftl (Z.ones 24) 8).
  set (x := n + 255) in *.
  assert (Hx : x mod 2 ^ 32 = x) by (apply Z.mod_small; lia).
  replace (256 * (x / 256)) with (Z.shiftl (Z.shiftr x 8) 8)
    by (rewrite Z.shiftl_mul_pow2, Z.shiftr_div_pow2 by lia;
        change (2 ^ 8) with 256; lia).
  apply Z.bits_inj'. intros k Hk.
  rewrite Z.land_spec.
  destruct (Z.ltb_spec k 8) as [Hlow | Hhigh].
  - rewrite !Z.shiftl_spec_low by lia. apply andb_false_r.
  - rewrite !Z.shiftl_spec by lia. rewrite Z.shiftr_spec by lia.
    replace (k - 8 + 8) with k by lia.
    destruct (Z.ltb_spec k 32) as [Hin | Hout].
    + rewrite Z.ones_spec_low by lia. apply andb_true_r.
    + rewrite Z.ones_spec_high by lia. rewrite andb_false_r.
      rewrite <- Hx. symmetry. apply Z.mod_pow2_bits_high. lia.
Qed.

(** A copy leaves the bytes below its destination alone. *)
Lemma memcpy_lookup_below (data : list Byte.byte) (memory : gmap Z Byte.byte)
    (dst k : Z) :
  k < dst -> SDL_memcpy memory dst data !! k = memory !! k.
Proof.
  revert memory dst. induction data as [| b rest IH]; intros memory dst Hk; cbn.
  - reflexivity.
  - rewrite IH by lia. apply lookup_insert_ne. lia.
Qed.

(** The bytes a copy puts into a memory are the bytes found there. *)
Lemma read_back_memcpy (data : list Byte.byte) (memory : gmap Z Byte.byte) (dst : Z) :
  read_bytes (SDL_memcpy memory dst data) dst (length data) = Some data.
Proof.
  revert memory dst. induction data as [| b rest IH]; intros memory dst; cbn.
  - reflexivity.
  - rewrite memcpy_lookup_below by lia. rewrite lookup_insert_eq. cbn.
    rewrite IH. reflexivity.
Qed.

Section Pushing.

Variable UNIFORM_BUFFER_SIZE : Z.
Variable driver : nat -> option Z.

Lemma track_buffer_inv b s :
  let s' := D3D12_INTERNAL_TrackBuffer b s in
  uniformBuffers s' = uniformBuffers s /\
  (forall stage, slots s' stage = slots s stage) /\
  (forall stage, needs s' stage = needs s stage) /\
  (forall x, x <> b -> buffers s' !! x = buffers s !! x) /\
  (forall bo, buffers s !! b = Some bo ->
     exists bo', buffers s' !! b = Some bo' /\
       mapPointer bo' = mapPointer bo /\ memory bo' = memory bo /\
       handle_Width bo' = handle_Width bo /\
       virtualAddress bo' = virtualAddress bo).
Proof.
  unfold D3D12_INTERNAL_TrackBuffer. case_bool_decide; cbn.
  - repeat split; try (intros []; reflexivity). intros bo Hbo. eauto 10.
  - repeat split; try (intros []; reflexivity).
    + intros x Hx. apply lookup_alter_ne. congruence.
    + intros bo Hbo. rewrite lookup_alter_eq, Hbo. cbn. eauto 10.
Qed.

(** What a successful acquisition leaves: a wrapper with zeroed
    offsets over a mapped buffer, either the last wrapper of the pool
    or a new wrapper over a new buffer; nothing else moves. *)
Lemma acquire_uniform_buffer_inv s s1 w' :
  D3D12_INTERNAL_AcquireUniformBufferFromPool UNIFORM_BUFFER_SIZE driver s
  = Some (s1, Some w') ->
  exists b' bo',
    uniformBuffers s1 !! w' = Some (mkUniformBuffer b' 0 0 0) /\
    buffers s1 !! b' = Some bo' /\
    mapPointer bo' = true /\
    (forall x, x <> w' -> uniformBuffers s1 !! x = uniformBuffers s !! x) /\
    (forall x, x <> b' -> buffers s1 !! x = buffers s !! x) /\
    (forall stage, slots s1 stage = slots s stage) /\
    (forall stage, needs s1 stage = needs s stage) /\
    ((w' ∈ uniformBufferPool s /\
      exists u0, uniformBuffers s !! w' = Some u0 /\ buffer u0 = b')
     \/ (uniformBuffers s !! w' = None /\ buffers s !! b' = None)).
Proof.
  unfold D3D12_INTERNAL_AcquireUniformBufferFromPool.
  destruct (take_uniform_buffer UNIFORM_BUFFER_SIZE driver s) as [s0 [w0 |]] eqn:Htake;
    [| intros [=]].
  assert (Htaken :
    (forall stage, slots s0 stage = slots s stage) /\
    (forall stage, needs s0 stage = needs s stage) /\
    ((w0 ∈ uniformBufferPool s /\ uniformBuffers s0 = uniformBuffers s /\
      buffers s0 = buffers s)
     \/ (exists b bo, uniformBuffers s !! w0 = None /\ buffers s !! b = None /\
           uniformBuffers s0 = <[w0 := mkUniformBuffer b 0 0 0]> (uniformBuffers s) /\
           buffers s0 = <[b := bo]> (buffers s)))).
  { unfold take_uniform_buffer in Htake.
    destruct (reverse (uniformBufferPool s)) as [| p rest] eqn:Hpool.
    - destruct (driver (nativeCalls s)) as [address |]; [| discriminate].
      injection Htake as <- <-. cbn.
      repeat split; try (intros []; reflexivity).
      right. eexists _, _. repeat split.
      + apply not_elem_of_dom, is_fresh.
      + apply not_elem_of_dom, is_fresh.
    - injection Htake as <- <-. cbn.
      repeat split; try (intros []; reflexivity).
      left. repeat split.
      apply (f_equal reverse) in Hpool. rewrite reverse_involutive in Hpool.
      rewrite Hpool, reverse_cons. set_solver. }
  destruct Htaken as (Hslots & Hneeds & Hfrom).
  destruct (uniformBuffers s0 !! w0) as [u0 |] eqn:Hu0; cbn; [| intros [=]].
  destruct (buffers s0 !! buffer u0) as [bo0 |] eqn:Hbo0; cbn; [| intros [=]].
  destruct (driver (nativeCalls s0)) as [mapped |]; intros [= <- <-].
  set (u := mkUniformBuffer (buffer u0) 0 0 0).
  set (s2 := count_native_call _).
  pose proof (track_buffer_inv (buffer u0)
                (set_used (usedUniformBuffers s2 ++ [w0]) (usedBuffers s2) s2))
    as (Htu & Hts & Htn & Htb & Htbo).
  assert (Hs2 : buffers s2 !! buffer u0 = Some (set_mapPointer true bo0))
    by (subst s2; cbn; apply lookup_insert_eq).
  assert (Hkeep :
    let s' := D3D12_INTERNAL_TrackUniformBuffer w0 u s2 in
    uniformBuffers s' = uniformBuffers s2 /\
    (forall stage, slots s' stage = slots s2 stage) /\
    (forall stage, needs s' stage = needs s2 stage) /\
    (forall x, x <> buffer u0 -> buffers s' !! x = buffers s2 !! x) /\
    exists bo', buffers s' !! buffer u0 = Some bo' /\ mapPointer bo' = true).
  { unfold D3D12_INTERNAL_TrackUniformBuffer. case_bool_decide; cbn zeta.
    - repeat split; eauto.
    - destruct (Htbo _ Hs2) as (bo' & Hbo' & Hmap & _).
      repeat split; eauto. }
  destruct Hkeep as (Hku & Hks & Hkn & Hkb & bo' & Hbo' & Hmap).
  exists (buffer u0), bo'. repeat split.
  - rewrite Hku. subst s2. cbn. apply lookup_insert_eq.
  - exact Hbo'.
  - exact Hmap.
  - intros x Hx. rewrite Hku. subst s2. cbn.
    rewrite lookup_insert_ne by congruence.
    destruct Hfrom as [(_ & -> & _) | (b & bo & _ & _ & -> & _)]; [reflexivity |].
    apply lookup_insert_ne. congruence.
  - intros x Hx. rewrite Hkb by exact Hx. subst s2. cbn.
    rewrite lookup_insert_ne by congruence.
    destruct Hfrom as [(_ & _ & ->) | (b & bo & _ & _ & Hu & ->)]; [reflexivity |].
    rewrite Hu, lookup_insert_eq in Hu0. injection Hu0 as <-. cbn in Hx.
    apply lookup_insert_ne. congruence.
  - intros stage. rewrite Hks, <- Hslots. subst s2. destruct stage; reflexivity.
  - intros stage. rewrite Hkn, <- Hneeds. subst s2. destruct stage; reflexivity.
  - destruct Hfrom as [(Hin & Hu & Hb) | (b & bo & Hnw & Hnb & Hu & Hb)].
    + left. split; [exact Hin |]. rewrite Hu in Hu0. eauto.
    + right. split; [exact Hnw |].
      rewrite Hu, lookup_insert_eq in Hu0. injection Hu0 as <-. exact Hnb.
Qed.

(** The renderer's pool holds neither the wrapper [w] nor a wrapper
    over the buffer of [u]: what is bound to a slot is not in the pool. *)
Definition pool_apart (s : state) (w : nat) (u : D3D12UniformBuffer) : Prop :=
  forall p up,
    p ∈ uniformBufferPool s -> uniformBuffers s !! p = Some up ->
    p <> w /\ buffer up <> buffer u.

(** The test of [D3D12_INTERNAL_PushUniformData] for "no more room",
    on the rounded length. *)
Definition no_more_room (u : D3D12UniformBuffer) (data : list Byte.byte) : bool :=
  UNIFORM_BUFFER_SIZE
  <=? u32 (writeOffset u + 256 * ((Z.of_nat (length data) + 255) / 256)).

Local Opaque D3D12_INTERNAL_Align u32.

Lemma push_uniform_data_inv s stage i data w u s' :
  slots s stage !! i = Some (Some w) ->
  uniformBuffers s !! w = Some u ->
  Z.of_nat (length data) + 255 < 2 ^ 32 ->
  pool_apart s w u ->
  D3D12_INTERNAL_PushUniformData UNIFORM_BUFFER_SIZE driver s stage i data = Some s' ->
  exists w' u' bo',
    slots s' stage !! i = Some (Some w') /\
    uniformBuffers s' !! w' = Some u' /\
    buffers s' !! buffer u' = Some bo' /\
    mapPointer bo' = true /\
    read_bytes (memory bo') (drawOffset u') (length data) = Some data /\
    if no_more_room u data
    then w' <> w /\ buffer u' <> buffer u /\
         drawOffset u' = 0 /\ writeOffset u' = 0 /\
         (exists bo, buffers s' !! buffer u = Some bo /\ mapPointer bo = false)
    else w' = w /\ buffer u' = buffer u /\
         drawOffset u' = writeOffset u /\
         writeOffset u'
         = u32 (writeOffset u + 256 * ((Z.of_nat (length data) + 255) / 256)).
Proof.
  intros Hslot Hu Hlen Hapart Hpush.
  unfold D3D12_INTERNAL_PushUniformData in Hpush.
  rewrite Hslot in Hpush. cbn in Hpush. rewrite Hu in Hpush. cbn in Hpush.
  rewrite align_256_rounds_up in Hpush by lia.
  unfold no_more_room.
  set (block := 256 * ((Z.of_nat (length data) + 255) / 256)) in *.
  assert (Hi : (i < length (slots s stage))%nat)
    by (eapply lookup_lt_Some; exact Hslot).
  destruct (UNIFORM_BUFFER_SIZE <=? u32 (writeOffset u + block)) eqn:Hroom.
  - destruct (buffers s !! buffer u) as [bo |] eqn:Hbo; cbn in Hpush; [| discriminate].
    match type of Hpush with
    | context [D3D12_INTERNAL_AcquireUniformBufferFromPool _ _ ?x] => set (s2 := x) in *
    end.
    destruct (D3D12_INTERNAL_AcquireUniformBufferFromPool UNIFORM_BUFFER_SIZE driver s2)
      as [[s1 [w' |]] |] eqn:Hacq; cbn in Hpush; try discriminate.
    destruct (acquire_uniform_buffer_inv _ _ _ Hacq)
      as (b' & bo1 & Hw' & Hb' & Hmap & Hother_u & Hother_b & Hsl & Hnd & Hfrom).
    rewrite Hw' in Hpush. cbn in Hpush. rewrite Hb' in Hpush. cbn in Hpush.
    match type of Hpush with
    | context [?l !! i ≫= _] => destruct (l !! i) as [need |]
    end; cbn in Hpush; [| discriminate].
    rewrite Hmap in Hpush. cbn in Hpush.
    destruct (0 + Z.of_nat (length data) <=? handle_Width bo1) eqn:Hfit;
      [| discriminate].
    injection Hpush as <-.
    assert (Hs2w : uniformBuffers s2 !! w <> None)
      by (subst s2; cbn; rewrite lookup_insert_eq; discriminate).
    assert (Hs2b : buffers s2 !! buffer u = Some (set_mapPointer false bo))
      by (subst s2; cbn; apply lookup_insert_eq).
    assert (Hnew : w' <> w /\ b' <> buffer u).
    { destruct Hfrom as [(Hin & u0 & Hu0 & Hb0) | (Hnw & Hnb)].
      - destruct (decide (w' = w)) as [-> | Hne].
        + destruct (Hapart w u Hin Hu) as [Hww _]. congruence.
        + split; [exact Hne |].
          subst s2. cbn in Hu0, Hin. rewrite lookup_insert_ne in Hu0 by congruence.
          destruct (Hapart w' u0 Hin Hu0) as [_ Hbb]. congruence.
      - split; congruence. }
    destruct Hnew as [Hw Hb].
    eexists w', _, _. split; [| split; [| split; [| split; [| split]]]].
    + assert (Hi1 : (i < length (slots s1 stage))%nat)
        by (rewrite Hsl; subst s2; destruct stage; exact Hi).
      destruct stage; cbn; apply list_lookup_insert_eq; exact Hi1.
    + cbn. apply lookup_insert_eq.
    + cbn. apply lookup_insert_eq.
    + reflexivity.
    + cbn. apply read_back_memcpy.
    + cbn. split; [exact Hw |]. split; [exact Hb |]. split; [reflexivity |]. split.
      * apply u32_small. lia.
      * exists (set_mapPointer false bo). split; [| reflexivity].
        rewrite lookup_insert_ne by congruence.
        rewrite Hother_b by congruence. exact Hs2b.
  - cbn in Hpush.
    destruct (buffers s !! buffer u) as [bo |] eqn:Hbo; cbn in Hpush; [| discriminate].
    match type of Hpush with
    | context [?l !! i ≫= _] => destruct (l !! i) as [need |]
    end; cbn in Hpush; [| discriminate].
    destruct (mapPointer bo) eqn:Hmap; [| discriminate].
    destruct (0 <=? writeOffset u) eqn:Hpos; [| discriminate].
    destruct (writeOffset u + Z.of_nat (length data) <=? handle_Width bo)
      eqn:Hfit; [| discriminate].
    cbn in Hpush. injection Hpush as <-.
    eexists w, _, _. split; [| split; [| split; [| split; [| split]]]].
    + destruct stage; cbn; exact Hslot.
    + cbn. apply lookup_insert_eq.
    + cbn. apply lookup_insert_eq.
    + reflexivity.
    + cbn. apply read_back_memcpy.
    + cbn. repeat split; reflexivity.
Qed.

End Pushing.

(** The command buffer after [fill_vertex_slot], and after one more
    push of four bytes. *)
Definition nearly_full : state :=
  default fresh_command_buffer (record_frame fill_vertex_slot).

Definition after_exact_fit : state :=
  default fresh_command_buffer
    (D3D12_INTERNAL_PushUniformData 32768 willing_driver nearly_full
       SDL_GPU_SHADERSTAGE_VERTEX 0 first_data).

Lemma defined_result {A : Type} (d : A) (o : option A) :
  bool_decide (is_Some o) = true -> o = Some (default d o).
Proof.
  intros H. apply bool_decide_eq_true_1 in H. destruct H as [x ->]. reflexivity.
Qed.

Example nearly_full_cursor :
  record_frame fill_vertex_slot = Some nearly_full
  /\ slots nearly_full SDL_GPU_SHADERSTAGE_VERTEX !! 0%nat = Some (Some 0%nat)
  /\ uniformBuffers nearly_full !! 0%nat = Some (mkUniformBuffer 0 32512 32256 256)
  /\ uniformBufferPool nearly_full = [].
Proof.
  split; [| split; [| split]]; [| vm_compute; reflexivity ..].
  apply defined_result. vm_compute. reflexivity.
Qed.

(** A push whose block ends exactly at the end of the buffer goes to
    a new wrapper: wrapper 0 has its cursor at 32512, the block of the
    four bytes is 256, the sum is the buffer size 32768, and the slot
    holds wrapper 1 afterwards. *)
Lemma push_at_exact_fit_rotates :
  (s ← record_frame fill_vertex_slot;
   slot ← slots s SDL_GPU_SHADERSTAGE_VERTEX !! 0%nat;
   w ← slot;
   u ← uniformBuffers s !! w;
   s' ← D3D12_INTERNAL_PushUniformData 32768 willing_driver s
          SDL_GPU_SHADERSTAGE_VERTEX 0 first_data;
   Some (w,
         writeOffset u + D3D12_INTERNAL_Align (Z.of_nat (length first_data)) 256,
         slots s' SDL_GPU_SHADERSTAGE_VERTEX !! 0%nat))
  = Some (0%nat, 32768, Some (Some 1%nat)).
Proof. vm_compute. reflexivity. Qed.

(** C5, as the code has it: the block of a push is the length of the
    data rounded up to a multiple of 256; the push goes to a newly
    acquired wrapper exactly when [writeOffset + block], in 32-bit
    arithmetic, is greater than or equal to [UNIFORM_BUFFER_SIZE];
    then the buffer of the old wrapper is unmapped and the data lies at
    offset 0 of the new wrapper's mapped buffer, which is where its
    [drawOffset] points; otherwise the data lies in the current wrapper
    at the old [writeOffset], [drawOffset] points there, and
    [writeOffset] has advanced by the block. *)
Theorem push_rotates_when_block_reaches_size
    (UNIFORM_BUFFER_SIZE : Z) (driver : nat -> option Z)
    (s : state) (stage : SDL_GpuShaderStage) (i : nat) (data : list Byte.byte)
    (w : nat) (u : D3D12UniformBuffer) (s' : state) :
  slots s stage !! i = Some (Some w) ->
  uniformBuffers s !! w = Some u ->
  Z.of_nat (length data) + 255 < 2 ^ 32 ->
  pool_apart s w u ->
  D3D12_INTERNAL_PushUniformData UNIFORM_BUFFER_SIZE driver s stage i data = Some s' ->
  let block := D3D12_INTERNAL_Align (Z.of_nat (length data)) 256 in
  block = 256 * ((Z.of_nat (length data) + 255) / 256)
  /\ exists w' u' bo',
       slots s' stage !! i = Some (Some w')
       /\ uniformBuffers s' !! w' = Some u'
       /\ buffers s' !! buffer u' = Some bo'
       /\ mapPointer bo' = true
       /\ read_bytes (memory bo') (drawOffset u') (length data) = Some data
       /\ (w' <> w <-> UNIFORM_BUFFER_SIZE <= u32 (writeOffset u + block))
       /\ (w' <> w ->
           buffer u' <> buffer u /\ drawOffset u' = 0
           /\ exists bo, buffers s' !! buffer u = Some bo /\ mapPointer bo = false)
       /\ (w' = w ->
           buffer u' = buffer u /\ drawOffset u' = writeOffset u
           /\ writeOffset u' = u32 (writeOffset u + block)).
Proof.
  intros Hslot Hu Hlen Hapart Hpush block.
  assert (Hblock : block = 256 * ((Z.of_nat (length data) + 255) / 256))
    by (apply align_256_rounds_up; lia).
  split; [exact Hblock |].
  destruct (push_uniform_data_inv UNIFORM_BUFFER_SIZE driver
              s stage i data w u s' Hslot Hu Hlen Hapart Hpush)
    as (w' & u' & bo' & Hs' & Hu' & Hbo' & Hmap & Hdata & Hcase).
  exists w', u', bo'.
  repeat (split; [assumption |]).
  rewrite Hblock. unfold no_more_room in Hcase.
  destruct (Z.leb_spec UNIFORM_BUFFER_SIZE
              (u32 (writeOffset u
                    + 256 * ((Z.of_nat (length data) + 255) / 256))))
    as [Hge | Hlt].
  - destruct Hcase as (Hw & Hb & Hd & _ & Hold).
    split; [tauto |]. split; [auto | contradiction].
  - destruct Hcase as (Hw & Hb & Hd & Hwo).
    split; [split; [contradiction | lia] |].
    split; [contradiction | auto].
Qed.

Lemma push_rotates_when_block_reaches_size_witness :
  exists w' u' bo',
    slots after_exact_fit SDL_GPU_SHADERSTAGE_VERTEX !! 0%nat = Some (Some w')
    /\ uniformBuffers after_exact_fit !! w' = Some u'
    /\ buffers after_exact_fit !! buffer u' = Some bo'
    /\ w' <> 0%nat
    /\ drawOffset u' = 0
    /\ read_bytes (memory bo') 0 4 = Some first_data.
Proof.
  destruct (push_rotates_when_block_reaches_size 32768 willing_driver
              nearly_full SDL_GPU_SHADERSTAGE_VERTEX 0 first_data
              0%nat (mkUniformBuffer 0 32512 32256 256) after_exact_fit)
    as (_ & w' & u' & bo' & Hs' & Hu' & Hbo' & _ & Hdata & Hiff & Hrot & _).
  - vm_compute. reflexivity.
  - vm_compute. reflexivity.
  - vm_compute. reflexivity.
  - assert (Hpool : uniformBufferPool nearly_full = []) by (vm_compute; reflexivity).
    intros p up Hin. rewrite Hpool in Hin. inversion Hin.
  - apply defined_result. vm_compute. reflexivity.
  - assert (Hw : w' <> 0%nat) by (apply Hiff; vm_compute; discriminate).
    destruct (Hrot Hw) as (_ & Hd & _).
    exists w', u', bo'. rewrite Hd in Hdata.
    repeat (split; [assumption |]). exact Hdata.
Defined.

(** C2 at a rotation: the first draw is recorded after the push of
    [first_data], which moves vertex slot 0 to a new wrapper, and at
    that point its view addresses [first_data]; the push of
    [second_data] for the second draw lands at the same offset of the
    same buffer, so that when the submitted list executes both draws
    read [second_data]. *)
Theorem draw_after_rotation_reads_later_push :
  (s ← record_frame first_draw; draw_reads s 0 0 4) = Some first_data
  /\ (s ← record_frame two_draws;
      Some (draw_reads s 0 0 4, draw_reads s 1 0 4))
     = Some (Some second_data, Some second_data)
  /\ first_data <> second_data.
Proof. split; [| split]; [vm_compute; reflexivity .. | discriminate]. Qed.

(** C7 on a compute push: after [D3D12_Submit] has recorded [Close]
    and [ExecuteCommandLists], the buffer of the wrapper in compute
    slot 0, which the command buffer tracks as used, is still mapped;
    the same frame with a vertex or a fragment push leaves no buffer
    mapped. *)
Theorem submit_leaves_compute_uniform_buffer_mapped :
  (s ← record_frame (push_and_submit SDL_GPU_SHADERSTAGE_COMPUTE);
   Some (computeUniformBuffers s !! 0%nat, usedUniformBuffers s,
         buffer <$> uniformBuffers s !! 0%nat,
         mapped_buffers s, graphicsCommandList s))
  = Some (Some (Some 0%nat), [0%nat], Some 0%nat,
          [0%nat], [Close; ExecuteCommandLists])
  /\ (s ← record_frame (push_and_submit SDL_GPU_SHADERSTAGE_VERTEX);
      Some (mapped_buffers s, graphicsCommandList s))
     = Some ([], [Close; ExecuteCommandLists])
  /\ (s ← record_frame (push_and_submit SDL_GPU_SHADERSTAGE_FRAGMENT);
      Some (mapped_buffers s, graphicsCommandList s))
     = Some ([], [Close; ExecuteCommandLists]).
Proof. split; [| split]; vm_compute; reflexivity. Qed.

End Uniform.

(** ** Acquiring the swapchain texture

    [D3D12_AcquireSwapchainTexture] with the fence primitives it
    calls.  Fences and windows are named by their addresses; the
    execution is followed as the sequence of the native calls, the
    calls of the fence primitives and the stores to the window data
    and the present list that the function makes. *)

Module Swapchain.

Inductive SDL_GpuPresentMode : Type :=
  | SDL_GPU_PRESENTMODE_VSYNC
  | SDL_GPU_PRESENTMODE_IMMEDIATE
  | SDL_GPU_PRESENTMODE_MAILBOX.

#[global] Instance SDL_GpuPresentMode_eq_dec : EqDecision SDL_GpuPresentMode.
Proof. solve_decision. Defined.

Definition D3D12_FENCE_SIGNAL_VALUE : Z := 1.

(** [struct D3D12Fence]; the native handle and the event go by the
    address of the fence. *)
Record D3D12Fence : Type := mkFence {
  referenceCount : Z
}.

(** The fences of the renderer, which are live until the renderer is
    destroyed, and its pool [availableFences] up to its count. *)
Record D3D12Renderer : Type := mkRenderer {
  fences : nat -> D3D12Fence;
  availableFences : list nat
}.

(** The fields of [struct D3D12WindowData] the acquisition reads and
    writes. *)
Record D3D12WindowData : Type := mkWindowData {
  presentMode : SDL_GpuPresentMode;
  frameCounter : nat;
  inFlightFences : list (option nat)
}.

Record D3D12PresentData : Type := mkPresentData {
  windowData : nat;
  swapchainImageIndex : Z
}.

(** The mutex of the renderer that [D3D12_WaitForFences] takes. *)
Inductive mutex : Type := submitLock.

#[global] Instance mutex_eq_dec : EqDecision mutex.
Proof. solve_decision. Defined.

Inductive event : Type :=
  | IDXGISwapChain_GetDesc (window : nat)
  | SDL_GetWindowSize (window : nat)
  | ResizeSwapchain (window : nat) (width height : Z)
  | ID3D12Fence_GetCompletedValue (fence : nat)
  | SDL_LockMutex (lock : mutex)
  | SDL_UnlockMutex (lock : mutex)
  | ID3D12Fence_SetEventOnCompletion (fence : nat) (value : Z)
  | WaitForMultipleObjects (fences : list nat) (waitAll : bool)
  | CheckForCleanups
  | ReleaseFence (fence : nat)
  | StoreInFlightFence (window slot : nat) (fence : option nat)
  | IDXGISwapChain3_GetCurrentBackBufferIndex (window : nat)
  | IDXGISwapChain_GetBuffer (window : nat) (index : Z)
  | StorePresentData (window : nat) (index : Z).

#[global] Instance event_eq_dec : EqDecision event.
Proof. solve_decision. Defined.

(** The renderer, the window data that [D3D12_INTERNAL_FetchWindowData]
    finds by window, the present list of the command buffer up to its
    count, the events so far and the errors logged. *)
Record state : Type := mkState {
  renderer : D3D12Renderer;
  windows : gmap nat D3D12WindowData;
  presentDatas : list D3D12PresentData;
  events : list event;
  errors : list string
}.

(** What the calls answer during one acquisition: the window size,
    the size in the swapchain description, the completed value of a
    fence, whether the completion event of a fence can be set, the
    index of the current back buffer and whether [GetBuffer] succeeds.
    [resized] is what [D3D12_INTERNAL_ResizeSwapchain] (its
    [D3D12_Wait] and clean-ups) does to the renderer, [cleaned] what
    the clean-up loop and the pending destroys that close
    [D3D12_WaitForFences] do to it; neither is unfolded here. *)
Record environment : Type := mkEnvironment {
  windowSize : Z * Z;
  bufferDesc : Z * Z;
  completedValue : nat -> Z;
  setEventOnCompletion : nat -> bool;
  currentBackBufferIndex : Z;
  getBuffer : bool;
  resized : D3D12Renderer -> D3D12Renderer;
  cleaned : D3D12Renderer -> D3D12Renderer
}.

Definition set_renderer (r : D3D12Renderer) (s : state) : state :=
  mkState r (windows s) (presentDatas s) (events s) (errors s).

Definition set_windows (w : gmap nat D3D12WindowData) (s : state) : state :=
  mkState (renderer s) w (presentDatas s) (events s) (errors s).

Definition set_presentDatas (p : list D3D12PresentData) (s : state) : state :=
  mkState (renderer s) (windows s) p (events s) (errors s).

Definition record (es : list event) (s : state) : state :=
  mkState (renderer s) (windows s) (presentDatas s) (events s ++ es) (errors s).

Definition log_error (msg : string) (s : state) : state :=
  mkState (renderer s) (windows s) (presentDatas s) (events s) (errors s ++ [msg]).

(** [SDL_AtomicDecRef]: the new value, and whether it reached zero. *)
Definition SDL_AtomicDecRef (value : Z) : Z * bool := (s32 (value - 1), value =? 1).

(** [D3D12_ReleaseFence], with [D3D12_INTERNAL_ReleaseFenceToPool]. *)
Definition D3D12_ReleaseFence (r : D3D12Renderer) (fence : nat) : D3D12Renderer :=
  let '(count, zero) := SDL_AtomicDecRef (referenceCount (fences r fence)) in
  mkRenderer
    (fun f => if decide (f = fence) then mkFence count else fences r f)
    (if zero then availableFences r ++ [fence] else availableFences r).

(** [D3D12_QueryFence]. *)
Definition D3D12_QueryFence (env : environment) (fence : nat) : bool :=
  completedValue env fence =? D3D12_FENCE_SIGNAL_VALUE.

(** The first loop of [D3D12_WaitForFences]: [false] when setting an
    event fails, where [ERROR_CHECK_RETURN] logs and returns from the
    function. *)
Fixpoint set_events (env : environment) (pFences : list nat) (s : state)
  : state * bool :=
  match pFences with
  | [] => (s, true)
  | fence :: rest =>
      let s := record [ID3D12Fence_SetEventOnCompletion fence D3D12_FENCE_SIGNAL_VALUE] s in
      if setEventOnCompletion env fence then set_events env rest s
      else (log_error "Setting fence event failed" s, false)
  end.

(** [D3D12_WaitForFences]; the wait is [WaitForMultipleObjects] with
    the time-out [INFINITE].  The return out of the first loop leaves
    the function before its [SDL_UnlockMutex]. *)
Definition D3D12_WaitForFences (env : environment) (waitAll : bool)
    (pFences : list nat) (s : state) : state :=
  let s := record [SDL_LockMutex submitLock] s in
  match set_events env pFences s with
  | (s, false) => s
  | (s, true) =>
      let s := record [WaitForMultipleObjects pFences waitAll] s in
      let s := set_renderer (cleaned env (renderer s)) (record [CheckForCleanups] s) in
      record [SDL_UnlockMutex submitLock] s
  end.

(** The in-flight fence of the current frame slot, lines 6505-6530 of
    [D3D12_AcquireSwapchainTexture]: the state, and [false] for the
    return of NULL.  ([frameCounter] stays below the length of the
    array, [D3D12_Submit] advances it modulo that length.) *)
Definition settle_in_flight_fence (env : environment) (window : nat)
    (wd : D3D12WindowData) (s : state) : state * bool :=
  match inFlightFences wd !! frameCounter wd with
  | Some (Some fence) =>
      let '(s, proceed) :=
        if decide (presentMode wd = SDL_GPU_PRESENTMODE_VSYNC) then
          (* In VSYNC mode, block until the least recent presented frame is done *)
          (D3D12_WaitForFences env true [fence] s, true)
        else
          (record [ID3D12Fence_GetCompletedValue fence] s,
           D3D12_QueryFence env fence) in
      if proceed then
        let s := record [ReleaseFence fence] s in
        let s := set_renderer (D3D12_ReleaseFence (renderer s) fence) s in
        let s := record [StoreInFlightFence window (frameCounter wd) None] s in
        (set_windows
           (<[window :=
                mkWindowData (presentMode wd) (frameCounter wd)
                  (<[frameCounter wd := None]> (inFlightFences wd))]>
              (windows s)) s,
         true)
      else (s, false)
  | _ => (s, true)
  end.

(** The check for window size changes, lines 6492-6503.  The outcome
    of the resize is an [SDL_bool], which the [FAILED] test on it
    never rejects. *)
Definition check_window_size (env : environment) (window : nat) (s : state)
  : state :=
  let s := record [IDXGISwapChain_GetDesc window; SDL_GetWindowSize window] s in
  if bool_decide (u32 (windowSize env).1 <> (bufferDesc env).1
                  \/ u32 (windowSize env).2 <> (bufferDesc env).2)
  then
    set_renderer (resized env (renderer s))
      (record [ResizeSwapchain window (windowSize env).1 (windowSize env).2] s)
  else s.

(** [D3D12_AcquireSwapchainTexture]: the state after the call and the
    texture container returned, by window and index, [None] for NULL. *)
Definition D3D12_AcquireSwapchainTexture (env : environment) (s : state)
    (window : nat) : state * option (nat * Z) :=
  match windows s !! window with
  | None => (s, None)
  | Some wd =>
      let s := check_window_size env window s in
      match settle_in_flight_fence env window wd s with
      | (s, false) => (s, None)
      | (s, true) =>
          let swapchainIndex := currentBackBufferIndex env in
          let s :=
            record [IDXGISwapChain3_GetCurrentBackBufferIndex window;
                    IDXGISwapChain_GetBuffer window swapchainIndex] s in
          if getBuffer env then
            let s := record [StorePresentData window swapchainIndex] s in
            (set_presentDatas
               (presentDatas s ++ [mkPresentData window swapchainIndex]) s,
             Some (window, swapchainIndex))
          else (log_error "Could not acquire swapchain!" s, None)
      end
  end.

(** *** A window with a frame in flight *)

Definition one_fence_renderer : D3D12Renderer :=
  mkRenderer (fun _ => mkFence 1) [].

Definition window_in_flight (mode : SDL_GpuPresentMode) : D3D12WindowData :=
  mkWindowData mode 1 [None; Some 5%nat; None].

(** Window 7 with fence 5 in the slot of the current frame. *)
Definition frame_in_flight (mode : SDL_GpuPresentMode) : state :=
  mkState one_fence_renderer {[ 7%nat := window_in_flight mode ]} [] [] [].

(** The window has the size of its swapchain, the fence has not
    completed, the back buffer is number 2. *)
Definition busy_gpu (setEvent : bool) : environment :=
  mkEnvironment (800, 600) (800, 600) (fun _ => 0) (fun _ => setEvent) 2 true
    (fun r => r) (fun r => r).

Definition acquired (env : environment) (s : state) (window : nat)
  : list event * option (nat * Z) * option (option (option nat)) * list nat
    * list D3D12PresentData :=
  let '(s', texture) := D3D12_AcquireSwapchainTexture env s window in
  (events s', texture,
   (fun wd => inFlightFences wd !! frameCounter wd) <$> windows s' !! window,
   availableFences (renderer s'), presentDatas s').

Example acquire_vsync_waits :
  acquired (busy_gpu true) (frame_in_flight SDL_GPU_PRESENTMODE_VSYNC) 7
  = ([IDXGISwapChain_GetDesc 7; SDL_GetWindowSize 7;
      SDL_LockMutex submitLock;
      ID3D12Fence_SetEventOnCompletion 5 1; WaitForMultipleObjects [5%nat] true;
      CheckForCleanups; SDL_UnlockMutex submitLock;
      ReleaseFence 5; StoreInFlightFence 7 1 None;
      IDXGISwapChain3_GetCurrentBackBufferIndex 7; IDXGISwapChain_GetBuffer 7 2;
      StorePresentData 7 2],
     Some (7%nat, 2), Some (Some None), [5%nat], [mkPresentData 7 2]).
Proof. vm_compute. reflexivity. Qed.

Example acquire_mailbox_skips :
  acquired (busy_gpu true) (frame_in_flight SDL_GPU_PRESENTMODE_MAILBOX) 7
  = ([IDXGISwapChain_GetDesc 7; SDL_GetWindowSize 7;
      ID3D12Fence_GetCompletedValue 5],
     None, Some (Some (Some 5%nat)), [], []).
Proof. vm_compute. reflexivity. Qed.

(** The state after [D3D12_AcquireSwapchainTexture] and the texture
    it returns. *)
Definition acquired_state (env : environment) (s : state) (window : nat) : state :=
  (D3D12_AcquireSwapchainTexture env s window).1.

Definition acquired_texture (env : environment) (s : state) (window : nat)
  : option (nat * Z) :=
  (D3D12_AcquireSwapchainTexture env s window).2.

(** The events from the release of the fence on. *)
Definition settled_events (env : environment) (window slot f : nat) : list event :=
  [ReleaseFence f; StoreInFlightFence window slot None;
   IDXGISwapChain3_GetCurrentBackBufferIndex window;
   IDXGISwapChain_GetBuffer window (currentBackBufferIndex env)]
  ++ (if getBuffer env
      then [StorePresentData window (currentBackBufferIndex env)] else []).

Section Policy.

Variable env : environment.
Variable s : state.
Variable window : nat.
Variable wd : D3D12WindowData.
Variable f : nat.
Hypothesis Hwindow : windows s !! window = Some wd.
Hypothesis Hslot : inFlightFences wd !! frameCounter wd = Some (Some f).

Let s0 : state := check_window_size env window s.

Lemma check_window_size_keeps :
  windows s0 = windows s /\ presentDatas s0 = presentDatas s.
Proof.
  subst s0. unfold check_window_size. case_bool_decide; split; reflexivity.
Qed.

Ltac run_acquire :=
  unfold acquired_state, acquired_texture, settled_events,
    D3D12_AcquireSwapchainTexture;
  rewrite Hwindow; fold s0;
  unfold settle_in_flight_fence; rewrite Hslot;
  unfold D3D12_WaitForFences, set_events, D3D12_QueryFence.

Lemma acquire_vsync :
  presentMode wd = SDL_GPU_PRESENTMODE_VSYNC ->
  (acquired_texture env s window = None -> getBuffer env = false)
  /\ (setEventOnCompletion env f = true ->
      events (acquired_state env s window)
      = events s0
        ++ [SDL_LockMutex submitLock;
            ID3D12Fence_SetEventOnCompletion f D3D12_FENCE_SIGNAL_VALUE;
            WaitForMultipleObjects [f] true; CheckForCleanups;
            SDL_UnlockMutex submitLock]
        ++ settled_events env window (frameCounter wd) f
      /\ renderer (acquired_state env s window)
         = D3D12_ReleaseFence (cleaned env (renderer s0)) f)
  /\ (setEventOnCompletion env f = false ->
      events (acquired_state env s window)
      = events s0
        ++ [SDL_LockMutex submitLock;
            ID3D12Fence_SetEventOnCompletion f D3D12_FENCE_SIGNAL_VALUE]
        ++ settled_events env window (frameCounter wd) f
      /\ renderer (acquired_state env s window)
         = D3D12_ReleaseFence (renderer s0) f).
Proof.
  intros Hmode. run_acquire.
  rewrite decide_True by exact Hmode.
  destruct (setEventOnCompletion env f); destruct (getBuffer env); cbn;
    (split; [intros H; first [reflexivity | discriminate] |]);
    (split; intros H; first [discriminate | split]);
    rewrite <- ?app_assoc; reflexivity.
Qed.

Lemma acquire_without_vsync :
  presentMode wd <> SDL_GPU_PRESENTMODE_VSYNC ->
  (completedValue env f <> D3D12_FENCE_SIGNAL_VALUE ->
   acquired_texture env s window = None
   /\ events (acquired_state env s window)
      = events s0 ++ [ID3D12Fence_GetCompletedValue f]
   /\ windows (acquired_state env s window) = windows s
   /\ renderer (acquired_state env s window) = renderer s0
   /\ presentDatas (acquired_state env s window) = presentDatas s)
  /\ (completedValue env f = D3D12_FENCE_SIGNAL_VALUE ->
      events (acquired_state env s window)
      = events s0 ++ [ID3D12Fence_GetCompletedValue f]
        ++ settled_events env window (frameCounter wd) f
      /\ renderer (acquired_state env s window)
         = D3D12_ReleaseFence (renderer s0) f).
Proof.
  intros Hmode. run_acquire.
  destruct check_window_size_keeps as [Hw0 Hp0].
  rewrite decide_False by exact Hmode.
  destruct (Z.eqb_spec (completedValue env f) D3D12_FENCE_SIGNAL_VALUE)
    as [Hdone | Hdone].
  - split; [intros H; contradiction | intros _].
    destruct (getBuffer env); cbn; split; rewrite <- ?app_assoc; reflexivity.
  - split; [intros _ | intros H; contradiction].
    cbn. rewrite Hw0, Hp0. repeat split.
Qed.

Lemma acquire_proceeds :
  presentMode wd = SDL_GPU_PRESENTMODE_VSYNC
  \/ completedValue env f = D3D12_FENCE_SIGNAL_VALUE ->
  (exists wd',
     windows (acquired_state env s window) !! window = Some wd'
     /\ inFlightFences wd' !! frameCounter wd = Some None)
  /\ referenceCount (fences (renderer (acquired_state env s window)) f)
     = s32 (referenceCount
              (fences (if decide (presentMode wd = SDL_GPU_PRESENTMODE_VSYNC)
                       then (if setEventOnCompletion env f
                             then cleaned env (renderer s0)
                             else renderer s0)
                       else renderer s0) f) - 1)
  /\ acquired_texture env s window
     = (if getBuffer env then Some (window, currentBackBufferIndex env) else None)
  /\ presentDatas (acquired_state env s window)
     = presentDatas s
       ++ (if getBuffer env
           then [mkPresentData window (currentBackBufferIndex env)] else []).
Proof.
  intros Hproceed. run_acquire.
  destruct check_window_size_keeps as [Hw0 Hp0].
  assert (Hlt : (frameCounter wd < length (inFlightFences wd))%nat)
    by (eapply lookup_lt_Some; exact Hslot).
  assert (Hgo :
    presentMode wd = SDL_GPU_PRESENTMODE_VSYNC
    \/ presentMode wd <> SDL_GPU_PRESENTMODE_VSYNC
       /\ (completedValue env f =? D3D12_FENCE_SIGNAL_VALUE) = true).
  { destruct (decide (presentMode wd = SDL_GPU_PRESENTMODE_VSYNC)) as [Hm | Hm];
      [left; exact Hm | right].
    destruct Hproceed as [Hm' | Hdone]; [contradiction |].
    split; [exact Hm | apply Z.eqb_eq; exact Hdone]. }
  destruct Hgo as [Hmode | [Hmode Hdone]].
  - rewrite !decide_True by exact Hmode.
    destruct (setEventOnCompletion env f); destruct (getBuffer env); cbn;
      rewrite ?Hp0, ?app_nil_r;
      (split; [eexists; split;
               [apply lookup_insert_eq | apply list_lookup_insert_eq; exact Hlt] |]);
      rewrite decide_True by reflexivity; repeat split.
  - rewrite !decide_False by exact Hmode. rewrite Hdone.
    destruct (getBuffer env); cbn;
      rewrite ?Hp0, ?app_nil_r;
      (split; [eexists; split;
               [apply lookup_insert_eq | apply list_lookup_insert_eq; exact Hlt] |]);
      rewrite decide_True by reflexivity; repeat split.
Qed.

End Policy.

(** The paths of the acquisition.  With a fence [f] in the slot of
    the current frame, and [s0] the state after the check of the
    window size:
    - in VSYNC mode the call goes through [D3D12_WaitForFences] on
      [f], which waits on it when its completion event can be set, and
      proceeds in any case: it returns NULL only when [GetBuffer]
      fails;
    - in the other modes the fence is queried without a wait, and if
      it has not completed the call returns NULL with the window data,
      the renderer and the present list as they were;
    - whenever the call proceeds, the release of [f] and the store of
      NULL to the slot come before the query of the back-buffer index
      and [GetBuffer], the present data is stored after them when
      [GetBuffer] succeeds, the slot holds NULL and the fence has one
      reference less. *)
Lemma acquire_swapchain_texture_paths
    (env : environment) (s : state) (window : nat) (wd : D3D12WindowData)
    (f : nat) :
  windows s !! window = Some wd ->
  inFlightFences wd !! frameCounter wd = Some (Some f) ->
  let s0 := check_window_size env window s in
  let s' := acquired_state env s window in
  let texture := acquired_texture env s window in
  let settled := settled_events env window (frameCounter wd) f in
  (presentMode wd = SDL_GPU_PRESENTMODE_VSYNC ->
   (texture = None -> getBuffer env = false)
   /\ (setEventOnCompletion env f = true ->
       events s'
       = events s0
         ++ [SDL_LockMutex submitLock;
             ID3D12Fence_SetEventOnCompletion f D3D12_FENCE_SIGNAL_VALUE;
             WaitForMultipleObjects [f] true; CheckForCleanups;
             SDL_UnlockMutex submitLock]
         ++ settled
       /\ renderer s' = D3D12_ReleaseFence (cleaned env (renderer s0)) f)
   /\ (setEventOnCompletion env f = false ->
       events s'
       = events s0
         ++ [SDL_LockMutex submitLock;
             ID3D12Fence_SetEventOnCompletion f D3D12_FENCE_SIGNAL_VALUE]
         ++ settled
       /\ renderer s' = D3D12_ReleaseFence (renderer s0) f))
  /\ (presentMode wd <> SDL_GPU_PRESENTMODE_VSYNC ->
      (completedValue env f <> D3D12_FENCE_SIGNAL_VALUE ->
       texture = None
       /\ events s' = events s0 ++ [ID3D12Fence_GetCompletedValue f]
       /\ windows s' = windows s
       /\ renderer s' = renderer s0
       /\ presentDatas s' = presentDatas s)
      /\ (completedValue env f = D3D12_FENCE_SIGNAL_VALUE ->
          events s' = events s0 ++ [ID3D12Fence_GetCompletedValue f] ++ settled
          /\ renderer s' = D3D12_ReleaseFence (renderer s0) f))
  /\ (presentMode wd = SDL_GPU_PRESENTMODE_VSYNC
      \/ completedValue env f = D3D12_FENCE_SIGNAL_VALUE ->
      (exists wd',
         windows s' !! window = Some wd'
         /\ inFlightFences wd' !! frameCounter wd = Some None)
      /\ referenceCount (fences (renderer s') f)
         = s32 (referenceCount
                  (fences (if decide (presentMode wd = SDL_GPU_PRESENTMODE_VSYNC)
                           then (if setEventOnCompletion env f
                                 then cleaned env (renderer s0)
                                 else renderer s0)
                           else renderer s0) f) - 1)
      /\ texture
         = (if getBuffer env then Some (window, currentBackBufferIndex env)
            else None)
      /\ presentDatas s'
         = presentDatas s
           ++ (if getBuffer env
               then [mkPresentData window (currentBackBufferIndex env)] else [])).
Proof.
  intros Hwindow Hslot s0 s' texture settled.
  split; [| split].
  - exact (acquire_vsync env s window wd f Hwindow Hslot).
  - exact (acquire_without_vsync env s window wd f Hwindow Hslot).
  - exact (acquire_proceeds env s window wd f Hwindow Hslot).
Qed.

Lemma acquire_swapchain_texture_paths_witness :
  events (acquired_state (busy_gpu true)
            (frame_in_flight SDL_GPU_PRESENTMODE_VSYNC) 7)
  = [IDXGISwapChain_GetDesc 7; SDL_GetWindowSize 7;
     SDL_LockMutex submitLock;
     ID3D12Fence_SetEventOnCompletion 5 1; WaitForMultipleObjects [5%nat] true;
     CheckForCleanups; SDL_UnlockMutex submitLock;
     ReleaseFence 5; StoreInFlightFence 7 1 None;
     IDXGISwapChain3_GetCurrentBackBufferIndex 7; IDXGISwapChain_GetBuffer 7 2;
     StorePresentData 7 2]
  /\ acquired_texture (busy_gpu true)
       (frame_in_flight SDL_GPU_PRESENTMODE_VSYNC) 7 = Some (7%nat, 2).
Proof.
  destruct (acquire_swapchain_texture_paths (busy_gpu true)
              (frame_in_flight SDL_GPU_PRESENTMODE_VSYNC) 7
              (window_in_flight SDL_GPU_PRESENTMODE_VSYNC) 5)
    as (Hvsync & _ & Hproceed).
  - reflexivity.
  - reflexivity.
  - destruct (Hvsync eq_refl) as (_ & Hwait & _).
    destruct (Hwait eq_refl) as [Hevents _].
    destruct (Hproceed (or_introl eq_refl)) as (_ & _ & Htexture & _).
    split; [exact Hevents | exact Htexture].
Defined.

(** What is left of the events when the calls that end with the
    release of a lock are taken out: the locks still held. *)
Fixpoint held_locks (es : list event) (held : list mutex) : list mutex :=
  match es with
  | [] => held
  | SDL_LockMutex lock :: es => held_locks es (held ++ [lock])
  | SDL_UnlockMutex lock :: es =>
      held_locks es (filter (fun other => other <> lock) held)
  | _ :: es => held_locks es held
  end.

(** C4.  Window 7 presents in VSYNC mode and has fence 5, which has
    not completed, in the slot of the current frame; the driver
    refuses the completion event of the fence.  The call logs the
    failure and makes no wait: it releases the fence, which goes back
    to the pool although the GPU has not signalled it, empties the
    slot, takes the back buffer and returns it, and [submitLock] is
    still held.  On the same window and fence, the call waits on the
    fence when the event can be set, and in MAILBOX mode it returns
    NULL and leaves the fence in its slot. *)
Theorem acquire_vsync_without_wait :
  let refused := D3D12_AcquireSwapchainTexture (busy_gpu false)
                   (frame_in_flight SDL_GPU_PRESENTMODE_VSYNC) 7 in
  let waited := D3D12_AcquireSwapchainTexture (busy_gpu true)
                  (frame_in_flight SDL_GPU_PRESENTMODE_VSYNC) 7 in
  let skipped := D3D12_AcquireSwapchainTexture (busy_gpu false)
                   (frame_in_flight SDL_GPU_PRESENTMODE_MAILBOX) 7 in
  completedValue (busy_gpu false) 5 <> D3D12_FENCE_SIGNAL_VALUE
  /\ events refused.1
     = [IDXGISwapChain_GetDesc 7; SDL_GetWindowSize 7;
        SDL_LockMutex submitLock;
        ID3D12Fence_SetEventOnCompletion 5 1;
        ReleaseFence 5; StoreInFlightFence 7 1 None;
        IDXGISwapChain3_GetCurrentBackBufferIndex 7; IDXGISwapChain_GetBuffer 7 2;
        StorePresentData 7 2]
  /\ errors refused.1 = ["Setting fence event failed"%string]
  /\ refused.2 = Some (7%nat, 2)
  /\ (inFlightFences <$> windows refused.1 !! 7%nat) = Some [None; None; None]
  /\ availableFences (renderer refused.1) = [5%nat]
  /\ presentDatas refused.1 = [mkPresentData 7 2]
  /\ held_locks (events refused.1) [] = [submitLock]
  /\ WaitForMultipleObjects [5%nat] true ∈ events waited.1
  /\ held_locks (events waited.1) [] = []
  /\ skipped.2 = None
  /\ (inFlightFences <$> windows skipped.1 !! 7%nat) = Some [None; Some 5%nat; None].
Proof.
  cbv zeta. split; [discriminate |].
  repeat split; try (vm_compute; reflexivity).
  vm_compute. do 4 right. left.
Qed.

End Swapchain.

(** ** Alignment

    [D3D12_INTERNAL_Align] on the alignments the backend uses, which
    are powers of two. *)

Module Alignment.

(** The mask [~(alignment - 1)] of a power of two, on [Uint32]. *)
Lemma align_mask k :
  0 <= k < 32 ->
  u32 (Z.lnot (u32 (2 ^ k - 1))) = Z.shiftl (Z.ones (32 - k)) k.
Proof.
  intros Hk.
  assert (Hpow : 0 < 2 ^ k <= 2 ^ 31).
  { split; [apply Z.pow_pos_nonneg; lia |].
    apply Z.pow_le_mono_r; lia. }
  rewrite (u32_small (2 ^ k - 1)) by lia.
  rewrite Z.shiftl_mul_pow2, Z.ones_equiv by lia.
  assert (Hsplit : 2 ^ 32 = 2 ^ (32 - k) * 2 ^ k).
  { rewrite <- Z.pow_add_r by lia. f_equal. lia. }
  unfold Z.lnot, u32.
  replace (Z.pred (- (2 ^ k - 1))) with (2 ^ 32 - 2 ^ k + (-1) * 2 ^ 32) by lia.
  rewrite Z.mod_add by lia.
  rewrite Z.mod_small by lia.
  rewrite Hsplit. lia.
Qed.

(** Masking a [Uint32] with it clears the [k] low bits. *)
Lemma land_align_mask x k :
  0 <= k < 32 -> 0 <= x < 2 ^ 32 ->
  Z.land x (Z.shiftl (Z.ones (32 - k)) k) = 2 ^ k * (x / 2 ^ k).
Proof.
  intros Hk Hx.
  assert (Hmod : x mod 2 ^ 32 = x) by (apply Z.mod_small; lia).
  replace (2 ^ k * (x / 2 ^ k)) with (Z.shiftl (Z.shiftr x k) k)
    by (rewrite Z.shiftl_mul_pow2, Z.shiftr_div_pow2 by lia; lia).
  apply Z.bits_inj'. intros i Hi.
  rewrite Z.land_spec.
  destruct (Z.ltb_spec i k) as [Hlow | Hhigh].
  - rewrite !Z.shiftl_spec_low by lia. apply andb_false_r.
  - rewrite !Z.shiftl_spec by lia. rewrite Z.shiftr_spec by lia.
    replace (i - k + k) with i by lia.
    destruct (Z.ltb_spec i 32) as [Hin | Hout].
    + rewrite Z.ones_spec_low by lia. apply andb_true_r.
    + rewrite Z.ones_spec_high by lia. rewrite andb_false_r.
      rewrite <- Hmod. symmetry. apply Z.mod_pow2_bits_high. lia.
Qed.

(** X1.  For a power of two [2 ^ k] and a location that leaves room
    for the rounding, [D3D12_INTERNAL_Align] returns the least
    multiple of [2 ^ k] that is not below the location. *)
Theorem align_rounds_up_to_power_of_two (location k : Z) :
  0 <= k < 32 -> 0 <= location -> location + 2 ^ k - 1 < 2 ^ 32 ->
  let aligned := D3D12_INTERNAL_Align location (2 ^ k) in
  aligned mod 2 ^ k = 0
  /\ location <= aligned < location + 2 ^ k
  /\ forall m, m mod 2 ^ k = 0 -> location <= m -> aligned <= m.
Proof.
  intros Hk Hn Hfit aligned.
  assert (Hpow : 0 < 2 ^ k) by (apply Z.pow_pos_nonneg; lia).
  assert (Haligned : aligned = 2 ^ k * ((location + (2 ^ k - 1)) / 2 ^ k)).
  { subst aligned. unfold D3D12_INTERNAL_Align.
    rewrite align_mask by exact Hk.
    rewrite (u32_small (location + (2 ^ k - 1))) by lia.
    apply land_align_mask; [exact Hk | lia]. }
  pose proof (Z.div_mod (location + (2 ^ k - 1)) (2 ^ k) ltac:(lia)) as Hdm.
  pose proof (Z.mod_pos_bound (location + (2 ^ k - 1)) (2 ^ k) Hpow) as Hb.
  split; [| split].
  - rewrite Haligned, Z.mul_comm. apply Z.mod_mul. lia.
  - rewrite Haligned. lia.
  - intros m Hm Hle.
    apply Z.mod_divide in Hm; [| lia]. destruct Hm as [q ->].
    rewrite Haligned.
    assert (Hq : (location + (2 ^ k - 1)) / 2 ^ k < q + 1).
    { apply Z.div_lt_upper_bound; [exact Hpow |]. nia. }
    nia.
Qed.

Lemma align_rounds_up_to_power_of_two_witness :
  D3D12_INTERNAL_Align 300 (2 ^ 8) mod 2 ^ 8 = 0
  /\ 300 <= D3D12_INTERNAL_Align 300 (2 ^ 8) < 300 + 2 ^ 8.
Proof.
  destruct (align_rounds_up_to_power_of_two 300 8) as (Hmod & Hbound & _);
    [lia | lia | reflexivity |].
  split; [exact Hmod | exact Hbound].
Defined.

(** X2.  Nothing checks the addition: a location within [2 ^ k] of
    the top of [Uint32] is aligned to 0. *)
Theorem align_wraps_near_the_top (location k : Z) :
  0 <= k < 32 -> 2 ^ 32 - 2 ^ k < location < 2 ^ 32 ->
  D3D12_INTERNAL_Align location (2 ^ k) = 0.
Proof.
  intros Hk Hn.
  assert (Hpow : 0 < 2 ^ k <= 2 ^ 31).
  { split; [apply Z.pow_pos_nonneg; lia |].
    apply Z.pow_le_mono_r; lia. }
  unfold D3D12_INTERNAL_Align.
  rewrite align_mask by exact Hk.
  assert (Hwrap : u32 (location + (2 ^ k - 1)) = location + (2 ^ k - 1) - 2 ^ 32).
  { unfold u32. symmetry. apply (Z.mod_unique _ _ 1); lia. }
  rewrite Hwrap.
  rewrite land_align_mask by lia.
  rewrite Z.div_small by lia. lia.
Qed.

Lemma align_wraps_near_the_top_witness :
  D3D12_INTERNAL_Align 4294967295 (2 ^ 8) = 0.
Proof. apply (align_wraps_near_the_top 4294967295 8); lia. Defined.

End Alignment.

(** ** Transitions to and from the default usage *)

Module Barriers.

(** [D3D12_INTERNAL_TextureSubresourceTransitionToDefaultUsage]. *)
Definition D3D12_INTERNAL_TextureSubresourceTransitionToDefaultUsage
    (container : Textures.D3D12TextureContainer)
    (sourceUsageMode : D3D12_RESOURCE_STATES)
    (textureIndex : nat) (s : Textures.D3D12TextureSubresource)
  : list D3D12_RESOURCE_BARRIER :=
  D3D12_INTERNAL_ResourceBarrier
    sourceUsageMode
    (D3D12_INTERNAL_DefaultTextureResourceState
       (Textures.usageFlags (Textures.info container)))
    (TextureResource textureIndex) (Textures.index s)
    (has_flag (Textures.usageFlags (Textures.info container))
       SDL_GPU_TEXTUREUSAGE_COMPUTE_STORAGE_WRITE_BIT).

(** [D3D12_INTERNAL_BufferTransitionFromDefaultUsage]. *)
Definition D3D12_INTERNAL_BufferTransitionFromDefaultUsage
    (container : Buffers.D3D12BufferContainer) (i : nat) (b : Buffers.D3D12Buffer)
    (destinationState : D3D12_RESOURCE_STATES)
  : Buffers.D3D12Buffer * list D3D12_RESOURCE_BARRIER :=
  Buffers.D3D12_INTERNAL_BufferBarrier container i b
    (D3D12_INTERNAL_DefaultBufferResourceState (Buffers.usageFlags container))
    destinationState.

(** [D3D12_INTERNAL_BufferTransitionToDefaultUsage]. *)
Definition D3D12_INTERNAL_BufferTransitionToDefaultUsage
    (container : Buffers.D3D12BufferContainer) (i : nat) (b : Buffers.D3D12Buffer)
    (sourceState : D3D12_RESOURCE_STATES)
  : Buffers.D3D12Buffer * list D3D12_RESOURCE_BARRIER :=
  Buffers.D3D12_INTERNAL_BufferBarrier container i b
    sourceState
    (D3D12_INTERNAL_DefaultBufferResourceState (Buffers.usageFlags container)).

(** The state the barriers of one resource leave it in, on the GPU's
    side: a transition applies to a resource that is in its
    [StateBefore], a UAV barrier leaves the state alone. *)
Fixpoint state_after (current : D3D12_RESOURCE_STATES)
    (bs : list D3D12_RESOURCE_BARRIER) : option D3D12_RESOURCE_STATES :=
  match bs with
  | [] => Some current
  | TransitionBarrier _ _ StateBefore StateAfter :: rest =>
      if decide (StateBefore = current) then state_after StateAfter rest else None
  | UAVBarrier _ :: rest => state_after current rest
  end.

(** A transition that changes nothing. *)
Definition idle_transition (b : D3D12_RESOURCE_BARRIER) : bool :=
  match b with
  | TransitionBarrier _ _ StateBefore StateAfter =>
      bool_decide (StateBefore = StateAfter)
  | UAVBarrier _ => false
  end.

Lemma state_after_resource_barrier current source destination resource index uav :
  source = current ->
  state_after current
    (D3D12_INTERNAL_ResourceBarrier source destination resource index uav)
  = Some destination.
Proof.
  intros ->. unfold D3D12_INTERNAL_ResourceBarrier.
  destruct (decide (current = destination)) as [-> | Hne]; destruct uav; cbn;
    rewrite ?decide_True by reflexivity; reflexivity.
Qed.

Lemma state_after_app current bs1 bs2 :
  state_after current (bs1 ++ bs2)
  = match state_after current bs1 with
    | Some s => state_after s bs2
    | None => None
    end.
Proof.
  revert current. induction bs1 as [| b rest IH]; intros current; cbn.
  - reflexivity.
  - destruct b as [res sub before after | res].
    + destruct (decide (before = current)); [apply IH | reflexivity].
    + apply IH.
Qed.

Lemma resource_barrier_never_idle source destination resource index uav :
  forallb (fun b => negb (idle_transition b))
    (D3D12_INTERNAL_ResourceBarrier source destination resource index uav) = true.
Proof.
  unfold D3D12_INTERNAL_ResourceBarrier.
  destruct (decide (source = destination)) as [-> | Hne]; destruct uav; cbn;
    rewrite ?bool_decide_eq_false_2 by exact Hne; reflexivity.
Qed.

(** X3.  For a texture sub-resource in the default state of its
    container, the barriers of a transition to any usage mode followed
    by those of the transition back from it apply in order and leave
    the sub-resource in the default state again; none of them is a
    transition from a state to itself. *)
Theorem texture_transition_round_trip
    (container : Textures.D3D12TextureContainer)
    (usageMode : D3D12_RESOURCE_STATES)
    (textureIndex : nat) (s : Textures.D3D12TextureSubresource) :
  let default :=
    D3D12_INTERNAL_DefaultTextureResourceState
      (Textures.usageFlags (Textures.info container)) in
  let there :=
    Textures.D3D12_INTERNAL_TextureSubresourceTransitionFromDefaultUsage
      container usageMode textureIndex s in
  let back :=
    D3D12_INTERNAL_TextureSubresourceTransitionToDefaultUsage
      container usageMode textureIndex s in
  state_after default there = Some usageMode
  /\ state_after default (there ++ back) = Some default
  /\ forallb (fun b => negb (idle_transition b)) (there ++ back) = true.
Proof.
  intros default there back.
  assert (Hthere : state_after default there = Some usageMode)
    by (apply state_after_resource_barrier; reflexivity).
  split; [exact Hthere |]. split.
  - rewrite state_after_app, Hthere.
    apply state_after_resource_barrier. reflexivity.
  - rewrite forallb_app. apply andb_true_iff.
    split; apply resource_barrier_never_idle.
Qed.

(** X4.  A buffer that [D3D12_INTERNAL_CreateBuffer] made on the GPU
    heap starts in the COMMON state and not marked as transitioned;
    its first transition from the default usage then starts from
    COMMON, and the transition back leaves it in the default state of
    its container, marked as transitioned; from there on the round
    trip starts and ends in the default state. *)
Theorem buffer_transition_round_trip
    (renderer : Buffers.Renderer) (container : Buffers.D3D12BufferContainer)
    (i : nat) (b : Buffers.D3D12Buffer) (state : D3D12_RESOURCE_STATES) :
  Buffers.D3D12_INTERNAL_CreateBuffer renderer true
    (Buffers.usageFlags container) (Buffers.size container)
    Buffers.D3D12_BUFFER_TYPE_GPU = Some b ->
  let default :=
    D3D12_INTERNAL_DefaultBufferResourceState (Buffers.usageFlags container) in
  let '(b1, there) :=
    D3D12_INTERNAL_BufferTransitionFromDefaultUsage container i b state in
  let '(b2, back) :=
    D3D12_INTERNAL_BufferTransitionToDefaultUsage container i b1 state in
  let '(b3, again) :=
    D3D12_INTERNAL_BufferTransitionFromDefaultUsage container i b2 state in
  let '(b4, back_again) :=
    D3D12_INTERNAL_BufferTransitionToDefaultUsage container i b3 state in
  state_after D3D12_RESOURCE_STATE_COMMON (there ++ back) = Some default
  /\ Buffers.transitioned b2 = true
  /\ state_after default (again ++ back_again) = Some default
  /\ state_after D3D12_RESOURCE_STATE_COMMON (there ++ back ++ again ++ back_again)
     = Some default.
Proof.
  intros Hcreate default.
  cbn in Hcreate. injection Hcreate as <-.
  unfold D3D12_INTERNAL_BufferTransitionFromDefaultUsage,
    D3D12_INTERNAL_BufferTransitionToDefaultUsage,
    Buffers.D3D12_INTERNAL_BufferBarrier. cbn.
  fold default.
  repeat (rewrite state_after_app
          || rewrite state_after_resource_barrier by reflexivity).
  repeat split; reflexivity.
Qed.

Lemma buffer_transition_round_trip_witness :
  state_after D3D12_RESOURCE_STATE_COMMON
    [TransitionBarrier (BufferResource 0) 0
       D3D12_RESOURCE_STATE_COMMON D3D12_RESOURCE_STATE_COPY_DEST;
     TransitionBarrier (BufferResource 0) 0
       D3D12_RESOURCE_STATE_COPY_DEST D3D12_RESOURCE_STATE_VERTEX_AND_CONSTANT_BUFFER]
  = Some D3D12_RESOURCE_STATE_VERTEX_AND_CONSTANT_BUFFER.
Proof.
  pose proof (buffer_transition_round_trip
                (Buffers.mkRenderer false false)
                (Buffers.mkBufferContainer SDL_GPU_BUFFERUSAGE_VERTEX_BIT 64
                   Buffers.D3D12_BUFFER_TYPE_GPU 0 [] None)
                0
                (Buffers.mkBuffer SDL_GPU_BUFFERUSAGE_VERTEX_BIT 64
                   Buffers.D3D12_BUFFER_TYPE_GPU None 0 0 false)
                D3D12_RESOURCE_STATE_COPY_DEST eq_refl) as H.
  cbn in H. destruct H as (H & _). exact H.
Defined.

End Barriers.

(** ** Resource tracking

    [TRACK_RESOURCE], as [D3D12_INTERNAL_TrackBuffer] and
    [D3D12_INTERNAL_TrackUniformBuffer] instantiate it. *)

Module Tracking.

Import Uniform.

Lemma used_buffers_tracked b s :
  usedBuffers (D3D12_INTERNAL_TrackBuffer b s)
  = if bool_decide (b ∈ usedBuffers s) then usedBuffers s else usedBuffers s ++ [b].
Proof. unfold D3D12_INTERNAL_TrackBuffer. case_bool_decide; reflexivity. Qed.

(** X5.  Tracking a buffer puts it on the command buffer's list of
    used buffers once: the list gains the buffer if it was not there
    and keeps having no duplicates, the reference count of the buffer
    goes up by one the first time and is left alone afterwards, and
    tracking the same buffer again changes nothing. *)
Theorem track_buffer_once (b : nat) (s : state) :
  let s' := D3D12_INTERNAL_TrackBuffer b s in
  b ∈ usedBuffers s'
  /\ (NoDup (usedBuffers s) -> NoDup (usedBuffers s'))
  /\ (referenceCount <$> buffers s' !! b)
     = ((fun bo => if bool_decide (b ∈ usedBuffers s)
                   then referenceCount bo else referenceCount bo + 1)
        <$> buffers s !! b)
  /\ D3D12_INTERNAL_TrackBuffer b s' = s'.
Proof.
  intros s'. subst s'.
  destruct (decide (b ∈ usedBuffers s)) as [Hin | Hin].
  - assert (Heq : D3D12_INTERNAL_TrackBuffer b s = s)
      by (unfold D3D12_INTERNAL_TrackBuffer;
          rewrite bool_decide_eq_true_2 by exact Hin; reflexivity).
    rewrite !Heq. rewrite bool_decide_eq_true_2 by exact Hin.
    split; [exact Hin |]. split; [tauto |]. split; [| reflexivity].
    destruct (buffers s !! b); reflexivity.
  - assert (Hused : b ∈ usedBuffers (D3D12_INTERNAL_TrackBuffer b s)).
    { rewrite used_buffers_tracked, bool_decide_eq_false_2 by exact Hin.
      set_solver. }
    split; [exact Hused |]. split; [| split].
    + intros Hnd.
      rewrite used_buffers_tracked, bool_decide_eq_false_2 by exact Hin.
      apply NoDup_app. repeat split; [exact Hnd | | apply NoDup_singleton].
      intros x Hx Hx'. apply list_elem_of_singleton in Hx'. subst x. contradiction.
    + unfold D3D12_INTERNAL_TrackBuffer.
      rewrite !bool_decide_eq_false_2 by exact Hin. cbn.
      rewrite lookup_alter_eq. destruct (buffers s !! b); reflexivity.
    + unfold D3D12_INTERNAL_TrackBuffer at 1.
      rewrite bool_decide_eq_true_2 by exact Hused. reflexivity.
Qed.

End Tracking.

(** ** Staging descriptors are handed out once *)

Module DescriptorSafety.

Import Descriptors.

(** The free list of a staging heap: the first
    [inactiveDescriptorCount] entries of its array. *)
Definition free_indices (h : D3D12DescriptorHeap) : list Z :=
  take (Z.to_nat (inactiveDescriptorCount h)) (inactiveDescriptorIndices h).

(** A staging heap whose descriptors in use have the indices [live]:
    the accounting holds, and the free and the live indices are
    distinct slots below the cursor. *)
Definition heap_sound (h : D3D12DescriptorHeap) (live : list Z) : Prop :=
  heap_accounts h (Z.of_nat (length live))
  /\ NoDup (free_indices h ++ live)
  /\ Forall (fun i => 0 <= i < currentDescriptorIndex h) (free_indices h ++ live).

Lemma create_heap_sound cpuStart size n :
  0 <= n < 2 ^ 32 ->
  heap_sound (D3D12_INTERNAL_CreateDescriptorHeap cpuStart size n) [].
Proof.
  intros Hn. split; [apply create_heap_accounts; exact Hn |].
  unfold free_indices. cbn. split; [apply NoDup_nil_2 | apply Forall_nil_2].
Qed.

Lemma take_snoc_lookup {A : Type} (l : list A) (n : nat) (x : A) :
  l !! n = Some x -> take (S n) l = take n l ++ [x].
Proof. intros H. apply take_S_r. exact H. Qed.

(** X6.  On a sound staging heap an assignment either hands out a
    slot below [maxDescriptors] that no descriptor in use holds, and
    leaves the heap sound with that slot in use, or finds the heap
    exhausted (no free entry and the cursor at [maxDescriptors]),
    logs the error and returns the invalid descriptor with the heaps
    as they were. *)
Theorem assign_hands_out_unused_slot
    (r : Renderer) (t : D3D12_DESCRIPTOR_HEAP_TYPE) (d : D3D12CPUDescriptor)
    (live : list Z) :
  heap_sound (stagingDescriptorHeaps r t) live ->
  exists r' d',
    D3D12_INTERNAL_AssignCpuDescriptorHandle r t d = Some (r', d')
    /\ (forall t', t' <> t -> stagingDescriptorHeaps r' t' = stagingDescriptorHeaps r t')
    /\ (((cpuHandleIndex d' ∉ live)
         /\ 0 <= cpuHandleIndex d' < maxDescriptors (stagingDescriptorHeaps r t)
         /\ heap d' = Some t
         /\ errors r' = errors r
         /\ heap_sound (stagingDescriptorHeaps r' t) (cpuHandleIndex d' :: live))
        \/ (Z.of_nat (length live) = maxDescriptors (stagingDescriptorHeaps r t)
            /\ d' = invalid_descriptor (Some t)
            /\ errors r' = errors r ++ [out_of_descriptors]
            /\ stagingDescriptorHeaps r' = stagingDescriptorHeaps r)).
Proof.
  intros ((Hlen & Hc & Hl & Hsum & Hmax & Hbig) & Hnd & Hrange).
  unfold D3D12_INTERNAL_AssignCpuDescriptorHandle.
  set (h := stagingDescriptorHeaps r t) in *.
  unfold free_indices in Hnd, Hrange.
  destruct (Z.ltb_spec 0 (inactiveDescriptorCount h)) as [Hfree | Hnone].
  - (* the top of the free list *)
    set (n := Z.to_nat (inactiveDescriptorCount h - 1)).
    assert (Hn : Z.to_nat (inactiveDescriptorCount h) = S n) by (subst n; lia).
    assert (Hin : (n < length (inactiveDescriptorIndices h))%nat)
      by (rewrite Hlen; subst n; lia).
    destruct (lookup_lt_is_Some_2 _ _ Hin) as [top Htop].
    rewrite Htop.
    rewrite Hn, (take_snoc_lookup _ _ _ Htop) in Hnd, Hrange.
    eexists _, _. split; [reflexivity |].
    split; [intros t' Ht'; apply lookup_set_heap_ne; exact Ht' |].
    left. rewrite lookup_set_heap_eq. cbn.
    assert (Hu : u32 (inactiveDescriptorCount h - 1) = inactiveDescriptorCount h - 1)
      by (apply u32_small; lia).
    rewrite <- app_assoc in Hnd, Hrange. cbn in Hnd, Hrange.
    apply NoDup_app in Hnd. destruct Hnd as (Hnd1 & Hdisj & Hnd2).
    apply Forall_app in Hrange. destruct Hrange as [Hr1 Hr2].
    split; [| split; [| split; [reflexivity | split; [reflexivity |]]]].
    + apply NoDup_cons in Hnd2. tauto.
    + apply Forall_cons in Hr2. lia.
    + unfold heap_sound, heap_accounts, free_indices. cbn. rewrite Hu.
      replace (Z.to_nat (inactiveDescriptorCount h - 1)) with n by (subst n; lia).
      split; [repeat split; try lia; exact Hlen |].
      split; [apply NoDup_app; repeat split; assumption |].
      apply Forall_app. split; assumption.
  - destruct (Z.ltb_spec (currentDescriptorIndex h) (maxDescriptors h))
      as [Hroom | Hfull].
    + (* the slot at the cursor *)
      assert (Hzero : inactiveDescriptorCount h = 0) by lia.
      rewrite Hzero in Hnd, Hrange. cbn in Hnd, Hrange.
      eexists _, _. split; [reflexivity |].
      split; [intros t' Ht'; apply lookup_set_heap_ne; exact Ht' |].
      left. rewrite lookup_set_heap_eq. cbn.
      assert (Hu : u32 (currentDescriptorIndex h + 1) = currentDescriptorIndex h + 1)
        by (apply u32_small; lia).
      split; [| split; [| split; [reflexivity | split; [reflexivity |]]]].
      * intros Hin. rewrite Forall_forall in Hrange.
        specialize (Hrange _ Hin). lia.
      * lia.
      * unfold heap_sound, heap_accounts, free_indices. cbn. rewrite Hu, Hzero.
        cbn. split; [repeat split; try lia; exact Hlen |].
        split.
        -- apply NoDup_cons. split; [| exact Hnd].
           intros Hin. rewrite Forall_forall in Hrange.
           specialize (Hrange _ Hin). lia.
        -- apply Forall_cons. split; [lia |].
           eapply Forall_impl; [exact Hrange |]. cbn. intros x Hx. lia.
    + eexists _, _. split; [reflexivity |].
      split; [intros t' Ht'; reflexivity |].
      right. cbn. repeat split. lia.
Qed.

Lemma assign_hands_out_unused_slot_witness :
  exists r' d',
    D3D12_INTERNAL_AssignCpuDescriptorHandle
      {| stagingDescriptorHeaps :=
           fun _ => D3D12_INTERNAL_CreateDescriptorHeap 4096 32 2;
         errors := [] |}
      D3D12_DESCRIPTOR_HEAP_TYPE_RTV (invalid_descriptor None) = Some (r', d')
    /\ cpuHandleIndex d' = 0.
Proof.
  destruct (assign_hands_out_unused_slot
              {| stagingDescriptorHeaps :=
                   fun _ => D3D12_INTERNAL_CreateDescriptorHeap 4096 32 2;
                 errors := [] |}
              D3D12_DESCRIPTOR_HEAP_TYPE_RTV (invalid_descriptor None) [])
    as (r' & d' & Hassign & _ & _).
  - apply create_heap_sound. lia.
  - exists r', d'. split; [exact Hassign |].
    cbn in Hassign. injection Hassign as _ <-. reflexivity.
Defined.

(** Dropping one element from a list without duplicates. *)
Lemma filter_out_length (live : list Z) (x : Z) :
  NoDup live -> x ∈ live ->
  S (length (List.filter (fun y => negb (y =? x)) live)) = length live.
Proof.
  induction live as [| y rest IH]; intros Hnd Hin.
  - inversion Hin.
  - apply NoDup_cons in Hnd. destruct Hnd as [Hy Hnd].
    cbn. destruct (Z.eqb_spec y x) as [-> | Hne]; cbn.
    + f_equal. clear IH Hin.
      induction rest as [| z rest IH]; [reflexivity |].
      apply NoDup_cons in Hnd. destruct Hnd as [Hz Hnd].
      cbn. destruct (Z.eqb_spec z x) as [-> | Hne].
      * exfalso. apply Hy. left.
      * cbn. f_equal. apply IH; [| exact Hnd].
        intros Hin. apply Hy. right. exact Hin.
    + f_equal. apply IH; [exact Hnd |].
      apply elem_of_cons in Hin. destruct Hin as [-> | Hin]; [contradiction | exact Hin].
Qed.

Lemma filter_out_elem (live : list Z) (x y : Z) :
  y ∈ List.filter (fun z => negb (z =? x)) live <-> y ∈ live /\ y <> x.
Proof.
  rewrite !list_elem_of_In, filter_In.
  destruct (Z.eqb_spec y x); cbn; intuition congruence.
Qed.

Lemma filter_out_NoDup (live : list Z) (x : Z) :
  NoDup live -> NoDup (List.filter (fun z => negb (z =? x)) live).
Proof.
  induction 1 as [| y rest Hy Hnd IH]; cbn; [apply NoDup_nil_2 |].
  destruct (Z.eqb_spec y x); cbn; [exact IH |].
  apply NoDup_cons. split; [| exact IH].
  rewrite filter_out_elem. tauto.
Qed.

(** X7.  Releasing a descriptor in use on a sound staging heap stays
    inside the free-list array, returns the invalid descriptor and
    leaves the heap sound with that slot no longer in use and on top
    of the free list; the other heaps and the cursor are untouched. *)
Theorem release_frees_the_slot
    (r : Renderer) (t : D3D12_DESCRIPTOR_HEAP_TYPE) (d : D3D12CPUDescriptor)
    (live : list Z) :
  heap_sound (stagingDescriptorHeaps r t) live ->
  heap d = Some t ->
  cpuHandleIndex d ∈ live ->
  exists r',
    D3D12_INTERNAL_ReleaseCpuDescriptorHandle r d = Some (r', invalid_descriptor None)
    /\ (forall t', t' <> t -> stagingDescriptorHeaps r' t' = stagingDescriptorHeaps r t')
    /\ free_indices (stagingDescriptorHeaps r' t)
       = free_indices (stagingDescriptorHeaps r t) ++ [cpuHandleIndex d]
    /\ currentDescriptorIndex (stagingDescriptorHeaps r' t)
       = currentDescriptorIndex (stagingDescriptorHeaps r t)
    /\ heap_sound (stagingDescriptorHeaps r' t)
         (List.filter (fun i => negb (i =? cpuHandleIndex d)) live).
Proof.
  intros (Hacc & Hnd & Hrange) Hheap Hin.
  assert (Hlive : 0 < Z.of_nat (length live))
    by (destruct live; [inversion Hin | cbn; lia]).
  destruct (release_accounts r d t _ Hheap Hacc Hlive)
    as (r' & d' & Hrel & Hacc' & Htop & Hcount & Hcur).
  assert (Hd' : d' = invalid_descriptor None).
  { unfold D3D12_INTERNAL_ReleaseCpuDescriptorHandle in Hrel. rewrite Hheap in Hrel.
    destruct (decide _) in Hrel; [| discriminate].
    injection Hrel as _ <-. reflexivity. }
  subst d'. exists r'. split; [exact Hrel |].
  assert (Hother :
    forall t', t' <> t -> stagingDescriptorHeaps r' t' = stagingDescriptorHeaps r t').
  { intros t' Ht'.
    unfold D3D12_INTERNAL_ReleaseCpuDescriptorHandle in Hrel. rewrite Hheap in Hrel.
    destruct (decide _) in Hrel; [| discriminate].
    injection Hrel as <-. apply lookup_set_heap_ne. exact Ht'. }
  split; [exact Hother |].
  set (h := stagingDescriptorHeaps r t) in *.
  set (h' := stagingDescriptorHeaps r' t) in *.
  destruct Hacc as (Hlen & Hc & Hl & Hsum & Hmax & Hbig).
  assert (Hfree : free_indices h' = free_indices h ++ [cpuHandleIndex d]).
  { unfold free_indices. rewrite Hcount.
    replace (Z.to_nat (inactiveDescriptorCount h + 1))
      with (S (Z.to_nat (inactiveDescriptorCount h))) by lia.
    rewrite (take_snoc_lookup _ _ _ Htop). f_equal.
    unfold D3D12_INTERNAL_ReleaseCpuDescriptorHandle in Hrel. rewrite Hheap in Hrel.
    fold h in Hrel.
    destruct (decide _) as [Hroom |] in Hrel; [| discriminate].
    injection Hrel as Hr'. subst h'. rewrite <- Hr', lookup_set_heap_eq. cbn.
    apply take_insert_ge. lia. }
  split; [exact Hfree |]. split; [exact Hcur |].
  assert (Hnd_live : NoDup live) by (apply NoDup_app in Hnd; tauto).
  pose proof (filter_out_length live _ Hnd_live Hin) as Hcountlive.
  split; [| split].
  - replace (Z.of_nat (length (List.filter (fun i => negb (i =? cpuHandleIndex d)) live)))
      with (Z.of_nat (length live) - 1) by lia.
    exact Hacc'.
  - rewrite Hfree, <- app_assoc. cbn.
    apply NoDup_app in Hnd. destruct Hnd as (Hnd1 & Hdisj & _).
    apply NoDup_app. repeat split; [exact Hnd1 | |].
    + intros x Hx Hx'. apply elem_of_cons in Hx'.
      destruct Hx' as [-> | Hx'].
      * exact (Hdisj _ Hx Hin).
      * apply filter_out_elem in Hx'. exact (Hdisj _ Hx (proj1 Hx')).
    + apply NoDup_cons. split; [| apply filter_out_NoDup; exact Hnd_live].
      rewrite filter_out_elem. tauto.
  - rewrite Hfree, Hcur, <- app_assoc. cbn.
    rewrite Forall_forall in Hrange. apply Forall_forall. intros x Hx.
    apply Hrange. apply elem_of_app in Hx. apply elem_of_app.
    destruct Hx as [Hx | Hx]; [left; exact Hx | right].
    apply elem_of_cons in Hx. destruct Hx as [-> | Hx]; [exact Hin |].
    apply filter_out_elem in Hx. tauto.
Qed.

Lemma full_heap_sound : heap_sound full_heap [0; 1].
Proof.
  split; [unfold heap_accounts; cbn; repeat split; lia |].
  unfold free_indices. cbn. split.
  - apply NoDup_cons. split; [| apply NoDup_singleton].
    intros H. apply list_elem_of_singleton in H. discriminate.
  - repeat (apply Forall_cons; split; [lia |]). apply Forall_nil_2.
Qed.

Lemma release_frees_the_slot_witness :
  exists r',
    D3D12_INTERNAL_ReleaseCpuDescriptorHandle full_renderer slot1_descriptor
    = Some (r', invalid_descriptor None)
    /\ free_indices (stagingDescriptorHeaps r' D3D12_DESCRIPTOR_HEAP_TYPE_RTV) = [1].
Proof.
  destruct (release_frees_the_slot full_renderer D3D12_DESCRIPTOR_HEAP_TYPE_RTV
              slot1_descriptor [0; 1])
    as (r' & Hrel & _ & Hfree & _).
  - exact full_heap_sound.
  - reflexivity.
  - apply elem_of_cons. right. apply list_elem_of_singleton. reflexivity.
  - exists r'. split; [exact Hrel | exact Hfree].
Defined.

End DescriptorSafety.

(** ** Shader-visible descriptor heaps

    The heaps a command buffer copies descriptors into:
    [D3D12_INTERNAL_WriteGPUDescriptors] and the pools of
    [D3D12_INTERNAL_AcquireDescriptorHeapFromPool] and
    [D3D12_INTERNAL_ReturnDescriptorHeapToPool]. *)

Module GpuDescriptors.

Import Descriptors.

Definition VIEW_GPU_DESCRIPTOR_COUNT : Z := 65536.
Definition SAMPLER_GPU_DESCRIPTOR_COUNT : Z := 2048.

(** The fields of [struct D3D12DescriptorHeap] a shader-visible heap
    uses. *)
Record D3D12DescriptorHeap : Type := mkGpuHeap {
  heapType : D3D12_DESCRIPTOR_HEAP_TYPE;
  descriptorHeapCPUStart : Z;
  descriptorHeapGPUStart : Z;
  maxDescriptors : Z;
  descriptorSize : Z;
  currentDescriptorIndex : Z
}.

Inductive call : Type :=
  | CopyDescriptorsSimple (NumDescriptors DestDescriptorRangeStart
                           SrcDescriptorRangeStart : Z)
      (DescriptorHeapsType : D3D12_DESCRIPTOR_HEAP_TYPE).

Definition set_currentDescriptorIndex (i : Z) (h : D3D12DescriptorHeap)
  : D3D12DescriptorHeap :=
  mkGpuHeap (heapType h) (descriptorHeapCPUStart h) (descriptorHeapGPUStart h)
    (maxDescriptors h) (descriptorSize h) i.

(** The loop of [D3D12_INTERNAL_WriteGPUDescriptors]. *)
Fixpoint copy_descriptors (heap : D3D12DescriptorHeap)
    (heapType : D3D12_DESCRIPTOR_HEAP_TYPE) (gpuHeapCpuHandle : Z)
    (resourceDescriptorHandles : list Z) : D3D12DescriptorHeap * list call :=
  match resourceDescriptorHandles with
  | [] => (heap, [])
  | handle :: rest =>
      let '(heap', calls) :=
        copy_descriptors
          (set_currentDescriptorIndex (u32 (currentDescriptorIndex heap + 1)) heap)
          heapType (u64 (gpuHeapCpuHandle + descriptorSize heap)) rest in
      (heap', CopyDescriptorsSimple 1 gpuHeapCpuHandle handle heapType :: calls)
  end.

(** [D3D12_INTERNAL_WriteGPUDescriptors] on the heap of the command
    buffer: the heap after the call, the base descriptor written to
    [gpuBaseDescriptor] and the copies made. *)
Definition D3D12_INTERNAL_WriteGPUDescriptors (heap : D3D12DescriptorHeap)
    (heapType : D3D12_DESCRIPTOR_HEAP_TYPE) (resourceDescriptorHandles : list Z)
  : D3D12DescriptorHeap * Z * list call :=
  (* FIXME: need to error on overflow *)
  let gpuHeapCpuHandle :=
    u64 (descriptorHeapCPUStart heap
         + u32 (currentDescriptorIndex heap * descriptorSize heap)) in
  let gpuBaseDescriptor :=
    u64 (descriptorHeapGPUStart heap
         + u32 (currentDescriptorIndex heap * descriptorSize heap)) in
  let '(heap', calls) :=
    copy_descriptors heap heapType gpuHeapCpuHandle resourceDescriptorHandles in
  (heap', gpuBaseDescriptor, calls).

(** The copies of [handles] to consecutive slots from slot [first]. *)
Definition copies_from (heap : D3D12DescriptorHeap)
    (heapType : D3D12_DESCRIPTOR_HEAP_TYPE) (first : Z) (handles : list Z)
  : list call :=
  imap (fun i handle =>
          CopyDescriptorsSimple 1
            (descriptorHeapCPUStart heap + (first + Z.of_nat i) * descriptorSize heap)
            handle heapType)
       handles.

Lemma u64_small z : 0 <= z < 2 ^ 64 -> u64 z = z.
Proof. intros H. unfold u64. apply Z.mod_small. exact H. Qed.

Lemma copy_descriptors_spec handles :
  forall heap heapType,
    0 <= descriptorHeapCPUStart heap ->
    0 <= descriptorSize heap ->
    0 <= currentDescriptorIndex heap ->
    currentDescriptorIndex heap + Z.of_nat (length handles) < 2 ^ 32 ->
    descriptorHeapCPUStart heap
    + (currentDescriptorIndex heap + Z.of_nat (length handles)) * descriptorSize heap
    < 2 ^ 64 ->
    copy_descriptors heap heapType
      (descriptorHeapCPUStart heap
       + currentDescriptorIndex heap * descriptorSize heap) handles
    = (set_currentDescriptorIndex
         (currentDescriptorIndex heap + Z.of_nat (length handles)) heap,
       copies_from heap heapType (currentDescriptorIndex heap) handles).
Proof.
  induction handles as [| handle rest IH]; intros heap ty Hstart Hsize Hcur Hfit Hptr.
  - cbn. f_equal. destruct heap; cbn. unfold set_currentDescriptorIndex. cbn.
    f_equal. lia.
  - cbn [copy_descriptors length].
    assert (Hnext : u32 (currentDescriptorIndex heap + 1)
                    = currentDescriptorIndex heap + 1)
      by (apply u32_small; cbn [length] in Hfit; lia).
    assert (Hhandle :
      u64 (descriptorHeapCPUStart heap
           + currentDescriptorIndex heap * descriptorSize heap
           + descriptorSize heap)
      = descriptorHeapCPUStart heap
        + (currentDescriptorIndex heap + 1) * descriptorSize heap).
    { rewrite u64_small; [lia |]. cbn [length] in Hptr. nia. }
    rewrite Hnext, Hhandle.
    specialize (IH (set_currentDescriptorIndex (currentDescriptorIndex heap + 1) heap) ty).
    cbn in IH. rewrite IH; cbn [length] in *; try lia; try nia.
    unfold copies_from. cbn. f_equal.
    + destruct heap; cbn. unfold set_currentDescriptorIndex. cbn. f_equal. lia.
    + f_equal.
      * f_equal. lia.
      * apply imap_ext. intros i x _. cbn. f_equal. lia.
Qed.

(** X8.  On a heap whose addresses do not wrap, a write of [n]
    descriptors copies them, one by one and in order, to the [n]
    consecutive slots from the cursor, returns the GPU address of the
    first of these slots and advances the cursor by [n]; nothing
    compares the cursor with [maxDescriptors]. *)
Theorem write_gpu_descriptors_fills_consecutive_slots
    (heap : D3D12DescriptorHeap) (heapType : D3D12_DESCRIPTOR_HEAP_TYPE)
    (handles : list Z) :
  0 <= descriptorHeapCPUStart heap ->
  0 <= descriptorHeapGPUStart heap ->
  0 <= descriptorSize heap ->
  0 <= currentDescriptorIndex heap ->
  (currentDescriptorIndex heap + Z.of_nat (length handles)) * descriptorSize heap
  < 2 ^ 32 ->
  currentDescriptorIndex heap + Z.of_nat (length handles) < 2 ^ 32 ->
  descriptorHeapCPUStart heap + 2 ^ 32 <= 2 ^ 64 ->
  descriptorHeapGPUStart heap + 2 ^ 32 <= 2 ^ 64 ->
  D3D12_INTERNAL_WriteGPUDescriptors heap heapType handles
  = (set_currentDescriptorIndex
       (currentDescriptorIndex heap + Z.of_nat (length handles)) heap,
     descriptorHeapGPUStart heap + currentDescriptorIndex heap * descriptorSize heap,
     copies_from heap heapType (currentDescriptorIndex heap) handles).
Proof.
  intros Hcpu Hgpu Hsize Hcur Hmul Hfit Hcpu64 Hgpu64.
  unfold D3D12_INTERNAL_WriteGPUDescriptors.
  assert (Hoff : 0 <= currentDescriptorIndex heap * descriptorSize heap < 2 ^ 32)
    by nia.
  rewrite (u32_small _ Hoff).
  rewrite !u64_small by lia.
  rewrite copy_descriptors_spec by (try assumption; nia).
  reflexivity.
Qed.

Definition sampler_heap (cursor : Z) : D3D12DescriptorHeap :=
  mkGpuHeap D3D12_DESCRIPTOR_HEAP_TYPE_SAMPLER 4096 8192 2048 32 cursor.

Lemma write_gpu_descriptors_fills_consecutive_slots_witness :
  D3D12_INTERNAL_WriteGPUDescriptors (sampler_heap 3)
    D3D12_DESCRIPTOR_HEAP_TYPE_SAMPLER [100; 200]
  = (sampler_heap 5, 8288,
     [CopyDescriptorsSimple 1 4192 100 D3D12_DESCRIPTOR_HEAP_TYPE_SAMPLER;
      CopyDescriptorsSimple 1 4224 200 D3D12_DESCRIPTOR_HEAP_TYPE_SAMPLER]).
Proof.
  apply (write_gpu_descriptors_fills_consecutive_slots (sampler_heap 3)
           D3D12_DESCRIPTOR_HEAP_TYPE_SAMPLER [100; 200]); cbn; lia.
Defined.

(** The heaps by address, the two pools of [descriptorHeapPools] up
    to their counts and the error log. *)
Record Renderer : Type := mkRenderer {
  heapStore : gmap nat D3D12DescriptorHeap;
  descriptorHeapPools : list (list nat);
  errors : list string
}.

(** The value of a [D3D12_DESCRIPTOR_HEAP_TYPE], which indexes the
    pools. *)
Definition heap_type_value (t : D3D12_DESCRIPTOR_HEAP_TYPE) : nat :=
  match t with
  | D3D12_DESCRIPTOR_HEAP_TYPE_CBV_SRV_UAV => 0
  | D3D12_DESCRIPTOR_HEAP_TYPE_SAMPLER => 1
  | D3D12_DESCRIPTOR_HEAP_TYPE_RTV => 2
  | D3D12_DESCRIPTOR_HEAP_TYPE_DSV => 3
  end.

Definition failed_heap_creation : string := "Failed to create descriptor heap!".

(** [D3D12_INTERNAL_AcquireDescriptorHeapFromPool].  [driver] is the
    outcome of the creation the call may ask for: the CPU start, the
    GPU start and the increment size of the new heap, or a failure. *)
Definition D3D12_INTERNAL_AcquireDescriptorHeapFromPool
    (driver : option (Z * Z * Z)) (r : Renderer)
    (descriptorHeapType : D3D12_DESCRIPTOR_HEAP_TYPE)
  : option (Renderer * option nat) :=
  pool ← descriptorHeapPools r !! heap_type_value descriptorHeapType;
  match reverse pool with
  | result :: rest =>
      Some (mkRenderer (heapStore r)
              (<[heap_type_value descriptorHeapType := reverse rest]>
                 (descriptorHeapPools r))
              (errors r),
            Some result)
  | [] =>
      match driver with
      | None =>
          Some (mkRenderer (heapStore r) (descriptorHeapPools r)
                  (errors r ++ [failed_heap_creation]),
                None)
      | Some (cpuStart, gpuStart, size) =>
          let result := fresh (dom (heapStore r)) in
          Some (mkRenderer
                  (<[result :=
                       mkGpuHeap descriptorHeapType cpuStart gpuStart
                         (if decide (descriptorHeapType
                                     = D3D12_DESCRIPTOR_HEAP_TYPE_CBV_SRV_UAV)
                          then VIEW_GPU_DESCRIPTOR_COUNT
                          else SAMPLER_GPU_DESCRIPTOR_COUNT)
                         size 0]>
                     (heapStore r))
                  (descriptorHeapPools r) (errors r),
                Some result)
      end
  end.

(** [D3D12_INTERNAL_ReturnDescriptorHeapToPool]. *)
Definition D3D12_INTERNAL_ReturnDescriptorHeapToPool (r : Renderer) (heap : nat)
  : option Renderer :=
  h ← heapStore r !! heap;
  pool ← descriptorHeapPools r !! heap_type_value (heapType h);
  Some (mkRenderer
          (<[heap := set_currentDescriptorIndex 0 h]> (heapStore r))
          (<[heap_type_value (heapType h) := pool ++ [heap]]>
             (descriptorHeapPools r))
          (errors r)).

(** X9.  A heap returned to its pool is the one the next acquisition
    of its type hands out, with its cursor back at 0 and its other
    fields as they were; that acquisition creates nothing, whatever
    the driver would answer, and leaves the pools as they were before
    the return. *)
Theorem returned_descriptor_heap_is_reused
    (driver : option (Z * Z * Z)) (r : Renderer) (heap : nat)
    (h : D3D12DescriptorHeap) (pool : list nat) :
  heapStore r !! heap = Some h ->
  descriptorHeapPools r !! heap_type_value (heapType h) = Some pool ->
  exists r1 r2,
    D3D12_INTERNAL_ReturnDescriptorHeapToPool r heap = Some r1
    /\ D3D12_INTERNAL_AcquireDescriptorHeapFromPool driver r1 (heapType h)
       = Some (r2, Some heap)
    /\ heapStore r2 !! heap = Some (set_currentDescriptorIndex 0 h)
    /\ (forall other, other <> heap -> heapStore r2 !! other = heapStore r !! other)
    /\ descriptorHeapPools r2 = descriptorHeapPools r
    /\ errors r2 = errors r.
Proof.
  intros Hheap Hpool.
  assert (Hlt : (heap_type_value (heapType h) < length (descriptorHeapPools r))%nat)
    by (eapply lookup_lt_Some; exact Hpool).
  unfold D3D12_INTERNAL_ReturnDescriptorHeapToPool.
  rewrite Hheap. cbn. rewrite Hpool. cbn.
  eexists _, _. split; [reflexivity |].
  unfold D3D12_INTERNAL_AcquireDescriptorHeapFromPool. cbn.
  rewrite list_lookup_insert_eq by exact Hlt. cbn.
  rewrite reverse_app. change (reverse [heap]) with [heap]. cbn [app]. rewrite reverse_involutive.
  split; [reflexivity |]. cbn.
  split; [apply lookup_insert_eq |].
  split; [intros other Hother; apply lookup_insert_ne; congruence |].
  split; [| reflexivity].
  rewrite list_insert_insert_eq. apply list_insert_id. exact Hpool.
Qed.

Lemma returned_descriptor_heap_is_reused_witness :
  exists r2,
    (r1 ← D3D12_INTERNAL_ReturnDescriptorHeapToPool
            (mkRenderer {[ 9%nat := sampler_heap 5 ]} [[]; []] []) 9;
     D3D12_INTERNAL_AcquireDescriptorHeapFromPool None r1
       D3D12_DESCRIPTOR_HEAP_TYPE_SAMPLER)
    = Some (r2, Some 9%nat)
    /\ heapStore r2 !! 9%nat = Some (sampler_heap 0).
Proof.
  destruct (returned_descriptor_heap_is_reused None
              (mkRenderer {[ 9%nat := sampler_heap 5 ]} [[]; []] []) 9
              (sampler_heap 5) [])
    as (r1 & r2 & Hreturn & Hacquire & Hstore & _).
  - reflexivity.
  - reflexivity.
  - exists r2. rewrite Hreturn. cbn. split; [exact Hacquire | exact Hstore].
Defined.

End GpuDescriptors.

(** * The front end: what debug mode lets through to the driver

    [SDL_gpu.c] keeps, in the header every driver puts at the start of
    its command buffer, which pass is in progress, whether a pipeline
    is bound and whether the command buffer was submitted.  With
    [debugMode] set, its entry points test these flags before they
    call the driver. *)

Module Frontend.

Import RenderPass.

(** [CommandBufferCommonHeader]; the [Pass] structures are held by
    their [inProgress] field, their [commandBuffer] field and the
    [device] field point back to the command buffer and to the one
    device. *)
Record CommandBufferCommonHeader : Type := mkHeader {
  renderPass_inProgress : bool;
  graphicsPipelineBound : bool;
  computePass_inProgress : bool;
  computePipelineBound : bool;
  copyPass_inProgress : bool;
  submitted : bool
}.

(** The entry points of the driver that the functions below call. *)
Inductive driver_call : Type :=
  | InsertDebugLabel
  | PushDebugGroup
  | PopDebugGroup
  | AcquireCommandBuffer
  | PushVertexUniformData (slotIndex sizeInBytes : Z)
  | PushFragmentUniformData (slotIndex sizeInBytes : Z)
  | PushComputeUniformData (slotIndex dataLengthInBytes : Z)
  | BeginRenderPass (colorAttachmentCount : Z)
  | BindGraphicsPipeline (graphicsPipeline : nat)
  | SetViewport
  | SetScissor
  | BindVertexBuffers (firstBinding bindingCount : Z)
  | BindIndexBuffer
  | BindVertexSamplers (firstSlot bindingCount : Z)
  | BindVertexStorageTextures (firstSlot bindingCount : Z)
  | BindVertexStorageBuffers (firstSlot bindingCount : Z)
  | BindFragmentSamplers (firstSlot bindingCount : Z)
  | BindFragmentStorageTextures (firstSlot bindingCount : Z)
  | BindFragmentStorageBuffers (firstSlot bindingCount : Z)
  | DrawIndexedPrimitives (baseVertex startIndex vertexCount instanceCount : Z)
  | DrawPrimitives (vertexStart vertexCount : Z)
  | DrawPrimitivesIndirect (offsetInBytes drawCount stride : Z)
  | DrawIndexedPrimitivesIndirect (offsetInBytes drawCount stride : Z)
  | EndRenderPass
  | BeginComputePass (storageTextureBindingCount storageBufferBindingCount : Z)
  | BindComputePipeline (computePipeline : nat)
  | BindComputeStorageTextures (firstSlot bindingCount : Z)
  | BindComputeStorageBuffers (firstSlot bindingCount : Z)
  | DispatchCompute (groupCountX groupCountY groupCountZ : Z)
  | DispatchComputeIndirect (offsetInBytes : Z)
  | EndComputePass
  | BeginCopyPass
  | UploadToTexture
  | UploadToBuffer
  | CopyTextureToTexture (w h d : Z)
  | CopyBufferToBuffer (sizeInBytes : Z)
  | GenerateMipmaps
  | DownloadFromTexture
  | DownloadFromBuffer
  | EndCopyPass
  | Blit
  | AcquireSwapchainTexture (window : nat)
  | Submit
  | SubmitAndAcquireFence.

(** What a call leaves behind: a call of the driver on a command
    buffer, a driver that hands out no command buffer, a failed
    [SDL_assert_release] (with the handler that lets the program go
    on), an error set. *)
Inductive event : Type :=
  | Driver (commandBuffer : nat) (call : driver_call)
  | NoCommandBuffer
  | SDL_assert_release (message : string)
  | SDL_InvalidParamError (param : string)
  | SDL_SetError (message : string).

(** The device's [debugMode], the headers of the command buffers by
    address and the events so far. *)
Record state : Type := mkState {
  debugMode : bool;
  headers : gmap nat CommandBufferCommonHeader;
  events : list event
}.

Definition record (es : list event) (s : state) : state :=
  mkState (debugMode s) (headers s) (events s ++ es).

(** The call of the driver on [commandBuffer], after which the header
    is [h]. *)
Definition forward (commandBuffer : nat) (call : driver_call)
    (h : CommandBufferCommonHeader) (s : state) : state :=
  mkState (debugMode s) (<[commandBuffer := h]> (headers s))
    (events s ++ [Driver commandBuffer call]).

(** [if (c) { SDL_assert_release(!message); }] *)
Definition assert_unless_not (c : bool) (message : string) (s : state) : state :=
  if c then record [SDL_assert_release message] s else s.

(** The checking macros: the message of the assertion that fails. *)
Definition CHECK_COMMAND_BUFFER (h : CommandBufferCommonHeader) : option string :=
  if submitted h then Some "Command buffer already submitted."%string else None.

Definition CHECK_ANY_PASS_IN_PROGRESS (h : CommandBufferCommonHeader) : option string :=
  if renderPass_inProgress h || computePass_inProgress h || copyPass_inProgress h
  then Some "Pass already in progress."%string else None.

Definition CHECK_RENDERPASS (h : CommandBufferCommonHeader) : option string :=
  if negb (renderPass_inProgress h)
  then Some "Render pass not in progress."%string else None.

Definition CHECK_GRAPHICS_PIPELINE_BOUND (h : CommandBufferCommonHeader)
  : option string :=
  if negb (graphicsPipelineBound h)
  then Some "Graphics pipeline not bound."%string else None.

Definition CHECK_COMPUTEPASS (h : CommandBufferCommonHeader) : option string :=
  if negb (computePass_inProgress h)
  then Some "Compute pass not in progress."%string else None.

Definition CHECK_COMPUTE_PIPELINE_BOUND (h : CommandBufferCommonHeader)
  : option string :=
  if negb (computePipelineBound h)
  then Some "Compute pipeline not bound."%string else None.

Definition CHECK_COPYPASS (h : CommandBufferCommonHeader) : option string :=
  if negb (copyPass_inProgress h)
  then Some "Copy pass not in progress."%string else None.

(** The checks of a debug block, in order: the first that fails. *)
Fixpoint first_failure (checks : list (option string)) : option string :=
  match checks with
  | [] => None
  | Some message :: _ => Some message
  | None :: rest => first_failure rest
  end.

(** The checks are made in debug mode only. *)
Definition debug_checks (s : state) (checks : list (option string))
  : option string :=
  if debugMode s then first_failure checks else None.

Definition SDL_GpuAssertTextureSlice (textureSlice : SDL_GpuTextureSlice)
    (s : state) : state :=
  assert_unless_not (mipLevel textureSlice <? 0)
    "textureSlice->mipLevel must be greater than zero."
    (assert_unless_not (layer textureSlice <? 0)
       "textureSlice->layer must be greater than zero." s).
(** The structures whose fields the other assertions read, with
    those fields ([SDL_GpuTextureLocation], [SDL_GpuTextureRegion],
    [SDL_GpuBufferLocation], [SDL_GpuTransferBufferLocation],
    [SDL_GpuBufferRegion], [SDL_GpuTextureTransferInfo] and
    [SDL_GpuBufferBinding]: [locationX] is the [x] of a texture
    location, [regionX] the [x] of a texture region, and so on). *)
Record SDL_GpuTextureLocation : Type := mkTextureLocation {
  locationSlice : SDL_GpuTextureSlice;
  locationX : Z;
  locationY : Z;
  locationZ : Z
}.

Record SDL_GpuTextureRegion : Type := mkTextureRegion {
  regionSlice : SDL_GpuTextureSlice;
  regionX : Z;
  regionY : Z;
  regionZ : Z;
  regionW : Z;
  regionH : Z;
  regionD : Z
}.

Record SDL_GpuBufferLocation : Type := mkBufferLocation {
  locationOffset : Z
}.

Record SDL_GpuTransferBufferLocation : Type := mkTransferBufferLocation {
  transferLocationOffset : Z
}.

Record SDL_GpuBufferRegion : Type := mkBufferRegion {
  regionOffset : Z;
  regionSize : Z
}.

Record SDL_GpuTextureTransferInfo : Type := mkTextureTransferInfo {
  transferOffset : Z;
  imagePitch : Z;
  imageHeight : Z
}.

Record SDL_GpuBufferBinding : Type := mkBufferBinding {
  bindingOffset : Z
}.

Definition SDL_GpuAssertTextureLocation (textureLocation : SDL_GpuTextureLocation)
    (s : state) : state :=
  let s := SDL_GpuAssertTextureSlice (locationSlice textureLocation) s in
  let s :=
    assert_unless_not (locationX textureLocation <? 0)
      "textureLocation->x must be greater than zero." s in
  let s :=
    assert_unless_not (locationY textureLocation <? 0)
      "textureLocation->y must be greater than zero." s in
  assert_unless_not (locationZ textureLocation <? 0)
    "textureLocation->z must be greater than zero." s.

Definition SDL_GpuAssertTextureRegion (textureRegion : SDL_GpuTextureRegion)
    (s : state) : state :=
  let s :=
    assert_unless_not (regionX textureRegion <? 0)
      "textureRegion->x must be greater than zero." s in
  let s :=
    assert_unless_not (regionY textureRegion <? 0)
      "textureRegion->y must be greater than zero." s in
  let s :=
    assert_unless_not (regionZ textureRegion <? 0)
      "textureRegion->z must be greater than zero." s in
  let s :=
    assert_unless_not (regionW textureRegion <? 0)
      "textureRegion->w must be greater than zero." s in
  let s :=
    assert_unless_not (regionH textureRegion <? 0)
      "textureRegion->h must be greater than zero." s in
  assert_unless_not (regionD textureRegion <? 0)
    "textureRegion->d must be greater than zero." s.

Definition SDL_GpuAssertBufferLocation (bufferLocation : SDL_GpuBufferLocation)
    (s : state) : state :=
  assert_unless_not (locationOffset bufferLocation <? 0)
    "location->offset must be greater than zero." s.

Definition SDL_GpuAssertTransferBufferLocation
    (bufferLocation : SDL_GpuTransferBufferLocation) (s : state) : state :=
  assert_unless_not (transferLocationOffset bufferLocation <? 0)
    "location->offset must be greater than zero." s.

Definition SDL_GpuAssertBufferRegion (bufferRegion : SDL_GpuBufferRegion)
    (s : state) : state :=
  let s :=
    assert_unless_not (regionOffset bufferRegion <? 0)
      "bufferRegion->offset must be greater than zero." s in
  assert_unless_not (regionSize bufferRegion <? 0)
    "bufferRegion->size must be greater than zero." s.

Definition SDL_GpuAssertTextureTransferInfo
    (textureTransferInfo : SDL_GpuTextureTransferInfo) (s : state) : state :=
  let s :=
    assert_unless_not (transferOffset textureTransferInfo <? 0)
      "textureTransferInfo->offset must be greater than zero." s in
  let s :=
    assert_unless_not (imagePitch textureTransferInfo <? 0)
      "textureTransferInfo->imagePitch must be greater than zero." s in
  assert_unless_not (imageHeight textureTransferInfo <? 0)
    "textureTransferInfo->imageHeight must be greater than zero." s.

Section Calls.

(** [MAX_COLOR_TARGET_BINDINGS] is a constant of [SDL_sysgpu.h]. *)
Variable MAX_COLOR_TARGET_BINDINGS : Z.

(** [SDL_GpuAcquireCommandBuffer]; [driver] is what the driver's
    [AcquireCommandBuffer] returns. *)
Definition SDL_GpuAcquireCommandBuffer (s : state) (device : option unit)
    (driver : option nat) : state * option nat :=
  match device with
  | None => (record [SDL_SetError "Invalid GPU device"] s, None)
  | Some _ =>
      match driver with
      | None => (record [NoCommandBuffer] s, None)
      | Some commandBuffer =>
          (forward commandBuffer AcquireCommandBuffer
             (mkHeader false false false false false false) s,
           Some commandBuffer)
      end
  end.

(** [SDL_GpuPushVertexUniformData]. *)
Definition SDL_GpuPushVertexUniformData (s : state) (commandBuffer : option nat)
    (slotIndex : Z) (data : option (list Byte.byte)) (sizeInBytes : Z)
  : option state :=
  match commandBuffer, data with
  | None, _ => Some (record [SDL_InvalidParamError "commandBuffer"] s)
  | Some _, None => Some (record [SDL_InvalidParamError "data"] s)
  | Some cb, Some _ =>
      h ← headers s !! cb;
      match debug_checks s [CHECK_COMMAND_BUFFER h] with
      | Some message => Some (record [SDL_assert_release message] s)
      | None =>
          let s :=
            assert_unless_not (debugMode s && (slotIndex <? 0))
              "slotIndex must be greater than zero." s in
          Some (forward cb (PushVertexUniformData slotIndex sizeInBytes) h s)
      end
  end.

(** The loop of a debug block over the first [count] texture slices
    of an array. *)
Definition assert_texture_slices {A : Type} (slice : A -> SDL_GpuTextureSlice)
    (array : option (list A)) (count : Z) (s : state) : option state :=
  Uniform.for_each
    (fun s i =>
       a ← array;
       x ← a !! i;
       Some (SDL_GpuAssertTextureSlice (slice x) s))
    (seq 0 (Z.to_nat count)) s.

(** [SDL_GpuBeginRenderPass]: the state and the pass returned, which
    is the pass of the command buffer, or NULL. *)
Definition SDL_GpuBeginRenderPass (s : state) (commandBuffer : option nat)
    (colorAttachmentInfos : option (list SDL_GpuColorAttachmentInfo))
    (colorAttachmentCount : Z)
    (depthStencilAttachmentInfo : option SDL_GpuDepthStencilAttachmentInfo)
  : option (state * option nat) :=
  match commandBuffer with
  | None => Some (record [SDL_InvalidParamError "commandBuffer"] s, None)
  | Some cb =>
      if bool_decide (colorAttachmentInfos = None :> option (list _))
         && (0 <? colorAttachmentCount)
      then Some (record [SDL_InvalidParamError "colorAttachmentInfos"] s, None)
      else if MAX_COLOR_TARGET_BINDINGS <? colorAttachmentCount
      then Some (record [SDL_SetError
                           "colorAttachmentCount exceeds MAX_COLOR_TARGET_BINDINGS"] s,
                 None)
      else
        h ← headers s !! cb;
        match debug_checks s [CHECK_COMMAND_BUFFER h; CHECK_ANY_PASS_IN_PROGRESS h] with
        | Some message => Some (record [SDL_assert_release message] s, None)
        | None =>
            s ← (if debugMode s then
                   s ← (if colorAttachmentCount <? 0 then
                          Some (record
                                  [SDL_assert_release
                                     "colorAttachmentCount must be greater than zero."]
                                  s)
                        else
                          assert_texture_slices textureSlice colorAttachmentInfos
                            colorAttachmentCount s);
                   Some (match depthStencilAttachmentInfo with
                         | Some info =>
                             SDL_GpuAssertTextureSlice (depthTextureSlice info) s
                         | None => s
                         end)
                 else Some s);
            Some (forward cb (BeginRenderPass colorAttachmentCount)
                    (mkHeader true (graphicsPipelineBound h)
                       (computePass_inProgress h) (computePipelineBound h)
                       (copyPass_inProgress h) (submitted h)) s,
                  Some cb)
        end
  end.

(** [SDL_GpuBindGraphicsPipeline], which makes no check in debug
    mode. *)
Definition SDL_GpuBindGraphicsPipeline (s : state) (renderPass : option nat)
    (graphicsPipeline : option nat) : option state :=
  match renderPass, graphicsPipeline with
  | None, _ => Some (record [SDL_InvalidParamError "renderPass"] s)
  | Some _, None => Some (record [SDL_InvalidParamError "graphicsPipeline"] s)
  | Some cb, Some pipeline =>
      h ← headers s !! cb;
      Some (forward cb (BindGraphicsPipeline pipeline)
              (mkHeader (renderPass_inProgress h) true
                 (computePass_inProgress h) (computePipelineBound h)
                 (copyPass_inProgress h) (submitted h)) s)
  end.

(** [SDL_GpuDrawPrimitives]. *)
Definition SDL_GpuDrawPrimitives (s : state) (renderPass : option nat)
    (vertexStart vertexCount : Z) : option state :=
  match renderPass with
  | None => Some (record [SDL_InvalidParamError "renderPass"] s)
  | Some cb =>
      h ← headers s !! cb;
      match debug_checks s [CHECK_RENDERPASS h; CHECK_GRAPHICS_PIPELINE_BOUND h] with
      | Some message => Some (record [SDL_assert_release message] s)
      | None =>
          let s :=
            assert_unless_not (debugMode s && (vertexStart <? 0))
              "vertexStart must be greater than zero." s in
          let s :=
            assert_unless_not (debugMode s && (vertexCount <? 0))
              "vertexCount must be greater than zero." s in
          Some (forward cb (DrawPrimitives vertexStart vertexCount) h s)
      end
  end.

(** [SDL_GpuEndRenderPass]. *)
Definition SDL_GpuEndRenderPass (s : state) (renderPass : option nat)
  : option state :=
  match renderPass with
  | None => Some (record [SDL_InvalidParamError "renderPass"] s)
  | Some cb =>
      h ← headers s !! cb;
      match debug_checks s [CHECK_RENDERPASS h] with
      | Some message => Some (record [SDL_assert_release message] s)
      | None =>
          Some (forward cb EndRenderPass
                  (mkHeader false false
                     (computePass_inProgress h) (computePipelineBound h)
                     (copyPass_inProgress h) (submitted h)) s)
      end
  end.

(** [SDL_GpuStorageTextureReadWriteBinding]. *)
Record SDL_GpuStorageTextureReadWriteBinding : Type := mkStorageTextureBinding {
  bindingTextureSlice : SDL_GpuTextureSlice;
  bindingCycle : bool
}.

(** [SDL_GpuBeginComputePass]; the storage buffer bindings are held
    by whether the array is NULL. *)
Definition SDL_GpuBeginComputePass (s : state) (commandBuffer : option nat)
    (storageTextureBindings : option (list SDL_GpuStorageTextureReadWriteBinding))
    (storageTextureBindingCount : Z)
    (storageBufferBindings : option unit) (storageBufferBindingCount : Z)
  : option (state * option nat) :=
  match commandBuffer with
  | None => Some (record [SDL_InvalidParamError "commandBuffer"] s, None)
  | Some cb =>
      if bool_decide (storageTextureBindings = None :> option (list _))
         && (0 <? storageTextureBindingCount)
      then Some (record [SDL_InvalidParamError "storageTextureBindings"] s, None)
      else if bool_decide (storageBufferBindings = None)
              && (0 <? storageBufferBindingCount)
      then Some (record [SDL_InvalidParamError "storageBufferBindings"] s, None)
      else
        h ← headers s !! cb;
        match debug_checks s [CHECK_COMMAND_BUFFER h; CHECK_ANY_PASS_IN_PROGRESS h] with
        | Some message => Some (record [SDL_assert_release message] s, None)
        | None =>
            s ← (if debugMode s then
                   s ← (if storageTextureBindingCount <? 0 then
                          Some (record
                                  [SDL_assert_release
                                     "storageTextureBindingCount must be greater than zero."]
                                  s)
                        else
                          assert_texture_slices bindingTextureSlice
                            storageTextureBindings storageTextureBindingCount s);
                   Some (assert_unless_not (storageBufferBindingCount <? 0)
                           "storageBufferBindingCount must be greater than zero." s)
                 else Some s);
            Some (forward cb
                    (BeginComputePass storageTextureBindingCount
                       storageBufferBindingCount)
                    (mkHeader (renderPass_inProgress h) (graphicsPipelineBound h)
                       true (computePipelineBound h)
                       (copyPass_inProgress h) (submitted h)) s,
                  Some cb)
        end
  end.

(** [SDL_GpuBindComputePipeline]. *)
Definition SDL_GpuBindComputePipeline (s : state) (computePass : option nat)
    (computePipeline : option nat) : option state :=
  match computePass, computePipeline with
  | None, _ => Some (record [SDL_InvalidParamError "computePass"] s)
  | Some _, None => Some (record [SDL_InvalidParamError "computePipeline"] s)
  | Some cb, Some pipeline =>
      h ← headers s !! cb;
      match debug_checks s [CHECK_COMPUTEPASS h] with
      | Some message => Some (record [SDL_assert_release message] s)
      | None =>
          Some (forward cb (BindComputePipeline pipeline)
                  (mkHeader (renderPass_inProgress h) (graphicsPipelineBound h)
                     (computePass_inProgress h) true
                     (copyPass_inProgress h) (submitted h)) s)
      end
  end.

(** [SDL_GpuDispatchCompute]. *)
Definition SDL_GpuDispatchCompute (s : state) (computePass : option nat)
    (groupCountX groupCountY groupCountZ : Z) : option state :=
  match computePass with
  | None => Some (record [SDL_InvalidParamError "computePass"] s)
  | Some cb =>
      h ← headers s !! cb;
      match debug_checks s [CHECK_COMPUTEPASS h; CHECK_COMPUTE_PIPELINE_BOUND h] with
      | Some message => Some (record [SDL_assert_release message] s)
      | None =>
          let s :=
            assert_unless_not (debugMode s && (groupCountX <? 0))
              "groupCountX must be greater than zero." s in
          let s :=
            assert_unless_not (debugMode s && (groupCountY <? 0))
              "groupCountY must be greater than zero." s in
          let s :=
            assert_unless_not (debugMode s && (groupCountZ <? 0))
              "groupCountZ must be greater than zero." s in
          Some (forward cb (DispatchCompute groupCountX groupCountY groupCountZ) h s)
      end
  end.

(** [SDL_GpuEndComputePass]. *)
Definition SDL_GpuEndComputePass (s : state) (computePass : option nat)
  : option state :=
  match computePass with
  | None => Some (record [SDL_InvalidParamError "computePass"] s)
  | Some cb =>
      h ← headers s !! cb;
      match debug_checks s [CHECK_COMPUTEPASS h] with
      | Some message => Some (record [SDL_assert_release message] s)
      | None =>
          Some (forward cb EndComputePass
                  (mkHeader (renderPass_inProgress h) (graphicsPipelineBound h)
                     false false
                     (copyPass_inProgress h) (submitted h)) s)
      end
  end.

(** [SDL_GpuBeginCopyPass]. *)
Definition SDL_GpuBeginCopyPass (s : state) (commandBuffer : option nat)
  : option (state * option nat) :=
  match commandBuffer with
  | None => Some (record [SDL_InvalidParamError "commandBuffer"] s, None)
  | Some cb =>
      h ← headers s !! cb;
      match debug_checks s [CHECK_COMMAND_BUFFER h; CHECK_ANY_PASS_IN_PROGRESS h] with
      | Some message => Some (record [SDL_assert_release message] s, None)
      | None =>
          Some (forward cb BeginCopyPass
                  (mkHeader (renderPass_inProgress h) (graphicsPipelineBound h)
                     (computePass_inProgress h) (computePipelineBound h)
                     true (submitted h)) s,
                Some cb)
      end
  end.

(** [SDL_GpuEndCopyPass]. *)
Definition SDL_GpuEndCopyPass (s : state) (copyPass : option nat) : option state :=
  match copyPass with
  | None => Some (record [SDL_InvalidParamError "copyPass"] s)
  | Some cb =>
      h ← headers s !! cb;
      match debug_checks s [CHECK_COPYPASS h] with
      | Some message => Some (record [SDL_assert_release message] s)
      | None =>
          Some (forward cb EndCopyPass
                  (mkHeader (renderPass_inProgress h) (graphicsPipelineBound h)
                     (computePass_inProgress h) (computePipelineBound h)
                     false (submitted h)) s)
      end
  end.

(** [SDL_GpuSubmit]. *)
Definition SDL_GpuSubmit (s : state) (commandBuffer : option nat) : option state :=
  match commandBuffer with
  | None => Some (record [SDL_InvalidParamError "commandBuffer"] s)
  | Some cb =>
      h ← headers s !! cb;
      match
        debug_checks s
          [CHECK_COMMAND_BUFFER h;
           if renderPass_inProgress h || computePass_inProgress h
              || copyPass_inProgress h
           then Some "Cannot submit command buffer while a pass is in progress."%string
           else None]
      with
      | Some message => Some (record [SDL_assert_release message] s)
      | None =>
          Some (forward cb Submit
                  (mkHeader (renderPass_inProgress h) (graphicsPipelineBound h)
                     (computePass_inProgress h) (computePipelineBound h)
                     (copyPass_inProgress h) true) s)
      end
  end.

(** [SDL_GpuInsertDebugLabel]. *)
Definition SDL_GpuInsertDebugLabel (s : state) (commandBuffer : option nat)
    (text : option string) : option state :=
  match commandBuffer, text with
  | None, _ => Some (record [SDL_InvalidParamError "commandBuffer"] s)
  | Some _, None => Some (record [SDL_InvalidParamError "text"] s)
  | Some cb, Some _ =>
      h ← headers s !! cb;
      match debug_checks s [CHECK_COMMAND_BUFFER h] with
      | Some message => Some (record [SDL_assert_release message] s)
      | None => Some (forward cb InsertDebugLabel h s)
      end
  end.

(** [SDL_GpuPushDebugGroup]. *)
Definition SDL_GpuPushDebugGroup (s : state) (commandBuffer : option nat)
    (name : option string) : option state :=
  match commandBuffer, name with
  | None, _ => Some (record [SDL_InvalidParamError "commandBuffer"] s)
  | Some _, None => Some (record [SDL_InvalidParamError "name"] s)
  | Some cb, Some _ =>
      h ← headers s !! cb;
      match debug_checks s [CHECK_COMMAND_BUFFER h] with
      | Some message => Some (record [SDL_assert_release message] s)
      | None => Some (forward cb PushDebugGroup h s)
      end
  end.

(** [SDL_GpuPopDebugGroup]. *)
Definition SDL_GpuPopDebugGroup (s : state) (commandBuffer : option nat)
  : option state :=
  match commandBuffer with
  | None => Some (record [SDL_InvalidParamError "commandBuffer"] s)
  | Some cb =>
      h ← headers s !! cb;
      match debug_checks s [CHECK_COMMAND_BUFFER h] with
      | Some message => Some (record [SDL_assert_release message] s)
      | None => Some (forward cb PopDebugGroup h s)
      end
  end.

(** [SDL_GpuPushFragmentUniformData]. *)
Definition SDL_GpuPushFragmentUniformData (s : state) (commandBuffer : option nat)
    (slotIndex : Z) (data : option (list Byte.byte)) (sizeInBytes : Z)
  : option state :=
  match commandBuffer, data with
  | None, _ => Some (record [SDL_InvalidParamError "commandBuffer"] s)
  | Some _, None => Some (record [SDL_InvalidParamError "data"] s)
  | Some cb, Some _ =>
      h ← headers s !! cb;
      match debug_checks s [CHECK_COMMAND_BUFFER h] with
      | Some message => Some (record [SDL_assert_release message] s)
      | None =>
          let s :=
            assert_unless_not (debugMode s && (slotIndex <? 0))
              "slotIndex must be greater than zero." s in
          Some (forward cb (PushFragmentUniformData slotIndex sizeInBytes) h s)
      end
  end.

(** [SDL_GpuPushComputeUniformData]. *)
Definition SDL_GpuPushComputeUniformData (s : state) (commandBuffer : option nat)
    (slotIndex : Z) (data : option (list Byte.byte)) (dataLengthInBytes : Z)
  : option state :=
  match commandBuffer, data with
  | None, _ => Some (record [SDL_InvalidParamError "commandBuffer"] s)
  | Some _, None => Some (record [SDL_InvalidParamError "data"] s)
  | Some cb, Some _ =>
      h ← headers s !! cb;
      match debug_checks s [CHECK_COMMAND_BUFFER h] with
      | Some message => Some (record [SDL_assert_release message] s)
      | None =>
          let s :=
            assert_unless_not (debugMode s && (slotIndex <? 0))
              "slotIndex must be greater than zero." s in
          Some (forward cb (PushComputeUniformData slotIndex dataLengthInBytes) h s)
      end
  end.

(** [SDL_GpuSetViewport]; the viewport is held by whether the pointer
    is NULL. *)
Definition SDL_GpuSetViewport (s : state) (renderPass : option nat)
    (viewport : option unit) : option state :=
  match renderPass, viewport with
  | None, _ => Some (record [SDL_InvalidParamError "renderPass"] s)
  | Some _, None => Some (record [SDL_InvalidParamError "viewport"] s)
  | Some cb, Some _ =>
      h ← headers s !! cb;
      match debug_checks s [CHECK_RENDERPASS h] with
      | Some message => Some (record [SDL_assert_release message] s)
      | None => Some (forward cb SetViewport h s)
      end
  end.

(** [SDL_GpuSetScissor]; the rectangle is held by whether the pointer
    is NULL. *)
Definition SDL_GpuSetScissor (s : state) (renderPass : option nat)
    (scissor : option unit) : option state :=
  match renderPass, scissor with
  | None, _ => Some (record [SDL_InvalidParamError "renderPass"] s)
  | Some _, None => Some (record [SDL_InvalidParamError "scissor"] s)
  | Some cb, Some _ =>
      h ← headers s !! cb;
      match debug_checks s [CHECK_RENDERPASS h] with
      | Some message => Some (record [SDL_assert_release message] s)
      | None => Some (forward cb SetScissor h s)
      end
  end.

(** The assertions that [SDL_GpuBindVertexBuffers] makes on its
    arguments, with the loop over the offsets of the first
    [bindingCount] bindings. *)
Definition assert_vertex_bindings (firstBinding : Z)
    (pBindings : option (list SDL_GpuBufferBinding)) (bindingCount : Z)
    (s : state) : option state :=
  let s :=
    assert_unless_not (firstBinding <? 0) "x must be greater than zero." s in
  if bindingCount <? 0 then
    Some (record [SDL_assert_release "y must be greater than zero."] s)
  else
    Uniform.for_each
      (fun s i =>
         a ← pBindings;
         x ← a !! i;
         Some (assert_unless_not (bindingOffset x <? 0)
                 "pBindings[i].offset must be greater than zero." s))
      (seq 0 (Z.to_nat bindingCount)) s.

(** [SDL_GpuBindVertexBuffers]. *)
Definition SDL_GpuBindVertexBuffers (s : state) (renderPass : option nat)
    (firstBinding : Z) (pBindings : option (list SDL_GpuBufferBinding))
    (bindingCount : Z) : option state :=
  match renderPass with
  | None => Some (record [SDL_InvalidParamError "renderPass"] s)
  | Some cb =>
      if bool_decide (pBindings = None :> option (list _)) && (0 <? bindingCount)
      then Some (record [SDL_InvalidParamError "pBindings"] s)
      else
        h ← headers s !! cb;
        match debug_checks s [CHECK_RENDERPASS h; CHECK_GRAPHICS_PIPELINE_BOUND h] with
        | Some message => Some (record [SDL_assert_release message] s)
        | None =>
            s ← (if debugMode s
                 then assert_vertex_bindings firstBinding pBindings bindingCount s
                 else Some s);
            Some (forward cb (BindVertexBuffers firstBinding bindingCount) h s)
        end
  end.

(** [SDL_GpuBindIndexBuffer]. *)
Definition SDL_GpuBindIndexBuffer (s : state) (renderPass : option nat)
    (pBinding : option SDL_GpuBufferBinding) : option state :=
  match renderPass, pBinding with
  | None, _ => Some (record [SDL_InvalidParamError "renderPass"] s)
  | Some _, None => Some (record [SDL_InvalidParamError "pBinding"] s)
  | Some cb, Some binding =>
      h ← headers s !! cb;
      match debug_checks s [CHECK_RENDERPASS h; CHECK_GRAPHICS_PIPELINE_BOUND h] with
      | Some message => Some (record [SDL_assert_release message] s)
      | None =>
          let s :=
            assert_unless_not (debugMode s && (bindingOffset binding <? 0))
              "offset must be greater than zero." s in
          Some (forward cb BindIndexBuffer h s)
      end
  end.

(** [SDL_GpuBindVertexSamplers]; the bindings are held by whether the
    array is NULL. *)
Definition SDL_GpuBindVertexSamplers (s : state) (renderPass : option nat)
    (firstSlot : Z) (textureSamplerBindings : option unit) (bindingCount : Z)
  : option state :=
  match renderPass with
  | None => Some (record [SDL_InvalidParamError "renderPass"] s)
  | Some cb =>
      if bool_decide (textureSamplerBindings = None) && (0 <? bindingCount)
      then Some (record [SDL_InvalidParamError "textureSamplerBindings"] s)
      else
        h ← headers s !! cb;
        match debug_checks s [CHECK_RENDERPASS h; CHECK_GRAPHICS_PIPELINE_BOUND h] with
        | Some message => Some (record [SDL_assert_release message] s)
        | None =>
            let s :=
              assert_unless_not (debugMode s && (firstSlot <? 0))
                "firstSlot must be greater than zero." s in
            let s :=
              assert_unless_not (debugMode s && (bindingCount <? 0))
                "y must be greater than zero." s in
            Some (forward cb (BindVertexSamplers firstSlot bindingCount) h s)
        end
  end.

(** The assertions that [SDL_GpuBindVertexStorageTextures],
    [SDL_GpuBindFragmentStorageTextures] and
    [SDL_GpuBindComputeStorageTextures] make on their arguments. *)
Definition assert_storage_textures (firstSlot : Z)
    (storageTextureSlices : option (list SDL_GpuTextureSlice)) (bindingCount : Z)
    (s : state) : option state :=
  let s :=
    assert_unless_not (firstSlot <? 0) "firstSlot must be greater than zero." s in
  if bindingCount <? 0 then
    Some (record [SDL_assert_release "bindingCount must be greater than zero."] s)
  else
    assert_texture_slices (fun slice => slice) storageTextureSlices bindingCount s.

(** [SDL_GpuBindVertexStorageTextures]. *)
Definition SDL_GpuBindVertexStorageTextures (s : state) (renderPass : option nat)
    (firstSlot : Z) (storageTextureSlices : option (list SDL_GpuTextureSlice))
    (bindingCount : Z) : option state :=
  match renderPass with
  | None => Some (record [SDL_InvalidParamError "renderPass"] s)
  | Some cb =>
      if bool_decide (storageTextureSlices = None :> option (list _))
         && (0 <? bindingCount)
      then Some (record [SDL_InvalidParamError "storageTextureSlices"] s)
      else
        h ← headers s !! cb;
        match debug_checks s [CHECK_RENDERPASS h; CHECK_GRAPHICS_PIPELINE_BOUND h] with
        | Some message => Some (record [SDL_assert_release message] s)
        | None =>
            s ← (if debugMode s
                 then assert_storage_textures firstSlot storageTextureSlices
                        bindingCount s
                 else Some s);
            Some (forward cb (BindVertexStorageTextures firstSlot bindingCount) h s)
        end
  end.

(** [SDL_GpuBindVertexStorageBuffers]; the buffers are held by
    whether the array is NULL. *)
Definition SDL_GpuBindVertexStorageBuffers (s : state) (renderPass : option nat)
    (firstSlot : Z) (storageBuffers : option unit) (bindingCount : Z)
  : option state :=
  match renderPass with
  | None => Some (record [SDL_InvalidParamError "renderPass"] s)
  | Some cb =>
      if bool_decide (storageBuffers = None) && (0 <? bindingCount)
      then Some (record [SDL_InvalidParamError "storageBuffers"] s)
      else
        h ← headers s !! cb;
        match debug_checks s [CHECK_RENDERPASS h; CHECK_GRAPHICS_PIPELINE_BOUND h] with
        | Some message => Some (record [SDL_assert_release message] s)
        | None =>
            let s :=
              assert_unless_not (debugMode s && (firstSlot <? 0))
                "firstSlot must be greater than zero." s in
            let s :=
              assert_unless_not (debugMode s && (bindingCount <? 0))
                "bindingCount must be greater than zero." s in
            Some (forward cb (BindVertexStorageBuffers firstSlot bindingCount) h s)
        end
  end.

(** [SDL_GpuBindFragmentSamplers]. *)
Definition SDL_GpuBindFragmentSamplers (s : state) (renderPass : option nat)
    (firstSlot : Z) (textureSamplerBindings : option unit) (bindingCount : Z)
  : option state :=
  match renderPass with
  | None => Some (record [SDL_InvalidParamError "renderPass"] s)
  | Some cb =>
      if bool_decide (textureSamplerBindings = None) && (0 <? bindingCount)
      then Some (record [SDL_InvalidParamError "textureSamplerBindings"] s)
      else
        h ← headers s !! cb;
        match debug_checks s [CHECK_RENDERPASS h; CHECK_GRAPHICS_PIPELINE_BOUND h] with
        | Some message => Some (record [SDL_assert_release message] s)
        | None =>
            let s :=
              assert_unless_not (debugMode s && (firstSlot <? 0))
                "firstSlot must be greater than zero." s in
            let s :=
              assert_unless_not (debugMode s && (bindingCount <? 0))
                "bindingCount must be greater than zero." s in
            Some (forward cb (BindFragmentSamplers firstSlot bindingCount) h s)
        end
  end.

(** [SDL_GpuBindFragmentStorageTextures]. *)
Definition SDL_GpuBindFragmentStorageTextures (s : state) (renderPass : option nat)
    (firstSlot : Z) (storageTextureSlices : option (list SDL_GpuTextureSlice))
    (bindingCount : Z) : option state :=
  match renderPass with
  | None => Some (record [SDL_InvalidParamError "renderPass"] s)
  | Some cb =>
      if bool_decide (storageTextureSlices = None :> option (list _))
         && (0 <? bindingCount)
      then Some (record [SDL_InvalidParamError "storageTextureSlices"] s)
      else
        h ← headers s !! cb;
        match debug_checks s [CHECK_RENDERPASS h; CHECK_GRAPHICS_PIPELINE_BOUND h] with
        | Some message => Some (record [SDL_assert_release message] s)
        | None =>
            s ← (if debugMode s
                 then assert_storage_textures firstSlot storageTextureSlices
                        bindingCount s
                 else Some s);
            Some (forward cb (BindFragmentStorageTextures firstSlot bindingCount) h s)
        end
  end.

(** [SDL_GpuBindFragmentStorageBuffers]. *)
Definition SDL_GpuBindFragmentStorageBuffers (s : state) (renderPass : option nat)
    (firstSlot : Z) (storageBuffers : option unit) (bindingCount : Z)
  : option state :=
  match renderPass with
  | None => Some (record [SDL_InvalidParamError "renderPass"] s)
  | Some cb =>
      if bool_decide (storageBuffers = None) && (0 <? bindingCount)
      then Some (record [SDL_InvalidParamError "storageBuffers"] s)
      else
        h ← headers s !! cb;
        match debug_checks s [CHECK_RENDERPASS h; CHECK_GRAPHICS_PIPELINE_BOUND h] with
        | Some message => Some (record [SDL_assert_release message] s)
        | None =>
            let s :=
              assert_unless_not (debugMode s && (firstSlot <? 0))
                "firstSlot must be greater than zero." s in
            let s :=
              assert_unless_not (debugMode s && (bindingCount <? 0))
                "bindingCount must be greater than zero." s in
            Some (forward cb (BindFragmentStorageBuffers firstSlot bindingCount) h s)
        end
  end.

(** [SDL_GpuDrawIndexedPrimitives]. *)
Definition SDL_GpuDrawIndexedPrimitives (s : state) (renderPass : option nat)
    (baseVertex startIndex vertexCount instanceCount : Z) : option state :=
  match renderPass with
  | None => Some (record [SDL_InvalidParamError "renderPass"] s)
  | Some cb =>
      h ← headers s !! cb;
      match debug_checks s [CHECK_RENDERPASS h; CHECK_GRAPHICS_PIPELINE_BOUND h] with
      | Some message => Some (record [SDL_assert_release message] s)
      | None =>
          let s :=
            assert_unless_not (debugMode s && (baseVertex <? 0))
              "baseVertex must be greater than zero." s in
          let s :=
            assert_unless_not (debugMode s && (startIndex <? 0))
              "startIndex must be greater than zero." s in
          let s :=
            assert_unless_not (debugMode s && (vertexCount <? 0))
              "vertexCount must be greater than zero." s in
          let s :=
            assert_unless_not (debugMode s && (instanceCount <? 0))
              "instanceCount must be greater than zero." s in
          Some (forward cb
                  (DrawIndexedPrimitives baseVertex startIndex vertexCount
                     instanceCount) h s)
      end
  end.

(** [SDL_GpuDrawPrimitivesIndirect]. *)
Definition SDL_GpuDrawPrimitivesIndirect (s : state) (renderPass : option nat)
    (buffer : option nat) (offsetInBytes drawCount stride : Z) : option state :=
  match renderPass, buffer with
  | None, _ => Some (record [SDL_InvalidParamError "renderPass"] s)
  | Some _, None => Some (record [SDL_InvalidParamError "buffer"] s)
  | Some cb, Some _ =>
      h ← headers s !! cb;
      match debug_checks s [CHECK_RENDERPASS h; CHECK_GRAPHICS_PIPELINE_BOUND h] with
      | Some message => Some (record [SDL_assert_release message] s)
      | None =>
          let s :=
            assert_unless_not (debugMode s && (offsetInBytes <? 0))
              "offsetInBytes must be greater than zero." s in
          let s :=
            assert_unless_not (debugMode s && (drawCount <? 0))
              "drawCount must be greater than zero." s in
          let s :=
            assert_unless_not (debugMode s && (stride <? 0))
              "stride must be greater than zero." s in
          Some (forward cb (DrawPrimitivesIndirect offsetInBytes drawCount stride) h s)
      end
  end.

(** [SDL_GpuDrawIndexedPrimitivesIndirect]. *)
Definition SDL_GpuDrawIndexedPrimitivesIndirect (s : state) (renderPass : option nat)
    (buffer : option nat) (offsetInBytes drawCount stride : Z) : option state :=
  match renderPass, buffer with
  | None, _ => Some (record [SDL_InvalidParamError "renderPass"] s)
  | Some _, None => Some (record [SDL_InvalidParamError "buffer"] s)
  | Some cb, Some _ =>
      h ← headers s !! cb;
      match debug_checks s [CHECK_RENDERPASS h; CHECK_GRAPHICS_PIPELINE_BOUND h] with
      | Some message => Some (record [SDL_assert_release message] s)
      | None =>
          let s :=
            assert_unless_not (debugMode s && (offsetInBytes <? 0))
              "offsetInBytes must be greater than zero." s in
          let s :=
            assert_unless_not (debugMode s && (drawCount <? 0))
              "drawCount must be greater than zero." s in
          let s :=
            assert_unless_not (debugMode s && (stride <? 0))
              "stride must be greater than zero." s in
          Some (forward cb
                  (DrawIndexedPrimitivesIndirect offsetInBytes drawCount stride) h s)
      end
  end.

(** [SDL_GpuBindComputeStorageTextures]. *)
Definition SDL_GpuBindComputeStorageTextures (s : state) (computePass : option nat)
    (firstSlot : Z) (storageTextureSlices : option (list SDL_GpuTextureSlice))
    (bindingCount : Z) : option state :=
  match computePass with
  | None => Some (record [SDL_InvalidParamError "computePass"] s)
  | Some cb =>
      if bool_decide (storageTextureSlices = None :> option (list _))
         && (0 <? bindingCount)
      then Some (record [SDL_InvalidParamError "storageTextureSlices"] s)
      else
        h ← headers s !! cb;
        match debug_checks s [CHECK_COMPUTEPASS h; CHECK_COMPUTE_PIPELINE_BOUND h] with
        | Some message => Some (record [SDL_assert_release message] s)
        | None =>
            s ← (if debugMode s
                 then assert_storage_textures firstSlot storageTextureSlices
                        bindingCount s
                 else Some s);
            Some (forward cb (BindComputeStorageTextures firstSlot bindingCount) h s)
        end
  end.

(** [SDL_GpuBindComputeStorageBuffers]. *)
Definition SDL_GpuBindComputeStorageBuffers (s : state) (computePass : option nat)
    (firstSlot : Z) (storageBuffers : option unit) (bindingCount : Z)
  : option state :=
  match computePass with
  | None => Some (record [SDL_InvalidParamError "computePass"] s)
  | Some cb =>
      if bool_decide (storageBuffers = None) && (0 <? bindingCount)
      then Some (record [SDL_InvalidParamError "storageBuffers"] s)
      else
        h ← headers s !! cb;
        match debug_checks s [CHECK_COMPUTEPASS h; CHECK_COMPUTE_PIPELINE_BOUND h] with
        | Some message => Some (record [SDL_assert_release message] s)
        | None =>
            let s :=
              assert_unless_not (debugMode s && (firstSlot <? 0))
                "firstSlot must be greater than zero." s in
            let s :=
              assert_unless_not (debugMode s && (bindingCount <? 0))
                "bindingCount must be greater than zero." s in
            Some (forward cb (BindComputeStorageBuffers firstSlot bindingCount) h s)
        end
  end.

(** [SDL_GpuDispatchComputeIndirect], which does not test its
    buffer. *)
Definition SDL_GpuDispatchComputeIndirect (s : state) (computePass : option nat)
    (buffer : option nat) (offsetInBytes : Z) : option state :=
  match computePass with
  | None => Some (record [SDL_InvalidParamError "computePass"] s)
  | Some cb =>
      h ← headers s !! cb;
      match debug_checks s [CHECK_COMPUTEPASS h; CHECK_COMPUTE_PIPELINE_BOUND h] with
      | Some message => Some (record [SDL_assert_release message] s)
      | None =>
          let s :=
            assert_unless_not (debugMode s && (offsetInBytes <? 0))
              "offsetInBytes must be greater than zero." s in
          Some (forward cb (DispatchComputeIndirect offsetInBytes) h s)
      end
  end.

(** [SDL_GpuUploadToTexture]. *)
Definition SDL_GpuUploadToTexture (s : state) (copyPass : option nat)
    (source : option SDL_GpuTextureTransferInfo)
    (destination : option SDL_GpuTextureRegion) (cycle : bool) : option state :=
  match copyPass, source, destination with
  | None, _, _ => Some (record [SDL_InvalidParamError "copyPass"] s)
  | Some _, None, _ => Some (record [SDL_InvalidParamError "source"] s)
  | Some _, Some _, None => Some (record [SDL_InvalidParamError "destination"] s)
  | Some cb, Some src, Some dst =>
      h ← headers s !! cb;
      match debug_checks s [CHECK_COPYPASS h] with
      | Some message => Some (record [SDL_assert_release message] s)
      | None =>
          let s :=
            if debugMode s
            then SDL_GpuAssertTextureRegion dst (SDL_GpuAssertTextureTransferInfo src s)
            else s in
          Some (forward cb UploadToTexture h s)
      end
  end.

(** [SDL_GpuUploadToBuffer]. *)
Definition SDL_GpuUploadToBuffer (s : state) (copyPass : option nat)
    (source : option SDL_GpuTransferBufferLocation)
    (destination : option SDL_GpuBufferRegion) (cycle : bool) : option state :=
  match copyPass, source, destination with
  | None, _, _ => Some (record [SDL_InvalidParamError "copyPass"] s)
  | Some _, None, _ => Some (record [SDL_InvalidParamError "source"] s)
  | Some _, Some _, None => Some (record [SDL_InvalidParamError "destination"] s)
  | Some cb, Some src, Some dst =>
      h ← headers s !! cb;
      match debug_checks s [CHECK_COPYPASS h] with
      | Some message => Some (record [SDL_assert_release message] s)
      | None =>
          let s :=
            if debugMode s
            then SDL_GpuAssertBufferRegion dst
                   (SDL_GpuAssertTransferBufferLocation src s)
            else s in
          Some (forward cb UploadToBuffer h s)
      end
  end.

(** [SDL_GpuCopyTextureToTexture]. *)
Definition SDL_GpuCopyTextureToTexture (s : state) (copyPass : option nat)
    (source destination : option SDL_GpuTextureLocation) (w h d : Z) (cycle : bool)
  : option state :=
  match copyPass, source, destination with
  | None, _, _ => Some (record [SDL_InvalidParamError "copyPass"] s)
  | Some _, None, _ => Some (record [SDL_InvalidParamError "source"] s)
  | Some _, Some _, None => Some (record [SDL_InvalidParamError "destination"] s)
  | Some cb, Some src, Some dst =>
      header ← headers s !! cb;
      match debug_checks s [CHECK_COPYPASS header] with
      | Some message => Some (record [SDL_assert_release message] s)
      | None =>
          let s :=
            if debugMode s
            then SDL_GpuAssertTextureLocation dst (SDL_GpuAssertTextureLocation src s)
            else s in
          let s :=
            assert_unless_not (debugMode s && (w <? 0))
              "w must be greater than zero." s in
          let s :=
            assert_unless_not (debugMode s && (h <? 0))
              "h must be greater than zero." s in
          let s :=
            assert_unless_not (debugMode s && (d <? 0))
              "d must be greater than zero." s in
          Some (forward cb (CopyTextureToTexture w h d) header s)
      end
  end.

(** [SDL_GpuCopyBufferToBuffer]. *)
Definition SDL_GpuCopyBufferToBuffer (s : state) (copyPass : option nat)
    (source destination : option SDL_GpuBufferLocation) (sizeInBytes : Z)
    (cycle : bool) : option state :=
  match copyPass, source, destination with
  | None, _, _ => Some (record [SDL_InvalidParamError "copyPass"] s)
  | Some _, None, _ => Some (record [SDL_InvalidParamError "source"] s)
  | Some _, Some _, None => Some (record [SDL_InvalidParamError "destination"] s)
  | Some cb, Some src, Some dst =>
      h ← headers s !! cb;
      match debug_checks s [CHECK_COPYPASS h] with
      | Some message => Some (record [SDL_assert_release message] s)
      | None =>
          let s :=
            if debugMode s
            then SDL_GpuAssertBufferLocation dst (SDL_GpuAssertBufferLocation src s)
            else s in
          Some (forward cb (CopyBufferToBuffer sizeInBytes) h s)
      end
  end.

(** [SDL_GpuGenerateMipmaps]. *)
Definition SDL_GpuGenerateMipmaps (s : state) (copyPass : option nat)
    (texture : option nat) : option state :=
  match copyPass, texture with
  | None, _ => Some (record [SDL_InvalidParamError "copyPass"] s)
  | Some _, None => Some (record [SDL_InvalidParamError "texture"] s)
  | Some cb, Some _ =>
      h ← headers s !! cb;
      match debug_checks s [CHECK_COPYPASS h] with
      | Some message => Some (record [SDL_assert_release message] s)
      | None => Some (forward cb GenerateMipmaps h s)
      end
  end.

(** [SDL_GpuDownloadFromTexture]. *)
Definition SDL_GpuDownloadFromTexture (s : state) (copyPass : option nat)
    (source : option SDL_GpuTextureRegion)
    (destination : option SDL_GpuTextureTransferInfo) : option state :=
  match copyPass, source, destination with
  | None, _, _ => Some (record [SDL_InvalidParamError "copyPass"] s)
  | Some _, None, _ => Some (record [SDL_InvalidParamError "source"] s)
  | Some _, Some _, None => Some (record [SDL_InvalidParamError "destination"] s)
  | Some cb, Some src, Some dst =>
      h ← headers s !! cb;
      match debug_checks s [CHECK_COPYPASS h] with
      | Some message => Some (record [SDL_assert_release message] s)
      | None =>
          let s :=
            if debugMode s
            then SDL_GpuAssertTextureTransferInfo dst (SDL_GpuAssertTextureRegion src s)
            else s in
          Some (forward cb DownloadFromTexture h s)
      end
  end.

(** [SDL_GpuDownloadFromBuffer]. *)
Definition SDL_GpuDownloadFromBuffer (s : state) (copyPass : option nat)
    (source : option SDL_GpuBufferRegion)
    (destination : option SDL_GpuTransferBufferLocation) : option state :=
  match copyPass, source, destination with
  | None, _, _ => Some (record [SDL_InvalidParamError "copyPass"] s)
  | Some _, None, _ => Some (record [SDL_InvalidParamError "source"] s)
  | Some _, Some _, None => Some (record [SDL_InvalidParamError "destination"] s)
  | Some cb, Some src, Some dst =>
      h ← headers s !! cb;
      match debug_checks s [CHECK_COPYPASS h] with
      | Some message => Some (record [SDL_assert_release message] s)
      | None =>
          let s :=
            if debugMode s
            then SDL_GpuAssertTransferBufferLocation dst
                   (SDL_GpuAssertBufferRegion src s)
            else s in
          Some (forward cb DownloadFromBuffer h s)
      end
  end.

(** The validation of [SDL_GpuBlit] on the headers of its two
    textures: the state after the assertions that fail, and
    [failed]. *)
Definition validate_blit (srcHeader dstHeader : Textures.SDL_GpuTextureCreateInfo)
    (s : state) : state * bool :=
  let noSampler :=
    Z.land (Textures.usageFlags srcHeader) SDL_GPU_TEXTUREUSAGE_SAMPLER_BIT =? 0 in
  let s :=
    assert_unless_not noSampler
      "Blit source texture must be created with the SAMPLER_BIT usage flag" s in
  let noColorTarget :=
    Z.land (Textures.usageFlags dstHeader) SDL_GPU_TEXTUREUSAGE_COLOR_TARGET_BIT
    =? 0 in
  let s :=
    assert_unless_not noColorTarget
      "Blit destination texture must be created with the COLOR_TARGET_BIT usage flag"
      s in
  let layered :=
    (1 <? Textures.layerCount srcHeader) || (1 <? Textures.layerCount dstHeader) in
  let s :=
    assert_unless_not layered
      "Blit source and destination textures must have a layerCount of 1" s in
  let deep := (1 <? Textures.depth srcHeader) || (1 <? Textures.depth dstHeader) in
  let s :=
    assert_unless_not deep
      "Blit source and destination textures must have a depth of 1" s in
  (s, noSampler || noColorTarget || layered || deep).

(** [SDL_GpuBlit].  [sourceHeader] and [destinationHeader] are what
    the texture pointers of the two regions point to: the create-info
    in the header of a texture, or nothing that can be read. *)
Definition SDL_GpuBlit (s : state) (commandBuffer : option nat)
    (source destination : option SDL_GpuTextureRegion)
    (sourceHeader destinationHeader : option Textures.SDL_GpuTextureCreateInfo)
  : option state :=
  match commandBuffer, source, destination with
  | None, _, _ => Some (record [SDL_InvalidParamError "commandBuffer"] s)
  | Some _, None, _ => Some (record [SDL_InvalidParamError "source"] s)
  | Some _, Some _, None => Some (record [SDL_InvalidParamError "destination"] s)
  | Some cb, Some src, Some dst =>
      h ← headers s !! cb;
      match debug_checks s [CHECK_COMMAND_BUFFER h] with
      | Some message => Some (record [SDL_assert_release message] s)
      | None =>
          if debugMode s then
            let s := SDL_GpuAssertTextureRegion dst (SDL_GpuAssertTextureRegion src s) in
            (* Validation *)
            srcHeader ← sourceHeader;
            dstHeader ← destinationHeader;
            let '(s, failed) := validate_blit srcHeader dstHeader s in
            if failed then Some s else Some (forward cb Blit h s)
          else Some (forward cb Blit h s)
      end
  end.

(** [SDL_GpuAcquireSwapchainTexture]; [driver] is the texture the
    driver returns.  The stores through [pWidth] and [pHeight] go to
    memory of the application. *)
Definition SDL_GpuAcquireSwapchainTexture (s : state) (commandBuffer : option nat)
    (window : option nat) (driver : option nat) : option (state * option nat) :=
  match commandBuffer, window with
  | None, _ => Some (record [SDL_InvalidParamError "commandBuffer"] s, None)
  | Some _, None => Some (record [SDL_InvalidParamError "window"] s, None)
  | Some cb, Some w =>
      h ← headers s !! cb;
      match debug_checks s [CHECK_COMMAND_BUFFER h] with
      | Some message => Some (record [SDL_assert_release message] s, None)
      | None => Some (forward cb (AcquireSwapchainTexture w) h s, driver)
      end
  end.

(** [SDL_GpuSubmitAndAcquireFence]; [driver] is the fence the driver
    returns. *)
Definition SDL_GpuSubmitAndAcquireFence (s : state) (commandBuffer : option nat)
    (driver : option nat) : option (state * option nat) :=
  match commandBuffer with
  | None => Some (record [SDL_InvalidParamError "commandBuffer"] s, None)
  | Some cb =>
      h ← headers s !! cb;
      match
        debug_checks s
          [CHECK_COMMAND_BUFFER h;
           if renderPass_inProgress h || computePass_inProgress h
              || copyPass_inProgress h
           then Some "Cannot submit command buffer while a pass is in progress."%string
           else None]
      with
      | Some message => Some (record [SDL_assert_release message] s, None)
      | None =>
          Some (forward cb SubmitAndAcquireFence
                  (mkHeader (renderPass_inProgress h) (graphicsPipelineBound h)
                     (computePass_inProgress h) (computePipelineBound h)
                     (copyPass_inProgress h) true) s,
                driver)
      end
  end.

(** *** Programs of the application

    One constructor for [SDL_GpuAcquireCommandBuffer] and for each
    entry point of [SDL_gpu.c] that takes a command buffer or one of
    its passes. *)

Inductive api_call : Type :=
  | GpuInsertDebugLabel (commandBuffer : option nat) (text : option string)
  | GpuPushDebugGroup (commandBuffer : option nat) (name : option string)
  | GpuPopDebugGroup (commandBuffer : option nat)
  | GpuAcquireCommandBuffer (device : option unit) (driver : option nat)
  | GpuPushVertexUniformData (commandBuffer : option nat) (slotIndex : Z)
      (data : option (list Byte.byte)) (sizeInBytes : Z)
  | GpuPushFragmentUniformData (commandBuffer : option nat) (slotIndex : Z)
      (data : option (list Byte.byte)) (sizeInBytes : Z)
  | GpuPushComputeUniformData (commandBuffer : option nat) (slotIndex : Z)
      (data : option (list Byte.byte)) (dataLengthInBytes : Z)
  | GpuBeginRenderPass (commandBuffer : option nat)
      (colorAttachmentInfos : option (list SDL_GpuColorAttachmentInfo))
      (colorAttachmentCount : Z)
      (depthStencilAttachmentInfo : option SDL_GpuDepthStencilAttachmentInfo)
  | GpuBindGraphicsPipeline (renderPass graphicsPipeline : option nat)
  | GpuSetViewport (renderPass : option nat) (viewport : option unit)
  | GpuSetScissor (renderPass : option nat) (scissor : option unit)
  | GpuBindVertexBuffers (renderPass : option nat) (firstBinding : Z)
      (pBindings : option (list SDL_GpuBufferBinding)) (bindingCount : Z)
  | GpuBindIndexBuffer (renderPass : option nat)
      (pBinding : option SDL_GpuBufferBinding)
  | GpuBindVertexSamplers (renderPass : option nat) (firstSlot : Z)
      (textureSamplerBindings : option unit) (bindingCount : Z)
  | GpuBindVertexStorageTextures (renderPass : option nat) (firstSlot : Z)
      (storageTextureSlices : option (list SDL_GpuTextureSlice)) (bindingCount : Z)
  | GpuBindVertexStorageBuffers (renderPass : option nat) (firstSlot : Z)
      (storageBuffers : option unit) (bindingCount : Z)
  | GpuBindFragmentSamplers (renderPass : option nat) (firstSlot : Z)
      (textureSamplerBindings : option unit) (bindingCount : Z)
  | GpuBindFragmentStorageTextures (renderPass : option nat) (firstSlot : Z)
      (storageTextureSlices : option (list SDL_GpuTextureSlice)) (bindingCount : Z)
  | GpuBindFragmentStorageBuffers (renderPass : option nat) (firstSlot : Z)
      (storageBuffers : option unit) (bindingCount : Z)
  | GpuDrawIndexedPrimitives (renderPass : option nat)
      (baseVertex startIndex vertexCount instanceCount : Z)
  | GpuDrawPrimitives (renderPass : option nat) (vertexStart vertexCount : Z)
  | GpuDrawPrimitivesIndirect (renderPass buffer : option nat)
      (offsetInBytes drawCount stride : Z)
  | GpuDrawIndexedPrimitivesIndirect (renderPass buffer : option nat)
      (offsetInBytes drawCount stride : Z)
  | GpuEndRenderPass (renderPass : option nat)
  | GpuBeginComputePass (commandBuffer : option nat)
      (storageTextureBindings : option (list SDL_GpuStorageTextureReadWriteBinding))
      (storageTextureBindingCount : Z)
      (storageBufferBindings : option unit) (storageBufferBindingCount : Z)
  | GpuBindComputePipeline (computePass computePipeline : option nat)
  | GpuBindComputeStorageTextures (computePass : option nat) (firstSlot : Z)
      (storageTextureSlices : option (list SDL_GpuTextureSlice)) (bindingCount : Z)
  | GpuBindComputeStorageBuffers (computePass : option nat) (firstSlot : Z)
      (storageBuffers : option unit) (bindingCount : Z)
  | GpuDispatchCompute (computePass : option nat)
      (groupCountX groupCountY groupCountZ : Z)
  | GpuDispatchComputeIndirect (computePass buffer : option nat) (offsetInBytes : Z)
  | GpuEndComputePass (computePass : option nat)
  | GpuBeginCopyPass (commandBuffer : option nat)
  | GpuUploadToTexture (copyPass : option nat)
      (source : option SDL_GpuTextureTransferInfo)
      (destination : option SDL_GpuTextureRegion) (cycle : bool)
  | GpuUploadToBuffer (copyPass : option nat)
      (source : option SDL_GpuTransferBufferLocation)
      (destination : option SDL_GpuBufferRegion) (cycle : bool)
  | GpuCopyTextureToTexture (copyPass : option nat)
      (source destination : option SDL_GpuTextureLocation) (w h d : Z) (cycle : bool)
  | GpuCopyBufferToBuffer (copyPass : option nat)
      (source destination : option SDL_GpuBufferLocation) (sizeInBytes : Z)
      (cycle : bool)
  | GpuGenerateMipmaps (copyPass texture : option nat)
  | GpuDownloadFromTexture (copyPass : option nat)
      (source : option SDL_GpuTextureRegion)
      (destination : option SDL_GpuTextureTransferInfo)
  | GpuDownloadFromBuffer (copyPass : option nat)
      (source : option SDL_GpuBufferRegion)
      (destination : option SDL_GpuTransferBufferLocation)
  | GpuEndCopyPass (copyPass : option nat)
  | GpuBlit (commandBuffer : option nat)
      (source destination : option SDL_GpuTextureRegion)
      (sourceHeader destinationHeader : option Textures.SDL_GpuTextureCreateInfo)
  | GpuAcquireSwapchainTexture (commandBuffer window driver : option nat)
  | GpuSubmit (commandBuffer : option nat)
  | GpuSubmitAndAcquireFence (commandBuffer driver : option nat).

Definition call (s : state) (c : api_call) : option state :=
  match c with
  | GpuInsertDebugLabel commandBuffer text =>
      SDL_GpuInsertDebugLabel s commandBuffer text
  | GpuPushDebugGroup commandBuffer name => SDL_GpuPushDebugGroup s commandBuffer name
  | GpuPopDebugGroup commandBuffer => SDL_GpuPopDebugGroup s commandBuffer
  | GpuAcquireCommandBuffer device driver =>
      Some (SDL_GpuAcquireCommandBuffer s device driver).1
  | GpuPushVertexUniformData commandBuffer slotIndex data sizeInBytes =>
      SDL_GpuPushVertexUniformData s commandBuffer slotIndex data sizeInBytes
  | GpuPushFragmentUniformData commandBuffer slotIndex data sizeInBytes =>
      SDL_GpuPushFragmentUniformData s commandBuffer slotIndex data sizeInBytes
  | GpuPushComputeUniformData commandBuffer slotIndex data dataLengthInBytes =>
      SDL_GpuPushComputeUniformData s commandBuffer slotIndex data dataLengthInBytes
  | GpuBeginRenderPass commandBuffer infos count depth =>
      fst <$> SDL_GpuBeginRenderPass s commandBuffer infos count depth
  | GpuBindGraphicsPipeline renderPass graphicsPipeline =>
      SDL_GpuBindGraphicsPipeline s renderPass graphicsPipeline
  | GpuSetViewport renderPass viewport => SDL_GpuSetViewport s renderPass viewport
  | GpuSetScissor renderPass scissor => SDL_GpuSetScissor s renderPass scissor
  | GpuBindVertexBuffers renderPass firstBinding pBindings bindingCount =>
      SDL_GpuBindVertexBuffers s renderPass firstBinding pBindings bindingCount
  | GpuBindIndexBuffer renderPass pBinding => SDL_GpuBindIndexBuffer s renderPass pBinding
  | GpuBindVertexSamplers renderPass firstSlot bindings bindingCount =>
      SDL_GpuBindVertexSamplers s renderPass firstSlot bindings bindingCount
  | GpuBindVertexStorageTextures renderPass firstSlot slices bindingCount =>
      SDL_GpuBindVertexStorageTextures s renderPass firstSlot slices bindingCount
  | GpuBindVertexStorageBuffers renderPass firstSlot buffers bindingCount =>
      SDL_GpuBindVertexStorageBuffers s renderPass firstSlot buffers bindingCount
  | GpuBindFragmentSamplers renderPass firstSlot bindings bindingCount =>
      SDL_GpuBindFragmentSamplers s renderPass firstSlot bindings bindingCount
  | GpuBindFragmentStorageTextures renderPass firstSlot slices bindingCount =>
      SDL_GpuBindFragmentStorageTextures s renderPass firstSlot slices bindingCount
  | GpuBindFragmentStorageBuffers renderPass firstSlot buffers bindingCount =>
      SDL_GpuBindFragmentStorageBuffers s renderPass firstSlot buffers bindingCount
  | GpuDrawIndexedPrimitives renderPass baseVertex startIndex vertexCount
      instanceCount =>
      SDL_GpuDrawIndexedPrimitives s renderPass baseVertex startIndex vertexCount
        instanceCount
  | GpuDrawPrimitives renderPass vertexStart vertexCount =>
      SDL_GpuDrawPrimitives s renderPass vertexStart vertexCount
  | GpuDrawPrimitivesIndirect renderPass buffer offsetInBytes drawCount stride =>
      SDL_GpuDrawPrimitivesIndirect s renderPass buffer offsetInBytes drawCount stride
  | GpuDrawIndexedPrimitivesIndirect renderPass buffer offsetInBytes drawCount
      stride =>
      SDL_GpuDrawIndexedPrimitivesIndirect s renderPass buffer offsetInBytes drawCount
        stride
  | GpuEndRenderPass renderPass => SDL_GpuEndRenderPass s renderPass
  | GpuBeginComputePass commandBuffer textures textureCount buffers bufferCount =>
      fst <$> SDL_GpuBeginComputePass s commandBuffer textures textureCount
                buffers bufferCount
  | GpuBindComputePipeline computePass computePipeline =>
      SDL_GpuBindComputePipeline s computePass computePipeline
  | GpuBindComputeStorageTextures computePass firstSlot slices bindingCount =>
      SDL_GpuBindComputeStorageTextures s computePass firstSlot slices bindingCount
  | GpuBindComputeStorageBuffers computePass firstSlot buffers bindingCount =>
      SDL_GpuBindComputeStorageBuffers s computePass firstSlot buffers bindingCount
  | GpuDispatchCompute computePass x y z => SDL_GpuDispatchCompute s computePass x y z
  | GpuDispatchComputeIndirect computePass buffer offsetInBytes =>
      SDL_GpuDispatchComputeIndirect s computePass buffer offsetInBytes
  | GpuEndComputePass computePass => SDL_GpuEndComputePass s computePass
  | GpuBeginCopyPass commandBuffer => fst <$> SDL_GpuBeginCopyPass s commandBuffer
  | GpuUploadToTexture copyPass source destination cycle =>
      SDL_GpuUploadToTexture s copyPass source destination cycle
  | GpuUploadToBuffer copyPass source destination cycle =>
      SDL_GpuUploadToBuffer s copyPass source destination cycle
  | GpuCopyTextureToTexture copyPass source destination w h d cycle =>
      SDL_GpuCopyTextureToTexture s copyPass source destination w h d cycle
  | GpuCopyBufferToBuffer copyPass source destination sizeInBytes cycle =>
      SDL_GpuCopyBufferToBuffer s copyPass source destination sizeInBytes cycle
  | GpuGenerateMipmaps copyPass texture => SDL_GpuGenerateMipmaps s copyPass texture
  | GpuDownloadFromTexture copyPass source destination =>
      SDL_GpuDownloadFromTexture s copyPass source destination
  | GpuDownloadFromBuffer copyPass source destination =>
      SDL_GpuDownloadFromBuffer s copyPass source destination
  | GpuEndCopyPass copyPass => SDL_GpuEndCopyPass s copyPass
  | GpuBlit commandBuffer source destination sourceHeader destinationHeader =>
      SDL_GpuBlit s commandBuffer source destination sourceHeader destinationHeader
  | GpuAcquireSwapchainTexture commandBuffer window driver =>
      fst <$> SDL_GpuAcquireSwapchainTexture s commandBuffer window driver
  | GpuSubmit commandBuffer => SDL_GpuSubmit s commandBuffer
  | GpuSubmitAndAcquireFence commandBuffer driver =>
      fst <$> SDL_GpuSubmitAndAcquireFence s commandBuffer driver
  end.

Definition program (calls : list api_call) (s : state) : option state :=
  Uniform.for_each call calls s.

End Calls.

(** A device on which no command buffer was acquired yet. *)
Definition new_device (debug : bool) : state := mkState debug ∅ [].

(** *** The protocol of a command buffer, seen from the driver *)

Inductive pass : Type := RenderPassOpen | ComputePassOpen | CopyPassOpen.

(** Where the recording of a command buffer stands: the pass that is
    open, whether a graphics pipeline was bound since the command
    buffer was acquired or its last render pass ended, whether a
    compute pipeline was bound in the open compute pass, whether the
    command buffer was submitted. *)
Record recording : Type := mkRecording {
  open : option pass;
  graphics : bool;
  compute : bool;
  closed : bool
}.

Definition is_open (k : pass) (r : recording) : bool :=
  match open r, k with
  | Some RenderPassOpen, RenderPassOpen
  | Some ComputePassOpen, ComputePassOpen
  | Some CopyPassOpen, CopyPassOpen => true
  | _, _ => false
  end.

Definition none_open (r : recording) : bool :=
  match open r with None => true | Some _ => false end.

Definition when (c : bool) (r : recording) : option recording :=
  if c then Some r else None.

(** The calls a driver may get in debug mode, and where they lead.
    A pass begins only on a command buffer that is not submitted and
    has no pass open, and ends only when open.  The viewport and the
    scissor are set in an open render pass; a draw or a binding of
    vertex, index, sampler or storage resources needs an open render
    pass and a graphics pipeline; a dispatch or a binding of compute
    storage needs an open compute pass and a compute pipeline bound in
    it; an upload, copy, download or mipmap generation needs an open
    copy pass.  A command buffer is submitted once, with no pass
    open.  A uniform push, a debug label or group, a blit and the
    acquisition of a swapchain texture are restricted only in that
    they do not come after the submission: they may come inside any
    pass.  Binding a graphics pipeline is not restricted at all. *)
Definition recording_step (r : recording) (c : driver_call) : option recording :=
  match c with
  | AcquireCommandBuffer => Some (mkRecording None false false false)
  | InsertDebugLabel | PushDebugGroup | PopDebugGroup
  | PushVertexUniformData _ _ | PushFragmentUniformData _ _
  | PushComputeUniformData _ _
  | Blit | AcquireSwapchainTexture _ => when (negb (closed r)) r
  | BeginRenderPass _ =>
      when (negb (closed r) && none_open r)
        (mkRecording (Some RenderPassOpen) (graphics r) (compute r) (closed r))
  | BindGraphicsPipeline _ =>
      Some (mkRecording (open r) true (compute r) (closed r))
  | SetViewport | SetScissor =>
      when (negb (closed r) && is_open RenderPassOpen r) r
  | BindVertexBuffers _ _ | BindIndexBuffer
  | BindVertexSamplers _ _ | BindVertexStorageTextures _ _
  | BindVertexStorageBuffers _ _
  | BindFragmentSamplers _ _ | BindFragmentStorageTextures _ _
  | BindFragmentStorageBuffers _ _
  | DrawIndexedPrimitives _ _ _ _ | DrawPrimitives _ _
  | DrawPrimitivesIndirect _ _ _ | DrawIndexedPrimitivesIndirect _ _ _ =>
      when (negb (closed r) && is_open RenderPassOpen r && graphics r) r
  | EndRenderPass =>
      when (negb (closed r) && is_open RenderPassOpen r)
        (mkRecording None false (compute r) (closed r))
  | BeginComputePass _ _ =>
      when (negb (closed r) && none_open r)
        (mkRecording (Some ComputePassOpen) (graphics r) (compute r) (closed r))
  | BindComputePipeline _ =>
      when (negb (closed r) && is_open ComputePassOpen r)
        (mkRecording (open r) (graphics r) true (closed r))
  | BindComputeStorageTextures _ _ | BindComputeStorageBuffers _ _
  | DispatchCompute _ _ _ | DispatchComputeIndirect _ =>
      when (negb (closed r) && is_open ComputePassOpen r && compute r) r
  | EndComputePass =>
      when (negb (closed r) && is_open ComputePassOpen r)
        (mkRecording None (graphics r) false (closed r))
  | BeginCopyPass =>
      when (negb (closed r) && none_open r)
        (mkRecording (Some CopyPassOpen) (graphics r) (compute r) (closed r))
  | UploadToTexture | UploadToBuffer
  | CopyTextureToTexture _ _ _ | CopyBufferToBuffer _
  | GenerateMipmaps | DownloadFromTexture | DownloadFromBuffer =>
      when (negb (closed r) && is_open CopyPassOpen r) r
  | EndCopyPass =>
      when (negb (closed r) && is_open CopyPassOpen r)
        (mkRecording None (graphics r) (compute r) (closed r))
  | Submit | SubmitAndAcquireFence =>
      when (negb (closed r) && none_open r)
        (mkRecording None (graphics r) (compute r) true)
  end.

(** A command buffer is acquired before anything else is called on
    it; [None] is a command buffer the driver has not handed out. *)
Definition protocol_step (p : option recording) (c : driver_call)
  : option (option recording) :=
  match c, p with
  | AcquireCommandBuffer, _ => Some (Some (mkRecording None false false false))
  | _, None => None
  | _, Some r => Some <$> recording_step r c
  end.

Definition replay (calls : list driver_call) : option (option recording) :=
  Uniform.for_each protocol_step calls None.

Definition follows_protocol (calls : list driver_call) : bool :=
  bool_decide (is_Some (replay calls)).

(** The calls the driver got on one command buffer, in order. *)
Definition driver_calls (commandBuffer : nat) (es : list event) : list driver_call :=
  omap (fun e =>
          match e with
          | Driver cb c => if decide (cb = commandBuffer) then Some c else None
          | _ => None
          end) es.

(** *** The flags of the header mirror the calls the driver got *)

Definition mirrors (h : CommandBufferCommonHeader) (r : recording) : Prop :=
  renderPass_inProgress h = is_open RenderPassOpen r
  /\ computePass_inProgress h = is_open ComputePassOpen r
  /\ copyPass_inProgress h = is_open CopyPassOpen r
  /\ graphicsPipelineBound h = graphics r
  /\ computePipelineBound h = compute r
  /\ submitted h = closed r
  /\ (closed r = true -> open r = None).

Definition consistent (s : state) : Prop :=
  forall cb,
    match headers s !! cb with
    | Some h =>
        exists r, replay (driver_calls cb (events s)) = Some (Some r) /\ mirrors h r
    | None => driver_calls cb (events s) = []
    end.

(** A device in debug mode whose headers mirror the calls made. *)
Definition sound (s : state) : Prop := debugMode s = true /\ consistent s.

(** The headers and the calls of the driver are those of [s]. *)
Definition same_recording (s s' : state) : Prop :=
  debugMode s' = debugMode s
  /\ headers s' = headers s
  /\ forall cb, driver_calls cb (events s') = driver_calls cb (events s).

Definition quiet (e : event) : bool :=
  match e with Driver _ _ => false | _ => true end.

Lemma for_each_app {S A : Type} (body : S -> A -> option S) (l1 l2 : list A) (s : S) :
  Uniform.for_each body (l1 ++ l2) s
  = Uniform.for_each body l1 s ≫= Uniform.for_each body l2.
Proof.
  revert s. induction l1 as [| a l1 IH]; intros s; cbn; [reflexivity |].
  destruct (body s a) as [s1 |]; cbn; [apply IH | reflexivity].
Qed.

Lemma same_recording_refl s : same_recording s s.
Proof. repeat split. Qed.

Lemma same_recording_trans s1 s2 s3 :
  same_recording s1 s2 -> same_recording s2 s3 -> same_recording s1 s3.
Proof.
  intros (Hd & Hh & Hc) (Hd' & Hh' & Hc'). split; [congruence |].
  split; [congruence |]. intros cb. rewrite Hc'. apply Hc.
Qed.

Lemma record_same_recording es s :
  forallb quiet es = true -> same_recording s (record es s).
Proof.
  intros Hquiet. split; [reflexivity |]. split; [reflexivity |].
  intros cb. cbn. unfold driver_calls. rewrite omap_app.
  replace (omap _ es) with (@nil driver_call); [apply app_nil_r |].
  induction es as [| e es IH]; [reflexivity |].
  cbn in Hquiet. apply andb_prop in Hquiet as [He Hes].
  destruct e; try discriminate; cbn; apply IH; exact Hes.
Qed.

Lemma assert_same_recording c message s :
  same_recording s (assert_unless_not c message s).
Proof.
  unfold assert_unless_not. destruct c.
  - apply record_same_recording. reflexivity.
  - apply same_recording_refl.
Qed.

(** The assertions on one argument leave the headers and the calls
    of the driver as they are. *)
Ltac asserts_only :=
  repeat first
    [ apply same_recording_refl
    | eapply same_recording_trans; [| apply assert_same_recording] ].

Lemma assert_texture_slice_same_recording slice s :
  same_recording s (SDL_GpuAssertTextureSlice slice s).
Proof. unfold SDL_GpuAssertTextureSlice. asserts_only. Qed.

Lemma assert_texture_location_same_recording location s :
  same_recording s (SDL_GpuAssertTextureLocation location s).
Proof.
  unfold SDL_GpuAssertTextureLocation. cbv zeta.
  do 3 (eapply same_recording_trans; [| apply assert_same_recording]).
  apply assert_texture_slice_same_recording.
Qed.

Lemma assert_texture_region_same_recording region s :
  same_recording s (SDL_GpuAssertTextureRegion region s).
Proof. unfold SDL_GpuAssertTextureRegion. cbv zeta. asserts_only. Qed.

Lemma assert_buffer_location_same_recording location s :
  same_recording s (SDL_GpuAssertBufferLocation location s).
Proof. unfold SDL_GpuAssertBufferLocation. asserts_only. Qed.

Lemma assert_transfer_buffer_location_same_recording location s :
  same_recording s (SDL_GpuAssertTransferBufferLocation location s).
Proof. unfold SDL_GpuAssertTransferBufferLocation. asserts_only. Qed.

Lemma assert_buffer_region_same_recording region s :
  same_recording s (SDL_GpuAssertBufferRegion region s).
Proof. unfold SDL_GpuAssertBufferRegion. cbv zeta. asserts_only. Qed.

Lemma assert_texture_transfer_info_same_recording info s :
  same_recording s (SDL_GpuAssertTextureTransferInfo info s).
Proof. unfold SDL_GpuAssertTextureTransferInfo. cbv zeta. asserts_only. Qed.

Lemma validate_blit_same_recording srcHeader dstHeader s :
  same_recording s (validate_blit srcHeader dstHeader s).1.
Proof. unfold validate_blit. cbv zeta. cbn [fst]. asserts_only. Qed.

(** A loop whose rounds only assert. *)
Lemma for_each_same_recording {A : Type} (body : state -> A -> option state)
    (l : list A) :
  (forall s a s', body s a = Some s' -> same_recording s s') ->
  forall s s', Uniform.for_each body l s = Some s' -> same_recording s s'.
Proof.
  intros Hbody. induction l as [| a l IH]; intros s s'; cbn.
  - intros [= <-]. apply same_recording_refl.
  - destruct (body s a) as [s1 |] eqn:Hround; cbn; [| discriminate].
    intros Hrest. eapply same_recording_trans; [exact (Hbody _ _ _ Hround) |].
    apply IH. exact Hrest.
Qed.

Lemma assert_texture_slices_same_recording {A : Type}
    (slice : A -> SDL_GpuTextureSlice) array count s s' :
  assert_texture_slices slice array count s = Some s' -> same_recording s s'.
Proof.
  apply for_each_same_recording. clear. intros s i s'.
  destruct array as [a |]; cbn; [| discriminate].
  destruct (a !! i) as [x |]; cbn; [| discriminate].
  intros [= <-]. apply assert_texture_slice_same_recording.
Qed.

Lemma assert_storage_textures_same_recording firstSlot slices bindingCount s s' :
  assert_storage_textures firstSlot slices bindingCount s = Some s' ->
  same_recording s s'.
Proof.
  unfold assert_storage_textures. cbv zeta. destruct (bindingCount <? 0).
  - intros [= <-].
    eapply same_recording_trans; [apply assert_same_recording |].
    apply record_same_recording. reflexivity.
  - intros Hloop.
    eapply same_recording_trans; [apply assert_same_recording |].
    exact (assert_texture_slices_same_recording _ _ _ _ _ Hloop).
Qed.

Lemma assert_vertex_bindings_same_recording firstBinding pBindings bindingCount s s' :
  assert_vertex_bindings firstBinding pBindings bindingCount s = Some s' ->
  same_recording s s'.
Proof.
  unfold assert_vertex_bindings. cbv zeta. destruct (bindingCount <? 0).
  - intros [= <-].
    eapply same_recording_trans; [apply assert_same_recording |].
    apply record_same_recording. reflexivity.
  - intros Hloop. apply for_each_same_recording in Hloop.
    + eapply same_recording_trans; [apply assert_same_recording | exact Hloop].
    + clear. intros s i s'.
      destruct pBindings as [a |]; cbn; [| discriminate].
      destruct (a !! i) as [x |]; cbn; [| discriminate].
      intros [= <-]. apply assert_same_recording.
Qed.

Lemma same_recording_consistent s s' :
  same_recording s s' -> consistent s -> consistent s'.
Proof.
  intros (_ & Hh & Hc) Hs cb. rewrite Hh, Hc. apply Hs.
Qed.

Lemma same_recording_sound s s' :
  same_recording s s' -> sound s -> sound s'.
Proof.
  intros Hsame [Hd Hs]. split.
  - destruct Hsame as (-> & _). exact Hd.
  - exact (same_recording_consistent _ _ Hsame Hs).
Qed.

Lemma driver_calls_forward cb cb' c es :
  driver_calls cb (es ++ [Driver cb' c])
  = driver_calls cb es ++ (if decide (cb' = cb) then [c] else []).
Proof.
  unfold driver_calls. rewrite omap_app. cbn.
  destruct (decide (cb' = cb)); reflexivity.
Qed.

Lemma replay_forward calls c :
  replay (calls ++ [c]) = replay calls ≫= fun p => protocol_step p c.
Proof.
  unfold replay. rewrite for_each_app.
  destruct (Uniform.for_each protocol_step calls None) as [p |]; cbn; [| reflexivity].
  destruct (protocol_step p c); reflexivity.
Qed.

(** A call on a command buffer whose header stands at [h], which the
    protocol allows wherever the flags of [h] hold, keeps the state
    consistent. *)
Lemma forward_consistent s0 s cb c h h' :
  consistent s0 -> same_recording s0 s ->
  headers s0 !! cb = Some h ->
  (forall r, mirrors h r ->
     exists r', recording_step r c = Some r' /\ mirrors h' r') ->
  consistent (forward cb c h' s).
Proof.
  intros Hs0 Hsame Hh Hstep.
  pose proof (same_recording_consistent _ _ Hsame Hs0) as Hs.
  destruct Hsame as (_ & Hheaders & _).
  intros x. unfold forward. cbn [headers events]. rewrite driver_calls_forward.
  destruct (decide (cb = x)) as [<- | Hne].
  - rewrite lookup_insert_eq. specialize (Hs cb). rewrite Hheaders, Hh in Hs.
    destruct Hs as (r & Hreplay & Hmirrors).
    destruct (Hstep r Hmirrors) as (r' & Hr' & Hmirrors').
    exists r'. split; [| exact Hmirrors'].
    rewrite replay_forward, Hreplay. cbn.
    destruct c; cbn in *; try (rewrite Hr'; reflexivity).
  - rewrite lookup_insert_ne by exact Hne. rewrite app_nil_r. apply Hs.
Qed.

Lemma forward_sound s0 s cb c h h' :
  sound s0 -> same_recording s0 s ->
  headers s0 !! cb = Some h ->
  (forall r, mirrors h r ->
     exists r', recording_step r c = Some r' /\ mirrors h' r') ->
  sound (forward cb c h' s).
Proof.
  intros [Hd Hs0] Hsame Hh Hstep. split.
  - cbn. destruct Hsame as (-> & _). exact Hd.
  - exact (forward_consistent _ _ _ _ _ _ Hs0 Hsame Hh Hstep).
Qed.

Lemma acquire_sound s cb :
  sound s ->
  sound (forward cb AcquireCommandBuffer
           (mkHeader false false false false false false) s).
Proof.
  intros [Hd Hs]. split; [exact Hd |].
  intros x. unfold forward. cbn [headers events]. rewrite driver_calls_forward.
  destruct (decide (cb = x)) as [<- | Hne].
  - rewrite lookup_insert_eq. eexists. split.
    + rewrite replay_forward.
      specialize (Hs cb).
      destruct (headers s !! cb).
      * destruct Hs as (r & -> & _). reflexivity.
      * rewrite Hs. reflexivity.
    + repeat split.
  - rewrite lookup_insert_ne by exact Hne. rewrite app_nil_r. apply Hs.
Qed.

(** The step of the protocol that the flags of a header allow. *)
Ltac allowed_by_flags :=
  let o := fresh "o" in
  intros [o ? ? ?] (? & ? & ? & ? & ? & ? & ?);
  cbn in *; subst;
  destruct o as [[] |]; cbn in *; try discriminate;
  try match goal with
      | H : true = true -> _ |- _ => specialize (H eq_refl); discriminate
      end;
  eexists; (split; [reflexivity |]);
  repeat split; cbn; try reflexivity; try discriminate; auto.

Ltac split_flags h :=
  destruct h as [[] [] [] [] [] []]; cbn in *.

(** The call was held back: only quiet events were added. *)
Ltac rejected Hs :=
  apply (fun H => same_recording_sound _ _ H Hs);
  apply record_same_recording; reflexivity.

(** What the assertions between the checks and the call of the driver
    leave. *)
Ltac quiet_steps :=
  repeat first
    [ apply same_recording_refl
    | apply record_same_recording; reflexivity
    | eapply same_recording_trans;
      [| first [ apply assert_same_recording
               | apply assert_texture_slice_same_recording
               | apply assert_texture_location_same_recording
               | apply assert_texture_region_same_recording
               | apply assert_buffer_location_same_recording
               | apply assert_transfer_buffer_location_same_recording
               | apply assert_buffer_region_same_recording
               | apply assert_texture_transfer_info_same_recording ] ] ].

Ltac forwarded Hs Hh :=
  eapply (forward_sound _ _ _ _ _ _ Hs);
  [ | exact Hh | allowed_by_flags];
  quiet_steps.

(** An entry point that reads the header, checks, asserts and calls
    the driver. *)
Ltac checked_entry Hd Hs cb :=
  let h := fresh "h" in
  let Hh := fresh "Hh" in
  destruct (headers _ !! cb) as [h |] eqn:Hh; cbn; [| discriminate];
  unfold debug_checks; rewrite ?Hd;
  split_flags h; intros [= <-]; try rejected Hs; forwarded Hs Hh.

(** An entry point whose assertions run a loop, proved quiet by
    [Hloop]. *)
Ltac looped_entry Hd Hs cb Hloop :=
  let h := fresh "h" in
  let Hh := fresh "Hh" in
  let s1 := fresh "s" in
  let Hs1 := fresh "Hs" in
  destruct (headers _ !! cb) as [h |] eqn:Hh; cbn; [| discriminate];
  unfold debug_checks; rewrite ?Hd;
  split_flags h; try (intros [= <-]; rejected Hs);
  match goal with
  | |- (?loop ≫= _) = Some _ -> _ =>
      destruct loop as [s1 |] eqn:Hs1; cbn; [| discriminate];
      intros [= <-];
      eapply (forward_sound _ _ _ _ _ _ Hs);
      [exact (Hloop _ _ _ _ _ Hs1) | exact Hh | allowed_by_flags]
  end.

Section Debugging.

Variable MAX_COLOR_TARGET_BINDINGS : Z.

Lemma call_sound s c s' :
  sound s -> call MAX_COLOR_TARGET_BINDINGS s c = Some s' -> sound s'.
Proof.
  intros Hs. pose proof Hs as [Hd _].
  destruct c as
    [ cbo arg | cbo arg | cbo | device driver | cbo slot arg size
    | cbo slot arg size | cbo slot arg size | cbo infos count depth | cbo arg
    | cbo arg | cbo arg | cbo first bindings count | cbo arg
    | cbo first bindings count | cbo first slices count | cbo first buffers count
    | cbo first bindings count | cbo first slices count | cbo first buffers count
    | cbo baseVertex startIndex vertexCount instanceCount | cbo vertexStart vertexCount
    | cbo arg offset drawCount stride | cbo arg offset drawCount stride | cbo
    | cbo tex texc buf bufc | cbo arg | cbo first slices count
    | cbo first buffers count | cbo x y z | cbo arg offset | cbo | cbo
    | cbo srco dsto cycle | cbo srco dsto cycle | cbo srco dsto w h d cycle
    | cbo srco dsto size cycle | cbo arg | cbo srco dsto | cbo srco dsto | cbo
    | cbo srco dsto srcH dstH | cbo arg driver | cbo | cbo driver ];
    cbn.
  - (* SDL_GpuInsertDebugLabel *)
    unfold SDL_GpuInsertDebugLabel.
    destruct cbo as [cb |]; [destruct arg |];
      try (intros [= <-]; rejected Hs).
    checked_entry Hd Hs cb.
  - (* SDL_GpuPushDebugGroup *)
    unfold SDL_GpuPushDebugGroup.
    destruct cbo as [cb |]; [destruct arg |];
      try (intros [= <-]; rejected Hs).
    checked_entry Hd Hs cb.
  - (* SDL_GpuPopDebugGroup *)
    unfold SDL_GpuPopDebugGroup.
    destruct cbo as [cb |]; [| intros [= <-]; rejected Hs].
    checked_entry Hd Hs cb.
  - (* SDL_GpuAcquireCommandBuffer *)
    intros [= <-]. unfold SDL_GpuAcquireCommandBuffer.
    destruct device; [destruct driver |]; cbn; try rejected Hs.
    apply acquire_sound. exact Hs.
  - (* SDL_GpuPushVertexUniformData *)
    unfold SDL_GpuPushVertexUniformData.
    destruct cbo as [cb |]; [destruct arg |];
      try (intros [= <-]; rejected Hs).
    checked_entry Hd Hs cb.
  - (* SDL_GpuPushFragmentUniformData *)
    unfold SDL_GpuPushFragmentUniformData.
    destruct cbo as [cb |]; [destruct arg |];
      try (intros [= <-]; rejected Hs).
    checked_entry Hd Hs cb.
  - (* SDL_GpuPushComputeUniformData *)
    unfold SDL_GpuPushComputeUniformData.
    destruct cbo as [cb |]; [destruct arg |];
      try (intros [= <-]; rejected Hs).
    checked_entry Hd Hs cb.
  - (* SDL_GpuBeginRenderPass *)
    unfold SDL_GpuBeginRenderPass.
    destruct cbo as [cb |]; [| intros [= <-]; rejected Hs].
    destruct (_ && _); [intros [= <-]; rejected Hs |].
    destruct (_ <? _); [intros [= <-]; rejected Hs |].
    destruct (headers s !! cb) as [h |] eqn:Hh; cbn; [| discriminate].
    unfold debug_checks. rewrite Hd.
    split_flags h; try (intros [= <-]; rejected Hs);
      (destruct (count <? 0); cbn;
       [ intros [= <-];
         eapply (forward_sound _ _ _ _ _ _ Hs); [| exact Hh | allowed_by_flags];
         (eapply same_recording_trans;
          [| destruct depth;
             [apply assert_texture_slice_same_recording | apply same_recording_refl]]);
         apply record_same_recording; reflexivity
       | destruct (assert_texture_slices _ _ _ _) as [s1 |] eqn:Hs1; cbn;
         [| discriminate];
         intros [= <-];
         eapply (forward_sound _ _ _ _ _ _ Hs); [| exact Hh | allowed_by_flags];
         (eapply same_recording_trans;
          [apply (assert_texture_slices_same_recording _ _ _ _ _ Hs1) |]);
         destruct depth;
         [apply assert_texture_slice_same_recording | apply same_recording_refl] ]).
  - (* SDL_GpuBindGraphicsPipeline *)
    unfold SDL_GpuBindGraphicsPipeline.
    destruct cbo as [cb |]; [destruct arg |];
      try (intros [= <-]; rejected Hs).
    destruct (headers s !! cb) as [h |] eqn:Hh; cbn; [| discriminate].
    intros [= <-]. forwarded Hs Hh.
  - (* SDL_GpuSetViewport *)
    unfold SDL_GpuSetViewport.
    destruct cbo as [cb |]; [destruct arg |];
      try (intros [= <-]; rejected Hs).
    checked_entry Hd Hs cb.
  - (* SDL_GpuSetScissor *)
    unfold SDL_GpuSetScissor.
    destruct cbo as [cb |]; [destruct arg |];
      try (intros [= <-]; rejected Hs).
    checked_entry Hd Hs cb.
  - (* SDL_GpuBindVertexBuffers *)
    unfold SDL_GpuBindVertexBuffers.
    destruct cbo as [cb |]; [| intros [= <-]; rejected Hs].
    destruct (_ && _); [intros [= <-]; rejected Hs |].
    looped_entry Hd Hs cb assert_vertex_bindings_same_recording.
  - (* SDL_GpuBindIndexBuffer *)
    unfold SDL_GpuBindIndexBuffer.
    destruct cbo as [cb |]; [destruct arg |];
      try (intros [= <-]; rejected Hs).
    checked_entry Hd Hs cb.
  - (* SDL_GpuBindVertexSamplers *)
    unfold SDL_GpuBindVertexSamplers.
    destruct cbo as [cb |]; [| intros [= <-]; rejected Hs].
    destruct (_ && _); [intros [= <-]; rejected Hs |].
    checked_entry Hd Hs cb.
  - (* SDL_GpuBindVertexStorageTextures *)
    unfold SDL_GpuBindVertexStorageTextures.
    destruct cbo as [cb |]; [| intros [= <-]; rejected Hs].
    destruct (_ && _); [intros [= <-]; rejected Hs |].
    looped_entry Hd Hs cb assert_storage_textures_same_recording.
  - (* SDL_GpuBindVertexStorageBuffers *)
    unfold SDL_GpuBindVertexStorageBuffers.
    destruct cbo as [cb |]; [| intros [= <-]; rejected Hs].
    destruct (_ && _); [intros [= <-]; rejected Hs |].
    checked_entry Hd Hs cb.
  - (* SDL_GpuBindFragmentSamplers *)
    unfold SDL_GpuBindFragmentSamplers.
    destruct cbo as [cb |]; [| intros [= <-]; rejected Hs].
    destruct (_ && _); [intros [= <-]; rejected Hs |].
    checked_entry Hd Hs cb.
  - (* SDL_GpuBindFragmentStorageTextures *)
    unfold SDL_GpuBindFragmentStorageTextures.
    destruct cbo as [cb |]; [| intros [= <-]; rejected Hs].
    destruct (_ && _); [intros [= <-]; rejected Hs |].
    looped_entry Hd Hs cb assert_storage_textures_same_recording.
  - (* SDL_GpuBindFragmentStorageBuffers *)
    unfold SDL_GpuBindFragmentStorageBuffers.
    destruct cbo as [cb |]; [| intros [= <-]; rejected Hs].
    destruct (_ && _); [intros [= <-]; rejected Hs |].
    checked_entry Hd Hs cb.
  - (* SDL_GpuDrawIndexedPrimitives *)
    unfold SDL_GpuDrawIndexedPrimitives.
    destruct cbo as [cb |]; [| intros [= <-]; rejected Hs].
    checked_entry Hd Hs cb.
  - (* SDL_GpuDrawPrimitives *)
    unfold SDL_GpuDrawPrimitives.
    destruct cbo as [cb |]; [| intros [= <-]; rejected Hs].
    checked_entry Hd Hs cb.
  - (* SDL_GpuDrawPrimitivesIndirect *)
    unfold SDL_GpuDrawPrimitivesIndirect.
    destruct cbo as [cb |]; [destruct arg |];
      try (intros [= <-]; rejected Hs).
    checked_entry Hd Hs cb.
  - (* SDL_GpuDrawIndexedPrimitivesIndirect *)
    unfold SDL_GpuDrawIndexedPrimitivesIndirect.
    destruct cbo as [cb |]; [destruct arg |];
      try (intros [= <-]; rejected Hs).
    checked_entry Hd Hs cb.
  - (* SDL_GpuEndRenderPass *)
    unfold SDL_GpuEndRenderPass.
    destruct cbo as [cb |]; [| intros [= <-]; rejected Hs].
    checked_entry Hd Hs cb.
  - (* SDL_GpuBeginComputePass *)
    unfold SDL_GpuBeginComputePass.
    destruct cbo as [cb |]; [| intros [= <-]; rejected Hs].
    destruct (_ && _); [intros [= <-]; rejected Hs |].
    destruct (_ && _); [intros [= <-]; rejected Hs |].
    destruct (headers s !! cb) as [h |] eqn:Hh; cbn; [| discriminate].
    unfold debug_checks. rewrite Hd.
    split_flags h; try (intros [= <-]; rejected Hs);
      (destruct (texc <? 0); cbn;
       [ intros [= <-];
         eapply (forward_sound _ _ _ _ _ _ Hs); [| exact Hh | allowed_by_flags];
         (eapply same_recording_trans; [| apply assert_same_recording]);
         apply record_same_recording; reflexivity
       | destruct (assert_texture_slices _ _ _ _) as [s1 |] eqn:Hs1; cbn;
         [| discriminate];
         intros [= <-];
         eapply (forward_sound _ _ _ _ _ _ Hs); [| exact Hh | allowed_by_flags];
         (eapply same_recording_trans;
          [apply (assert_texture_slices_same_recording _ _ _ _ _ Hs1) |]);
         apply assert_same_recording ]).
  - (* SDL_GpuBindComputePipeline *)
    unfold SDL_GpuBindComputePipeline.
    destruct cbo as [cb |]; [destruct arg |];
      try (intros [= <-]; rejected Hs).
    checked_entry Hd Hs cb.
  - (* SDL_GpuBindComputeStorageTextures *)
    unfold SDL_GpuBindComputeStorageTextures.
    destruct cbo as [cb |]; [| intros [= <-]; rejected Hs].
    destruct (_ && _); [intros [= <-]; rejected Hs |].
    looped_entry Hd Hs cb assert_storage_textures_same_recording.
  - (* SDL_GpuBindComputeStorageBuffers *)
    unfold SDL_GpuBindComputeStorageBuffers.
    destruct cbo as [cb |]; [| intros [= <-]; rejected Hs].
    destruct (_ && _); [intros [= <-]; rejected Hs |].
    checked_entry Hd Hs cb.
  - (* SDL_GpuDispatchCompute *)
    unfold SDL_GpuDispatchCompute.
    destruct cbo as [cb |]; [| intros [= <-]; rejected Hs].
    checked_entry Hd Hs cb.
  - (* SDL_GpuDispatchComputeIndirect *)
    unfold SDL_GpuDispatchComputeIndirect.
    destruct cbo as [cb |]; [| intros [= <-]; rejected Hs].
    checked_entry Hd Hs cb.
  - (* SDL_GpuEndComputePass *)
    unfold SDL_GpuEndComputePass.
    destruct cbo as [cb |]; [| intros [= <-]; rejected Hs].
    checked_entry Hd Hs cb.
  - (* SDL_GpuBeginCopyPass *)
    unfold SDL_GpuBeginCopyPass.
    destruct cbo as [cb |]; [| intros [= <-]; rejected Hs].
    checked_entry Hd Hs cb.
  - (* SDL_GpuUploadToTexture *)
    unfold SDL_GpuUploadToTexture.
    destruct cbo as [cb |]; [destruct srco; [destruct dsto |] |];
      try (intros [= <-]; rejected Hs).
    checked_entry Hd Hs cb.
  - (* SDL_GpuUploadToBuffer *)
    unfold SDL_GpuUploadToBuffer.
    destruct cbo as [cb |]; [destruct srco; [destruct dsto |] |];
      try (intros [= <-]; rejected Hs).
    checked_entry Hd Hs cb.
  - (* SDL_GpuCopyTextureToTexture *)
    unfold SDL_GpuCopyTextureToTexture.
    destruct cbo as [cb |]; [destruct srco; [destruct dsto |] |];
      try (intros [= <-]; rejected Hs).
    checked_entry Hd Hs cb.
  - (* SDL_GpuCopyBufferToBuffer *)
    unfold SDL_GpuCopyBufferToBuffer.
    destruct cbo as [cb |]; [destruct srco; [destruct dsto |] |];
      try (intros [= <-]; rejected Hs).
    checked_entry Hd Hs cb.
  - (* SDL_GpuGenerateMipmaps *)
    unfold SDL_GpuGenerateMipmaps.
    destruct cbo as [cb |]; [destruct arg |];
      try (intros [= <-]; rejected Hs).
    checked_entry Hd Hs cb.
  - (* SDL_GpuDownloadFromTexture *)
    unfold SDL_GpuDownloadFromTexture.
    destruct cbo as [cb |]; [destruct srco; [destruct dsto |] |];
      try (intros [= <-]; rejected Hs).
    checked_entry Hd Hs cb.
  - (* SDL_GpuDownloadFromBuffer *)
    unfold SDL_GpuDownloadFromBuffer.
    destruct cbo as [cb |]; [destruct srco; [destruct dsto |] |];
      try (intros [= <-]; rejected Hs).
    checked_entry Hd Hs cb.
  - (* SDL_GpuEndCopyPass *)
    unfold SDL_GpuEndCopyPass.
    destruct cbo as [cb |]; [| intros [= <-]; rejected Hs].
    checked_entry Hd Hs cb.
  - (* SDL_GpuBlit *)
    unfold SDL_GpuBlit.
    destruct cbo as [cb |];
      [destruct srco as [src |]; [destruct dsto as [dst |] |] |];
      try (intros [= <-]; rejected Hs).
    destruct (headers s !! cb) as [h |] eqn:Hh; cbn -[validate_blit];
      [| discriminate].
    unfold debug_checks. rewrite !Hd.
    assert (Hquiet :
              forall a b,
                same_recording s
                  (validate_blit a b
                     (SDL_GpuAssertTextureRegion dst
                        (SDL_GpuAssertTextureRegion src s))).1).
    { intros a b.
      eapply same_recording_trans; [| apply validate_blit_same_recording].
      eapply same_recording_trans; apply assert_texture_region_same_recording. }
    destruct srcH as [a |], dstH as [b |];
      try (split_flags h; first [discriminate | intros [= <-]; rejected Hs]).
    cbn -[validate_blit]. specialize (Hquiet a b).
    destruct (validate_blit a b _) as [s1 failed]. cbn [fst] in Hquiet.
    split_flags h; try (intros [= <-]; rejected Hs);
      (destruct failed; intros [= <-];
       [ exact (same_recording_sound _ _ Hquiet Hs)
       | eapply (forward_sound _ _ _ _ _ _ Hs);
         [exact Hquiet | exact Hh | allowed_by_flags] ]).
  - (* SDL_GpuAcquireSwapchainTexture *)
    unfold SDL_GpuAcquireSwapchainTexture.
    destruct cbo as [cb |]; [destruct arg |];
      try (intros [= <-]; rejected Hs).
    checked_entry Hd Hs cb.
  - (* SDL_GpuSubmit *)
    unfold SDL_GpuSubmit.
    destruct cbo as [cb |]; [| intros [= <-]; rejected Hs].
    checked_entry Hd Hs cb.
  - (* SDL_GpuSubmitAndAcquireFence *)
    unfold SDL_GpuSubmitAndAcquireFence.
    destruct cbo as [cb |]; [| intros [= <-]; rejected Hs].
    checked_entry Hd Hs cb.
Qed.

Lemma program_sound calls s s' :
  sound s -> program MAX_COLOR_TARGET_BINDINGS calls s = Some s' -> sound s'.
Proof.
  revert s. induction calls as [| c calls IH]; intros s Hs; cbn.
  - intros [= <-]. exact Hs.
  - destruct (call MAX_COLOR_TARGET_BINDINGS s c) as [s1 |] eqn:Hc; cbn; [| discriminate].
    apply IH. eapply call_sound; eauto.
Qed.

End Debugging.

(** X10.  In debug mode, for every sequence of calls of
    [SDL_GpuAcquireCommandBuffer] and of the entry points of
    [SDL_gpu.c] that take a command buffer or one of its passes (the
    constructors of [api_call]: every such function of the file), in
    any order and on any number of command buffers, that reads no
    header, array or texture the application does not have, the calls
    that reach the driver on each command buffer follow the protocol
    of [recording_step]: the command buffer is acquired first; passes do
    not overlap and end only when open; the viewport and the scissor
    are set inside a render pass; a draw or a binding of vertex,
    index, sampler or storage resources comes inside a render pass
    with a graphics pipeline bound; a dispatch or a binding of compute
    storage comes inside a compute pass after a compute pipeline was
    bound in it; uploads, copies, downloads and mipmap generation come
    inside a copy pass; the command buffer is submitted at most once
    per acquisition, outside any pass.  Uniform pushes, debug labels
    and groups, [SDL_GpuBlit] and [SDL_GpuAcquireSwapchainTexture] are
    held back only after the submission, so they reach the driver
    inside any open pass; [SDL_GpuBindGraphicsPipeline] is never held
    back. *)
Theorem debug_mode_keeps_the_protocol
    (MAX_COLOR_TARGET_BINDINGS : Z) (calls : list api_call) (s' : state)
    (commandBuffer : nat) :
  program MAX_COLOR_TARGET_BINDINGS calls (new_device true) = Some s' ->
  follows_protocol (driver_calls commandBuffer (events s')) = true.
Proof.
  intros Hrun.
  assert (Hs' : sound s').
  { eapply program_sound; [| exact Hrun]. split; [reflexivity |].
    intros cb. cbn. rewrite lookup_empty. reflexivity. }
  destruct Hs' as [_ Hs'].
  specialize (Hs' commandBuffer). unfold follows_protocol.
  apply bool_decide_eq_true_2.
  destruct (headers s' !! commandBuffer).
  - destruct Hs' as (r & -> & _). eauto.
  - rewrite Hs'. cbn. eauto.
Qed.

(** A texture a blit may read and write. *)
Definition blit_texture : Textures.SDL_GpuTextureCreateInfo :=
  {| Textures.width := 4; Textures.height := 4; Textures.depth := 1;
     Textures.isCube := false; Textures.layerCount := 1; Textures.levelCount := 1;
     Textures.usageFlags :=
       Z.lor SDL_GPU_TEXTUREUSAGE_SAMPLER_BIT SDL_GPU_TEXTUREUSAGE_COLOR_TARGET_BIT |}.

Definition whole_texture (texture : nat) : SDL_GpuTextureRegion :=
  mkTextureRegion (mkSlice texture 0 0) 0 0 0 4 4 1.

Definition GpuBlitTextures (commandBuffer : nat) : api_call :=
  GpuBlit (Some commandBuffer) (Some (whole_texture 8)) (Some (whole_texture 9))
    (Some blit_texture) (Some blit_texture).

(** A program that draws before its render pass begins, inside it
    before and after a pipeline is bound, and after the submission;
    that blits inside the render pass and after the submission; and
    that uploads outside a copy pass. *)
Definition careless_program : list api_call :=
  [ GpuAcquireCommandBuffer (Some ()) (Some 1%nat);
    GpuDrawPrimitives (Some 1%nat) 0 3;
    GpuBeginRenderPass (Some 1%nat) (Some []) 0 None;
    GpuDrawPrimitives (Some 1%nat) 0 3;
    GpuBindGraphicsPipeline (Some 1%nat) (Some 7%nat);
    GpuDrawPrimitives (Some 1%nat) 0 3;
    GpuBlitTextures 1;
    GpuUploadToBuffer (Some 1%nat) (Some (mkTransferBufferLocation 0))
      (Some (mkBufferRegion 0 16)) false;
    GpuBeginCopyPass (Some 1%nat);
    GpuSubmit (Some 1%nat);
    GpuEndRenderPass (Some 1%nat);
    GpuSubmit (Some 1%nat);
    GpuDrawPrimitives (Some 1%nat) 0 3;
    GpuBlitTextures 1 ].

Definition careless_run (debug : bool) : state :=
  default (new_device debug) (program 4 careless_program (new_device debug)).

(** The blit inside the render pass reaches the driver. *)
Example careless_program_in_debug_mode :
  events (careless_run true)
  = [ Driver 1 AcquireCommandBuffer;
      SDL_assert_release "Render pass not in progress.";
      Driver 1 (BeginRenderPass 0);
      SDL_assert_release "Graphics pipeline not bound.";
      Driver 1 (BindGraphicsPipeline 7);
      Driver 1 (DrawPrimitives 0 3);
      Driver 1 Blit;
      SDL_assert_release "Copy pass not in progress.";
      SDL_assert_release "Pass already in progress.";
      SDL_assert_release "Cannot submit command buffer while a pass is in progress.";
      Driver 1 EndRenderPass;
      Driver 1 Submit;
      SDL_assert_release "Render pass not in progress.";
      SDL_assert_release "Command buffer already submitted." ].
Proof. vm_compute. reflexivity. Qed.

(** Without debug mode every call goes to the driver. *)
Example careless_program_in_release_mode :
  driver_calls 1 (events (careless_run false))
  = [ AcquireCommandBuffer; DrawPrimitives 0 3; BeginRenderPass 0;
      DrawPrimitives 0 3; BindGraphicsPipeline 7; DrawPrimitives 0 3;
      Blit; UploadToBuffer;
      BeginCopyPass; Submit; EndRenderPass; Submit; DrawPrimitives 0 3; Blit ]
  /\ follows_protocol (driver_calls 1 (events (careless_run false))) = false.
Proof. split; vm_compute; reflexivity. Qed.

Lemma debug_mode_keeps_the_protocol_witness :
  follows_protocol (driver_calls 1 (events (careless_run true))) = true.
Proof.
  apply (debug_mode_keeps_the_protocol 4 careless_program).
  apply Uniform.defined_result. vm_compute. reflexivity.
Defined.

End Frontend.

(** * Finding a sub-resource by layer and level *)

Module Subresources.

Import Textures.

(** The rows a nested loop lays out one after the other: entry [j] of
    row [i] is at position [i * m + j]. *)
Lemma lookup_rows {A : Type} (f : nat -> nat -> A) (m l start i j : nat) :
  (i < l)%nat -> (j < m)%nat ->
  flat_map (fun row => map (f row) (seq 0 m)) (seq start l) !! (i * m + j)%nat
  = Some (f (start + i)%nat j).
Proof.
  revert start i. induction l as [| l IH]; intros start i Hi Hj; [lia |].
  cbn [seq flat_map].
  destruct i as [| i].
  - rewrite lookup_app_l by (rewrite length_map, length_seq; cbn; lia).
    cbn. rewrite list_lookup_fmap, lookup_seq_lt by lia. cbn.
    f_equal. f_equal. lia.
  - rewrite lookup_app_r by (rewrite length_map, length_seq; cbn; lia).
    rewrite length_map, length_seq.
    replace (S i * m + j - m)%nat with (i * m + j)%nat by (cbn; lia).
    rewrite IH by lia. f_equal. f_equal. lia.
Qed.

(** X11.  On a texture as [D3D12_INTERNAL_CreateTexture] makes it,
    with fewer than 2^32 sub-resources,
    [D3D12_INTERNAL_FetchTextureSubresource] of a layer and a level
    inside the texture's counts returns the sub-resource that was
    created for that layer and that level, whose index is
    [level + layer * levelCount]. *)
Theorem fetch_finds_layer_and_level
    (native : bool) (container : D3D12TextureContainer) (texture : D3D12Texture)
    (layer level : Z) :
  D3D12_INTERNAL_CreateTexture native (info container) = Some texture ->
  textures container !! activeTexture container = Some texture ->
  0 <= layer < layerCount (info container) ->
  0 <= level < levelCount (info container) ->
  layerCount (info container) * levelCount (info container) <= 2 ^ 32 ->
  exists position,
    D3D12_INTERNAL_FetchTextureSubresource container layer level
    = Some (activeTexture container, position,
            mkSubresource layer level
              (level + layer * levelCount (info container)) 0).
Proof.
  intros Hcreate Hactive Hlayer Hlevel Hcount.
  unfold D3D12_INTERNAL_CreateTexture in Hcreate.
  destruct native; [| discriminate]. injection Hcreate as <-.
  set (L := layerCount (info container)) in *.
  set (M := levelCount (info container)) in *.
  assert (Hindex : D3D12_INTERNAL_CalcSubresource level layer M = level + layer * M).
  { unfold D3D12_INTERNAL_CalcSubresource.
    assert (layer * M + level < L * M) by nia.
    assert (0 <= layer * M) by nia.
    rewrite (u32_small (layer * M)) by lia. apply u32_small. lia. }
  eexists. unfold D3D12_INTERNAL_FetchTextureSubresource.
  rewrite Hactive. cbn [mbind option_bind subresources].
  fold M. rewrite Hindex. unfold create_subresources. fold L M.
  replace (Z.to_nat (level + layer * M))
    with (Z.to_nat layer * Z.to_nat M + Z.to_nat level)%nat by nia.
  rewrite lookup_rows by lia. cbn.
  rewrite !Z2Nat.id by lia. rewrite Hindex. reflexivity.
Qed.

Definition mip_chain_array : D3D12TextureContainer :=
  let createInfo := mkInfo 64 64 1 false 3 4 SDL_GPU_TEXTUREUSAGE_SAMPLER_BIT in
  {| info := createInfo;
     activeTexture := 0;
     textures := [mkTexture createInfo None 0 (create_subresources createInfo)];
     canBeCycled := true;
     debugName := None |}.

Lemma fetch_finds_layer_and_level_witness :
  exists position,
    D3D12_INTERNAL_FetchTextureSubresource mip_chain_array 2 1
    = Some (0%nat, position, mkSubresource 2 1 9 0).
Proof.
  apply (fetch_finds_layer_and_level true mip_chain_array
           (mkTexture (info mip_chain_array) None 0
              (create_subresources (info mip_chain_array)))).
  - reflexivity.
  - reflexivity.
  - cbn. lia.
  - cbn. lia.
  - cbn. lia.
Defined.

End Subresources.

(** * The life of a fence *)

Module Fences.

Import Swapchain.

Definition D3D12_FENCE_UNSIGNALED_VALUE : Z := 0.

Inductive fence_call : Type :=
  | ID3D12Device_CreateFence (initialValue : Z)
  | ID3D12Fence_Release
  | ID3D12Fence_Signal (fence : nat) (value : Z)
  | LogError (message : string).

(** What a creation gives: the native call fails, or the allocation
    of the [D3D12Fence] fails, or the new fence is at an address. *)
Inductive creation : Type :=
  | CreateFenceFails
  | AllocationFails
  | Created (fence : nat).

(** [D3D12_INTERNAL_AcquireFence]: the renderer after the call, the
    fence returned ([None] for NULL) and the calls made. *)
Definition D3D12_INTERNAL_AcquireFence (driver : creation) (r : D3D12Renderer)
  : D3D12Renderer * option nat * list fence_call :=
  match reverse (availableFences r) with
  | [] =>
      match driver with
      | CreateFenceFails =>
          (r, None,
           [ID3D12Device_CreateFence D3D12_FENCE_UNSIGNALED_VALUE;
            LogError "Failed to create fence!"])
      | AllocationFails =>
          (r, None,
           [ID3D12Device_CreateFence D3D12_FENCE_UNSIGNALED_VALUE;
            ID3D12Fence_Release])
      | Created fence =>
          (mkRenderer
             (fun f => if decide (f = fence) then mkFence 0 else fences r f)
             (availableFences r),
           Some fence,
           [ID3D12Device_CreateFence D3D12_FENCE_UNSIGNALED_VALUE])
      end
  | fence :: rest =>
      (mkRenderer (fences r) (reverse rest), Some fence,
       [ID3D12Fence_Signal fence D3D12_FENCE_UNSIGNALED_VALUE])
  end.

(** [D3D12_ReleaseFence] called [n] times on a fence. *)
Fixpoint release_times (n : nat) (r : D3D12Renderer) (fence : nat) : D3D12Renderer :=
  match n with
  | O => r
  | S n => release_times n (D3D12_ReleaseFence r fence) fence
  end.

Lemma release_times_spec (k : nat) (r : D3D12Renderer) (fence : nat) :
  Z.of_nat k <= referenceCount (fences r fence) < 2 ^ 31 ->
  let r' := release_times k r fence in
  referenceCount (fences r' fence) = referenceCount (fences r fence) - Z.of_nat k
  /\ (forall other, other <> fence -> fences r' other = fences r other)
  /\ availableFences r'
     = availableFences r
       ++ (if (0 <? Z.of_nat k) && (Z.of_nat k =? referenceCount (fences r fence))
           then [fence] else []).
Proof.
  revert r. induction k as [| k IH]; intros r Hn.
  - cbn. split; [lia |]. split; [reflexivity |]. symmetry. apply app_nil_r.
  - cbn [release_times]. cbv zeta.
    set (n := referenceCount (fences r fence)) in *.
    assert (Hcount : referenceCount (fences (D3D12_ReleaseFence r fence) fence) = n - 1).
    { unfold D3D12_ReleaseFence, SDL_AtomicDecRef. fold n. cbn.
      rewrite decide_True by reflexivity. cbn. apply s32_small. lia. }
    assert (Hpool : availableFences (D3D12_ReleaseFence r fence)
                    = availableFences r ++ if n =? 1 then [fence] else []).
    { unfold D3D12_ReleaseFence, SDL_AtomicDecRef. fold n. cbn.
      destruct (n =? 1); [reflexivity | symmetry; apply app_nil_r]. }
    assert (Hother : forall other, other <> fence ->
              fences (D3D12_ReleaseFence r fence) other = fences r other).
    { intros other Hne. unfold D3D12_ReleaseFence, SDL_AtomicDecRef. cbn.
      rewrite decide_False by exact Hne. reflexivity. }
    destruct (IH (D3D12_ReleaseFence r fence)) as (IHcount & IHother & IHpool);
      [rewrite Hcount; lia |].
    split; [rewrite IHcount, Hcount; lia |].
    split; [intros other Hne; rewrite IHother by exact Hne; apply Hother, Hne |].
    rewrite IHpool, Hpool, Hcount, <- app_assoc. f_equal.
    destruct (Z.eqb_spec n 1), (Z.ltb_spec 0 (Z.of_nat k)),
      (Z.eqb_spec (Z.of_nat k) (n - 1)), (Z.ltb_spec 0 (Z.of_nat (S k))),
      (Z.eqb_spec (Z.of_nat (S k)) n); cbn; try reflexivity; lia.
Qed.

(** X12.  A fence that holds [n] references stays out of the pool
    while fewer than [n] of them are released, and enters it, once,
    with the release of the last; the other fences are not touched. *)
Theorem fence_returns_to_pool_with_last_release
    (r : D3D12Renderer) (fence : nat) (k : nat) :
  0 < referenceCount (fences r fence) < 2 ^ 31 ->
  Z.of_nat k <= referenceCount (fences r fence) ->
  let r' := release_times k r fence in
  referenceCount (fences r' fence) = referenceCount (fences r fence) - Z.of_nat k
  /\ (forall other, other <> fence -> fences r' other = fences r other)
  /\ availableFences r'
     = if Z.of_nat k =? referenceCount (fences r fence)
       then availableFences r ++ [fence] else availableFences r.
Proof.
  intros Hn Hk.
  destruct (release_times_spec k r fence) as (Hcount & Hother & Hpool); [lia |].
  cbv zeta. split; [exact Hcount |]. split; [exact Hother |].
  rewrite Hpool.
  destruct (Z.eqb_spec (Z.of_nat k) (referenceCount (fences r fence))) as [Heq | Hne].
  - replace (0 <? Z.of_nat k) with true by (symmetry; apply Z.ltb_lt; lia).
    reflexivity.
  - rewrite andb_false_r. apply app_nil_r.
Qed.

(** Fence 5 is held by a command buffer and two frame slots. *)
Definition shared_fence_renderer : D3D12Renderer :=
  mkRenderer (fun f => if decide (f = 5%nat) then mkFence 3 else mkFence 0) [8%nat].

Lemma fence_returns_to_pool_with_last_release_witness :
  availableFences (release_times 2 shared_fence_renderer 5) = [8%nat]
  /\ availableFences (release_times 3 shared_fence_renderer 5) = [8%nat; 5%nat].
Proof.
  split.
  - apply (fence_returns_to_pool_with_last_release shared_fence_renderer 5 2);
      vm_compute; easy.
  - apply (fence_returns_to_pool_with_last_release shared_fence_renderer 5 3);
      vm_compute; easy.
Defined.

(** X13.  The fence whose last reference is released is the fence
    the next acquisition returns: no fence is created, whatever the
    driver would answer, the fence is signalled back to the
    unsignalled value, its count is 0 and the pool is as before the
    release. *)
Theorem released_fence_is_reused
    (driver : creation) (r : D3D12Renderer) (fence : nat) :
  referenceCount (fences r fence) = 1 ->
  let '(r', acquired, calls) :=
    D3D12_INTERNAL_AcquireFence driver (D3D12_ReleaseFence r fence) in
  acquired = Some fence
  /\ calls = [ID3D12Fence_Signal fence D3D12_FENCE_UNSIGNALED_VALUE]
  /\ referenceCount (fences r' fence) = 0
  /\ availableFences r' = availableFences r.
Proof.
  intros Hcount.
  unfold D3D12_INTERNAL_AcquireFence, D3D12_ReleaseFence, SDL_AtomicDecRef.
  rewrite Hcount. cbn [Z.eqb Pos.eqb availableFences].
  rewrite reverse_app. change (reverse [fence]) with [fence]. cbn [app].
  rewrite reverse_involutive. cbn.
  rewrite decide_True by reflexivity. repeat split.
Qed.

Lemma released_fence_is_reused_witness :
  (D3D12_INTERNAL_AcquireFence CreateFenceFails
     (D3D12_ReleaseFence one_fence_renderer 5)).1.2 = Some 5%nat.
Proof.
  pose proof (released_fence_is_reused CreateFenceFails one_fence_renderer 5
                eq_refl) as H.
  destruct (D3D12_INTERNAL_AcquireFence CreateFenceFails
              (D3D12_ReleaseFence one_fence_renderer 5)) as [[r' acquired] calls].
  exact (proj1 H).
Defined.

End Fences.

(** * The attachments a render pass accepts, and its framebuffer *)

Module RenderTargets.

Import RenderPass.

(** The extent of the mip level a slice names. *)
Definition slice_width (store : gmap nat Textures.D3D12TextureContainer)
    (slice : SDL_GpuTextureSlice) : option Z :=
  container ← store !! texture slice;
  Some (Z.shiftr (Textures.width (Textures.info container)) (mipLevel slice)).

Definition slice_height (store : gmap nat Textures.D3D12TextureContainer)
    (slice : SDL_GpuTextureSlice) : option Z :=
  container ← store !! texture slice;
  Some (Z.shiftr (Textures.height (Textures.info container)) (mipLevel slice)).

(** The texture of a slice was created with a usage bit. *)
Definition slice_usage (store : gmap nat Textures.D3D12TextureContainer)
    (slice : SDL_GpuTextureSlice) (bit : Z) : option bool :=
  container ← store !! texture slice;
  Some (has_flag (Textures.usageFlags (Textures.info container)) bit).

(** The slices of all the attachments of a pass. *)
Definition attachment_slices
    (colorAttachmentInfos : list SDL_GpuColorAttachmentInfo)
    (depthStencilAttachmentInfo : option SDL_GpuDepthStencilAttachmentInfo)
  : list SDL_GpuTextureSlice :=
  map textureSlice colorAttachmentInfos
  ++ match depthStencilAttachmentInfo with
     | Some info => [depthTextureSlice info]
     | None => []
     end.

(** [w] and [h] are the least width and the least height among a
    start value and the slices. *)
Definition least_extent (store : gmap nat Textures.D3D12TextureContainer)
    (startWidth startHeight : Z) (slices : list SDL_GpuTextureSlice)
    (w h : Z) : Prop :=
  w <= startWidth /\ h <= startHeight
  /\ Forall (fun slice =>
               exists sw sh, slice_width store slice = Some sw
                             /\ slice_height store slice = Some sh
                             /\ w <= sw /\ h <= sh) slices
  /\ (w = startWidth \/ Some w ∈ map (slice_width store) slices)
  /\ (h = startHeight \/ Some h ∈ map (slice_height store) slices).

Lemma least_extent_step store W H slice slices sw sh w h :
  slice_width store slice = Some sw -> slice_height store slice = Some sh ->
  least_extent store (if sw <? W then sw else W) (if sh <? H then sh else H)
    slices w h ->
  least_extent store W H (slice :: slices) w h.
Proof.
  intros Hsw Hsh (Hw & Hh & Hall & Hwin & Hhin).
  split; [destruct (Z.ltb_spec sw W); lia |].
  split; [destruct (Z.ltb_spec sh H); lia |].
  split.
  - constructor; [| exact Hall].
    exists sw, sh. repeat split; try assumption.
    + destruct (Z.ltb_spec sw W); lia.
    + destruct (Z.ltb_spec sh H); lia.
  - split.
    + destruct Hwin as [-> | Hin].
      * destruct (Z.ltb_spec sw W); [right | left; reflexivity].
        cbn. rewrite Hsw. apply elem_of_cons. left. reflexivity.
      * right. cbn. apply elem_of_cons. right. exact Hin.
    + destruct Hhin as [-> | Hin].
      * destruct (Z.ltb_spec sh H); [right | left; reflexivity].
        cbn. rewrite Hsh. apply elem_of_cons. left. reflexivity.
      * right. cbn. apply elem_of_cons. right. exact Hin.
Qed.

Lemma least_extent_nil store W H : least_extent store W H [] W H.
Proof.
  split; [lia |]. split; [lia |]. split; [constructor |].
  split; left; reflexivity.
Qed.

Lemma least_extent_app store W H l1 l2 w1 h1 w h :
  least_extent store W H l1 w1 h1 -> least_extent store w1 h1 l2 w h ->
  least_extent store W H (l1 ++ l2) w h.
Proof.
  intros (Hw1 & Hh1 & Hall1 & Hwin1 & Hhin1) (Hw & Hh & Hall & Hwin & Hhin).
  split; [lia |]. split; [lia |]. split.
  - apply Forall_app. split; [| exact Hall].
    eapply Forall_impl; [exact Hall1 |]. cbn.
    intros slice (sw & sh & Hsw & Hsh & ? & ?). exists sw, sh.
    repeat split; try assumption; lia.
  - rewrite !map_app. split.
    + destruct Hwin as [-> | Hin]; [| right; apply elem_of_app; right; exact Hin].
      destruct Hwin1 as [-> | Hin]; [left; reflexivity |].
      right. apply elem_of_app. left. exact Hin.
    + destruct Hhin as [-> | Hin]; [| right; apply elem_of_app; right; exact Hin].
      destruct Hhin1 as [-> | Hin]; [left; reflexivity |].
      right. apply elem_of_app. left. exact Hin.
Qed.

(** What the loop over the color attachments decides. *)
Lemma check_color_attachments_spec store infos W H :
  Forall (fun info => is_Some (store !! texture (textureSlice info))) infos ->
  (Forall (fun info =>
             slice_usage store (textureSlice info)
               SDL_GPU_TEXTUREUSAGE_COLOR_TARGET_BIT = Some true) infos
   /\ exists w h,
        check_color_attachments store infos W H = Some (Accepted w h)
        /\ least_extent store W H (map textureSlice infos) w h)
  \/ (Exists (fun info =>
                slice_usage store (textureSlice info)
                  SDL_GPU_TEXTUREUSAGE_COLOR_TARGET_BIT = Some false) infos
      /\ check_color_attachments store infos W H
         = Some (Rejected not_a_color_target)).
Proof.
  intros Hstore. revert W H.
  induction Hstore as [| info infos [container Hc] _ IH]; intros W H.
  - left. split; [constructor |]. exists W, H.
    split; [reflexivity | apply least_extent_nil].
  - cbn [check_color_attachments]. rewrite Hc. cbn [mbind option_bind].
    unfold shrink_framebuffer.
    set (sw := Z.shiftr (Textures.width (Textures.info container))
                 (mipLevel (textureSlice info))).
    set (sh := Z.shiftr (Textures.height (Textures.info container))
                 (mipLevel (textureSlice info))).
    destruct (has_flag (Textures.usageFlags (Textures.info container))
                SDL_GPU_TEXTUREUSAGE_COLOR_TARGET_BIT) eqn:Hflag.
    + destruct (IH (if sw <? W then sw else W) (if sh <? H then sh else H))
        as [(Hall & w & h & Hcheck & Hleast) | (Hex & Hcheck)].
      * left. split.
        { constructor; [| exact Hall]. unfold slice_usage. rewrite Hc. cbn.
          rewrite Hflag. reflexivity. }
        exists w, h. split; [exact Hcheck |]. cbn [map].
        eapply least_extent_step; [| | exact Hleast].
        -- unfold slice_width. rewrite Hc. reflexivity.
        -- unfold slice_height. rewrite Hc. reflexivity.
      * right. split; [apply Exists_cons_tl; exact Hex | exact Hcheck].
    + right. split; [| reflexivity].
      apply Exists_cons_hd. unfold slice_usage. rewrite Hc. cbn.
      rewrite Hflag. reflexivity.
Qed.

(** X14.  When a color attachment's texture was not created as a
    color target, or the depth-stencil attachment's texture not as a
    depth-stencil target, [D3D12_BeginRenderPass] logs one error and
    does nothing else: no command is recorded, no texture is cycled
    or referenced, the attachments of the command buffer stay as they
    were. *)
Theorem begin_render_pass_rejects_wrong_usage
    (renderer : Buffers.Renderer) (native : nat -> bool) (st : state)
    (colorAttachmentInfos : list SDL_GpuColorAttachmentInfo)
    (depthStencilAttachmentInfo : option SDL_GpuDepthStencilAttachmentInfo) :
  Forall (fun slice => is_Some (textureStore st !! texture slice))
    (attachment_slices colorAttachmentInfos depthStencilAttachmentInfo) ->
  Exists (fun info =>
            slice_usage (textureStore st) (textureSlice info)
              SDL_GPU_TEXTUREUSAGE_COLOR_TARGET_BIT = Some false)
    colorAttachmentInfos
  \/ (exists info,
        depthStencilAttachmentInfo = Some info
        /\ slice_usage (textureStore st) (depthTextureSlice info)
             SDL_GPU_TEXTUREUSAGE_DEPTH_STENCIL_TARGET_BIT = Some false) ->
  exists message,
    D3D12_BeginRenderPass renderer native st colorAttachmentInfos
      depthStencilAttachmentInfo
    = Some (mkState (textureStore st) (commandBuffer st) (errors st ++ [message]))
    /\ (message = not_a_color_target \/ message = not_a_depth_target).
Proof.
  intros Hstore Hwrong. unfold attachment_slices in Hstore.
  apply Forall_app in Hstore as [Hcolors Hdepth].
  assert (Hinfos :
    Forall (fun info => is_Some (textureStore st !! texture (textureSlice info)))
      colorAttachmentInfos).
  { apply Forall_forall. intros info Hin. rewrite Forall_forall in Hcolors.
    apply Hcolors. apply (list_elem_of_fmap_2 textureSlice). exact Hin. }
  unfold D3D12_BeginRenderPass.
  destruct (check_color_attachments_spec (textureStore st) colorAttachmentInfos
              SDL_MAX_UINT32 SDL_MAX_UINT32 Hinfos)
    as [(Hall & w & h & Hcheck & _) | (_ & Hcheck)]; rewrite Hcheck; cbn.
  - destruct Hwrong as [Hex | (info & -> & Husage)].
    + exfalso. apply Exists_exists in Hex as (info & Hin & Hfalse).
      rewrite Forall_forall in Hall. specialize (Hall info Hin). congruence.
    + unfold slice_usage in Husage.
      destruct (textureStore st !! texture (depthTextureSlice info))
        as [container |] eqn:Hc; [| discriminate].
      cbn in Husage. injection Husage as Hflag.
      unfold check_depth_stencil_attachment. rewrite Hc. cbn. rewrite Hflag. cbn.
      exists not_a_depth_target. split; [reflexivity | right; reflexivity].
  - exists not_a_color_target. split; [reflexivity | left; reflexivity].
Qed.

Lemma begin_render_pass_rejects_wrong_usage_witness :
  exists message,
    D3D12_BeginRenderPass (Buffers.mkRenderer false false) (fun _ => true) fresh_pass
      [mkColorInfo (mkSlice 7 0 0) (mkColor 0 0 0 0) SDL_GPU_LOADOP_CLEAR false] None
    = Some (mkState (textureStore fresh_pass) (commandBuffer fresh_pass)
              (errors fresh_pass ++ [message]))
    /\ (message = not_a_color_target \/ message = not_a_depth_target).
Proof.
  apply begin_render_pass_rejects_wrong_usage.
  - repeat constructor. vm_compute. eauto.
  - left. constructor. vm_compute. reflexivity.
Defined.

(** X15.  A render pass whose attachments all have the usage their
    place asks for ends its beginning with the render targets, a
    viewport and a scissor rectangle; the viewport starts at the
    origin with depth range 0 to 1, and its width and height are the
    least width and the least height among the mip levels attached
    (with no attachment at all, [SDL_MAX_UINT32]); the command holds
    them as the integers that the code converts to [float].  The
    scissor rectangle has the same extent, converted to [Sint32]. *)
Theorem render_pass_viewport_is_least_extent
    (renderer : Buffers.Renderer) (native : nat -> bool) (st st' : state)
    (colorAttachmentInfos : list SDL_GpuColorAttachmentInfo)
    (depthStencilAttachmentInfo : option SDL_GpuDepthStencilAttachmentInfo) :
  Forall (fun info =>
            slice_usage (textureStore st) (textureSlice info)
              SDL_GPU_TEXTUREUSAGE_COLOR_TARGET_BIT = Some true)
    colorAttachmentInfos ->
  (forall info,
     depthStencilAttachmentInfo = Some info ->
     slice_usage (textureStore st) (depthTextureSlice info)
       SDL_GPU_TEXTUREUSAGE_DEPTH_STENCIL_TARGET_BIT = Some true) ->
  D3D12_BeginRenderPass renderer native st colorAttachmentInfos
    depthStencilAttachmentInfo = Some st' ->
  exists w h before rtvs dsv,
    graphicsCommandList (commandBuffer st')
    = before ++ [ OMSetRenderTargets rtvs dsv;
                  RSSetViewports 0 0 w h 0 1;
                  RSSetScissorRects 0 0 (s32 w) (s32 h) ]
    /\ least_extent (textureStore st) SDL_MAX_UINT32 SDL_MAX_UINT32
         (attachment_slices colorAttachmentInfos depthStencilAttachmentInfo) w h.
Proof.
  intros Hcolors Hdepth Hbegin.
  assert (Hinfos :
    Forall (fun info => is_Some (textureStore st !! texture (textureSlice info)))
      colorAttachmentInfos).
  { eapply Forall_impl; [exact Hcolors |]. cbn. intros info Husage.
    unfold slice_usage in Husage.
    destruct (textureStore st !! texture (textureSlice info)); [eauto | discriminate]. }
  unfold D3D12_BeginRenderPass in Hbegin.
  destruct (check_color_attachments_spec (textureStore st) colorAttachmentInfos
              SDL_MAX_UINT32 SDL_MAX_UINT32 Hinfos)
    as [(_ & w1 & h1 & Hcheck & Hleast1) | (Hex & _)].
  2: { exfalso. apply Exists_exists in Hex as (info & Hin & Hfalse).
       rewrite Forall_forall in Hcolors. specialize (Hcolors info Hin). congruence. }
  rewrite Hcheck in Hbegin. cbn [mbind option_bind] in Hbegin.
  assert (Hd : exists w h,
             check_depth_stencil_attachment (textureStore st)
               depthStencilAttachmentInfo w1 h1 = Some (Accepted w h)
             /\ least_extent (textureStore st) w1 h1
                  match depthStencilAttachmentInfo with
                  | Some info => [depthTextureSlice info]
                  | None => []
                  end w h).
  { destruct depthStencilAttachmentInfo as [info |].
    - specialize (Hdepth info eq_refl). unfold slice_usage in Hdepth.
      destruct (textureStore st !! texture (depthTextureSlice info))
        as [container |] eqn:Hc; [| discriminate].
      cbn in Hdepth. injection Hdepth as Hflag.
      unfold check_depth_stencil_attachment, shrink_framebuffer.
      rewrite Hc. cbn [mbind option_bind]. rewrite Hflag.
      eexists _, _. split; [reflexivity |].
      eapply least_extent_step; [| | apply least_extent_nil].
      + unfold slice_width. rewrite Hc. reflexivity.
      + unfold slice_height. rewrite Hc. reflexivity.
    - exists w1, h1. split; [reflexivity | apply least_extent_nil]. }
  destruct Hd as (w & h & Hdcheck & Hleast2).
  rewrite Hdcheck in Hbegin. cbn [mbind option_bind] in Hbegin.
  match type of Hbegin with
  | context [begin_color_attachments ?a ?b ?c ?d ?e] =>
      destruct (begin_color_attachments a b c d e) as [st1 |]
  end; cbn [mbind option_bind] in Hbegin; [| discriminate].
  match type of Hbegin with
  | (?x ≫= _) = _ => destruct x as [st2 |]
  end; cbn [mbind option_bind] in Hbegin; [| discriminate].
  injection Hbegin as <-.
  exists w, h. eexists _, _, _. split; [reflexivity |].
  unfold attachment_slices. eapply least_extent_app; eassumption.
Qed.

Definition begun_pass : state :=
  default fresh_pass
    (D3D12_BeginRenderPass (Buffers.mkRenderer false false) (fun _ => true) fresh_pass
       [color_attachment SDL_GPU_LOADOP_CLEAR]
       (Some (depth_attachment SDL_GPU_LOADOP_LOAD SDL_GPU_LOADOP_LOAD))).

Lemma render_pass_viewport_is_least_extent_witness :
  exists w h before rtvs dsv,
    graphicsCommandList (commandBuffer begun_pass)
    = before ++ [ OMSetRenderTargets rtvs dsv;
                  RSSetViewports 0 0 w h 0 1;
                  RSSetScissorRects 0 0 (s32 w) (s32 h) ]
    /\ least_extent (textureStore fresh_pass) SDL_MAX_UINT32 SDL_MAX_UINT32
         (attachment_slices [color_attachment SDL_GPU_LOADOP_CLEAR]
            (Some (depth_attachment SDL_GPU_LOADOP_LOAD SDL_GPU_LOADOP_LOAD))) w h.
Proof.
  apply (render_pass_viewport_is_least_extent
           (Buffers.mkRenderer false false) (fun _ => true)).
  - repeat constructor.
  - intros info [= <-]. reflexivity.
  - apply Uniform.defined_result. vm_compute. reflexivity.
Defined.

(** A pass with no attachment gets a viewport of [SDL_MAX_UINT32] by
    [SDL_MAX_UINT32], before the conversion to [float], and a scissor
    rectangle that ends at -1. *)
Example render_pass_without_attachments :
  graphicsCommandList
    (commandBuffer
       (default fresh_pass
          (D3D12_BeginRenderPass (Buffers.mkRenderer false false) (fun _ => true)
             fresh_pass [] None)))
  = [ OMSetRenderTargets [] None;
      RSSetViewports 0 0 4294967295 4294967295 0 1;
      RSSetScissorRects 0 0 (-1) (-1) ].
Proof. vm_compute. reflexivity. Qed.

End RenderTargets.

(** * Uniform bindings between draws, and pushes that do not fit *)

Module UniformBinding.

Import Uniform.

Section Binding.

Variable MAX_UNIFORM_BUFFERS_PER_STAGE : nat.

(** One round of a uniform loop leaves the flag of its slot cleared
    and moves no other flag. *)
Lemma bind_uniform_slot_needs stage count rootIndex s i s' :
  bind_uniform_slot stage count rootIndex s i = Some s' ->
  needs s' stage !! i = Some false
  /\ (forall j, j <> i -> needs s' stage !! j = needs s stage !! j)
  /\ (forall other, other <> stage -> needs s' other = needs s other).
Proof.
  unfold bind_uniform_slot.
  destruct (needs s stage !! i) as [need |] eqn:Hneed; cbn; [| discriminate].
  destruct need.
  - destruct (currentGraphicsPipeline s) as [pipeline |]; cbn; [| discriminate].
    match goal with
    | |- (?x ≫= _) = _ -> _ => destruct x as [s1 |] eqn:Hs1
    end; cbn; [| discriminate].
    intros [= <-].
    assert (Hsame : forall st, needs s1 st = needs s st).
    { intros st. destruct (Z.of_nat i <? count pipeline).
      - destruct (rootIndex pipeline !! i); cbn in Hs1; [| discriminate].
        destruct (slots s stage !! i) as [[w |] |]; cbn in Hs1; try discriminate.
        destruct (uniformBuffers s !! w) as [u |]; cbn in Hs1; [| discriminate].
        destruct (buffers s !! buffer u); cbn in Hs1; [| discriminate].
        injection Hs1 as <-. destruct st; reflexivity.
      - injection Hs1 as <-. reflexivity. }
    rewrite !needs_set_needs. rewrite decide_True by reflexivity.
    rewrite Hsame. split; [| split].
    + apply list_lookup_insert_eq. eapply lookup_lt_Some. exact Hneed.
    + intros j Hj. apply list_lookup_insert_ne. congruence.
    + intros other Hother. rewrite needs_set_needs.
      rewrite decide_False by exact Hother. apply Hsame.
  - intros [= <-]. split; [exact Hneed |]. split; reflexivity.
Qed.

Lemma bind_uniform_slots_needs stage count rootIndex l s s' :
  for_each (bind_uniform_slot stage count rootIndex) l s = Some s' ->
  (forall i, i ∈ l -> needs s' stage !! i = Some false)
  /\ (forall j, needs s stage !! j = Some false -> needs s' stage !! j = Some false)
  /\ (forall other, other <> stage -> needs s' other = needs s other).
Proof.
  revert s. induction l as [| i l IH]; intros s; cbn.
  - intros [= <-]. split; [intros i Hi; inversion Hi |]. split; auto.
  - destruct (bind_uniform_slot stage count rootIndex s i) as [s1 |] eqn:Hs1; cbn;
      [| discriminate].
    intros Hrest.
    destruct (bind_uniform_slot_needs _ _ _ _ _ _ Hs1) as (Hi & Hj & Hother).
    destruct (IH _ Hrest) as (IHl & IHkeep & IHother).
    split; [| split].
    + intros j Hin. apply elem_of_cons in Hin as [-> | Hin]; [| apply IHl, Hin].
      apply IHkeep, Hi.
    + intros j Hfalse. apply IHkeep.
      destruct (decide (j = i)) as [-> | Hne]; [exact Hi |].
      rewrite Hj by exact Hne. exact Hfalse.
    + intros other Hne. rewrite IHother by exact Hne. apply Hother, Hne.
Qed.

(** With the flags of its slots cleared, a uniform loop does nothing. *)
Lemma bind_uniform_slots_clean stage count rootIndex l s :
  (forall i, i ∈ l -> needs s stage !! i = Some false) ->
  for_each (bind_uniform_slot stage count rootIndex) l s = Some s.
Proof.
  induction l as [| i l IH]; intros Hclean; cbn; [reflexivity |].
  assert (Hround : bind_uniform_slot stage count rootIndex s i = Some s).
  { unfold bind_uniform_slot.
    rewrite (Hclean i) by (apply elem_of_cons; left; reflexivity). reflexivity. }
  rewrite Hround. cbn.
  apply IH. intros j Hj. apply Hclean. apply elem_of_cons. right. exact Hj.
Qed.

(** X16.  A draw leaves no uniform slot waiting for a bind: a second
    draw that follows it, with no push and no pipeline bound in
    between, sets no root constant-buffer view and records its
    [DrawInstanced] only. *)
Theorem second_draw_binds_nothing
    (s s1 : state) (vertexStart vertexCount vertexStart' vertexCount' : Z) :
  D3D12_DrawPrimitives MAX_UNIFORM_BUFFERS_PER_STAGE s vertexStart vertexCount
  = Some s1 ->
  D3D12_DrawPrimitives MAX_UNIFORM_BUFFERS_PER_STAGE s1 vertexStart' vertexCount'
  = Some (record [DrawInstanced vertexCount' 1 vertexStart' 0] s1).
Proof.
  unfold D3D12_DrawPrimitives, D3D12_INTERNAL_BindGraphicsResources.
  destruct (for_each (bind_uniform_slot SDL_GPU_SHADERSTAGE_VERTEX _ _) _ s)
    as [sv |] eqn:Hv; cbn; [| discriminate].
  destruct (for_each (bind_uniform_slot SDL_GPU_SHADERSTAGE_FRAGMENT _ _) _ sv)
    as [sf |] eqn:Hf; cbn; [| discriminate].
  intros [= <-].
  destruct (bind_uniform_slots_needs _ _ _ _ _ _ Hv) as (Hvclean & _ & _).
  destruct (bind_uniform_slots_needs _ _ _ _ _ _ Hf) as (Hfclean & _ & Hfother).
  assert (Hneeds : forall stage i,
            needs (record [DrawInstanced vertexCount 1 vertexStart 0] sf) stage !! i
            = needs sf stage !! i)
    by (intros [] i; reflexivity).
  rewrite bind_uniform_slots_clean.
  - cbn. rewrite bind_uniform_slots_clean; [reflexivity |].
    intros i Hi. rewrite Hneeds. apply Hfclean, Hi.
  - intros i Hi. rewrite Hneeds, Hfother by discriminate. apply Hvclean, Hi.
Qed.

End Binding.

Section Overrun.

Variable UNIFORM_BUFFER_SIZE : Z.
Variable driver : nat -> option Z.

(** No buffer of the state is wider than a uniform buffer. *)
Definition uniform_sized (s : state) : Prop :=
  forall b bo, buffers s !! b = Some bo -> handle_Width bo <= UNIFORM_BUFFER_SIZE.

Lemma track_buffer_sized b s :
  uniform_sized s -> uniform_sized (D3D12_INTERNAL_TrackBuffer b s).
Proof.
  intros Hs x bo. unfold D3D12_INTERNAL_TrackBuffer.
  case_bool_decide; [apply Hs |]. cbn.
  destruct (decide (x = b)) as [-> | Hne].
  - rewrite lookup_alter_eq.
    destruct (buffers s !! b) as [bo0 |] eqn:Hb; cbn; [| discriminate].
    intros [= <-]. cbn. eapply Hs. exact Hb.
  - rewrite lookup_alter_ne by congruence. apply Hs.
Qed.

Lemma insert_sized b bo s :
  uniform_sized s -> handle_Width bo <= UNIFORM_BUFFER_SIZE ->
  uniform_sized (set_buffers (<[b := bo]> (buffers s)) s).
Proof.
  intros Hs Hbo x bx. cbn.
  destruct (decide (x = b)) as [-> | Hne].
  - rewrite lookup_insert_eq. intros [= <-]. exact Hbo.
  - rewrite lookup_insert_ne by congruence. apply Hs.
Qed.

Lemma acquire_uniform_buffer_sized s s1 acquired :
  uniform_sized s ->
  D3D12_INTERNAL_AcquireUniformBufferFromPool UNIFORM_BUFFER_SIZE driver s
  = Some (s1, acquired) ->
  uniform_sized s1.
Proof.
  intros Hs. unfold D3D12_INTERNAL_AcquireUniformBufferFromPool.
  assert (Htake : uniform_sized (take_uniform_buffer UNIFORM_BUFFER_SIZE driver s).1).
  { unfold take_uniform_buffer.
    destruct (reverse (uniformBufferPool s)); [| exact Hs].
    destruct (driver (nativeCalls s)); [| exact Hs]. cbn.
    apply (insert_sized _ _ s Hs). cbn. lia. }
  destruct (take_uniform_buffer UNIFORM_BUFFER_SIZE driver s) as [s0 [w |]];
    cbn in Htake; [| intros [= <- <-]; exact Htake].
  destruct (uniformBuffers s0 !! w) as [u |]; cbn; [| discriminate].
  destruct (buffers s0 !! buffer u) as [bo |] eqn:Hbo; cbn; [| discriminate].
  destruct (driver (nativeCalls s0)); intros [= <- <-]; [| exact Htake].
  unfold D3D12_INTERNAL_TrackUniformBuffer. case_bool_decide.
  - apply (insert_sized _ _ _ Htake). cbn. eapply Htake. exact Hbo.
  - apply track_buffer_sized.
    apply (insert_sized (buffer u) (set_mapPointer true bo) s0 Htake).
    cbn. eapply Htake. exact Hbo.
Qed.

(** The test that guards the copy fails when the data are longer
    than the buffer. *)
Lemma copy_overruns {A : Type} (bo : D3D12Buffer) (offset length : Z) (x : A) :
  handle_Width bo <= UNIFORM_BUFFER_SIZE -> UNIFORM_BUFFER_SIZE < length ->
  (if mapPointer bo && (0 <=? offset) && (offset + length <=? handle_Width bo)
   then Some x else None) = None.
Proof.
  intros Hwidth Hlong.
  destruct (mapPointer bo); cbn; [| reflexivity].
  destruct (Z.leb_spec 0 offset); cbn; [| reflexivity].
  destruct (Z.leb_spec (offset + length) (handle_Width bo)); [lia | reflexivity].
Qed.

(** The end of a push: the look-ups and the copy. *)
Ltac copy_fails Hsized :=
  lazymatch goal with
  | |- (buffers ?s !! ?b ≫= _) = None =>
      let bo := fresh "bo" in
      let Hbo := fresh "Hbo" in
      destruct (buffers s !! b) as [bo |] eqn:Hbo;
      cbn [mbind option_bind]; [| reflexivity];
      lazymatch goal with
      | |- (?n ≫= _) = None =>
          destruct n; cbn [mbind option_bind]; [| reflexivity]
      end;
      apply copy_overruns; [exact (Hsized _ _ Hbo) | assumption]
  end.

(** X17.  [D3D12_INTERNAL_PushUniformData] compares no length with
    the size of the buffer: a push of more than [UNIFORM_BUFFER_SIZE]
    bytes has no defined outcome in any state whose buffers are
    uniform buffers, since the copy, when the call gets that far,
    runs past the end of the mapped buffer. *)
Theorem oversized_push_overruns_the_buffer
    (s : state) (shaderStage : SDL_GpuShaderStage) (slotIndex : nat)
    (data : list Byte.byte) :
  uniform_sized s ->
  UNIFORM_BUFFER_SIZE < Z.of_nat (length data) ->
  D3D12_INTERNAL_PushUniformData UNIFORM_BUFFER_SIZE driver s shaderStage slotIndex
    data = None.
Proof.
  intros Hs Hlong. unfold D3D12_INTERNAL_PushUniformData.
  destruct (slots s shaderStage !! slotIndex) as [slot |];
    cbn [mbind option_bind]; [| reflexivity].
  assert (Hstart : exists s0,
            uniform_sized s0
            /\ (match slot with
                | Some w => Some (s, Some w)
                | None =>
                    '(s0, acquired) ←
                      D3D12_INTERNAL_AcquireUniformBufferFromPool
                        UNIFORM_BUFFER_SIZE driver s;
                    Some (set_slots shaderStage
                            (<[slotIndex := acquired]> (slots s0 shaderStage)) s0,
                          acquired)
                end = None
                \/ exists w,
                     match slot with
                     | Some w => Some (s, Some w)
                     | None =>
                         '(s0, acquired) ←
                           D3D12_INTERNAL_AcquireUniformBufferFromPool
                             UNIFORM_BUFFER_SIZE driver s;
                         Some (set_slots shaderStage
                                 (<[slotIndex := acquired]> (slots s0 shaderStage)) s0,
                               acquired)
                     end = Some (s0, w))).
  { destruct slot as [w |].
    - exists s. split; [exact Hs |]. right. eauto.
    - destruct (D3D12_INTERNAL_AcquireUniformBufferFromPool _ _ s)
        as [[s1 acquired] |] eqn:Hacq; cbn [mbind option_bind].
      + exists (set_slots shaderStage
                  (<[slotIndex := acquired]> (slots s1 shaderStage)) s1).
        split; [| right; eauto].
        intros b bo. destruct shaderStage; cbn;
          apply (acquire_uniform_buffer_sized _ _ _ Hs Hacq).
      + exists s. split; [exact Hs |]. left. reflexivity. }
  destruct Hstart as (s0 & Hs0 & [-> | (slot0 & ->)]); [reflexivity |].
  cbn [mbind option_bind].
  destruct slot0 as [w |]; cbn [mbind option_bind]; [| reflexivity].
  destruct (uniformBuffers s0 !! w) as [u |]; cbn [mbind option_bind]; [| reflexivity].
  cbv zeta. cbn [writeOffset currentBlockSize buffer].
  destruct (UNIFORM_BUFFER_SIZE <=? _).
  - cbn [buffers set_uniformBuffers].
    destruct (buffers s0 !! buffer u) as [bo |] eqn:Hbo;
      cbn [mbind option_bind]; [| reflexivity].
    match goal with
    | |- context [D3D12_INTERNAL_AcquireUniformBufferFromPool _ _ ?x] =>
        set (s2 := x); assert (Hs2 : uniform_sized s2)
    end.
    { subst s2. apply (insert_sized (buffer u) (set_mapPointer false bo)
                         (set_uniformBuffers _ s0)).
      - exact Hs0.
      - cbn. eapply Hs0. exact Hbo. }
    destruct (D3D12_INTERNAL_AcquireUniformBufferFromPool _ _ s2)
      as [[s3 [w' |]] |] eqn:Hacq; cbn [mbind option_bind]; try reflexivity.
    pose proof (acquire_uniform_buffer_sized _ _ _ Hs2 Hacq) as Hs3.
    destruct (uniformBuffers s3 !! w') as [u' |]; cbn [mbind option_bind];
      [| reflexivity].
    assert (Hs4 : uniform_sized
                    (set_slots shaderStage
                       (<[slotIndex := Some w']>
                          (slots
                             (set_uniformBuffers
                                (<[w' := mkUniformBuffer (buffer u') 0 0
                                           (currentBlockSize u')]>
                                   (uniformBuffers s3)) s3) shaderStage))
                       (set_uniformBuffers
                          (<[w' := mkUniformBuffer (buffer u') 0 0
                                     (currentBlockSize u')]>
                             (uniformBuffers s3)) s3)))
      by (intros b bo'; destruct shaderStage; cbn; apply Hs3).
    copy_fails Hs4.
  - cbn [mbind option_bind].
    assert (Hs1 : uniform_sized
                    (set_uniformBuffers
                       (<[w := mkUniformBuffer (buffer u) (writeOffset u)
                                 (drawOffset u)
                                 (D3D12_INTERNAL_Align (Z.of_nat (length data)) 256)]>
                          (uniformBuffers s0)) s0))
      by exact Hs0.
    copy_fails Hs1.
Qed.

End Overrun.

(** A command buffer with a pipeline bound and four bytes pushed to
    vertex slot 0, and the same after a first draw. *)
Definition pushed : state :=
  default fresh_command_buffer
    (record_frame [BindGraphicsPipeline one_slot_pipeline;
                   PushUniformData SDL_GPU_SHADERSTAGE_VERTEX 0 first_data]).

Definition drawn : state :=
  default pushed (D3D12_DrawPrimitives 4 pushed 0 3).

(** The first draw binds the pushed block. *)
Example first_draw_binds :
  graphicsCommandList drawn
  = [ SetPipelineState 7; SetGraphicsRootSignature 8; IASetPrimitiveTopology 4;
      OMSetBlendFactor; OMSetStencilRef 0;
      SetGraphicsRootConstantBufferView 0 65536;
      DrawInstanced 3 1 0 0 ].
Proof. vm_compute. reflexivity. Qed.

Lemma second_draw_binds_nothing_witness :
  D3D12_DrawPrimitives 4 drawn 3 3 = Some (record [DrawInstanced 3 1 3 0] drawn).
Proof.
  apply (second_draw_binds_nothing 4 pushed drawn 0 3).
  apply defined_result. vm_compute. reflexivity.
Defined.

Lemma oversized_push_overruns_the_buffer_witness :
  D3D12_INTERNAL_PushUniformData 8 willing_driver fresh_command_buffer
    SDL_GPU_SHADERSTAGE_VERTEX 0 (replicate 9 Byte.x00) = None.
Proof.
  apply oversized_push_overruns_the_buffer.
  - intros b bo Hb. cbn in Hb. rewrite lookup_empty in Hb. discriminate.
  - cbn. lia.
Defined.

(** Eight bytes do fit a buffer of eight bytes. *)
Example push_of_the_buffer_size :
  is_Some (D3D12_INTERNAL_PushUniformData 8 willing_driver fresh_command_buffer
             SDL_GPU_SHADERSTAGE_VERTEX 0 (replicate 8 Byte.x00)).
Proof. vm_compute. eauto. Qed.

End UniformBinding.

(** * References taken while recording are given back by the clean-up *)

Module ReferenceBalance.

Import Uniform.

(** [SDL_AtomicDecRef] on the count of a buffer. *)
Definition release_reference (bo : D3D12Buffer) : D3D12Buffer :=
  mkBuffer (handle_Width bo) (virtualAddress bo) (mapPointer bo)
    (Swapchain.SDL_AtomicDecRef (referenceCount bo)).1 (memory bo).

(** The loop of [D3D12_INTERNAL_CleanCommandBuffer] over the used
    buffers, and the count it resets. *)
Definition clean_used_buffers (s : state) : state :=
  set_used (usedUniformBuffers s) []
    (set_buffers
       (foldl (fun objects b => alter release_reference b objects)
          (buffers s) (usedBuffers s))
       s).

(** [D3D12_INTERNAL_TrackBuffer] on each buffer of a list, in order. *)
Definition track_all (bs : list nat) (s : state) : state :=
  foldl (fun s b => D3D12_INTERNAL_TrackBuffer b s) s bs.

Definition take_reference (bo : D3D12Buffer) : D3D12Buffer :=
  mkBuffer (handle_Width bo) (virtualAddress bo) (mapPointer bo)
    (referenceCount bo + 1) (memory bo).

(** The buffers of [s] are those of [s0] with one reference more on
    each used buffer, and no buffer is listed twice. *)
Definition tracked_from (s0 s : state) : Prop :=
  NoDup (usedBuffers s)
  /\ forall b,
       buffers s !! b
       = if decide (b ∈ usedBuffers s) then take_reference <$> buffers s0 !! b
         else buffers s0 !! b.

Lemma track_buffer_tracked_from s0 s b :
  tracked_from s0 s -> tracked_from s0 (D3D12_INTERNAL_TrackBuffer b s).
Proof.
  intros [Hnodup Hbuffers]. unfold D3D12_INTERNAL_TrackBuffer.
  case_bool_decide as Hin; [split; assumption |]. unfold tracked_from. cbn. split.
  - apply NoDup_app. split; [exact Hnodup |]. split.
    + intros x Hx Hx'. apply list_elem_of_singleton in Hx'. subst x. contradiction.
    + apply NoDup_singleton.
  - intros x. destruct (decide (x = b)) as [-> | Hne].
    + rewrite lookup_alter_eq, Hbuffers.
      rewrite decide_False by exact Hin.
      rewrite decide_True by (apply elem_of_app; right; apply list_elem_of_singleton;
                              reflexivity).
      reflexivity.
    + rewrite lookup_alter_ne by congruence. rewrite Hbuffers.
      destruct (decide (x ∈ usedBuffers s)) as [Hx | Hx].
      * rewrite decide_True by (apply elem_of_app; left; exact Hx). reflexivity.
      * rewrite decide_False; [reflexivity |].
        intros Hx'. apply elem_of_app in Hx' as [Hx' | Hx']; [contradiction |].
        apply list_elem_of_singleton in Hx'. contradiction.
Qed.

Lemma track_all_tracked_from s0 s bs :
  tracked_from s0 s -> tracked_from s0 (track_all bs s).
Proof.
  revert s. induction bs as [| b bs IH]; intros s Hs; cbn; [exact Hs |].
  apply IH, track_buffer_tracked_from, Hs.
Qed.

Lemma track_all_used s bs b :
  b ∈ usedBuffers (track_all bs s) -> b ∈ usedBuffers s \/ b ∈ bs.
Proof.
  revert s. induction bs as [| x bs IH]; intros s; cbn; [auto |].
  intros Hb. destruct (IH _ Hb) as [Hin | Hin].
  - unfold D3D12_INTERNAL_TrackBuffer in Hin.
    case_bool_decide; [left; exact Hin |]. cbn in Hin.
    apply elem_of_app in Hin as [Hin | Hin]; [left; exact Hin |].
    apply list_elem_of_singleton in Hin. subst. right. apply elem_of_cons. auto.
  - right. apply elem_of_cons. auto.
Qed.

Lemma release_all_lookup (l : list nat) (objects : gmap nat D3D12Buffer) (b : nat) :
  NoDup l ->
  foldl (fun objects b => alter release_reference b objects) objects l !! b
  = if decide (b ∈ l) then release_reference <$> objects !! b else objects !! b.
Proof.
  revert objects. induction l as [| x l IH]; intros objects Hnodup; cbn.
  - rewrite decide_False by (intros H; inversion H). reflexivity.
  - apply NoDup_cons in Hnodup as [Hx Hl]. rewrite IH by exact Hl.
    destruct (decide (b = x)) as [-> | Hne].
    + rewrite decide_False by exact Hx.
      rewrite decide_True by (apply elem_of_cons; auto).
      apply lookup_alter_eq.
    + rewrite lookup_alter_ne by congruence.
      destruct (decide (b ∈ l)) as [Hb | Hb].
      * rewrite decide_True by (apply elem_of_cons; auto). reflexivity.
      * rewrite decide_False; [reflexivity |].
        intros Hb'. apply elem_of_cons in Hb' as [? | ?]; contradiction.
Qed.

(** X18.  Whatever buffers a command buffer tracks while it records,
    and however often each, the clean-up gives back exactly the
    references that tracking took: every buffer ends with the
    reference count it had when the command buffer was acquired, and
    the list of used buffers is empty again. *)
Theorem clean_up_gives_back_tracked_references (s0 : state) (bs : list nat) :
  usedBuffers s0 = [] ->
  (forall b, b ∈ bs ->
     exists bo, buffers s0 !! b = Some bo
                /\ - 2 ^ 31 <= referenceCount bo < 2 ^ 31 - 1) ->
  let s' := clean_used_buffers (track_all bs s0) in
  buffers s' = buffers s0 /\ usedBuffers s' = [].
Proof.
  intros Hfresh Hcounts. cbv zeta. split; [| reflexivity].
  assert (Hstart : tracked_from s0 s0).
  { split; [rewrite Hfresh; apply NoDup_nil_2 |].
    intros b. rewrite Hfresh. rewrite decide_False by (intros H; inversion H).
    reflexivity. }
  destruct (track_all_tracked_from s0 s0 bs Hstart) as [Hnodup Hbuffers].
  apply map_eq. intros b. cbn.
  rewrite release_all_lookup by exact Hnodup. rewrite Hbuffers.
  destruct (decide (b ∈ usedBuffers (track_all bs s0))) as [Hin | Hin];
    [| reflexivity].
  destruct (track_all_used _ _ _ Hin) as [Hb | Hb];
    [rewrite Hfresh in Hb; inversion Hb |].
  destruct (Hcounts b Hb) as (bo & -> & Hrange). cbn. f_equal.
  destruct bo as [wd va mp rc mem]. unfold release_reference, take_reference. cbn.
  f_equal. cbn in Hrange. replace (rc + 1 - 1) with rc by lia.
  apply s32_small. lia.
Qed.

(** Buffers 1 and 2 of a renderer, one of them already held once. *)
Definition two_buffers : state :=
  acquired_command_buffer 4
    (<[1%nat := mkBuffer 64 4096 false 0 ∅]> {[2%nat := mkBuffer 64 8192 false 1 ∅]})
    ∅ [].

Lemma clean_up_gives_back_tracked_references_witness :
  buffers (clean_used_buffers (track_all [1; 2; 1; 1; 2]%nat two_buffers))
  = buffers two_buffers
  /\ usedBuffers (clean_used_buffers (track_all [1; 2; 1; 1; 2]%nat two_buffers)) = [].
Proof.
  apply (clean_up_gives_back_tracked_references two_buffers [1; 2; 1; 1; 2]%nat).
  - reflexivity.
  - intros b Hb.
    assert (Hcases : b = 1%nat \/ b = 2%nat).
    { repeat (apply elem_of_cons in Hb as [Hb | Hb]; [auto |]). inversion Hb. }
    destruct Hcases as [-> | ->]; eexists; (split; [reflexivity |]); cbn; lia.
Defined.

(** While the command buffer records, each tracked buffer is held
    once, however often it was tracked. *)
Example tracked_buffers_are_held_once :
  (referenceCount <$> buffers (track_all [1; 2; 1; 1; 2]%nat two_buffers) !! 1%nat,
   referenceCount <$> buffers (track_all [1; 2; 1; 1; 2]%nat two_buffers) !! 2%nat,
   usedBuffers (track_all [1; 2; 1; 1; 2]%nat two_buffers))
  = (Some 1, Some 2, [1; 2]%nat).
Proof. vm_compute. reflexivity. Qed.

End ReferenceBalance.

(** * The in-flight fence of a submission *)

Module Submission.

Import Swapchain Fences.

Definition DXGI_PRESENT_ALLOW_TEARING : Z := 0x00000200.

Inductive submit_call : Type :=
  | FenceCall (call : fence_call)
  | ID3D12CommandQueue_Signal (fence : nat) (value : Z)
  | IDXGISwapChain_Present (window : nat) (syncInterval presentFlags : Z)
  | ID3D12Resource_Release (window : nat) (swapchainImageIndex : Z).

(** [SDL_AtomicIncRef] on the count of a fence. *)
Definition SDL_AtomicIncRef (r : D3D12Renderer) (fence : nat) : D3D12Renderer :=
  mkRenderer
    (fun f =>
       if decide (f = fence) then mkFence (s32 (referenceCount (fences r fence) + 1))
       else fences r f)
    (availableFences r).

Section Submitting.

(** [MAX_FRAMES_IN_FLIGHT] is a constant of [SDL_sysgpu.h]: the
    length of the array [inFlightFences] of a window. *)
Variable MAX_FRAMES_IN_FLIGHT : nat.

(** One round of the loop "Present, if applicable" of [D3D12_Submit]:
    the state and the calls so far. *)
Definition present (supportsTearing : bool) (fence : nat)
    (acc : state * list submit_call) (presentData : D3D12PresentData)
  : option (state * list submit_call) :=
  let '(s, calls) := acc in
  let window := windowData presentData in
  wd ← windows s !! window;
  let syncInterval :=
    if bool_decide (presentMode wd = SDL_GPU_PRESENTMODE_IMMEDIATE
                    \/ presentMode wd = SDL_GPU_PRESENTMODE_MAILBOX)
    then 0 else 1 in
  let presentFlags :=
    if supportsTearing
       && bool_decide (presentMode wd = SDL_GPU_PRESENTMODE_IMMEDIATE)
    then DXGI_PRESENT_ALLOW_TEARING else 0 in
  if decide (frameCounter wd < length (inFlightFences wd))%nat then
    Some (set_renderer (SDL_AtomicIncRef (renderer s) fence)
            (set_windows
               (<[window :=
                    mkWindowData (presentMode wd)
                      ((frameCounter wd + 1) mod MAX_FRAMES_IN_FLIGHT)%nat
                      (<[frameCounter wd := Some fence]> (inFlightFences wd))]>
                  (windows s)) s),
          calls ++ [IDXGISwapChain_Present window syncInterval presentFlags;
                    ID3D12Resource_Release window (swapchainImageIndex presentData)])
  else None.

(** [D3D12_Submit] from "Acquire a fence and set it to the in-flight
    fence" to the end of the present loop (the list of submitted
    command buffers apart): the state, the in-flight fence of the
    command buffer and the calls made.  [signalled] says whether the
    queue accepts the signal. *)
Definition submit_in_flight_fence (supportsTearing : bool) (driver : creation)
    (signalled : bool) (s : state) : option (state * nat * list submit_call) :=
  let '(r, inFlightFence, calls) :=
    D3D12_INTERNAL_AcquireFence driver (renderer s) in
  let s := set_renderer r s in
  let s :=
    match inFlightFence with
    | None => log_error "Failed to acquire fence." s
    | Some _ => s
    end in
  (* Command buffer has a reference to the in-flight fence *)
  fence ← inFlightFence;
  let s := set_renderer (SDL_AtomicIncRef (renderer s) fence) s in
  let calls :=
    (FenceCall <$> calls)
    ++ [ID3D12CommandQueue_Signal fence D3D12_FENCE_SIGNAL_VALUE] in
  let s := if signalled then s else log_error "Failed to enqueue fence signal!" s in
  '(s, calls) ← Uniform.for_each (present supportsTearing fence)
                  (presentDatas s) (s, calls);
  Some (s, fence, calls).

(** The windows hold frame counters inside their arrays of
    [MAX_FRAMES_IN_FLIGHT] slots. *)
Definition frames_in_range (s : state) : Prop :=
  forall window wd,
    windows s !! window = Some wd ->
    length (inFlightFences wd) = MAX_FRAMES_IN_FLIGHT
    /\ (frameCounter wd < MAX_FRAMES_IN_FLIGHT)%nat.

Hypothesis frames_exist : (0 < MAX_FRAMES_IN_FLIGHT)%nat.

Lemma present_spec supportsTearing fence s calls presentData :
  frames_in_range s ->
  is_Some (windows s !! windowData presentData) ->
  exists s' calls',
    present supportsTearing fence (s, calls) presentData = Some (s', calls')
    /\ frames_in_range s'
    /\ dom (windows s') = dom (windows s)
    /\ presentDatas s' = presentDatas s
    /\ errors s' = errors s
    /\ availableFences (renderer s') = availableFences (renderer s)
    /\ referenceCount (fences (renderer s') fence)
       = s32 (referenceCount (fences (renderer s) fence) + 1)
    /\ (forall other, other <> fence ->
          fences (renderer s') other = fences (renderer s) other)
    /\ (exists wd' slot,
          windows s' !! windowData presentData = Some wd'
          /\ inFlightFences wd' !! slot = Some (Some fence))
    /\ (forall window wd slot,
          windows s !! window = Some wd ->
          inFlightFences wd !! slot = Some (Some fence) ->
          exists wd', windows s' !! window = Some wd'
                      /\ inFlightFences wd' !! slot = Some (Some fence)).
Proof.
  intros Hrange [wd Hwd]. unfold present. rewrite Hwd. cbn [mbind option_bind].
  destruct (Hrange _ _ Hwd) as [Hlen Hcounter].
  rewrite decide_True by lia.
  eexists _, _. split; [reflexivity |].
  split; [| split; [| split; [| split; [| split; [| split; [| split; [| split]]]]]]].
  - intros window wd'. cbn.
    destruct (decide (window = windowData presentData)) as [-> | Hne].
    + rewrite lookup_insert_eq. intros [= <-]. cbn.
      rewrite length_insert. split; [exact Hlen |].
      apply Nat.mod_upper_bound. lia.
    + rewrite lookup_insert_ne by congruence. apply Hrange.
  - cbn. apply dom_insert_lookup_L. eauto.
  - reflexivity.
  - reflexivity.
  - reflexivity.
  - cbn. rewrite decide_True by reflexivity. reflexivity.
  - intros other Hne. cbn. rewrite decide_False by exact Hne. reflexivity.
  - eexists _, (frameCounter wd). cbn. rewrite lookup_insert_eq.
    split; [reflexivity |]. cbn. apply list_lookup_insert_eq. lia.
  - intros window wd0 slot Hwd0 Hslot. cbn.
    destruct (decide (window = windowData presentData)) as [-> | Hne].
    + rewrite lookup_insert_eq. eexists. split; [reflexivity |]. cbn.
      rewrite Hwd in Hwd0. injection Hwd0 as <-.
      destruct (decide (slot = frameCounter wd)) as [-> | Hslotne].
      * apply list_lookup_insert_eq. lia.
      * rewrite list_lookup_insert_ne by congruence. exact Hslot.
    + rewrite lookup_insert_ne by congruence. eauto.
Qed.

(** The presents that follow keep a slot that holds the fence. *)
Lemma present_all_keeps supportsTearing fence ps st cs st' cs' :
  frames_in_range st ->
  Forall (fun pd => is_Some (windows st !! windowData pd)) ps ->
  Uniform.for_each (present supportsTearing fence) ps (st, cs) = Some (st', cs') ->
  forall window wd k,
    windows st !! window = Some wd ->
    inFlightFences wd !! k = Some (Some fence) ->
    exists wd', windows st' !! window = Some wd'
                /\ inFlightFences wd' !! k = Some (Some fence).
Proof.
  revert st cs. induction ps as [| p ps IHps];
    intros st cs Hr Hw Hrun window wd k Hwd Hk.
  - cbn in Hrun. injection Hrun as <- <-. eauto.
  - apply Forall_cons in Hw as [Hp Hw].
    destruct (present_spec supportsTearing fence st cs p Hr Hp)
      as (st1 & cs1 & Hp1 & Hr1 & Hd1 & _ & _ & _ & _ & _ & _ & Hk1).
    cbn [Uniform.for_each] in Hrun. rewrite Hp1 in Hrun.
    cbn [mbind option_bind] in Hrun.
    destruct (Hk1 _ _ _ Hwd Hk) as (wd1' & Hwd1' & Hk1').
    eapply IHps; [exact Hr1 | | exact Hrun | exact Hwd1' | exact Hk1'].
    eapply Forall_impl; [exact Hw |]. cbn. intros pd Hpd.
    apply elem_of_dom. rewrite Hd1. apply elem_of_dom. exact Hpd.
Qed.

Lemma present_all_spec supportsTearing fence presents s calls :
  frames_in_range s ->
  Forall (fun presentData => is_Some (windows s !! windowData presentData)) presents ->
  - 2 ^ 31 <= referenceCount (fences (renderer s) fence) ->
  referenceCount (fences (renderer s) fence) + Z.of_nat (length presents) < 2 ^ 31 ->
  exists s' calls',
    Uniform.for_each (present supportsTearing fence) presents (s, calls)
    = Some (s', calls')
    /\ frames_in_range s'
    /\ errors s' = errors s
    /\ availableFences (renderer s') = availableFences (renderer s)
    /\ referenceCount (fences (renderer s') fence)
       = referenceCount (fences (renderer s) fence) + Z.of_nat (length presents)
    /\ (forall other, other <> fence ->
          fences (renderer s') other = fences (renderer s) other)
    /\ Forall (fun presentData =>
                 exists wd' slot,
                   windows s' !! windowData presentData = Some wd'
                   /\ inFlightFences wd' !! slot = Some (Some fence)) presents.
Proof.
  revert s calls. induction presents as [| presentData presents IH];
    intros s calls Hrange Hwindows Hlow Hhigh.
  - exists s, calls. cbn.
    split; [reflexivity |]. split; [exact Hrange |]. split; [reflexivity |].
    split; [reflexivity |]. split; [lia |]. split; [reflexivity | constructor].
  - apply Forall_cons in Hwindows as [Hwindow Hwindows].
    destruct (present_spec supportsTearing fence s calls presentData Hrange Hwindow)
      as (s1 & calls1 & Hpresent & Hrange1 & Hdom & _ & Herrors & Hpool & Hcount
          & Hother & Hstored & Hkept).
    cbn [length] in Hhigh.
    rewrite s32_small in Hcount by lia.
    destruct (IH s1 calls1) as (s' & calls' & Hrest & Hrange' & Herrors' & Hpool'
                                & Hcount' & Hother' & Hstored').
    + exact Hrange1.
    + eapply Forall_impl; [exact Hwindows |]. cbn. intros pd Hpd.
      apply elem_of_dom. rewrite Hdom. apply elem_of_dom. exact Hpd.
    + lia.
    + lia.
    + exists s', calls'. cbn [Uniform.for_each]. rewrite Hpresent.
      cbn [mbind option_bind].
      split; [exact Hrest |]. split; [exact Hrange' |].
      split; [congruence |]. split; [congruence |].
      split; [rewrite Hcount', Hcount; cbn [length]; lia |].
      split; [intros other Hne; rewrite Hother' by exact Hne; apply Hother, Hne |].
      constructor; [| exact Hstored'].
      destruct Hstored as (wd1 & slot & Hwd1 & Hslot).
      assert (Hwindows1 :
        Forall (fun pd => is_Some (windows s1 !! windowData pd)) presents).
      { eapply Forall_impl; [exact Hwindows |]. cbn. intros pd Hpd.
        apply elem_of_dom. rewrite Hdom. apply elem_of_dom. exact Hpd. }
      destruct (present_all_keeps _ _ _ _ _ _ _ Hrange1 Hwindows1 Hrest _ _ _ Hwd1 Hslot)
        as (wd' & Hwd' & Hslot').
      exists wd', slot. split; assumption.
Qed.

(** When [D3D12_Submit] reaches its clean-up loop, a fence that came
    without a reference (as a new fence and a fence released to the
    pool do) holds one reference for the command buffer and one for
    each swapchain image presented; every presented window holds the
    fence in one of its frame slots, and the frame counters stay
    below [MAX_FRAMES_IN_FLIGHT]. *)
Lemma submit_in_flight_fence_spec
    (supportsTearing signalled : bool) (driver : creation) (s : state)
    (r1 : D3D12Renderer) (fence : nat) (acquisition : list fence_call) :
  frames_in_range s ->
  Forall (fun presentData => is_Some (windows s !! windowData presentData))
    (presentDatas s) ->
  D3D12_INTERNAL_AcquireFence driver (renderer s) = (r1, Some fence, acquisition) ->
  referenceCount (fences r1 fence) = 0 ->
  1 + Z.of_nat (length (presentDatas s)) < 2 ^ 31 ->
  exists s' calls,
    submit_in_flight_fence supportsTearing driver signalled s
    = Some (s', fence, calls)
    /\ referenceCount (fences (renderer s') fence)
       = 1 + Z.of_nat (length (presentDatas s))
    /\ (forall other, other <> fence ->
          fences (renderer s') other = fences r1 other)
    /\ Forall (fun presentData =>
                 exists wd' slot,
                   windows s' !! windowData presentData = Some wd'
                   /\ inFlightFences wd' !! slot = Some (Some fence))
         (presentDatas s)
    /\ frames_in_range s'.
Proof.
  intros Hrange Hwindows Hacquire Hzero Hfew.
  unfold submit_in_flight_fence. rewrite Hacquire. cbn [mbind option_bind].
  set (s1 := set_renderer (SDL_AtomicIncRef (renderer (set_renderer r1 s)) fence)
               (set_renderer r1 s)).
  set (s2 := if signalled then s1 else log_error "Failed to enqueue fence signal!" s1).
  assert (Hs2 : windows s2 = windows s /\ presentDatas s2 = presentDatas s
                /\ renderer s2 = SDL_AtomicIncRef r1 fence)
    by (subst s2 s1; destruct signalled; repeat split).
  destruct Hs2 as (Hw2 & Hp2 & Hr2).
  assert (Hcount2 : referenceCount (fences (renderer s2) fence) = 1).
  { rewrite Hr2. cbn. rewrite decide_True by reflexivity. cbn.
    rewrite Hzero. reflexivity. }
  destruct (present_all_spec supportsTearing fence (presentDatas s2) s2
              ((FenceCall <$> acquisition)
               ++ [ID3D12CommandQueue_Signal fence D3D12_FENCE_SIGNAL_VALUE]))
    as (s' & calls' & Hrun & Hrange' & _ & _ & Hcount' & Hother' & Hstored).
  - intros window wd. rewrite Hw2. apply Hrange.
  - rewrite Hp2, Hw2. exact Hwindows.
  - lia.
  - rewrite Hp2. lia.
  - rewrite Hrun. cbn [mbind option_bind]. exists s', calls'.
    split; [reflexivity |].
    split; [rewrite Hcount', Hcount2, Hp2; reflexivity |].
    split.
    + intros other Hne. rewrite Hother' by exact Hne. rewrite Hr2. cbn.
      rewrite decide_False by exact Hne. reflexivity.
    + rewrite Hp2 in Hstored. split; [exact Hstored | exact Hrange'].
Qed.

(** X20.  When the pool is empty and no fence can be created,
    [D3D12_Submit] logs the failure and then reads the reference
    count of the fence it did not get: the submission has no defined
    outcome. *)
Theorem submit_without_fence_is_undefined
    (supportsTearing signalled : bool) (driver : creation) (s : state) :
  availableFences (renderer s) = [] ->
  driver = CreateFenceFails \/ driver = AllocationFails ->
  (D3D12_INTERNAL_AcquireFence driver (renderer s)).1.2 = None
  /\ submit_in_flight_fence supportsTearing driver signalled s = None.
Proof.
  intros Hpool Hdriver.
  unfold submit_in_flight_fence, D3D12_INTERNAL_AcquireFence. rewrite Hpool.
  destruct Hdriver as [-> | ->]; split; reflexivity.
Qed.

End Submitting.

(** Window 7 has acquired back buffer 2 for the frame it records; the
    slot of that frame is free. *)
Definition frame_to_present : state :=
  mkState (mkRenderer (fun _ => mkFence 0) [])
    {[ 7%nat := mkWindowData SDL_GPU_PRESENTMODE_VSYNC 2 [None; None; None] ]}
    [mkPresentData 7 2] [] [].

Example submit_presents_and_stores_the_fence :
  (fun '(s', fence, calls) =>
     (calls, (fun wd => (frameCounter wd, inFlightFences wd)) <$> windows s' !! 7%nat))
  <$> submit_in_flight_fence 3 false (Created 9) true frame_to_present
  = Some ([ FenceCall (ID3D12Device_CreateFence 0);
            ID3D12CommandQueue_Signal 9 1;
            IDXGISwapChain_Present 7 1 0;
            ID3D12Resource_Release 7 2 ],
          Some (0%nat, [None; None; Some 9%nat])).
Proof. vm_compute. reflexivity. Qed.

Lemma submit_without_fence_is_undefined_witness :
  submit_in_flight_fence 3 false CreateFenceFails true frame_to_present = None.
Proof.
  apply (submit_without_fence_is_undefined 3 false true CreateFenceFails
           frame_to_present).
  - reflexivity.
  - left. reflexivity.
Defined.

End Submission.

(** * Waiting for the GPU to go idle *)

Module Waiting.

Import Swapchain Fences.

Inductive wait_call : Type :=
  | AcquireFenceCall (call : fence_call)
  | ID3D12CommandQueue_Signal (fence : nat) (value : Z)
  | GetCompletedValue (fence : nat)
  | SetEventOnCompletion (fence : nat) (value : Z)
  | WaitForSingleObject (fence : nat)
  | CleanCommandBuffers
  | PerformPendingDestroys.

(** [D3D12_Wait].  [commandQueue] says whether the renderer has a
    command queue; [env] answers the completed value of the fence and
    whether its completion event can be set; [cleanedUp] is what the
    clean-up of all the submitted command buffers and the pending
    destroys do to the renderer, which is not unfolded here. *)
Definition D3D12_Wait (env : environment) (driver : creation) (commandQueue : bool)
    (cleanedUp : D3D12Renderer -> D3D12Renderer) (s : state)
  : state * list wait_call :=
  let '(r, acquired, calls) := D3D12_INTERNAL_AcquireFence driver (renderer s) in
  let s := set_renderer r s in
  let calls := AcquireFenceCall <$> calls in
  match acquired with
  | None => (log_error "Failed to acquire fence." s, calls)
  | Some fence =>
      let '(calls, waited) :=
        if commandQueue then
          (* Insert a signal into the end of the command queue... *)
          let calls :=
            calls ++ [ID3D12CommandQueue_Signal fence D3D12_FENCE_SIGNAL_VALUE;
                      GetCompletedValue fence] in
          (* ...and then block on it. *)
          if completedValue env fence =? D3D12_FENCE_SIGNAL_VALUE then (calls, true)
          else
            let calls :=
              calls ++ [SetEventOnCompletion fence D3D12_FENCE_SIGNAL_VALUE] in
            if setEventOnCompletion env fence
            then (calls ++ [WaitForSingleObject fence], true)
            else (calls, false)
        else (calls, true) in
      if waited then
        let s := set_renderer (D3D12_ReleaseFence (renderer s) fence) s in
        (* Clean up *)
        (set_renderer (cleanedUp (renderer s)) s,
         calls ++ [CleanCommandBuffers; PerformPendingDestroys])
      else (log_error "Setting fence event failed" s, calls)
  end.

(** X21.  [D3D12_Wait] takes a fence and does not give it back.  The
    fence it acquires comes without a reference, the function adds
    none, and its [D3D12_ReleaseFence] takes the count from 0 to -1,
    which is not the step from 1 to 0 that returns a fence to the
    pool: when the clean-up starts, the fence is outside the pool
    with a count of -1, whether it was taken from the pool or
    created. *)
Theorem wait_does_not_return_its_fence
    (env : environment) (driver : creation) (commandQueue : bool)
    (cleanedUp : D3D12Renderer -> D3D12Renderer) (s : state)
    (r1 : D3D12Renderer) (fence : nat) (acquisition : list fence_call) :
  D3D12_INTERNAL_AcquireFence driver (renderer s) = (r1, Some fence, acquisition) ->
  referenceCount (fences r1 fence) = 0 ->
  fence ∉ availableFences r1 ->
  commandQueue = false
  \/ completedValue env fence = D3D12_FENCE_SIGNAL_VALUE
  \/ setEventOnCompletion env fence = true ->
  exists r2,
    renderer (D3D12_Wait env driver commandQueue cleanedUp s).1 = cleanedUp r2
    /\ referenceCount (fences r2 fence) = -1
    /\ availableFences r2 = availableFences r1
    /\ (fence ∉ availableFences r2)
    /\ (forall other, other <> fence -> fences r2 other = fences r1 other)
    /\ errors (D3D12_Wait env driver commandQueue cleanedUp s).1 = errors s.
Proof.
  intros Hacquire Hzero Hout Hwaits.
  exists (D3D12_ReleaseFence r1 fence).
  assert (Hrelease :
    referenceCount (fences (D3D12_ReleaseFence r1 fence) fence) = -1
    /\ availableFences (D3D12_ReleaseFence r1 fence) = availableFences r1
    /\ forall other, other <> fence ->
         fences (D3D12_ReleaseFence r1 fence) other = fences r1 other).
  { unfold D3D12_ReleaseFence, SDL_AtomicDecRef. rewrite Hzero. cbn.
    rewrite decide_True by reflexivity. split; [reflexivity |].
    split; [reflexivity |]. intros other Hne.
    rewrite decide_False by exact Hne. reflexivity. }
  destruct Hrelease as (Hcount & Hpool & Hother).
  assert (Hwait :
    renderer (D3D12_Wait env driver commandQueue cleanedUp s).1
    = cleanedUp (D3D12_ReleaseFence r1 fence)
    /\ errors (D3D12_Wait env driver commandQueue cleanedUp s).1 = errors s).
  { unfold D3D12_Wait. rewrite Hacquire.
    destruct commandQueue; [| split; reflexivity].
    destruct (Z.eqb_spec (completedValue env fence) D3D12_FENCE_SIGNAL_VALUE)
      as [Hdone | Hbusy]; [split; reflexivity |].
    destruct Hwaits as [Hq | [Hdone | Hset]]; [discriminate | contradiction |].
    rewrite Hset. split; reflexivity. }
  destruct Hwait as [Hrenderer Herrors].
  split; [exact Hrenderer |]. split; [exact Hcount |]. split; [exact Hpool |].
  split; [rewrite Hpool; exact Hout |]. split; [exact Hother | exact Herrors].
Qed.

(** A renderer whose pool holds the fences 4 and 5, both released. *)
Definition idle_renderer : state :=
  mkState (mkRenderer (fun _ => mkFence 0) [4%nat; 5%nat]) ∅ [] [] [].

Lemma wait_does_not_return_its_fence_witness :
  exists r2,
    renderer (D3D12_Wait (busy_gpu true) CreateFenceFails true (fun r => r)
                idle_renderer).1 = r2
    /\ referenceCount (fences r2 5) = -1
    /\ availableFences r2 = [4%nat].
Proof.
  destruct (wait_does_not_return_its_fence (busy_gpu true) CreateFenceFails true
              (fun r => r) idle_renderer
              (mkRenderer (fun _ => mkFence 0) [4%nat]) 5
              [ID3D12Fence_Signal 5 D3D12_FENCE_UNSIGNALED_VALUE])
    as (r2 & Hrenderer & Hcount & Hpool & _).
  - reflexivity.
  - reflexivity.
  - intros Hin. apply elem_of_cons in Hin as [Hin | Hin]; [discriminate |].
    inversion Hin.
  - right. right. reflexivity.
  - exists r2. split; [exact Hrenderer |]. split; [exact Hcount | exact Hpool].
Defined.

(** Two waits in a row drain a pool of two fences. *)
Example two_waits_drain_the_pool :
  availableFences
    (renderer
       (D3D12_Wait (busy_gpu true) CreateFenceFails true (fun r => r)
          (D3D12_Wait (busy_gpu true) CreateFenceFails true (fun r => r)
             idle_renderer).1).1)
  = [].
Proof. vm_compute. reflexivity. Qed.

End Waiting.

(** * The clean-up loops over the submitted command buffers

    [D3D12_Submit], [D3D12_WaitForFences] and [D3D12_Wait] end with a
    loop that walks the renderer's array of submitted command buffers
    from its last entry down, and cleans command buffers on the way;
    [D3D12_INTERNAL_CleanCommandBuffer] removes the command buffer it
    cleans from that same array by moving the last entry into its
    place. *)

Module Cleanup.

Local Open Scope nat_scope.

Inductive cleanup_call : Type :=
  | ID3D12Fence_GetCompletedValue (commandBuffer : nat)
  | CleanCommandBuffer (commandBuffer : nat).

(** The array [submittedCommandBuffers] of the renderer, as long as
    its capacity, and [submittedCommandBufferCount]. *)
Record D3D12Renderer : Type := mkRenderer {
  submittedCommandBuffers : list nat;
  submittedCommandBufferCount : nat
}.

(** The command buffers that count as submitted. *)
Definition submitted (r : D3D12Renderer) : list nat :=
  take (submittedCommandBufferCount r) (submittedCommandBuffers r).

(** One round of the loop "Remove this command buffer from the
    submitted list" of [D3D12_INTERNAL_CleanCommandBuffer]; a round
    whose index has reached the count stands for the end of the
    loop. *)
Definition remove_round (commandBuffer : nat) (r : D3D12Renderer) (i : nat)
  : option D3D12Renderer :=
  if decide (i < submittedCommandBufferCount r) then
    x ← submittedCommandBuffers r !! i;
    if decide (x = commandBuffer) then
      last ← submittedCommandBuffers r !! (submittedCommandBufferCount r - 1);
      Some (mkRenderer (<[i := last]> (submittedCommandBuffers r))
              (submittedCommandBufferCount r - 1))
    else Some r
  else Some r.

(** The loop: the count only goes down, so the indices below the
    count at the start are all the loop can reach. *)
Definition remove_from_submitted (commandBuffer : nat) (r : D3D12Renderer)
  : option D3D12Renderer :=
  Uniform.for_each (remove_round commandBuffer)
    (seq 0 (submittedCommandBufferCount r)) r.

(** One round of the loop "Check for cleanups" of [D3D12_Submit] and
    [D3D12_WaitForFences]; [completed] says whether the in-flight
    fence of a command buffer has the signal value.  Of
    [D3D12_INTERNAL_CleanCommandBuffer] the removal from the array is
    unfolded. *)
Definition check_for_cleanup (completed : nat -> bool)
    (acc : D3D12Renderer * list cleanup_call) (i : nat)
  : option (D3D12Renderer * list cleanup_call) :=
  let '(r, calls) := acc in
  commandBuffer ← submittedCommandBuffers r !! i;
  let calls := calls ++ [ID3D12Fence_GetCompletedValue commandBuffer] in
  if completed commandBuffer then
    r ← remove_from_submitted commandBuffer r;
    Some (r, calls ++ [CleanCommandBuffer commandBuffer])
  else Some (r, calls).

Definition check_for_cleanups (completed : nat -> bool) (r : D3D12Renderer)
  : option (D3D12Renderer * list cleanup_call) :=
  Uniform.for_each (check_for_cleanup completed)
    (reverse (seq 0 (submittedCommandBufferCount r))) (r, []).

(** One round of the loop "Clean up" of [D3D12_Wait], which cleans
    every submitted command buffer. *)
Definition clean_up (acc : D3D12Renderer * list cleanup_call) (i : nat)
  : option (D3D12Renderer * list cleanup_call) :=
  let '(r, calls) := acc in
  commandBuffer ← submittedCommandBuffers r !! i;
  r ← remove_from_submitted commandBuffer r;
  Some (r, calls ++ [CleanCommandBuffer commandBuffer]).

Definition clean_up_all (r : D3D12Renderer)
  : option (D3D12Renderer * list cleanup_call) :=
  Uniform.for_each clean_up
    (reverse (seq 0 (submittedCommandBufferCount r))) (r, []).

(** Both loops, for the proofs: [probe] says whether the fence is
    asked. *)
Definition visit (probe : bool) (completed : nat -> bool)
    (acc : D3D12Renderer * list cleanup_call) (i : nat)
  : option (D3D12Renderer * list cleanup_call) :=
  let '(r, calls) := acc in
  commandBuffer ← submittedCommandBuffers r !! i;
  let calls :=
    if probe then calls ++ [ID3D12Fence_GetCompletedValue commandBuffer] else calls in
  if completed commandBuffer then
    r ← remove_from_submitted commandBuffer r;
    Some (r, calls ++ [CleanCommandBuffer commandBuffer])
  else Some (r, calls).

Definition visited (probe : bool) (completed : nat -> bool) (commandBuffer : nat)
  : list cleanup_call :=
  (if probe then [ID3D12Fence_GetCompletedValue commandBuffer] else [])
  ++ (if completed commandBuffer then [CleanCommandBuffer commandBuffer] else []).

Lemma for_each_idle {S A : Type} (body : S -> A -> option S) (l : list A) (s : S) :
  (forall i, i ∈ l -> body s i = Some s) -> Uniform.for_each body l s = Some s.
Proof.
  induction l as [| i l IH]; intros Hidle; cbn; [reflexivity |].
  rewrite Hidle by (apply elem_of_cons; auto). cbn.
  apply IH. intros j Hj. apply Hidle. apply elem_of_cons. auto.
Qed.

(** The removal of a command buffer that is submitted once moves the
    last submitted entry into its place. *)
Lemma remove_from_submitted_spec r k cb last :
  submittedCommandBufferCount r <= length (submittedCommandBuffers r) ->
  k < submittedCommandBufferCount r ->
  submittedCommandBuffers r !! k = Some cb ->
  NoDup (submitted r) ->
  submittedCommandBuffers r !! (submittedCommandBufferCount r - 1) = Some last ->
  remove_from_submitted cb r
  = Some (mkRenderer (<[k := last]> (submittedCommandBuffers r))
            (submittedCommandBufferCount r - 1)).
Proof.
  destruct r as [arr count]. cbn [submittedCommandBuffers submittedCommandBufferCount].
  unfold submitted. cbn [submittedCommandBuffers submittedCommandBufferCount].
  intros Hcap Hk Hcb Hnodup Hlast.
  assert (Hother : forall i x, i < count -> i <> k -> arr !! i = Some x -> x <> cb).
  { intros i x Hi Hne Hx ->. apply Hne.
    eapply (NoDup_lookup _ _ _ _ Hnodup); rewrite lookup_take_lt by lia; eassumption. }
  unfold remove_from_submitted. cbn [submittedCommandBufferCount].
  replace count with (k + S (count - S k)) at 1 by lia.
  rewrite seq_app. cbn [seq]. rewrite Frontend.for_each_app.
  rewrite for_each_idle.
  2: { intros i Hi. apply elem_of_seq in Hi. unfold remove_round. cbn.
       rewrite decide_True by lia.
       destruct (arr !! i) as [x |] eqn:Hx; cbn.
       - rewrite decide_False; [reflexivity |]. eapply Hother; [| | exact Hx]; lia.
       - apply lookup_ge_None in Hx. lia. }
  cbn [mbind option_bind Uniform.for_each].
  change (0 + k) with k.
  assert (Hround :
    remove_round cb (mkRenderer arr count) k
    = Some (mkRenderer (<[k := last]> arr) (count - 1))).
  { unfold remove_round. cbn [submittedCommandBuffers submittedCommandBufferCount].
    rewrite decide_True by lia. rewrite Hcb. cbn [mbind option_bind].
    rewrite decide_True by reflexivity. rewrite Hlast. reflexivity. }
  rewrite Hround. cbn [mbind option_bind].
  apply for_each_idle. intros i Hi. apply elem_of_seq in Hi.
  unfold remove_round. cbn [submittedCommandBuffers submittedCommandBufferCount].
  destruct (decide (i < count - 1)) as [Hin | Hout]; [| reflexivity].
  rewrite (list_lookup_insert_ne arr k i) by lia.
  destruct (arr !! i) as [x |] eqn:Hx; cbn.
  - rewrite decide_False; [reflexivity |]. eapply Hother; [| | exact Hx]; lia.
  - apply lookup_ge_None in Hx. lia.
Qed.

(** What the removal leaves of the submitted list. *)
Lemma swap_remove_submitted (arr : list nat) (count k cb last : nat) :
  count <= length arr -> k < count ->
  arr !! k = Some cb -> arr !! (count - 1) = Some last ->
  NoDup (take count arr) ->
  NoDup (take (count - 1) (<[k := last]> arr))
  /\ drop k (take (count - 1) (<[k := last]> arr)) ≡ₚ drop (S k) (take count arr).
Proof.
  intros Hcap Hk Hcb Hlast Hnodup.
  destruct (decide (k = count - 1)) as [-> | Hne].
  - rewrite take_insert_ge by lia.
    replace count with (S (count - 1)) in Hnodup at 1 by lia.
    replace (take count arr) with (take (S (count - 1)) arr) by (f_equal; lia).
    rewrite (take_S_r _ _ _ Hcb) in *.
    apply NoDup_app in Hnodup as (Hprefix & _ & _). split; [exact Hprefix |].
    rewrite !drop_ge; [reflexivity | |].
    + rewrite length_app, length_take. cbn. lia.
    + rewrite length_take. lia.
  - rewrite take_insert_lt by lia.
    set (T := take (count - 1) arr).
    assert (HT : take count arr = T ++ [last]).
    { replace count with (S (count - 1)) at 1 by lia. apply take_S_r. exact Hlast. }
    assert (HTk : T !! k = Some cb) by (subst T; rewrite lookup_take_lt by lia; exact Hcb).
    assert (HTlen : length T = count - 1) by (subst T; rewrite length_take; lia).
    rewrite HT in *.
    rewrite insert_take_drop by lia.
    pose proof (take_drop_middle T k cb HTk) as Hsplit.
    set (A := take k T) in *. set (B := drop (S k) T) in *.
    assert (HA : length A = k) by (subst A; rewrite length_take; lia).
    split.
    + rewrite <- Hsplit in Hnodup.
      assert (Hperm : (A ++ cb :: B) ++ [last] ≡ₚ cb :: (A ++ last :: B)).
      { rewrite <- app_assoc. cbn. rewrite <- Permutation_middle. constructor.
        apply Permutation_app_head. symmetry. apply Permutation_cons_append. }
      rewrite Hperm in Hnodup. apply NoDup_cons in Hnodup as [_ Hrest]. exact Hrest.
    + rewrite drop_app_length' by (symmetry; exact HA).
      rewrite drop_app_le by lia. fold B. apply Permutation_cons_append.
Qed.

(** The loop from index [k - 1] down. *)
Lemma visit_all probe completed k r calls :
  k <= submittedCommandBufferCount r ->
  submittedCommandBufferCount r <= length (submittedCommandBuffers r) ->
  NoDup (submitted r) ->
  exists r',
    Uniform.for_each (visit probe completed) (reverse (seq 0 k)) (r, calls)
    = Some (r', calls
                ++ flat_map (visited probe completed)
                     (reverse (take k (submittedCommandBuffers r))))
    /\ submittedCommandBufferCount r' <= length (submittedCommandBuffers r')
    /\ submitted r'
       ≡ₚ filter (fun cb => completed cb = false) (take k (submittedCommandBuffers r))
          ++ drop k (submitted r).
Proof.
  revert r calls. induction k as [| k IH]; intros r calls Hk Hcap Hnodup.
  - exists r. cbn. rewrite app_nil_r, drop_0. repeat split; [exact Hcap |]. reflexivity.
  - destruct r as [arr count].
    cbn [submittedCommandBuffers submittedCommandBufferCount] in *.
    unfold submitted in *.
    cbn [submittedCommandBuffers submittedCommandBufferCount] in *.
    destruct (lookup_lt_is_Some_2 arr k) as [cb Hcb]; [lia |].
    rewrite seq_S, reverse_snoc. cbn [Uniform.for_each]. change (0 + k) with k.
    rewrite (take_S_r _ _ _ Hcb), reverse_snoc. cbn [flat_map].
    rewrite filter_app.
    assert (Hdrop : drop k (take count arr) = cb :: drop (S k) (take count arr))
      by (apply drop_S; rewrite lookup_take_lt by lia; exact Hcb).
    destruct (completed cb) eqn:Hdone.
    + destruct (lookup_lt_is_Some_2 arr (count - 1)) as [last Hlast]; [lia |].
      assert (Hvisit :
        visit probe completed (mkRenderer arr count, calls) k
        = Some (mkRenderer (<[k := last]> arr) (count - 1),
                (if probe then calls ++ [ID3D12Fence_GetCompletedValue cb]
                 else calls) ++ [CleanCommandBuffer cb])).
      { unfold visit. cbn [submittedCommandBuffers]. rewrite Hcb.
        cbn [mbind option_bind]. rewrite Hdone.
        rewrite (remove_from_submitted_spec (mkRenderer arr count) k cb last)
          by (cbn; first [lia | assumption]).
        reflexivity. }
      rewrite Hvisit. cbn [mbind option_bind].
      destruct (swap_remove_submitted arr count k cb last) as [Hnodup1 Hperm1];
        try assumption; try lia.
      destruct (IH (mkRenderer (<[k := last]> arr) (count - 1))
                  ((if probe then calls ++ [ID3D12Fence_GetCompletedValue cb]
                    else calls) ++ [CleanCommandBuffer cb]))
        as (r' & Hrun & Hcap' & Hperm').
      * cbn. lia.
      * cbn. rewrite length_insert. lia.
      * exact Hnodup1.
      * exists r'. cbn [submittedCommandBuffers submittedCommandBufferCount] in *.
        rewrite take_insert_ge in * by lia.
        split; [| split; [exact Hcap' |]].
        -- rewrite Hrun. f_equal. f_equal. unfold visited at 2. rewrite Hdone.
           destruct probe; cbn; rewrite <- ?app_assoc; reflexivity.
        -- rewrite Hperm'. unfold submitted. cbn. rewrite Hperm1.
           rewrite decide_False by (rewrite Hdone; discriminate).
           rewrite app_nil_r. reflexivity.
    + assert (Hvisit :
        visit probe completed (mkRenderer arr count, calls) k
        = Some (mkRenderer arr count,
                if probe then calls ++ [ID3D12Fence_GetCompletedValue cb]
                else calls)).
      { unfold visit. cbn [submittedCommandBuffers]. rewrite Hcb.
        cbn [mbind option_bind]. rewrite Hdone. reflexivity. }
      rewrite Hvisit. cbn [mbind option_bind].
      destruct (IH (mkRenderer arr count)
                  (if probe then calls ++ [ID3D12Fence_GetCompletedValue cb]
                   else calls))
        as (r' & Hrun & Hcap' & Hperm'); [cbn; lia | exact Hcap | exact Hnodup |].
      exists r'. cbn [submittedCommandBuffers submittedCommandBufferCount] in *.
      split; [| split; [exact Hcap' |]].
      * rewrite Hrun. f_equal. f_equal. unfold visited at 2. rewrite Hdone.
        destruct probe; cbn; rewrite <- ?app_assoc, ?app_nil_r; reflexivity.
      * rewrite Hperm'. unfold submitted. cbn. rewrite Hdrop.
        rewrite decide_True by exact Hdone.
        rewrite <- app_assoc. reflexivity.
Qed.

(** X22.  The loop "Check for cleanups" asks each submitted command
    buffer's fence once, from the last submitted to the first, and
    cleans the command buffers whose fence has completed, although
    every clean-up rearranges the array the loop walks; the command
    buffers left as submitted are those whose fence has not
    completed. *)
Theorem check_for_cleanups_visits_each_once
    (completed : nat -> bool) (r : D3D12Renderer) :
  submittedCommandBufferCount r <= length (submittedCommandBuffers r) ->
  NoDup (submitted r) ->
  exists r',
    check_for_cleanups completed r
    = Some (r',
            flat_map
              (fun commandBuffer =>
                 ID3D12Fence_GetCompletedValue commandBuffer
                 :: if completed commandBuffer
                    then [CleanCommandBuffer commandBuffer] else [])
              (reverse (submitted r)))
    /\ submitted r' ≡ₚ filter (fun cb => completed cb = false) (submitted r).
Proof.
  intros Hcap Hnodup.
  destruct (visit_all true completed (submittedCommandBufferCount r) r []
              (le_n _) Hcap Hnodup) as (r' & Hrun & _ & Hperm).
  exists r'. split.
  - exact Hrun.
  - rewrite Hperm. unfold submitted.
    rewrite drop_ge by (rewrite length_take; lia). rewrite app_nil_r. reflexivity.
Qed.

(** X23.  The loop "Clean up" of [D3D12_Wait] cleans every submitted
    command buffer once, from the last submitted to the first, and
    leaves none submitted. *)
Theorem wait_cleans_every_submitted_command_buffer (r : D3D12Renderer) :
  submittedCommandBufferCount r <= length (submittedCommandBuffers r) ->
  NoDup (submitted r) ->
  exists r',
    clean_up_all r = Some (r', CleanCommandBuffer <$> reverse (submitted r))
    /\ submittedCommandBufferCount r' = 0.
Proof.
  intros Hcap Hnodup.
  destruct (visit_all false (fun _ => true) (submittedCommandBufferCount r) r []
              (le_n _) Hcap Hnodup) as (r' & Hrun & Hcap' & Hperm).
  exists r'. split.
  - unfold clean_up_all.
    replace (Uniform.for_each clean_up) with
      (Uniform.for_each (visit false (fun _ => true))) by reflexivity.
    rewrite Hrun. cbn [app]. fold (submitted r).
    assert (Hcalls : forall l,
              flat_map (visited false (fun _ => true)) l = CleanCommandBuffer <$> l).
    { intros l. induction l as [| x l IHl]; cbn; congruence. }
    rewrite Hcalls. reflexivity.
  - assert (Hempty : submitted r' ≡ₚ []).
    { rewrite Hperm. unfold submitted.
      rewrite drop_ge by (rewrite length_take; lia).
      rewrite app_nil_r. fold (submitted r).
      generalize (submitted r). intros l.
      induction l as [| x l IHl]; [reflexivity |].
      rewrite filter_cons_False by discriminate. exact IHl. }
    apply Permutation_nil_r in Hempty. unfold submitted in Hempty.
    apply (f_equal length) in Hempty. rewrite length_take in Hempty. cbn in Hempty. lia.
Qed.

(** Four command buffers are submitted; the array has room for six. *)
Definition four_submitted : D3D12Renderer := mkRenderer [11; 12; 13; 14; 0; 0] 4.

Lemma check_for_cleanups_visits_each_once_witness :
  exists r',
    check_for_cleanups (fun cb => bool_decide (cb = 12 \/ cb = 14)) four_submitted
    = Some (r',
            [ ID3D12Fence_GetCompletedValue 14; CleanCommandBuffer 14;
              ID3D12Fence_GetCompletedValue 13;
              ID3D12Fence_GetCompletedValue 12; CleanCommandBuffer 12;
              ID3D12Fence_GetCompletedValue 11 ])
    /\ submitted r' ≡ₚ [11; 13].
Proof.
  destruct (check_for_cleanups_visits_each_once
              (fun cb => bool_decide (cb = 12 \/ cb = 14)) four_submitted)
    as (r' & Hrun & Hleft).
  - cbn. lia.
  - exact (bool_decide_eq_true_1 (NoDup (submitted four_submitted)) eq_refl).
  - exists r'. split; [exact Hrun | exact Hleft].
Defined.

Lemma wait_cleans_every_submitted_command_buffer_witness :
  exists r',
    clean_up_all four_submitted
    = Some (r', [ CleanCommandBuffer 14; CleanCommandBuffer 13;
                  CleanCommandBuffer 12; CleanCommandBuffer 11 ])
    /\ submittedCommandBufferCount r' = 0.
Proof.
  destruct (wait_cleans_every_submitted_command_buffer four_submitted)
    as (r' & Hrun & Hcount).
  - cbn. lia.
  - exact (bool_decide_eq_true_1 (NoDup (submitted four_submitted)) eq_refl).
  - exists r'. split; [exact Hrun | exact Hcount].
Defined.

(** The array after the clean-ups of the witness: 13 went to the
    place of 12. *)
Example check_for_cleanups_rearranges :
  fst <$> check_for_cleanups (fun cb => bool_decide (cb = 12 \/ cb = 14)) four_submitted
  = Some (mkRenderer [11; 13; 13; 14; 0; 0] 2).
Proof. vm_compute. reflexivity. Qed.

End Cleanup.

(** * What a submission leaves of its fence

    [D3D12_Submit] from the acquisition of the in-flight fence to the
    end of its clean-up loop, which can clean the command buffer that
    was just submitted. *)

Module SubmitOutcome.

Import Swapchain Fences Submission.

(** The fields of [struct D3D12CommandBuffer] that the end of a
    submission reads and writes; [presentDatas] up to
    [presentDataCount]. *)
Record D3D12CommandBuffer : Type := mkCommandBuffer {
  presentDatas : list D3D12PresentData;
  inFlightFence : option nat;
  autoReleaseFence : bool
}.

(** The renderer with its fences ([fenceStore]) and its array of
    submitted command buffers ([submittedStore]), the window data by
    window, the command buffers by address and the errors logged. *)
Record device : Type := mkDevice {
  fenceStore : Swapchain.D3D12Renderer;
  submittedStore : Cleanup.D3D12Renderer;
  windows : gmap nat D3D12WindowData;
  commandBuffers : gmap nat D3D12CommandBuffer;
  errors : list string
}.

Definition set_submitted (r : Cleanup.D3D12Renderer) (d : device) : device :=
  mkDevice (fenceStore d) r (windows d) (commandBuffers d) (errors d).

(** "Mark the command buffer as submitted".  The array is as long as
    its capacity; [realloc] says whether [SDL_realloc] succeeds, and
    the entry it adds is written at once ([0] stands for what it
    holds until then).  The store goes through the pointer
    [SDL_realloc] returned, and has no place to go when that is
    NULL. *)
Definition mark_submitted (realloc : bool) (commandBuffer : nat)
    (r : Cleanup.D3D12Renderer) : option Cleanup.D3D12Renderer :=
  let count := Cleanup.submittedCommandBufferCount r in
  array ← (if decide (length (Cleanup.submittedCommandBuffers r) <= count + 1)%nat
           then if realloc
                then Some (resize (count + 1) 0%nat (Cleanup.submittedCommandBuffers r))
                else None
           else Some (Cleanup.submittedCommandBuffers r));
  if decide (count < length array)%nat
  then Some (Cleanup.mkRenderer (<[count := commandBuffer]> array) (count + 1))
  else None.

(** [D3D12_INTERNAL_CleanCommandBuffer], in what it does to the
    present list and the fence of the command buffer and to the array
    of submitted command buffers.  Its other steps (the deferred
    downloads, the reset of the allocator and of the command list, the
    descriptor heaps and uniform buffers it gives back, the references
    on resources it drops, the pool of command buffers) touch none of
    these. *)
Definition D3D12_INTERNAL_CleanCommandBuffer (commandBuffer : nat) (d : device)
  : option device :=
  c ← commandBuffers d !! commandBuffer;
  (* Reset presentation *)
  let c := mkCommandBuffer [] (inFlightFence c) (autoReleaseFence c) in
  (* The fence is now available (unless SubmitAndAcquireFence was called) *)
  '(fences, c) ←
    (if autoReleaseFence c then
       fence ← inFlightFence c;
       Some (D3D12_ReleaseFence (fenceStore d) fence,
             mkCommandBuffer [] None (autoReleaseFence c))
     else Some (fenceStore d, c));
  (* Remove this command buffer from the submitted list *)
  submitted ← Cleanup.remove_from_submitted commandBuffer (submittedStore d);
  Some (mkDevice fences submitted (windows d)
          (<[commandBuffer := c]> (commandBuffers d)) (errors d)).

(** One round of the loop "Check for cleanups"; the completed value
    is read through the in-flight fence of the command buffer.
    [completed] says whether the value read for a command buffer is
    the signal value. *)
Definition check_for_cleanup (completed : nat -> bool) (d : device) (i : nat)
  : option device :=
  commandBuffer ← Cleanup.submittedCommandBuffers (submittedStore d) !! i;
  c ← commandBuffers d !! commandBuffer;
  _ ← inFlightFence c;
  if completed commandBuffer
  then D3D12_INTERNAL_CleanCommandBuffer commandBuffer d
  else Some d.

Definition check_for_cleanups (completed : nat -> bool) (d : device)
  : option device :=
  Uniform.for_each (check_for_cleanup completed)
    (reverse (seq 0 (Cleanup.submittedCommandBufferCount (submittedStore d)))) d.

Section Submitting.

Variable MAX_FRAMES_IN_FLIGHT : nat.

(** The loop "Present, if applicable" on the present list of the
    command buffer. *)
Definition present_all (supportsTearing : bool) (fence : nat)
    (presents : list D3D12PresentData) (d : device) (calls : list submit_call)
  : option (device * list submit_call) :=
  '(s, calls) ←
    Uniform.for_each (present MAX_FRAMES_IN_FLIGHT supportsTearing fence) presents
      (Swapchain.mkState (fenceStore d) (windows d) presents [] (errors d), calls);
  Some (mkDevice (Swapchain.renderer s) (submittedStore d) (Swapchain.windows s)
          (commandBuffers d) (Swapchain.errors s),
        calls).

(** [D3D12_Submit] from "Acquire a fence and set it to the in-flight
    fence" to the end of the loop "Check for cleanups": the device and
    the calls made up to the presents.  [driver] answers the creation
    of a fence, [signalled] says whether the queue accepts the
    signal. *)
Definition D3D12_Submit (supportsTearing : bool) (driver : creation)
    (signalled realloc : bool) (completed : nat -> bool) (commandBuffer : nat)
    (d : device) : option (device * list submit_call) :=
  c ← commandBuffers d !! commandBuffer;
  (* Acquire a fence and set it to the in-flight fence *)
  let '(fences, acquired, calls) := D3D12_INTERNAL_AcquireFence driver (fenceStore d) in
  let c := mkCommandBuffer (presentDatas c) acquired (autoReleaseFence c) in
  let errors :=
    match acquired with
    | None => errors d ++ ["Failed to acquire fence."%string]
    | Some _ => errors d
    end in
  (* Command buffer has a reference to the in-flight fence *)
  fence ← acquired;
  let fences := SDL_AtomicIncRef fences fence in
  (* Mark that a fence should be signaled after command list execution *)
  let calls :=
    (FenceCall <$> calls)
    ++ [ID3D12CommandQueue_Signal fence D3D12_FENCE_SIGNAL_VALUE] in
  let errors :=
    if signalled then errors
    else errors ++ ["Failed to enqueue fence signal!"%string] in
  (* Mark the command buffer as submitted *)
  submitted ← mark_submitted realloc commandBuffer (submittedStore d);
  let d :=
    mkDevice fences submitted (windows d)
      (<[commandBuffer := c]> (commandBuffers d)) errors in
  (* Present, if applicable *)
  '(d, calls) ← present_all supportsTearing fence (presentDatas c) d calls;
  (* Check for cleanups *)
  d ← check_for_cleanups completed d;
  Some (d, calls).

End Submitting.

(** *** The clean-up loop and a fence its command buffers do not hold *)

Lemma release_other_fence (r : Swapchain.D3D12Renderer) (f fence : nat) :
  f <> fence ->
  fences (D3D12_ReleaseFence r f) fence = fences r fence
  /\ (fence ∈ availableFences r <-> fence ∈ availableFences (D3D12_ReleaseFence r f)).
Proof.
  intros Hne. unfold D3D12_ReleaseFence, SDL_AtomicDecRef. cbn.
  rewrite decide_False by congruence. split; [reflexivity |].
  destruct (_ =? 1); [| reflexivity].
  rewrite elem_of_app, list_elem_of_singleton. split; [auto |].
  intros [H | H]; [exact H | congruence].
Qed.

(** The loop from index [k - 1] down, when none of the command
    buffers it visits holds [fence]. *)
Lemma check_for_cleanups_leave (completed : nat -> bool) (fence : nat) (k : nat) :
  forall d : device,
  (k <= Cleanup.submittedCommandBufferCount (submittedStore d))%nat ->
  (Cleanup.submittedCommandBufferCount (submittedStore d)
   <= length (Cleanup.submittedCommandBuffers (submittedStore d)))%nat ->
  NoDup (Cleanup.submitted (submittedStore d)) ->
  (forall cb, cb ∈ take k (Cleanup.submittedCommandBuffers (submittedStore d)) ->
     exists c f, commandBuffers d !! cb = Some c
                 /\ inFlightFence c = Some f /\ f <> fence) ->
  exists d',
    Uniform.for_each (check_for_cleanup completed) (reverse (seq 0 k)) d = Some d'
    /\ fences (fenceStore d') fence = fences (fenceStore d) fence
    /\ (fence ∈ availableFences (fenceStore d)
        <-> fence ∈ availableFences (fenceStore d'))
    /\ (forall cb,
          cb ∉ take k (Cleanup.submittedCommandBuffers (submittedStore d)) ->
          commandBuffers d' !! cb = commandBuffers d !! cb)
    /\ windows d' = windows d
    /\ errors d' = errors d
    /\ Cleanup.submitted (submittedStore d')
       ≡ₚ filter (fun cb => completed cb = false)
            (take k (Cleanup.submittedCommandBuffers (submittedStore d)))
          ++ drop k (Cleanup.submitted (submittedStore d)).
Proof.
  induction k as [| k IH]; intros d Hk Hcap Hnodup Hheld.
  - exists d. cbn. rewrite drop_0. repeat split; auto.
  - destruct d as [fs [arr count] ws cbs es].
    cbn [submittedStore fenceStore commandBuffers windows errors
         Cleanup.submittedCommandBuffers Cleanup.submittedCommandBufferCount] in *.
    unfold Cleanup.submitted in *.
    cbn [Cleanup.submittedCommandBuffers Cleanup.submittedCommandBufferCount] in *.
    destruct (lookup_lt_is_Some_2 arr k) as [cb Hcb]; [lia |].
    rewrite seq_S, reverse_snoc. cbn [Uniform.for_each]. change (0 + k)%nat with k.
    rewrite (take_S_r _ _ _ Hcb) in *.
    assert (Hdrop : drop k (take count arr) = cb :: drop (S k) (take count arr))
      by (apply drop_S; rewrite lookup_take_lt by lia; exact Hcb).
    assert (Hfresh : cb ∉ take k arr).
    { intros Hin. apply list_elem_of_lookup_1 in Hin as [i Hi].
      assert (Hik : (i < k)%nat).
      { apply lookup_lt_Some in Hi. rewrite length_take in Hi. lia. }
      rewrite lookup_take_lt in Hi by exact Hik.
      assert (i = k); [| lia].
      eapply (NoDup_lookup _ _ _ _ Hnodup); rewrite lookup_take_lt by lia; eassumption. }
    destruct (Hheld cb) as (c & f & Hc & Hf & Hne);
      [apply elem_of_app; right; apply list_elem_of_singleton; reflexivity |].
    rewrite filter_app.
    destruct (completed cb) eqn:Hdone.
    + destruct (lookup_lt_is_Some_2 arr (count - 1)) as [last Hlast]; [lia |].
      destruct (release_other_fence fs f fence Hne) as [Hcount Hpool].
      set (fs1 := if autoReleaseFence c then D3D12_ReleaseFence fs f else fs).
      set (c1 := mkCommandBuffer [] (if autoReleaseFence c then None else Some f)
                   (autoReleaseFence c)).
      assert (Hround :
        check_for_cleanup completed
          (mkDevice fs (Cleanup.mkRenderer arr count) ws cbs es) k
        = Some (mkDevice fs1 (Cleanup.mkRenderer (<[k := last]> arr) (count - 1)) ws
                  (<[cb := c1]> cbs) es)).
      { unfold check_for_cleanup, D3D12_INTERNAL_CleanCommandBuffer.
        cbn [submittedStore fenceStore commandBuffers windows errors
             Cleanup.submittedCommandBuffers].
        rewrite Hcb. cbn [mbind option_bind]. rewrite Hc. cbn [mbind option_bind].
        rewrite Hf. cbn [mbind option_bind]. rewrite Hdone.
        rewrite (Cleanup.remove_from_submitted_spec (Cleanup.mkRenderer arr count)
                   k cb last) by (cbn; first [lia | assumption]).
        subst fs1 c1. cbn [inFlightFence autoReleaseFence].
        destruct (autoReleaseFence c); cbn; rewrite ?Hf; reflexivity. }
      rewrite Hround. cbn [mbind option_bind].
      destruct (Cleanup.swap_remove_submitted arr count k cb last)
        as [Hnodup1 Hperm1]; try assumption; try lia.
      destruct (IH (mkDevice fs1 (Cleanup.mkRenderer (<[k := last]> arr) (count - 1))
                      ws (<[cb := c1]> cbs) es))
        as (d' & Hrun & Hcount' & Hpool' & Hcbs' & Hws' & Hes' & Hperm').
      * cbn. lia.
      * cbn. rewrite length_insert. lia.
      * exact Hnodup1.
      * cbn. rewrite take_insert_ge by lia. intros x Hx.
        destruct (Hheld x) as (cx & fx & Hcx & Hfx & Hnex);
          [apply elem_of_app; left; exact Hx |].
        exists cx, fx. rewrite lookup_insert_ne by (intros ->; contradiction).
        auto.
      * exists d'.
        cbn [submittedStore fenceStore commandBuffers windows errors
             Cleanup.submittedCommandBuffers Cleanup.submittedCommandBufferCount] in *.
        rewrite take_insert_ge in * by lia.
        split; [exact Hrun |].
        split; [rewrite Hcount'; subst fs1; destruct (autoReleaseFence c); auto |].
        split; [rewrite <- Hpool'; subst fs1; destruct (autoReleaseFence c);
                [exact Hpool | reflexivity] |].
        split.
        { intros x Hx. rewrite Hcbs'.
          - apply lookup_insert_ne. intros ->. apply Hx.
            apply elem_of_app. right. apply list_elem_of_singleton. reflexivity.
          - intros Hin. apply Hx. apply elem_of_app. left. exact Hin. }
        split; [exact Hws' |]. split; [exact Hes' |].
        rewrite Hperm'. rewrite Hperm1.
        cbn. rewrite decide_False by (rewrite Hdone; discriminate).
        rewrite app_nil_r. reflexivity.
    + assert (Hround :
        check_for_cleanup completed
          (mkDevice fs (Cleanup.mkRenderer arr count) ws cbs es) k
        = Some (mkDevice fs (Cleanup.mkRenderer arr count) ws cbs es)).
      { unfold check_for_cleanup.
        cbn [submittedStore commandBuffers Cleanup.submittedCommandBuffers].
        rewrite Hcb. cbn [mbind option_bind]. rewrite Hc. cbn [mbind option_bind].
        rewrite Hf. cbn [mbind option_bind]. rewrite Hdone. reflexivity. }
      rewrite Hround. cbn [mbind option_bind].
      destruct (IH (mkDevice fs (Cleanup.mkRenderer arr count) ws cbs es))
        as (d' & Hrun & Hcount' & Hpool' & Hcbs' & Hws' & Hes' & Hperm').
      * cbn. lia.
      * exact Hcap.
      * exact Hnodup.
      * cbn. intros x Hx. apply Hheld. apply elem_of_app. left. exact Hx.
      * exists d'.
        cbn [submittedStore fenceStore commandBuffers windows errors
             Cleanup.submittedCommandBuffers Cleanup.submittedCommandBufferCount] in *.
        split; [exact Hrun |]. split; [exact Hcount' |]. split; [exact Hpool' |].
        split.
        { intros x Hx. apply Hcbs'. intros Hin. apply Hx.
          apply elem_of_app. left. exact Hin. }
        split; [exact Hws' |]. split; [exact Hes' |].
        rewrite Hperm'. rewrite Hdrop. cbn.
        rewrite decide_True by exact Hdone.
        rewrite <- app_assoc. reflexivity.
Qed.

Lemma mark_submitted_spec (commandBuffer : nat) (r : Cleanup.D3D12Renderer) :
  (Cleanup.submittedCommandBufferCount r
   <= length (Cleanup.submittedCommandBuffers r))%nat ->
  exists array,
    mark_submitted true commandBuffer r
    = Some (Cleanup.mkRenderer array (Cleanup.submittedCommandBufferCount r + 1))
    /\ (Cleanup.submittedCommandBufferCount r + 1 <= length array)%nat
    /\ array !! Cleanup.submittedCommandBufferCount r = Some commandBuffer
    /\ take (Cleanup.submittedCommandBufferCount r) array = Cleanup.submitted r.
Proof.
  destruct r as [arr count]. unfold Cleanup.submitted. cbn. intros Hcap.
  unfold mark_submitted. cbn.
  destruct (decide (length arr <= count + 1)%nat) as [Hfull | Hroom]; cbn.
  - rewrite decide_True by (rewrite length_resize; lia).
    eexists. split; [reflexivity |].
    rewrite length_insert, length_resize. split; [lia |].
    split; [apply list_lookup_insert_eq; rewrite length_resize; lia |].
    rewrite take_insert_ge by lia. rewrite resize_spec.
    rewrite take_app_le by (rewrite length_take; lia).
    rewrite take_take. f_equal. lia.
  - rewrite decide_True by lia.
    eexists. split; [reflexivity |]. rewrite length_insert. split; [lia |].
    split; [apply list_lookup_insert_eq; lia |].
    apply take_insert_ge. lia.
Qed.

Section Outcome.

Variable MAX_FRAMES_IN_FLIGHT : nat.
Hypothesis frames_exist : (0 < MAX_FRAMES_IN_FLIGHT)%nat.

(** The windows hold frame counters inside their arrays of
    [MAX_FRAMES_IN_FLIGHT] slots. *)
Definition frames_in_range (d : device) : Prop :=
  forall window wd,
    windows d !! window = Some wd ->
    length (inFlightFences wd) = MAX_FRAMES_IN_FLIGHT
    /\ (frameCounter wd < MAX_FRAMES_IN_FLIGHT)%nat.

(** Every submitted command buffer holds a reference to a fence. *)
Definition fences_held (r : Swapchain.D3D12Renderer) (d : device) : Prop :=
  forall cb,
    cb ∈ Cleanup.submitted (submittedStore d) ->
    exists c f,
      commandBuffers d !! cb = Some c
      /\ inFlightFence c = Some f
      /\ 0 < referenceCount (fences r f).

(** X19.  What a submission leaves of its fence, when the fence comes
    without a reference (as a new fence and a fence released to the
    pool do) and the array of submitted command buffers can grow.
    Each swapchain image presented holds one reference, in a frame
    slot of its window.  The command buffer holds one more and stays
    submitted, unless its fence has completed when the clean-up loop
    that ends [D3D12_Submit] asks: then the command buffer is cleaned
    at once and leaves the submitted list, and with
    [autoReleaseFence] set its reference is given back and its
    in-flight fence is NULL; with nothing presented the fence is then
    back in the pool.  The frame counters stay below
    [MAX_FRAMES_IN_FLIGHT]. *)
Theorem submit_holds_fence_per_present
    (supportsTearing signalled : bool) (driver : creation)
    (completed : nat -> bool) (commandBuffer : nat) (d : device)
    (c : D3D12CommandBuffer) (r1 : Swapchain.D3D12Renderer) (fence : nat)
    (acquisition : list fence_call) :
  commandBuffers d !! commandBuffer = Some c ->
  frames_in_range d ->
  Forall (fun presentData => is_Some (windows d !! windowData presentData))
    (presentDatas c) ->
  D3D12_INTERNAL_AcquireFence driver (fenceStore d) = (r1, Some fence, acquisition) ->
  referenceCount (fences r1 fence) = 0 ->
  1 + Z.of_nat (length (presentDatas c)) < 2 ^ 31 ->
  (Cleanup.submittedCommandBufferCount (submittedStore d)
   <= length (Cleanup.submittedCommandBuffers (submittedStore d)))%nat ->
  NoDup (Cleanup.submitted (submittedStore d)) ->
  commandBuffer ∉ Cleanup.submitted (submittedStore d) ->
  fences_held r1 d ->
  let released := completed commandBuffer && autoReleaseFence c in
  exists d' calls,
    D3D12_Submit MAX_FRAMES_IN_FLIGHT supportsTearing driver signalled true
      completed commandBuffer d = Some (d', calls)
    /\ referenceCount (fences (fenceStore d') fence)
       = (if released then 0 else 1) + Z.of_nat (length (presentDatas c))
    /\ inFlightFence <$> commandBuffers d' !! commandBuffer
       = Some (if released then None else Some fence)
    /\ (commandBuffer ∈ Cleanup.submitted (submittedStore d')
        <-> completed commandBuffer = false)
    /\ Forall (fun presentData =>
                 exists wd' slot,
                   windows d' !! windowData presentData = Some wd'
                   /\ inFlightFences wd' !! slot = Some (Some fence))
         (presentDatas c)
    /\ frames_in_range d'
    /\ (released = true -> presentDatas c = [] ->
        fence ∈ availableFences (fenceStore d')).
Proof.
  intros Hc Hrange Hwindows Hacquire Hzero Hfew Hcap Hnodup Hfresh Hheld released.
  destruct d as [fs [arr count] ws cbs es].
  cbn [submittedStore fenceStore commandBuffers windows errors
       Cleanup.submittedCommandBuffers Cleanup.submittedCommandBufferCount] in *.
  unfold fences_held, frames_in_range in *.
  cbn [submittedStore fenceStore commandBuffers windows errors] in *.
  (* the array with the command buffer in it *)
  destruct (mark_submitted_spec commandBuffer (Cleanup.mkRenderer arr count) Hcap)
    as (arr2 & Hmark & Hcap2 & Hlast2 & Htake2).
  cbn [Cleanup.submittedCommandBufferCount] in *.
  unfold Cleanup.submitted in *.
  cbn [Cleanup.submittedCommandBuffers Cleanup.submittedCommandBufferCount] in *.
  set (c2 := mkCommandBuffer (presentDatas c) (Some fence) (autoReleaseFence c)).
  set (es2 := if signalled then es else es ++ ["Failed to enqueue fence signal!"%string]).
  (* the presents *)
  assert (Hone :
    referenceCount
      (fences (Swapchain.renderer
                 (Swapchain.mkState (SDL_AtomicIncRef r1 fence) ws (presentDatas c)
                    [] es2)) fence) = 1).
  { cbn. rewrite decide_True by reflexivity. cbn. rewrite Hzero. reflexivity. }
  destruct (present_all_spec MAX_FRAMES_IN_FLIGHT frames_exist supportsTearing fence
              (presentDatas c)
              (Swapchain.mkState (SDL_AtomicIncRef r1 fence) ws (presentDatas c) [] es2)
              ((FenceCall <$> acquisition)
               ++ [ID3D12CommandQueue_Signal fence D3D12_FENCE_SIGNAL_VALUE]))
    as (s3 & calls3 & Hrun3 & Hrange3 & _ & Hpool3 & Hcount3 & Hother3 & Hstored3).
  { exact Hrange. }
  { exact Hwindows. }
  { rewrite Hone. lia. }
  { rewrite Hone. lia. }
  assert (Hcount3' : referenceCount (fences (Swapchain.renderer s3) fence)
                     = 1 + Z.of_nat (length (presentDatas c)))
    by (rewrite Hcount3, Hone; reflexivity).
  (* the first round of the clean-up loop, on the command buffer *)
  set (d3 := mkDevice (Swapchain.renderer s3) (Cleanup.mkRenderer arr2 (count + 1))
               (Swapchain.windows s3) (<[commandBuffer := c2]> cbs)
               (Swapchain.errors s3)).
  set (fs4 := if released then D3D12_ReleaseFence (Swapchain.renderer s3) fence
              else Swapchain.renderer s3).
  set (c4 := if completed commandBuffer
             then mkCommandBuffer [] (if autoReleaseFence c then None else Some fence)
                    (autoReleaseFence c)
             else c2).
  set (r4 := if completed commandBuffer
             then Cleanup.mkRenderer (<[count := commandBuffer]> arr2) count
             else Cleanup.mkRenderer arr2 (count + 1)).
  set (d4 := mkDevice fs4 r4 (Swapchain.windows s3) (<[commandBuffer := c4]> cbs)
               (Swapchain.errors s3)).
  assert (Hnodup2 : NoDup (take (count + 1) arr2)).
  { replace (count + 1)%nat with (S count) by lia.
    rewrite (take_S_r _ _ _ Hlast2), Htake2.
    apply NoDup_app. split; [exact Hnodup |]. split; [| apply NoDup_singleton].
    intros x Hx Hx'. apply list_elem_of_singleton in Hx'. subst x. contradiction. }
  assert (Hround : check_for_cleanup completed d3 count = Some d4).
  { unfold check_for_cleanup, D3D12_INTERNAL_CleanCommandBuffer. subst d3 d4.
    cbn [submittedStore fenceStore commandBuffers windows errors
         Cleanup.submittedCommandBuffers].
    rewrite Hlast2. cbn [mbind option_bind]. rewrite lookup_insert_eq.
    cbn [mbind option_bind]. subst c2. cbn [inFlightFence mbind option_bind].
    subst fs4 c4 r4 released. destruct (completed commandBuffer); cbn [andb].
    - rewrite (Cleanup.remove_from_submitted_spec
                 (Cleanup.mkRenderer arr2 (count + 1)) count commandBuffer
                 commandBuffer).
      + cbn [autoReleaseFence inFlightFence presentDatas].
        destruct (autoReleaseFence c); cbn; rewrite insert_insert_eq;
          replace (count + 1 - 1)%nat with count by lia; reflexivity.
      + cbn. lia.
      + cbn. lia.
      + exact Hlast2.
      + exact Hnodup2.
      + cbn. replace (count + 1 - 1)%nat with count by lia. exact Hlast2.
    - reflexivity. }
  assert (Htake4 : take count (Cleanup.submittedCommandBuffers r4) = take count arr).
  { subst r4. destruct (completed commandBuffer); cbn;
      rewrite ?take_insert_ge by lia; exact Htake2. }
  (* the other rounds *)
  destruct (check_for_cleanups_leave completed fence count d4)
    as (d' & Hrun & Hcount' & Hpool' & Hcbs' & Hws' & Hes' & Hperm').
  { subst d4 r4. destruct (completed commandBuffer); cbn; lia. }
  { subst d4 r4. destruct (completed commandBuffer); cbn;
      rewrite ?length_insert; lia. }
  { subst d4 r4. unfold Cleanup.submitted.
    destruct (completed commandBuffer); cbn.
    - rewrite take_insert_ge by lia. rewrite Htake2. exact Hnodup.
    - exact Hnodup2. }
  { subst d4. cbn [submittedStore commandBuffers]. rewrite Htake4.
    intros x Hx. destruct (Hheld x Hx) as (cx & fx & Hcx & Hfx & Hpos).
    exists cx, fx. rewrite lookup_insert_ne by (intros ->; contradiction).
    split; [exact Hcx |]. split; [exact Hfx |]. intros ->. lia. }
  exists d', calls3.
  split.
  { unfold D3D12_Submit.
    cbn [submittedStore fenceStore commandBuffers windows errors].
    rewrite Hc. cbn [mbind option_bind]. rewrite Hacquire.
    cbn [mbind option_bind]. rewrite Hmark. cbn [mbind option_bind].
    unfold present_all.
    cbn [submittedStore fenceStore commandBuffers windows errors presentDatas].
    fold es2. rewrite Hrun3. cbn [mbind option_bind].
    unfold check_for_cleanups.
    cbn [submittedStore Cleanup.submittedCommandBufferCount].
    replace (count + 1)%nat with (S count) by lia.
    rewrite seq_S, reverse_snoc. cbn [Uniform.for_each]. change (0 + count)%nat with count.
    replace (S count) with (count + 1)%nat by lia.
    fold c2. fold d3. rewrite Hround. cbn [mbind option_bind].
    rewrite Hrun. reflexivity. }
  subst d4. cbn [submittedStore fenceStore commandBuffers windows errors] in *.
  split.
  { rewrite Hcount'. subst fs4. destruct released.
    - unfold D3D12_ReleaseFence, SDL_AtomicDecRef. cbn.
      rewrite decide_True by reflexivity. cbn. rewrite Hcount3'.
      rewrite s32_small by lia. lia.
    - exact Hcount3'. }
  split.
  { rewrite Hcbs'.
    - rewrite lookup_insert_eq. subst c4 c2 released. cbn.
      destruct (completed commandBuffer), (autoReleaseFence c); reflexivity.
    - rewrite Htake4. exact Hfresh. }
  split.
  { rewrite Hperm', Htake4. subst r4. unfold Cleanup.submitted.
    rewrite elem_of_app, list_elem_of_filter.
    destruct (completed commandBuffer) eqn:Hdone; cbn.
    - rewrite take_insert_ge by lia. rewrite Htake2.
      rewrite drop_ge by (rewrite length_take; lia).
      split; [| discriminate].
      intros [[_ Hin] | Hin]; [contradiction | inversion Hin].
    - split; [reflexivity |]. intros _. right.
      replace (count + 1)%nat with (S count) by lia.
      rewrite (take_S_r _ _ _ Hlast2), Htake2.
      rewrite drop_app_length' by (rewrite length_take; lia).
      apply list_elem_of_singleton. reflexivity. }
  split.
  { rewrite Hws'. exact Hstored3. }
  split.
  { intros window wd. rewrite Hws'. apply Hrange3. }
  intros Hreleased Hnone. apply Hpool'. subst fs4. rewrite Hreleased.
  unfold D3D12_ReleaseFence, SDL_AtomicDecRef. cbn.
  rewrite Hcount3', Hnone. cbn.
  apply elem_of_app. right. apply list_elem_of_singleton. reflexivity.
Qed.

End Outcome.

(** Command buffer 21 presents back buffer 2 of window 7; command
    buffer 20 was submitted before it with fence 8. *)
Definition frame_to_submit (autoRelease : bool) : device :=
  mkDevice (Swapchain.mkRenderer
              (fun f => if decide (f = 8%nat) then mkFence 1 else mkFence 0) [])
    (Cleanup.mkRenderer [20%nat] 1)
    {[ 7%nat := mkWindowData SDL_GPU_PRESENTMODE_VSYNC 2 [None; None; None] ]}
    {[ 20%nat := mkCommandBuffer [] (Some 8%nat) true;
       21%nat := mkCommandBuffer [mkPresentData 7 2] None autoRelease ]}
    [].

Definition outcome (completed : nat -> bool) (autoRelease : bool)
  : option (Z * option (option nat) * list nat * list nat) :=
  (fun '(d, _) =>
     (referenceCount (fences (fenceStore d) 9),
      inFlightFence <$> commandBuffers d !! 21%nat,
      Cleanup.submitted (submittedStore d),
      availableFences (fenceStore d)))
  <$> D3D12_Submit 3 false (Created 9) true true completed 21 (frame_to_submit autoRelease).

Example submit_outcomes :
  outcome (fun _ => false) true = Some (2, Some (Some 9%nat), [20%nat; 21%nat], [])
  /\ outcome (fun cb => bool_decide (cb = 21%nat)) true
     = Some (1, Some None, [20%nat], [])
  /\ outcome (fun cb => bool_decide (cb = 21%nat)) false
     = Some (2, Some (Some 9%nat), [20%nat], [])
  /\ outcome (fun _ => true) true = Some (1, Some None, [], [8%nat]).
Proof. repeat split; vm_compute; reflexivity. Qed.

Lemma submit_holds_fence_per_present_witness :
  exists d' calls,
    D3D12_Submit 3 false (Created 9) true true (fun cb => bool_decide (cb = 21%nat))
      21 (frame_to_submit true) = Some (d', calls)
    /\ referenceCount (fences (fenceStore d') 9) = 1
    /\ inFlightFence <$> commandBuffers d' !! 21%nat = Some None.
Proof.
  destruct (submit_holds_fence_per_present 3 ltac:(lia) false true (Created 9)
              (fun cb => bool_decide (cb = 21%nat)) 21 (frame_to_submit true)
              (mkCommandBuffer [mkPresentData 7 2] None true)
              (Swapchain.mkRenderer
                 (fun f => if decide (f = 9%nat) then mkFence 0
                           else if decide (f = 8%nat) then mkFence 1 else mkFence 0)
                 [])
              9 [ID3D12Device_CreateFence D3D12_FENCE_UNSIGNALED_VALUE])
    as (d' & calls & Hsubmit & Hcount & Hfence & _).
  - reflexivity.
  - intros window wd Hwd. cbn in Hwd.
    destruct (decide (window = 7%nat)) as [-> | Hne].
    + rewrite lookup_singleton_eq in Hwd. injection Hwd as <-.
      cbn. split; [reflexivity | lia].
    + rewrite lookup_singleton_ne in Hwd by congruence. discriminate.
  - repeat constructor. cbn. rewrite lookup_singleton_eq. eauto.
  - reflexivity.
  - reflexivity.
  - cbn. lia.
  - cbn. lia.
  - exact (bool_decide_eq_true_1 (NoDup [20%nat]) eq_refl).
  - intros Hin. apply list_elem_of_singleton in Hin. discriminate.
  - intros cb Hin. apply list_elem_of_singleton in Hin. subst cb.
    exists (mkCommandBuffer [] (Some 8%nat) true), 8%nat.
    split; [reflexivity |]. split; [reflexivity |]. vm_compute. reflexivity.
  - exists d', calls. split; [exact Hsubmit |]. split; [exact Hcount | exact Hfence].
Defined.

End SubmitOutcome.

(** * The uniform slots right after a pipeline is bound *)

Module DrawAfterBind.

Import Uniform.

Section Binding.

Variable UNIFORM_BUFFER_SIZE : Z.
Variable MAX_UNIFORM_BUFFERS_PER_STAGE : nat.
Variable driver : nat -> option Z.

(** Every wrapper in a slot is an object of the state, and so is its
    buffer. *)
Definition slots_backed (s : state) : Prop :=
  forall stage i w,
    slots s stage !! i = Some (Some w) ->
    exists u bo, uniformBuffers s !! w = Some u /\ buffers s !! buffer u = Some bo.

(** What the acquisitions and the rounds of the loops leave alone. *)
Definition same_binding (s s' : state) : Prop :=
  currentGraphicsPipeline s' = currentGraphicsPipeline s
  /\ forall stage, length (needs s' stage) = length (needs s stage).

Lemma track_buffer_same_binding b s :
  same_binding s (D3D12_INTERNAL_TrackBuffer b s).
Proof.
  unfold D3D12_INTERNAL_TrackBuffer. case_bool_decide; split; try reflexivity;
    intros []; reflexivity.
Qed.

Lemma acquire_same_binding s s1 acquired :
  D3D12_INTERNAL_AcquireUniformBufferFromPool UNIFORM_BUFFER_SIZE driver s
  = Some (s1, acquired) ->
  same_binding s s1.
Proof.
  unfold D3D12_INTERNAL_AcquireUniformBufferFromPool.
  assert (Htake : same_binding s (take_uniform_buffer UNIFORM_BUFFER_SIZE driver s).1).
  { unfold take_uniform_buffer.
    destruct (reverse (uniformBufferPool s)); [| split; [| intros []]; reflexivity].
    destruct (driver (nativeCalls s)); split; try reflexivity; intros []; reflexivity. }
  destruct (take_uniform_buffer UNIFORM_BUFFER_SIZE driver s) as [s0 [w |]];
    cbn in Htake; [| intros [= <- <-]; exact Htake].
  destruct (uniformBuffers s0 !! w) as [u |]; cbn; [| discriminate].
  destruct (buffers s0 !! buffer u) as [bo |]; cbn; [| discriminate].
  destruct Htake as [Hp Hn].
  destruct (driver (nativeCalls s0)); intros [= <- <-].
  - unfold D3D12_INTERNAL_TrackUniformBuffer. case_bool_decide.
    + split; [exact Hp |]. intros stage. rewrite <- Hn. destruct stage; reflexivity.
    + match goal with
      | |- same_binding _ (D3D12_INTERNAL_TrackBuffer ?b ?x) =>
          destruct (track_buffer_same_binding b x) as [Hp' Hn']
      end.
      split; [rewrite Hp'; exact Hp |].
      intros stage. rewrite Hn', <- Hn. destruct stage; reflexivity.
  - split; [exact Hp |]. intros stage. rewrite <- Hn. destruct stage; reflexivity.
Qed.

Hypothesis willing : forall n, is_Some (driver n).

(** With a driver that refuses nothing, an acquisition that is
    defined returns a wrapper. *)
Lemma acquire_returns_wrapper s s1 acquired :
  D3D12_INTERNAL_AcquireUniformBufferFromPool UNIFORM_BUFFER_SIZE driver s
  = Some (s1, acquired) ->
  is_Some acquired.
Proof.
  unfold D3D12_INTERNAL_AcquireUniformBufferFromPool, take_uniform_buffer.
  destruct (reverse (uniformBufferPool s)) as [| w rest].
  - destruct (willing (nativeCalls s)) as [address ->]. cbn.
    rewrite lookup_insert_eq. cbn. rewrite lookup_insert_eq. cbn.
    destruct (willing (S (nativeCalls s))) as [mapped ->].
    intros [= <- <-]. eauto.
  - destruct (uniformBuffers _ !! w) as [u |]; cbn; [| discriminate].
    destruct (buffers _ !! buffer u) as [bo |]; cbn; [| discriminate].
    destruct (willing (nativeCalls s)) as [mapped ->].
    intros [= <- <-]. eauto.
Qed.

Lemma acquire_backed s s1 w' :
  slots_backed s ->
  D3D12_INTERNAL_AcquireUniformBufferFromPool UNIFORM_BUFFER_SIZE driver s
  = Some (s1, Some w') ->
  (forall w u bo,
     uniformBuffers s !! w = Some u -> buffers s !! buffer u = Some bo ->
     exists u1 bo1, uniformBuffers s1 !! w = Some u1
                    /\ buffers s1 !! buffer u1 = Some bo1)
  /\ (exists u1 bo1, uniformBuffers s1 !! w' = Some u1
                     /\ buffers s1 !! buffer u1 = Some bo1)
  /\ (forall stage, slots s1 stage = slots s stage).
Proof.
  intros Hbacked Hacquire.
  destruct (acquire_uniform_buffer_inv _ _ _ _ _ Hacquire)
    as (b' & bo' & Hw' & Hb' & _ & Hother_u & Hother_b & Hslots & _ & _).
  split; [| split; [eauto | exact Hslots]].
  intros w u bo Hu Hbo.
  destruct (decide (w = w')) as [-> | Hne]; [eauto |].
  rewrite Hother_u by exact Hne. exists u.
  destruct (decide (buffer u = b')) as [-> | Hbne]; [eauto |].
  rewrite Hother_b by exact Hbne. eauto.
Qed.

(** A stage of a pipeline: its count of uniform buffers and its root
    indices. *)
Definition declared (stage : SDL_GpuShaderStage) (count : Z) (s : state) : Prop :=
  forall i, (i < Z.to_nat count)%nat ->
    exists w, slots s stage !! i = Some (Some w).

Lemma ensure_uniform_buffers_backed stage l s s' :
  slots_backed s ->
  Uniform.for_each
    (ensure_uniform_buffer UNIFORM_BUFFER_SIZE driver stage) l s = Some s' ->
  slots_backed s'
  /\ same_binding s s'
  /\ (forall i, i ∈ l -> exists w, slots s' stage !! i = Some (Some w))
  /\ (forall other i w,
        slots s other !! i = Some (Some w) ->
        exists w', slots s' other !! i = Some (Some w')).
Proof.
  revert s. induction l as [| i l IH]; intros s Hbacked; cbn.
  - intros [= <-]. split; [exact Hbacked |]. split; [split; reflexivity |].
    split; [intros i Hi; inversion Hi | eauto].
  - destruct (ensure_uniform_buffer UNIFORM_BUFFER_SIZE driver stage s i)
      as [s1 |] eqn:Hensure; cbn; [| discriminate].
    intros Hrest.
    assert (Hround :
      slots_backed s1
      /\ same_binding s s1
      /\ (exists w, slots s1 stage !! i = Some (Some w))
      /\ (forall other j w,
            slots s other !! j = Some (Some w) ->
            exists w', slots s1 other !! j = Some (Some w'))).
    { unfold ensure_uniform_buffer in Hensure.
      destruct (slots s stage !! i) as [[w |] |] eqn:Hslot; cbn in Hensure;
        try discriminate.
      - injection Hensure as <-.
        split; [exact Hbacked |]. split; [split; reflexivity |]. eauto.
      - destruct (D3D12_INTERNAL_AcquireUniformBufferFromPool _ _ s)
          as [[s0 acquired] |] eqn:Hacquire; cbn in Hensure; [| discriminate].
        injection Hensure as <-.
        destruct (acquire_returns_wrapper _ _ _ Hacquire) as [w' ->].
        destruct (acquire_backed _ _ _ Hbacked Hacquire)
          as (Hkept & (u1 & bo1 & Hu1 & Hbo1) & Hslots).
        destruct (acquire_same_binding _ _ _ Hacquire) as [Hp Hn].
        assert (Hi : (i < length (slots s0 stage))%nat)
          by (rewrite Hslots; eapply lookup_lt_Some; exact Hslot).
        split; [| split; [| split]].
        + intros st j w Hw. rewrite slots_set_slots in Hw.
          assert (Hobjects : forall x,
                    slots s0 st !! j = Some (Some x) ->
                    exists u bo, uniformBuffers s0 !! x = Some u
                                 /\ buffers s0 !! buffer u = Some bo).
          { intros x Hx. rewrite Hslots in Hx.
            destruct (Hbacked _ _ _ Hx) as (u & bo & Hu & Hbo). eauto. }
          destruct (decide (st = stage)) as [-> | Hst].
          * destruct (decide (j = i)) as [-> | Hj].
            -- rewrite list_lookup_insert_eq in Hw by exact Hi.
               injection Hw as <-. destruct stage; cbn; eauto.
            -- rewrite list_lookup_insert_ne in Hw by congruence.
               destruct (Hobjects _ Hw) as (u & bo & Hu & Hbo).
               destruct stage; cbn; eauto.
          * destruct (Hobjects _ Hw) as (u & bo & Hu & Hbo).
            destruct stage; cbn; eauto.
        + split; [destruct stage; exact Hp |].
          intros st. rewrite <- Hn. destruct stage, st; reflexivity.
        + exists w'. rewrite slots_set_slots, decide_True by reflexivity.
          apply list_lookup_insert_eq. exact Hi.
        + intros other j w Hw. rewrite slots_set_slots.
          destruct (decide (other = stage)) as [-> | Hst].
          * destruct (decide (j = i)) as [-> | Hj].
            -- exists w'. apply list_lookup_insert_eq. exact Hi.
            -- rewrite list_lookup_insert_ne by congruence.
               rewrite Hslots. eauto.
          * rewrite Hslots. eauto. }
    destruct Hround as (Hbacked1 & [Hp1 Hn1] & Hi & Hkept1).
    destruct (IH s1 Hbacked1 Hrest) as (Hbacked' & [Hp' Hn'] & Hl & Hkept').
    split; [exact Hbacked' |]. split; [split; [congruence |] |].
    { intros st. rewrite Hn'. apply Hn1. }
    split.
    + intros j Hj. apply elem_of_cons in Hj as [-> | Hj]; [| apply Hl, Hj].
      destruct Hi as [w Hw]. eapply Hkept'. exact Hw.
    + intros other j w Hw. destruct (Hkept1 _ _ _ Hw) as [w1 Hw1].
      eapply Hkept'. exact Hw1.
Qed.

(** The state in which a draw finds every declared slot: the pipeline
    is current, the flags are in their arrays, the declared slots of
    both stages hold wrappers that are objects over buffers. *)
Definition ready (pipeline : D3D12GraphicsPipeline) (s : state) : Prop :=
  currentGraphicsPipeline s = Some pipeline
  /\ (forall stage, stage <> SDL_GPU_SHADERSTAGE_COMPUTE ->
        length (needs s stage) = MAX_UNIFORM_BUFFERS_PER_STAGE)
  /\ slots_backed s
  /\ declared SDL_GPU_SHADERSTAGE_VERTEX (vertexUniformBufferCount pipeline) s
  /\ declared SDL_GPU_SHADERSTAGE_FRAGMENT (fragmentUniformBufferCount pipeline) s.

Lemma bind_uniform_slots_defined pipeline stage count rootIndex l s :
  stage <> SDL_GPU_SHADERSTAGE_COMPUTE ->
  ready pipeline s ->
  declared stage (count pipeline) s ->
  (Z.to_nat (count pipeline) <= length (rootIndex pipeline))%nat ->
  (forall i, i ∈ l -> (i < MAX_UNIFORM_BUFFERS_PER_STAGE)%nat) ->
  exists s',
    Uniform.for_each (bind_uniform_slot stage count rootIndex) l s = Some s'
    /\ ready pipeline s'.
Proof.
  intros Hstage Hready Hdeclared Hroots. revert s Hready Hdeclared.
  induction l as [| i l IH]; intros s Hready Hdeclared Hl; cbn; [eauto |].
  assert (Hround : exists s1,
            bind_uniform_slot stage count rootIndex s i = Some s1
            /\ ready pipeline s1 /\ declared stage (count pipeline) s1).
  { destruct Hready as (Hp & Hn & Hbacked & Hv & Hf).
    unfold bind_uniform_slot.
    destruct (lookup_lt_is_Some_2 (needs s stage) i) as [need Hneed];
      [rewrite Hn by exact Hstage; apply Hl, elem_of_cons; auto |].
    rewrite Hneed. cbn [mbind option_bind].
    destruct need; [| exists s; repeat split; assumption].
    rewrite Hp. cbn [mbind option_bind].
    assert (Hset : forall s0,
              ready pipeline s0 -> declared stage (count pipeline) s0 ->
              ready pipeline
                (set_needs stage (<[i := false]> (needs s0 stage)) s0)
              /\ declared stage (count pipeline)
                   (set_needs stage (<[i := false]> (needs s0 stage)) s0)).
    { intros s0 (Hp0 & Hn0 & Hb0 & Hv0 & Hf0) Hd0.
      assert (Hslots0 : forall st,
                slots (set_needs stage (<[i := false]> (needs s0 stage)) s0) st
                = slots s0 st) by (intros []; destruct stage; reflexivity).
      split; [split; [| split; [| split; [| split]]] |].
      - destruct stage; exact Hp0.
      - intros st Hst. rewrite needs_set_needs.
        destruct (decide (st = stage)) as [-> | _]; [| apply Hn0, Hst].
        rewrite length_insert. apply Hn0, Hst.
      - intros st j w Hw. rewrite Hslots0 in Hw.
        destruct (Hb0 _ _ _ Hw) as (u & bo & Hu & Hbo).
        exists u, bo. destruct stage; cbn; split; assumption.
      - intros j Hj. rewrite Hslots0. apply Hv0, Hj.
      - intros j Hj. rewrite Hslots0. apply Hf0, Hj.
      - intros j Hj. rewrite Hslots0. apply Hd0, Hj. }
    destruct (Z.ltb_spec (Z.of_nat i) (count pipeline)) as [Hin | Hout].
    - destruct (lookup_lt_is_Some_2 (rootIndex pipeline) i) as [root Hroot]; [lia |].
      rewrite Hroot. cbn [mbind option_bind].
      destruct (Hdeclared i) as [w Hw]; [lia |].
      rewrite Hw. cbn [mbind option_bind].
      destruct (Hbacked _ _ _ Hw) as (u & bo & Hu & Hbo).
      rewrite Hu. cbn [mbind option_bind]. rewrite Hbo. cbn [mbind option_bind].
      eexists. split; [reflexivity |].
      apply Hset.
      + split; [exact Hp |].
        split; [intros [] Hst; [apply (Hn SDL_GPU_SHADERSTAGE_VERTEX Hst)
                              | apply (Hn SDL_GPU_SHADERSTAGE_FRAGMENT Hst)
                              | contradiction] |].
        split; [| split].
        * intros st j x Hx.
          assert (Hx' : slots s st !! j = Some (Some x)) by (destruct st; exact Hx).
          destruct (Hbacked _ _ _ Hx') as (u0 & bo0 & Hu0 & Hbo0). eauto.
        * intros j Hj. apply Hv, Hj.
        * intros j Hj. apply Hf, Hj.
      + intros j Hj. destruct (Hdeclared j Hj) as [x Hx]. exists x.
        destruct stage; exact Hx.
    - eexists. split; [reflexivity |].
      apply Hset; [repeat split; assumption | exact Hdeclared]. }
  destruct Hround as (s1 & -> & Hready1 & Hdeclared1). cbn [mbind option_bind].
  apply IH; [exact Hready1 | exact Hdeclared1 |].
  intros j Hj. apply Hl. apply elem_of_cons. auto.
Qed.

(** With a driver that refuses nothing, binding a pipeline on a
    command buffer whose slots hold wrappers that are objects over
    buffers leaves such a wrapper in every uniform slot that the
    shaders of the pipeline declare; the two loops over the uniform
    slots that a draw right after the bind runs, with nothing pushed,
    then find no NULL slot. *)
Lemma uniform_slots_ready_after_bind
    (s s1 : state) (pipeline : D3D12GraphicsPipeline) (vertexStart vertexCount : Z) :
  slots_backed s ->
  (Z.to_nat (vertexUniformBufferCount pipeline)
   <= length (vertexUniformBufferRootIndex pipeline))%nat ->
  (Z.to_nat (fragmentUniformBufferCount pipeline)
   <= length (fragmentUniformBufferRootIndex pipeline))%nat ->
  D3D12_BindGraphicsPipeline UNIFORM_BUFFER_SIZE MAX_UNIFORM_BUFFERS_PER_STAGE driver
    s pipeline = Some s1 ->
  ready pipeline s1
  /\ exists s2,
       D3D12_DrawPrimitives MAX_UNIFORM_BUFFERS_PER_STAGE s1 vertexStart vertexCount
       = Some s2
       /\ last (graphicsCommandList s2)
          = Some (DrawInstanced vertexCount 1 vertexStart 0).
Proof.
  intros Hbacked Hvroots Hfroots Hbind.
  unfold D3D12_BindGraphicsPipeline in Hbind.
  match type of Hbind with
  | (Uniform.for_each _ _ ?x ≫= _) = _ => set (s0 := x) in *
  end.
  assert (Hs0 : slots_backed s0
                /\ currentGraphicsPipeline s0 = Some pipeline
                /\ forall stage, stage <> SDL_GPU_SHADERSTAGE_COMPUTE ->
                     length (needs s0 stage) = MAX_UNIFORM_BUFFERS_PER_STAGE).
  { split; [| split].
    - intros stage i w Hw.
      assert (Hw' : slots s stage !! i = Some (Some w)) by (destruct stage; exact Hw).
      destruct (Hbacked _ _ _ Hw') as (u & bo & Hu & Hbo). eauto.
    - reflexivity.
    - intros [] Hst; [apply length_replicate | apply length_replicate | contradiction]. }
  destruct Hs0 as (Hbacked0 & Hp0 & Hn0).
  destruct (Uniform.for_each _ _ s0) as [sv |] eqn:Hv; cbn in Hbind; [| discriminate].
  destruct (ensure_uniform_buffers_backed _ _ _ _ Hbacked0 Hv)
    as (Hbackedv & [Hpv Hnv] & Hvslots & _).
  destruct (ensure_uniform_buffers_backed _ _ _ _ Hbackedv Hbind)
    as (Hbacked1 & [Hp1 Hn1] & Hfslots & Hkept).
  assert (Hready : ready pipeline s1).
  { split; [congruence |].
    split; [intros stage Hst; rewrite Hn1, Hnv; apply Hn0, Hst |].
    split; [exact Hbacked1 |]. split.
    - intros i Hi. destruct (Hvslots i) as [w Hw]; [apply elem_of_seq; lia |].
      eapply Hkept. exact Hw.
    - intros i Hi. apply Hfslots. apply elem_of_seq. lia. }
  split; [exact Hready |].
  unfold D3D12_DrawPrimitives, D3D12_INTERNAL_BindGraphicsResources.
  destruct (bind_uniform_slots_defined pipeline SDL_GPU_SHADERSTAGE_VERTEX
              vertexUniformBufferCount vertexUniformBufferRootIndex
              (seq 0 MAX_UNIFORM_BUFFERS_PER_STAGE) s1 ltac:(discriminate) Hready)
    as (sb & -> & Hreadyb).
  - apply Hready.
  - exact Hvroots.
  - intros i Hi. apply elem_of_seq in Hi. lia.
  - cbn [mbind option_bind].
    destruct (bind_uniform_slots_defined pipeline SDL_GPU_SHADERSTAGE_FRAGMENT
                fragmentUniformBufferCount fragmentUniformBufferRootIndex
                (seq 0 MAX_UNIFORM_BUFFERS_PER_STAGE) sb ltac:(discriminate) Hreadyb)
      as (sd & -> & _).
    + apply Hreadyb.
    + exact Hfroots.
    + intros i Hi. apply elem_of_seq in Hi. lia.
    + cbn [mbind option_bind]. eexists. split; [reflexivity |].
      cbn. apply last_snoc.
Qed.

End Binding.

(** On a new command buffer, the draw after the bind of a pipeline
    with one vertex uniform slot binds the start of the new buffer. *)
Example draw_after_bind_reads_offset_zero :
  graphicsCommandList
    <$> (s ← D3D12_BindGraphicsPipeline 32768 4 willing_driver fresh_command_buffer
               one_slot_pipeline;
         D3D12_DrawPrimitives 4 s 0 3)
  = Some [ SetPipelineState 7; SetGraphicsRootSignature 8; IASetPrimitiveTopology 4;
           OMSetBlendFactor; OMSetStencilRef 0;
           SetGraphicsRootConstantBufferView 0 65536;
           DrawInstanced 3 1 0 0 ].
Proof. vm_compute. reflexivity. Qed.

End DrawAfterBind.

(** * Binding the resources of a draw

    [D3D12_INTERNAL_BindGraphicsResources] whole: the descriptor
    tables of the samplers and of the storage resources of both
    stages, around the two loops over the uniform slots. *)

Module GraphicsResources.

(** The fields of [struct D3D12GraphicsPipeline] that binding reads:
    those of the uniform slots ([uniforms]), the counts of samplers,
    storage textures and storage buffers the shaders declare, and the
    root indices of their descriptor tables in the root signature. *)
Record D3D12GraphicsPipeline : Type := mkPipeline {
  uniforms : Uniform.D3D12GraphicsPipeline;
  vertexSamplerCount : Z;
  vertexStorageTextureCount : Z;
  vertexStorageBufferCount : Z;
  fragmentSamplerCount : Z;
  fragmentStorageTextureCount : Z;
  fragmentStorageBufferCount : Z;
  vertexSamplerRootIndex : Z;
  vertexSamplerTextureRootIndex : Z;
  vertexStorageTextureRootIndex : Z;
  vertexStorageBufferRootIndex : Z;
  fragmentSamplerRootIndex : Z;
  fragmentSamplerTextureRootIndex : Z;
  fragmentStorageTextureRootIndex : Z;
  fragmentStorageBufferRootIndex : Z
}.

(** The fields of [struct D3D12CommandBuffer] that binding and
    drawing touch.  [uniformState] holds those of the uniform slots,
    with the command list.  An entry of a binding array is NULL or
    points to a sampler, a texture, a texture sub-resource or a
    buffer, which is held by the CPU handle of the descriptor that
    binding reads from it ([handle], [srvHandle], [srvDescriptor]).
    [gpuDescriptorHeaps] is indexed by the two shader-visible heap
    types; [copies] are the descriptor copies made on the device. *)
Record D3D12CommandBuffer : Type := mkCommandBuffer {
  uniformState : Uniform.state;
  currentGraphicsPipeline : option D3D12GraphicsPipeline;
  gpuDescriptorHeaps :
    Descriptors.D3D12_DESCRIPTOR_HEAP_TYPE -> option GpuDescriptors.D3D12DescriptorHeap;
  needVertexSamplerBind : bool;
  needVertexStorageTextureBind : bool;
  needVertexStorageBufferBind : bool;
  needFragmentSamplerBind : bool;
  needFragmentStorageTextureBind : bool;
  needFragmentStorageBufferBind : bool;
  vertexSamplerTextures : list (option Z);
  vertexSamplers : list (option Z);
  vertexStorageTextureSubresources : list (option Z);
  vertexStorageBuffers : list (option Z);
  fragmentSamplerTextures : list (option Z);
  fragmentSamplers : list (option Z);
  fragmentStorageTextureSlices : list (option Z);
  fragmentStorageBuffers : list (option Z);
  copies : list GpuDescriptors.call
}.

(** The six groups of descriptor tables, each with its rebind flag. *)
Inductive group : Type :=
  | VertexSampler
  | VertexStorageTexture
  | VertexStorageBuffer
  | FragmentSampler
  | FragmentStorageTexture
  | FragmentStorageBuffer.

#[global] Instance group_eq_dec : EqDecision group.
Proof. solve_decision. Defined.

Definition need (g : group) (s : D3D12CommandBuffer) : bool :=
  match g with
  | VertexSampler => needVertexSamplerBind s
  | VertexStorageTexture => needVertexStorageTextureBind s
  | VertexStorageBuffer => needVertexStorageBufferBind s
  | FragmentSampler => needFragmentSamplerBind s
  | FragmentStorageTexture => needFragmentStorageTextureBind s
  | FragmentStorageBuffer => needFragmentStorageBufferBind s
  end.

(** The count the pipeline declares for a group, and the array whose
    entries the group reads first. *)
Definition declared (g : group) (p : D3D12GraphicsPipeline) : Z :=
  match g with
  | VertexSampler => vertexSamplerCount p
  | VertexStorageTexture => vertexStorageTextureCount p
  | VertexStorageBuffer => vertexStorageBufferCount p
  | FragmentSampler => fragmentSamplerCount p
  | FragmentStorageTexture => fragmentStorageTextureCount p
  | FragmentStorageBuffer => fragmentStorageBufferCount p
  end.

Definition bound (g : group) (s : D3D12CommandBuffer) : list (option Z) :=
  match g with
  | VertexSampler => vertexSamplers s
  | VertexStorageTexture => vertexStorageTextureSubresources s
  | VertexStorageBuffer => vertexStorageBuffers s
  | FragmentSampler => fragmentSamplers s
  | FragmentStorageTexture => fragmentStorageTextureSlices s
  | FragmentStorageBuffer => fragmentStorageBuffers s
  end.

Definition set_need (g : group) (v : bool) (s : D3D12CommandBuffer)
  : D3D12CommandBuffer :=
  mkCommandBuffer (uniformState s) (currentGraphicsPipeline s) (gpuDescriptorHeaps s)
    (if decide (g = VertexSampler) then v else needVertexSamplerBind s)
    (if decide (g = VertexStorageTexture) then v else needVertexStorageTextureBind s)
    (if decide (g = VertexStorageBuffer) then v else needVertexStorageBufferBind s)
    (if decide (g = FragmentSampler) then v else needFragmentSamplerBind s)
    (if decide (g = FragmentStorageTexture) then v
     else needFragmentStorageTextureBind s)
    (if decide (g = FragmentStorageBuffer) then v else needFragmentStorageBufferBind s)
    (vertexSamplerTextures s) (vertexSamplers s)
    (vertexStorageTextureSubresources s) (vertexStorageBuffers s)
    (fragmentSamplerTextures s) (fragmentSamplers s)
    (fragmentStorageTextureSlices s) (fragmentStorageBuffers s) (copies s).

Definition set_uniformState (u : Uniform.state) (s : D3D12CommandBuffer)
  : D3D12CommandBuffer :=
  mkCommandBuffer u (currentGraphicsPipeline s) (gpuDescriptorHeaps s)
    (needVertexSamplerBind s) (needVertexStorageTextureBind s)
    (needVertexStorageBufferBind s) (needFragmentSamplerBind s)
    (needFragmentStorageTextureBind s) (needFragmentStorageBufferBind s)
    (vertexSamplerTextures s) (vertexSamplers s)
    (vertexStorageTextureSubresources s) (vertexStorageBuffers s)
    (fragmentSamplerTextures s) (fragmentSamplers s)
    (fragmentStorageTextureSlices s) (fragmentStorageBuffers s) (copies s).

(** The heap of a type after a write, and the copies of the write. *)
Definition set_heap (heapType : Descriptors.D3D12_DESCRIPTOR_HEAP_TYPE)
    (heap : GpuDescriptors.D3D12DescriptorHeap) (calls : list GpuDescriptors.call)
    (s : D3D12CommandBuffer) : D3D12CommandBuffer :=
  mkCommandBuffer (uniformState s) (currentGraphicsPipeline s)
    (fun t => if decide (t = heapType) then Some heap else gpuDescriptorHeaps s t)
    (needVertexSamplerBind s) (needVertexStorageTextureBind s)
    (needVertexStorageBufferBind s) (needFragmentSamplerBind s)
    (needFragmentStorageTextureBind s) (needFragmentStorageBufferBind s)
    (vertexSamplerTextures s) (vertexSamplers s)
    (vertexStorageTextureSubresources s) (vertexStorageBuffers s)
    (fragmentSamplerTextures s) (fragmentSamplers s)
    (fragmentStorageTextureSlices s) (fragmentStorageBuffers s) (copies s ++ calls).

Section Binding.

(** [UNIFORM_BUFFER_SIZE], [MAX_UNIFORM_BUFFERS_PER_STAGE] and
    [MAX_TEXTURE_SAMPLERS_PER_STAGE] are constants of
    [SDL_sysgpu.h]. *)
Variable UNIFORM_BUFFER_SIZE : Z.
Variable MAX_UNIFORM_BUFFERS_PER_STAGE : nat.
Variable MAX_TEXTURE_SAMPLERS_PER_STAGE : Z.
Variable driver : nat -> option Z.

(** The loops [cpuHandles[i] = array[i]->handle] over the first
    [count] entries of a binding array: the handles read. *)
Fixpoint read_handles (array : list (option Z)) (indices : list nat)
  : option (list Z) :=
  match indices with
  | [] => Some []
  | i :: rest =>
      entry ← array !! i;
      handle ← entry;
      handles ← read_handles array rest;
      Some (handle :: handles)
  end.

(** The handles of the first [count] entries, in the local array
    [cpuHandles] of [MAX_TEXTURE_SAMPLERS_PER_STAGE] entries,
    [D3D12_INTERNAL_WriteGPUDescriptors] on the heap of the type and
    [SetGraphicsRootDescriptorTable] with the base descriptor it
    returns. *)
Definition bind_descriptor_table
    (heapType : Descriptors.D3D12_DESCRIPTOR_HEAP_TYPE)
    (array : list (option Z)) (count rootIndex : Z) (s : D3D12CommandBuffer)
  : option D3D12CommandBuffer :=
  handles ← read_handles array (seq 0 (Z.to_nat count));
  _ ← guard (count <= MAX_TEXTURE_SAMPLERS_PER_STAGE);
  heap ← gpuDescriptorHeaps s heapType;
  let '(heap, gpuDescriptorHandle, calls) :=
    GpuDescriptors.D3D12_INTERNAL_WriteGPUDescriptors heap heapType handles in
  Some (set_uniformState
          (Uniform.record
             [Uniform.SetGraphicsRootDescriptorTable rootIndex gpuDescriptorHandle]
             (uniformState s))
          (set_heap heapType heap calls s)).

(** A group of samplers: the table of the samplers and the table of
    their textures. *)
Definition bind_samplers (g : group)
    (samplers textures : D3D12CommandBuffer -> list (option Z))
    (samplerRootIndex textureRootIndex : D3D12GraphicsPipeline -> Z)
    (s : D3D12CommandBuffer) : option D3D12CommandBuffer :=
  if need g s then
    graphicsPipeline ← currentGraphicsPipeline s;
    s ← (if 0 <? declared g graphicsPipeline then
           s ← bind_descriptor_table Descriptors.D3D12_DESCRIPTOR_HEAP_TYPE_SAMPLER
                 (samplers s) (declared g graphicsPipeline)
                 (samplerRootIndex graphicsPipeline) s;
           bind_descriptor_table Descriptors.D3D12_DESCRIPTOR_HEAP_TYPE_CBV_SRV_UAV
             (textures s) (declared g graphicsPipeline)
             (textureRootIndex graphicsPipeline) s
         else Some s);
    Some (set_need g false s)
  else Some s.

(** A group of storage textures or of storage buffers. *)
Definition bind_storage (g : group) (rootIndex : D3D12GraphicsPipeline -> Z)
    (s : D3D12CommandBuffer) : option D3D12CommandBuffer :=
  if need g s then
    graphicsPipeline ← currentGraphicsPipeline s;
    s ← (if 0 <? declared g graphicsPipeline then
           bind_descriptor_table Descriptors.D3D12_DESCRIPTOR_HEAP_TYPE_CBV_SRV_UAV
             (bound g s) (declared g graphicsPipeline)
             (rootIndex graphicsPipeline) s
         else Some s);
    Some (set_need g false s)
  else Some s.

(** The loop over the uniform slots of a stage. *)
Definition bind_uniform_slots (stage : Uniform.SDL_GpuShaderStage)
    (uniformBufferCount : Uniform.D3D12GraphicsPipeline -> Z)
    (uniformBufferRootIndex : Uniform.D3D12GraphicsPipeline -> list Z)
    (s : D3D12CommandBuffer) : option D3D12CommandBuffer :=
  u ← Uniform.for_each
        (Uniform.bind_uniform_slot stage uniformBufferCount uniformBufferRootIndex)
        (seq 0 MAX_UNIFORM_BUFFERS_PER_STAGE) (uniformState s);
  Some (set_uniformState u s).

(** [D3D12_INTERNAL_BindGraphicsResources]. *)
Definition D3D12_INTERNAL_BindGraphicsResources (s : D3D12CommandBuffer)
  : option D3D12CommandBuffer :=
  s ← bind_samplers VertexSampler vertexSamplers vertexSamplerTextures
        vertexSamplerRootIndex vertexSamplerTextureRootIndex s;
  s ← bind_storage VertexStorageTexture vertexStorageTextureRootIndex s;
  s ← bind_storage VertexStorageBuffer vertexStorageBufferRootIndex s;
  s ← bind_uniform_slots Uniform.SDL_GPU_SHADERSTAGE_VERTEX
        Uniform.vertexUniformBufferCount Uniform.vertexUniformBufferRootIndex s;
  s ← bind_samplers FragmentSampler fragmentSamplers fragmentSamplerTextures
        fragmentSamplerRootIndex fragmentSamplerTextureRootIndex s;
  s ← bind_storage FragmentStorageTexture fragmentStorageTextureRootIndex s;
  s ← bind_storage FragmentStorageBuffer fragmentStorageBufferRootIndex s;
  bind_uniform_slots Uniform.SDL_GPU_SHADERSTAGE_FRAGMENT
    Uniform.fragmentUniformBufferCount Uniform.fragmentUniformBufferRootIndex s.

(** [D3D12_DrawPrimitives]. *)
Definition D3D12_DrawPrimitives (s : D3D12CommandBuffer)
    (vertexStart vertexCount : Z) : option D3D12CommandBuffer :=
  s ← D3D12_INTERNAL_BindGraphicsResources s;
  Some (set_uniformState
          (Uniform.record [Uniform.DrawInstanced vertexCount 1 vertexStart 0]
             (uniformState s)) s).

(** [D3D12_BindGraphicsPipeline]: the pipeline made current, the
    rebind flags of the six groups set, and what
    [Uniform.D3D12_BindGraphicsPipeline] does for the state calls and
    the uniform slots (whose loops read none of the six flags).  The
    tracking of the pipeline is outside this state. *)
Definition D3D12_BindGraphicsPipeline (s : D3D12CommandBuffer)
    (pipeline : D3D12GraphicsPipeline) : option D3D12CommandBuffer :=
  u ← Uniform.D3D12_BindGraphicsPipeline UNIFORM_BUFFER_SIZE
        MAX_UNIFORM_BUFFERS_PER_STAGE driver (uniformState s) (uniforms pipeline);
  Some (mkCommandBuffer u (Some pipeline) (gpuDescriptorHeaps s)
          true true true true true true
          (vertexSamplerTextures s) (vertexSamplers s)
          (vertexStorageTextureSubresources s) (vertexStorageBuffers s)
          (fragmentSamplerTextures s) (fragmentSamplers s)
          (fragmentStorageTextureSlices s) (fragmentStorageBuffers s) (copies s)).

(** *** What a step of binding leaves to the groups that follow *)

Definition keeps (g : group) (s s' : D3D12CommandBuffer) : Prop :=
  need g s' = need g s
  /\ currentGraphicsPipeline s' = currentGraphicsPipeline s
  /\ bound g s' = bound g s.

Lemma keeps_refl g s : keeps g s s.
Proof. repeat split. Qed.

Lemma keeps_trans g s1 s2 s3 : keeps g s1 s2 -> keeps g s2 s3 -> keeps g s1 s3.
Proof. intros (? & ? & ?) (? & ? & ?). repeat split; congruence. Qed.

Lemma set_need_keeps g g0 v s : g <> g0 -> keeps g s (set_need g0 v s).
Proof.
  intros Hne. split; [| split; [reflexivity |]].
  - destruct g, g0; try reflexivity; contradiction.
  - destruct g; reflexivity.
Qed.

Lemma set_uniformState_keeps g u s : keeps g s (set_uniformState u s).
Proof. split; [| split]; destruct g; reflexivity. Qed.

Lemma bind_descriptor_table_keeps g heapType array count rootIndex s s' :
  bind_descriptor_table heapType array count rootIndex s = Some s' -> keeps g s s'.
Proof.
  unfold bind_descriptor_table.
  destruct (read_handles _ _) as [handles |]; cbn [mbind option_bind];
    [| discriminate].
  case_guard; cbn [mbind option_bind]; [| discriminate].
  destruct (gpuDescriptorHeaps s heapType) as [heap |]; cbn [mbind option_bind];
    [| discriminate].
  destruct (GpuDescriptors.D3D12_INTERNAL_WriteGPUDescriptors _ _ _) as [[heap' base] calls].
  intros [= <-]. split; [| split]; destruct g; reflexivity.
Qed.

Lemma bind_samplers_keeps g g0 samplers textures samplerRoot textureRoot s s' :
  g <> g0 ->
  bind_samplers g0 samplers textures samplerRoot textureRoot s = Some s' ->
  keeps g s s'.
Proof.
  intros Hne. unfold bind_samplers.
  destruct (need g0 s); [| intros [= <-]; apply keeps_refl].
  destruct (currentGraphicsPipeline s) as [p |]; cbn [mbind option_bind];
    [| discriminate].
  destruct (0 <? declared g0 p).
  - destruct (bind_descriptor_table _ (samplers s) _ _ s) as [s1 |] eqn:H1;
      cbn [mbind option_bind]; [| discriminate].
    destruct (bind_descriptor_table _ (textures s1) _ _ s1) as [s2 |] eqn:H2;
      cbn [mbind option_bind]; [| discriminate].
    intros [= <-].
    eapply keeps_trans; [eapply bind_descriptor_table_keeps; exact H1 |].
    eapply keeps_trans; [eapply bind_descriptor_table_keeps; exact H2 |].
    apply set_need_keeps, Hne.
  - cbn [mbind option_bind]. intros [= <-]. apply set_need_keeps, Hne.
Qed.

Lemma bind_storage_keeps g g0 rootIndex s s' :
  g <> g0 -> bind_storage g0 rootIndex s = Some s' -> keeps g s s'.
Proof.
  intros Hne. unfold bind_storage.
  destruct (need g0 s); [| intros [= <-]; apply keeps_refl].
  destruct (currentGraphicsPipeline s) as [p |]; cbn [mbind option_bind];
    [| discriminate].
  destruct (0 <? declared g0 p).
  - destruct (bind_descriptor_table _ _ _ _ s) as [s1 |] eqn:H1;
      cbn [mbind option_bind]; [| discriminate].
    intros [= <-].
    eapply keeps_trans; [eapply bind_descriptor_table_keeps; exact H1 |].
    apply set_need_keeps, Hne.
  - cbn [mbind option_bind]. intros [= <-]. apply set_need_keeps, Hne.
Qed.

Lemma bind_uniform_slots_keeps g stage count rootIndex s s' :
  bind_uniform_slots stage count rootIndex s = Some s' -> keeps g s s'.
Proof.
  unfold bind_uniform_slots.
  destruct (Uniform.for_each _ _ _) as [u |]; cbn [mbind option_bind];
    [| discriminate].
  intros [= <-]. apply set_uniformState_keeps.
Qed.

(** The first entry of a binding array is NULL, or the array is
    empty. *)
Definition unbound (array : list (option Z)) : Prop :=
  forall handle, array !! 0%nat <> Some (Some handle).

Lemma read_handles_unbound array count :
  0 < count -> unbound array -> read_handles array (seq 0 (Z.to_nat count)) = None.
Proof.
  intros Hcount Hnull.
  destruct (Z.to_nat count) as [| n] eqn:Hn; [lia |].
  cbn. destruct (array !! 0%nat) as [[handle |] |] eqn:Hentry; try reflexivity.
  exfalso. exact (Hnull handle Hentry).
Qed.

(** A group whose flag is set, whose count is positive and whose
    first entry is NULL reads the descriptor of no object. *)
Lemma bind_samplers_undefined g samplers textures samplerRoot textureRoot s p :
  need g s = true -> currentGraphicsPipeline s = Some p ->
  0 < declared g p -> unbound (samplers s) ->
  bind_samplers g samplers textures samplerRoot textureRoot s = None.
Proof.
  intros Hneed Hp Hcount Hnull. unfold bind_samplers.
  rewrite Hneed, Hp. cbn [mbind option_bind].
  replace (0 <? declared g p) with true by (symmetry; apply Z.ltb_lt; exact Hcount).
  unfold bind_descriptor_table.
  rewrite read_handles_unbound by assumption. reflexivity.
Qed.

Lemma bind_storage_undefined g rootIndex s p :
  need g s = true -> currentGraphicsPipeline s = Some p ->
  0 < declared g p -> unbound (bound g s) ->
  bind_storage g rootIndex s = None.
Proof.
  intros Hneed Hp Hcount Hnull. unfold bind_storage.
  rewrite Hneed, Hp. cbn [mbind option_bind].
  replace (0 <? declared g p) with true by (symmetry; apply Z.ltb_lt; exact Hcount).
  unfold bind_descriptor_table.
  rewrite read_handles_unbound by assumption. reflexivity.
Qed.

(** A group whose flag is set and that the pipeline does not declare
    only clears its flag. *)
Lemma bind_samplers_idle g samplers textures samplerRoot textureRoot s p :
  need g s = true -> currentGraphicsPipeline s = Some p -> declared g p <= 0 ->
  bind_samplers g samplers textures samplerRoot textureRoot s
  = Some (set_need g false s).
Proof.
  intros Hneed Hp Hcount. unfold bind_samplers. rewrite Hneed, Hp.
  cbn [mbind option_bind].
  replace (0 <? declared g p) with false by (symmetry; apply Z.ltb_ge; exact Hcount).
  reflexivity.
Qed.

Lemma bind_storage_idle g rootIndex s p :
  need g s = true -> currentGraphicsPipeline s = Some p -> declared g p <= 0 ->
  bind_storage g rootIndex s = Some (set_need g false s).
Proof.
  intros Hneed Hp Hcount. unfold bind_storage. rewrite Hneed, Hp.
  cbn [mbind option_bind].
  replace (0 <? declared g p) with false by (symmetry; apply Z.ltb_ge; exact Hcount).
  reflexivity.
Qed.

(** The loop over the uniform slots of a stage whose declared slots
    hold wrappers. *)
Lemma bind_uniform_slots_ready (p : Uniform.D3D12GraphicsPipeline)
    (stage : Uniform.SDL_GpuShaderStage)
    (count : Uniform.D3D12GraphicsPipeline -> Z)
    (rootIndex : Uniform.D3D12GraphicsPipeline -> list Z) (s : D3D12CommandBuffer) :
  stage <> Uniform.SDL_GPU_SHADERSTAGE_COMPUTE ->
  DrawAfterBind.ready MAX_UNIFORM_BUFFERS_PER_STAGE p (uniformState s) ->
  DrawAfterBind.declared stage (count p) (uniformState s) ->
  (Z.to_nat (count p) <= length (rootIndex p))%nat ->
  exists u,
    bind_uniform_slots stage count rootIndex s = Some (set_uniformState u s)
    /\ DrawAfterBind.ready MAX_UNIFORM_BUFFERS_PER_STAGE p u.
Proof.
  intros Hstage Hready Hdeclared Hroots.
  destruct (DrawAfterBind.bind_uniform_slots_defined MAX_UNIFORM_BUFFERS_PER_STAGE
              p stage count rootIndex (seq 0 MAX_UNIFORM_BUFFERS_PER_STAGE)
              (uniformState s) Hstage Hready Hdeclared Hroots)
    as (u & Hu & Hreadyu).
  { intros i Hi. apply elem_of_seq in Hi. lia. }
  exists u. unfold bind_uniform_slots. rewrite Hu. split; [reflexivity | exact Hreadyu].
Qed.

(** Group [g] still waits for its bind, under the pipeline, with a
    NULL first entry. *)
Definition waits (g : group) (pipeline : D3D12GraphicsPipeline)
    (s : D3D12CommandBuffer) : Prop :=
  need g s = true
  /\ currentGraphicsPipeline s = Some pipeline
  /\ unbound (bound g s).

Lemma waits_keeps g pipeline s s' :
  waits g pipeline s -> keeps g s s' -> waits g pipeline s'.
Proof.
  intros (Hn & Hp & Hb) (Hn' & Hp' & Hb').
  split; [congruence |]. split; [congruence |]. rewrite Hb'. exact Hb.
Qed.

(** The steps of [D3D12_INTERNAL_BindGraphicsResources] up to the one
    of the group that waits. *)
Ltac walk pipeline HF :=
  lazymatch type of HF with
  | waits ?g _ _ =>
      lazymatch goal with
      | |- (bind_samplers g ?a ?b ?c ?d ?x ≫= _) = None =>
          rewrite (bind_samplers_undefined g a b c d x pipeline)
            by first [assumption | apply HF];
          reflexivity
      | |- (bind_storage g ?r ?x ≫= _) = None =>
          rewrite (bind_storage_undefined g r x pipeline)
            by first [assumption | apply HF];
          reflexivity
      | |- (bind_samplers ?g0 ?a ?b ?c ?d ?x ≫= _) = None =>
          let x' := fresh "x" in
          let H := fresh "H" in
          let HF' := fresh "HF" in
          destruct (bind_samplers g0 a b c d x) as [x' |] eqn:H;
          cbn [mbind option_bind]; [| reflexivity];
          apply (bind_samplers_keeps g) in H; [| discriminate];
          pose proof (waits_keeps _ _ _ _ HF H) as HF';
          walk pipeline HF'
      | |- (bind_storage ?g0 ?r ?x ≫= _) = None =>
          let x' := fresh "x" in
          let H := fresh "H" in
          let HF' := fresh "HF" in
          destruct (bind_storage g0 r x) as [x' |] eqn:H;
          cbn [mbind option_bind]; [| reflexivity];
          apply (bind_storage_keeps g) in H; [| discriminate];
          pose proof (waits_keeps _ _ _ _ HF H) as HF';
          walk pipeline HF'
      | |- (bind_uniform_slots ?st ?c ?r ?x ≫= _) = None =>
          let x' := fresh "x" in
          let H := fresh "H" in
          let HF' := fresh "HF" in
          destruct (bind_uniform_slots st c r x) as [x' |] eqn:H;
          cbn [mbind option_bind]; [| reflexivity];
          apply (bind_uniform_slots_keeps g) in H;
          pose proof (waits_keeps _ _ _ _ HF H) as HF';
          walk pipeline HF'
      end
  end.

Hypothesis willing : forall n, is_Some (driver n).

(** The binding arrays are those of [s], the pipeline is current and
    every group waits for its bind. *)
Definition bound_as (s : D3D12CommandBuffer) (pipeline : D3D12GraphicsPipeline)
    (s1 : D3D12CommandBuffer) : Prop :=
  currentGraphicsPipeline s1 = Some pipeline
  /\ (forall g, need g s1 = true)
  /\ (forall g, bound g s1 = bound g s).

(** X24.  A draw right after a pipeline is bound, with nothing
    pushed and no resource bound in between, on a command buffer
    whose uniform slots hold wrappers that are objects over buffers
    and with a driver that refuses nothing.  When the shaders of the
    pipeline declare no sampler and no storage resource, the draw is
    defined and ends with its [DrawInstanced]: binding has left a
    wrapper in every uniform slot they declare.  When they declare a
    sampler, a storage texture or a storage buffer and the first
    entry of its binding array is NULL, as
    [D3D12_AcquireCommandBuffer] leaves it, the draw reads a
    descriptor through that NULL pointer: it has no defined
    outcome. *)
Theorem draw_after_bind_is_defined
    (s s1 : D3D12CommandBuffer) (pipeline : D3D12GraphicsPipeline)
    (vertexStart vertexCount : Z) :
  DrawAfterBind.slots_backed (uniformState s) ->
  (Z.to_nat (Uniform.vertexUniformBufferCount (uniforms pipeline))
   <= length (Uniform.vertexUniformBufferRootIndex (uniforms pipeline)))%nat ->
  (Z.to_nat (Uniform.fragmentUniformBufferCount (uniforms pipeline))
   <= length (Uniform.fragmentUniformBufferRootIndex (uniforms pipeline)))%nat ->
  D3D12_BindGraphicsPipeline s pipeline = Some s1 ->
  ((forall g, declared g pipeline <= 0) ->
   exists s2,
     D3D12_DrawPrimitives s1 vertexStart vertexCount = Some s2
     /\ last (Uniform.graphicsCommandList (uniformState s2))
        = Some (Uniform.DrawInstanced vertexCount 1 vertexStart 0))
  /\ (forall g,
        0 < declared g pipeline -> unbound (bound g s) ->
        D3D12_DrawPrimitives s1 vertexStart vertexCount = None).
Proof.
  intros Hbacked Hvroots Hfroots Hbind.
  unfold D3D12_BindGraphicsPipeline in Hbind.
  destruct (Uniform.D3D12_BindGraphicsPipeline _ _ _ _ _) as [u1 |] eqn:Hu1;
    cbn [mbind option_bind] in Hbind; [| discriminate].
  injection Hbind as <-.
  destruct (DrawAfterBind.uniform_slots_ready_after_bind UNIFORM_BUFFER_SIZE
              MAX_UNIFORM_BUFFERS_PER_STAGE driver willing (uniformState s) u1
              (uniforms pipeline) vertexStart vertexCount Hbacked Hvroots Hfroots Hu1)
    as [Hready _].
  split.
  - intros Hnone.
    unfold D3D12_DrawPrimitives, D3D12_INTERNAL_BindGraphicsResources.
    rewrite (bind_samplers_idle VertexSampler _ _ _ _ _ pipeline)
      by first [reflexivity | apply Hnone].
    cbn [mbind option_bind].
    rewrite (bind_storage_idle VertexStorageTexture _ _ pipeline)
      by first [reflexivity | apply Hnone].
    cbn [mbind option_bind].
    rewrite (bind_storage_idle VertexStorageBuffer _ _ pipeline)
      by first [reflexivity | apply Hnone].
    cbn [mbind option_bind].
    match goal with
    | |- context [bind_uniform_slots _ _ _ ?x ≫= _] => set (x3 := x)
    end.
    destruct (bind_uniform_slots_ready (uniforms pipeline)
                Uniform.SDL_GPU_SHADERSTAGE_VERTEX
                Uniform.vertexUniformBufferCount Uniform.vertexUniformBufferRootIndex
                x3 ltac:(discriminate) Hready)
      as (ub & -> & Hreadyb); [apply Hready | exact Hvroots |].
    cbn [mbind option_bind].
    rewrite (bind_samplers_idle FragmentSampler _ _ _ _ _ pipeline)
      by first [reflexivity | apply Hnone].
    cbn [mbind option_bind].
    rewrite (bind_storage_idle FragmentStorageTexture _ _ pipeline)
      by first [reflexivity | apply Hnone].
    cbn [mbind option_bind].
    rewrite (bind_storage_idle FragmentStorageBuffer _ _ pipeline)
      by first [reflexivity | apply Hnone].
    cbn [mbind option_bind].
    match goal with
    | |- context [bind_uniform_slots _ _ _ ?x ≫= _] => set (x7 := x)
    end.
    destruct (bind_uniform_slots_ready (uniforms pipeline)
                Uniform.SDL_GPU_SHADERSTAGE_FRAGMENT
                Uniform.fragmentUniformBufferCount
                Uniform.fragmentUniformBufferRootIndex
                x7 ltac:(discriminate) Hreadyb)
      as (ud & -> & _); [apply Hreadyb | exact Hfroots |].
    cbn [mbind option_bind]. eexists. split; [reflexivity |].
    cbn. apply last_snoc.
  - intros g Hcount Hnull.
    unfold D3D12_DrawPrimitives.
    replace (D3D12_INTERNAL_BindGraphicsResources _) with (@None D3D12CommandBuffer);
      [reflexivity |].
    symmetry. unfold D3D12_INTERNAL_BindGraphicsResources.
    match goal with
    | |- context [bind_samplers VertexSampler _ _ _ _ ?x] => set (x0 := x)
    end.
    assert (HF : waits g pipeline x0).
    { split; [destruct g; reflexivity |]. split; [reflexivity |].
      replace (bound g x0) with (bound g s) by (destruct g; reflexivity).
      exact Hnull. }
    clearbody x0.
    destruct g; walk pipeline HF.
Qed.

End Binding.

(** The command buffer [D3D12_AcquireCommandBuffer] hands out: no
    pipeline, the two heaps it acquired, the binding arrays zeroed
    (16 samplers, 8 storage textures and 8 storage buffers a
    stage). *)
Definition acquired_command_buffer : D3D12CommandBuffer :=
  mkCommandBuffer Uniform.fresh_command_buffer None
    (fun heapType =>
       match heapType with
       | Descriptors.D3D12_DESCRIPTOR_HEAP_TYPE_CBV_SRV_UAV =>
           Some (GpuDescriptors.mkGpuHeap heapType 4096 8192
                   GpuDescriptors.VIEW_GPU_DESCRIPTOR_COUNT 32 0)
       | Descriptors.D3D12_DESCRIPTOR_HEAP_TYPE_SAMPLER =>
           Some (GpuDescriptors.mkGpuHeap heapType 1024 2048
                   GpuDescriptors.SAMPLER_GPU_DESCRIPTOR_COUNT 16 0)
       | _ => None
       end)
    false false false false false false
    (replicate 16 None) (replicate 16 None) (replicate 8 None) (replicate 8 None)
    (replicate 16 None) (replicate 16 None) (replicate 8 None) (replicate 8 None)
    [].

(** A pipeline with one vertex uniform slot and no other resource,
    and the same pipeline with one fragment sampler. *)
Definition plain_pipeline : D3D12GraphicsPipeline :=
  mkPipeline Uniform.one_slot_pipeline 0 0 0 0 0 0 1 2 3 4 5 6 7 8.

Definition sampling_pipeline : D3D12GraphicsPipeline :=
  mkPipeline Uniform.one_slot_pipeline 0 0 0 1 0 0 1 2 3 4 5 6 7 8.

Definition bound_with (pipeline : D3D12GraphicsPipeline) (s : D3D12CommandBuffer)
  : D3D12CommandBuffer :=
  default s (D3D12_BindGraphicsPipeline 32768 4 Uniform.willing_driver s pipeline).

Lemma draw_after_bind_is_defined_witness :
  (exists s2,
     D3D12_DrawPrimitives 4 16 (bound_with plain_pipeline acquired_command_buffer) 0 3
     = Some s2
     /\ last (Uniform.graphicsCommandList (uniformState s2))
        = Some (Uniform.DrawInstanced 3 1 0 0))
  /\ D3D12_DrawPrimitives 4 16
       (bound_with sampling_pipeline acquired_command_buffer) 0 3
     = None.
Proof.
  assert (Hwilling : forall n, is_Some (Uniform.willing_driver n))
    by (intros n; unfold Uniform.willing_driver; eauto).
  assert (Hbacked : DrawAfterBind.slots_backed (uniformState acquired_command_buffer)).
  { intros stage i w Hw. exfalso.
    destruct stage; cbn in Hw; destruct i as [| [| [| [| i]]]]; discriminate. }
  split.
  - apply (draw_after_bind_is_defined 32768 4 16 Uniform.willing_driver Hwilling
             acquired_command_buffer _ plain_pipeline 0 3).
    + exact Hbacked.
    + cbn. lia.
    + cbn. lia.
    + apply Uniform.defined_result. vm_compute. reflexivity.
    + intros []; cbn; lia.
  - apply (draw_after_bind_is_defined 32768 4 16 Uniform.willing_driver Hwilling
             acquired_command_buffer _ sampling_pipeline 0 3)
      with (g := FragmentSampler).
    + exact Hbacked.
    + cbn. lia.
    + cbn. lia.
    + apply Uniform.defined_result. vm_compute. reflexivity.
    + cbn. lia.
    + intros handle. discriminate.
Defined.

(** With a sampler and its texture in the first fragment entries, the
    draw copies their descriptors to the heaps of the command buffer
    and sets the two descriptor tables. *)
Definition sampler_bound : D3D12CommandBuffer :=
  mkCommandBuffer Uniform.fresh_command_buffer None
    (gpuDescriptorHeaps acquired_command_buffer)
    false false false false false false
    (replicate 16 None) (replicate 16 None) (replicate 8 None) (replicate 8 None)
    (Some 900 :: replicate 15 None) (Some 500 :: replicate 15 None)
    (replicate 8 None) (replicate 8 None) [].

Example draw_with_a_sampler_bound :
  (fun s => (Uniform.graphicsCommandList (uniformState s), copies s))
  <$> D3D12_DrawPrimitives 4 16 (bound_with sampling_pipeline sampler_bound) 0 3
  = Some ([ Uniform.SetPipelineState 7; Uniform.SetGraphicsRootSignature 8;
            Uniform.IASetPrimitiveTopology 4; Uniform.OMSetBlendFactor;
            Uniform.OMSetStencilRef 0;
            Uniform.SetGraphicsRootConstantBufferView 0 65536;
            Uniform.SetGraphicsRootDescriptorTable 5 2048;
            Uniform.SetGraphicsRootDescriptorTable 6 8192;
            Uniform.DrawInstanced 3 1 0 0 ],
          [ GpuDescriptors.CopyDescriptorsSimple 1 1024 500
              Descriptors.D3D12_DESCRIPTOR_HEAP_TYPE_SAMPLER;
            GpuDescriptors.CopyDescriptorsSimple 1 4096 900
              Descriptors.D3D12_DESCRIPTOR_HEAP_TYPE_CBV_SRV_UAV ]).
Proof. vm_compute. reflexivity. Qed.

End GraphicsResources.
